(** * Drip-irrigation simulator: soil moisture, tank volume, schedules

    A shallow embedding of the simulation and synchronisation code of the
    irrigation dashboard: the soil moisture manager (class
    [SoilMoistureManager]), the water volume manager (class
    [WaterVolumeManager]), the way the former wraps the latter's
    [performIrrigation] method, and the save of the settings form.

    Conventions of the embedding.
    - A JavaScript number is a [jsnum]: an exact rational, one of the two
      infinities, or NaN.  Rounding and the sign of zero are not modelled.
    - A [Date] is its time value in milliseconds, a [Z]; the hour, minute and
      second of a date are read in a fixed time zone whose offset is folded
      into the time value.
    - The clock reading [now] and the draws of [Math.random] are arguments of
      the operations that use them.
    - Drawing to the page and the charts are left out; what a function
      writes to the page is modelled where a property is about it.  The two
      append-only logs ([irrigationLogs], [soilMoistureLogs]) are no part of
      the [World]: no other operation reads them.  A [Page] is a [World]
      with its two logs; the methods of [Module Logged] are the methods
      with their calls of [logIrrigation()] and [logMoisture()], which
      throw on a stored log that cannot be extended.
    - Where a property depends on the arithmetic being exact, it is stated
      on whole numbers below [2^53], which a double holds exactly. *)

From Stdlib Require Import ZArith QArith Qround Qminmax Bool List String Ascii.
From Stdlib Require Import Lia Lqa Permutation.
Import ListNotations.

Set Implicit Arguments.

(* ================================================================== *)
(** ** JavaScript numbers *)

Module JsNum.

Inductive jsnum : Type :=
| Fin (q : Q)
| PInf
| NInf
| NaN.

Definition isNaN (a : jsnum) : bool :=
  match a with NaN => true | _ => false end.

Definition Qsign (q : Q) : comparison := (q ?= 0)%Q.

Definition neg (a : jsnum) : jsnum :=
  match a with
  | Fin q => Fin (- q)
  | PInf => NInf
  | NInf => PInf
  | NaN => NaN
  end.

Definition add (a b : jsnum) : jsnum :=
  match a, b with
  | NaN, _ | _, NaN => NaN
  | Fin x, Fin y => Fin (x + y)
  | PInf, NInf | NInf, PInf => NaN
  | PInf, _ | _, PInf => PInf
  | NInf, _ | _, NInf => NInf
  end.

Definition sub (a b : jsnum) : jsnum := add a (neg b).

(** An infinity carrying the sign [c]; [Eq] is the product with zero. *)
Definition inf_of (c : comparison) : jsnum :=
  match c with Gt => PInf | Lt => NInf | Eq => NaN end.

Definition sign (a : jsnum) : option comparison :=
  match a with
  | Fin q => Some (Qsign q)
  | PInf => Some Gt
  | NInf => Some Lt
  | NaN => None
  end.

Definition mul_sign (c d : comparison) : comparison :=
  match c, d with
  | Eq, _ | _, Eq => Eq
  | Gt, Gt | Lt, Lt => Gt
  | _, _ => Lt
  end.

Definition mul (a b : jsnum) : jsnum :=
  match a, b with
  | NaN, _ | _, NaN => NaN
  | Fin x, Fin y => Fin (x * y)
  | Fin x, PInf | PInf, Fin x => inf_of (Qsign x)
  | Fin x, NInf | NInf, Fin x => inf_of (mul_sign (Qsign x) Lt)
  | PInf, PInf | NInf, NInf => PInf
  | PInf, NInf | NInf, PInf => NInf
  end.

(** Division; a zero divisor counts as positive zero. *)
Definition div (a b : jsnum) : jsnum :=
  match a, b with
  | NaN, _ | _, NaN => NaN
  | Fin x, Fin y =>
      match Qsign y with
      | Eq => inf_of (Qsign x)
      | _ => Fin (x / y)
      end
  | Fin _, (PInf | NInf) => Fin 0
  | PInf, Fin y => match Qsign y with Lt => NInf | _ => PInf end
  | NInf, Fin y => match Qsign y with Lt => PInf | _ => NInf end
  | (PInf | NInf), (PInf | NInf) => NaN
  end.

(** [a <= b]; every comparison with NaN is false. *)
Definition le (a b : jsnum) : bool :=
  match a, b with
  | NaN, _ | _, NaN => false
  | NInf, _ | _, PInf => true
  | Fin x, Fin y => Qle_bool x y
  | _, _ => false
  end.

Definition lt (a b : jsnum) : bool :=
  match a, b with
  | NaN, _ | _, NaN => false
  | Fin x, Fin y => negb (Qle_bool y x)
  | NInf, NInf | PInf, PInf => false
  | NInf, _ | _, PInf => true
  | _, _ => false
  end.

Definition ge (a b : jsnum) : bool := le b a.
Definition gt (a b : jsnum) : bool := lt b a.

(** Strict equality [===] of two numbers. *)
Definition seq (a b : jsnum) : bool :=
  match a, b with
  | Fin x, Fin y => Qeq_bool x y
  | PInf, PInf | NInf, NInf => true
  | _, _ => false
  end.

(** [Math.min] and [Math.max] of two numbers. *)
Definition min (a b : jsnum) : jsnum :=
  match a, b with
  | NaN, _ | _, NaN => NaN
  | _, _ => if le a b then a else b
  end.

Definition max (a b : jsnum) : jsnum :=
  match a, b with
  | NaN, _ | _, NaN => NaN
  | _, _ => if le a b then b else a
  end.

(** A number as an argument of [new Date(...)]: truncated towards zero,
    NaN and the infinities giving an invalid date. *)
Definition timeClip (a : jsnum) : option Z :=
  match a with
  | Fin q => Some (Qnum q ÷ Zpos (Qden q))%Z
  | _ => None
  end.

(** Equality of numbers up to the representation of the rational. *)
Definition eqv (a b : jsnum) : Prop :=
  match a, b with
  | Fin x, Fin y => x == y
  | PInf, PInf | NInf, NInf | NaN, NaN => True
  | _, _ => False
  end.

End JsNum.

Import JsNum.

Declare Scope js_scope.
Delimit Scope js_scope with js.
Bind Scope js_scope with jsnum.
Infix "+" := JsNum.add : js_scope.
Infix "-" := JsNum.sub : js_scope.
Infix "*" := JsNum.mul : js_scope.
Infix "/" := JsNum.div : js_scope.
Infix "<=?" := JsNum.le : js_scope.
Infix "<?" := JsNum.lt : js_scope.
Infix ">=?" := JsNum.ge : js_scope.
Infix ">?" := JsNum.gt : js_scope.
Infix "=j=" := JsNum.eqv (at level 70, no associativity).

(** A whole-number literal. *)
Definition num (z : Z) : jsnum := Fin (inject_Z z).

(** [typeof x === 'number' && !isNaN(x)] for a field that holds a number:
    in memory the numeric settings only ever hold numbers, so the [typeof]
    half of the test is true by typing and the [isNaN] half remains. *)
Definition validNumber (a : jsnum) : bool := negb (isNaN a).

(* ================================================================== *)
(** ** Values read back from JSON *)

(** A property value of a parsed JSON document. [JObj] stands for an array
    or an object whose contents are not looked at. A missing property is
    [None] in an [option json]. *)
Inductive json : Type :=
| JNull
| JBool (b : bool)
| JNum (q : Q)
| JStr (s : string)
| JObj.

(** [JSON.stringify] of a number: NaN and the infinities become [null]. *)
Definition json_of_num (a : jsnum) : json :=
  match a with
  | Fin q => JNum q
  | _ => JNull
  end.

(** Truthiness of a property value; [None] is [undefined]. *)
Definition truthy (v : option json) : bool :=
  match v with
  | None | Some JNull => false
  | Some (JBool b) => b
  | Some (JNum q) => negb (Qeq_bool q 0)
  | Some (JStr s) => negb (String.eqb s "")
  | Some JObj => true
  end.

(** [typeof v === 'number' && !isNaN(v)] for a property value: the number
    it holds, if it is one. *)
Definition asNumber (v : option json) : option Q :=
  match v with
  | Some (JNum q) => Some q
  | _ => None
  end.

(** What [localStorage.getItem(key)] returns is [None] when the key is absent
    (or holds the empty string, which the code treats alike), and otherwise a
    text, classified by what [JSON.parse] makes of it. A primitive other than
    [null] behaves as a document without properties. *)
Inductive Item (A : Type) : Type :=
| Malformed          (* JSON.parse throws a SyntaxError *)
| JsonNull           (* parses to null: reading a property throws *)
| JsonObj (doc : A). (* parses to an object *)
Arguments Malformed {A}.
Arguments JsonNull {A}.

Inductive Exception : Type := SyntaxError | TypeError.

Inductive Result (A : Type) : Type :=
| Ok (a : A)
| Throw (e : Exception).
Arguments Throw {A}.

Definition rbind {A B} (r : Result A) (k : A -> Result B) : Result B :=
  match r with
  | Ok a => k a
  | Throw e => Throw e
  end.

Notation "x <- r ;; k" := (rbind r (fun x => k))
  (at level 61, r at next level, right associativity).

(** [JSON.parse(text)] followed by property reads on the result. *)
Definition parse {A} (i : Item A) : Result A :=
  match i with
  | Malformed => Throw SyntaxError
  | JsonNull => Throw TypeError
  | JsonObj d => Ok d
  end.

(* ================================================================== *)
(** ** Settings of the two managers *)

Record Thresholds : Type := {
  tmin : jsnum;
  tmax : jsnum;
  toptimal : jsnum
}.

(** [SoilMoistureManager.settings]. The fields [moistureIncreaseRate],
    [moistureDecreaseRate] and [autoWeatherChange] are never read and are
    left out. [moistureThresholds] and [autoIrrigation] are absent until
    [updateSettings] merges them in. *)
Record SoilSettings : Type := {
  currentMoisture : jsnum;
  irrigationDuration : jsnum;
  weather : string;
  isIrrigating : bool;
  irrigationStartTime : option Z;
  irrigationTargetMoisture : jsnum;
  lastUpdate : option Z;
  scheduledIrrigations : list string;
  lastIrrigationCheck : Z;
  lastMoistureDecrease : Z;
  moistureDecreaseAccumulator : jsnum;
  moistureThresholds : option Thresholds;
  autoIrrigationFlag : option bool
}.

Record Schedule : Type := {
  time : string;
  enabled : bool
}.

(** [WaterVolumeManager.settings]. [emptyTankTime] is [None] for [null],
    [Some None] for an invalid date. *)
Record WaterSettings : Type := {
  tankCapacity : jsnum;
  currentLevel : jsnum;
  irrigationVolume : jsnum;
  schedules : list Schedule;
  lowLevelThreshold : jsnum;
  emptyTankTime : option (option Z);
  lastRefill : Z;
  autoIrrigation : bool
}.

(** The document [JSON.stringify(this.settings)] of the soil manager, as
    [JSON.parse] gives it back. The first five properties are the ones
    [loadSettings] reads; in a stored document they can hold anything. *)
Record SoilDoc : Type := {
  d_currentMoisture : option json;
  d_irrigationDuration : option json;
  d_weather : option string;
  d_isIrrigating : option bool;
  d_scheduledIrrigations : option (list string);
  d_irrigationStartTime : option Z;
  d_irrigationTargetMoisture : option json;
  d_lastUpdate : option Z;
  d_lastIrrigationCheck : option Z;
  d_lastMoistureDecrease : option Z;
  d_moistureDecreaseAccumulator : option json;
  d_moistureThresholds : option Thresholds;
  d_autoIrrigation : option bool
}.

Definition stringifySoil (s : SoilSettings) : SoilDoc := {|
  d_currentMoisture := Some (json_of_num (currentMoisture s));
  d_irrigationDuration := Some (json_of_num (irrigationDuration s));
  d_weather := Some (weather s);
  d_isIrrigating := Some (isIrrigating s);
  d_scheduledIrrigations := Some (scheduledIrrigations s);
  d_irrigationStartTime := irrigationStartTime s;
  d_irrigationTargetMoisture := Some (json_of_num (irrigationTargetMoisture s));
  d_lastUpdate := lastUpdate s;
  d_lastIrrigationCheck := Some (lastIrrigationCheck s);
  d_lastMoistureDecrease := Some (lastMoistureDecrease s);
  d_moistureDecreaseAccumulator :=
    Some (json_of_num (moistureDecreaseAccumulator s));
  d_moistureThresholds := moistureThresholds s;
  d_autoIrrigation := autoIrrigationFlag s
|}.

(** The document of the water manager's settings. *)
Record WaterDoc : Type := {
  d_tankCapacity : json;
  d_currentLevel : json;
  d_irrigationVolume : json;
  d_schedules : list Schedule;
  d_lowLevelThreshold : json;
  d_emptyTankTime : option Z;
  d_lastRefill : Z;
  d_autoIrrigationW : bool
}.

Definition stringifyWater (s : WaterSettings) : WaterDoc := {|
  d_tankCapacity := json_of_num (tankCapacity s);
  d_currentLevel := json_of_num (currentLevel s);
  d_irrigationVolume := json_of_num (irrigationVolume s);
  d_schedules := schedules s;
  d_lowLevelThreshold := json_of_num (lowLevelThreshold s);
  d_emptyTankTime := match emptyTankTime s with Some t => t | None => None end;
  d_lastRefill := lastRefill s;
  d_autoIrrigationW := autoIrrigation s
|}.

(** The parts of the [irrigationSettings] document that the soil manager
    reads. *)
Record IrrigationDoc : Type := { duration : option json }.

Record WaterLevelDoc : Type := {
  schedule1 : string;
  schedule2 : string;
  schedule1Enabled : bool;
  schedule2Enabled : bool
}.

Record GlobalDoc : Type := {
  g_irrigation : option IrrigationDoc;
  g_waterLevel : option WaterLevelDoc
}.

(** [localStorage], one field per key. *)
Record Storage : Type := {
  soilMoistureSettings : option (Item SoilDoc);
  waterVolumeSettings : option (Item WaterDoc);
  irrigationSettings : option (Item GlobalDoc)
}.

Definition setSoilItem (i : option (Item SoilDoc)) (st : Storage) : Storage :=
  {| soilMoistureSettings := i;
     waterVolumeSettings := waterVolumeSettings st;
     irrigationSettings := irrigationSettings st |}.

Definition setWaterItem (i : option (Item WaterDoc)) (st : Storage) : Storage :=
  {| soilMoistureSettings := soilMoistureSettings st;
     waterVolumeSettings := i;
     irrigationSettings := irrigationSettings st |}.

(* ================================================================== *)
(** ** The page: both managers, the store, and what they emit *)

(** The calls of [showNotification], by message. *)
Inductive Notice : Type :=
| AutoIrrigationDisabled            (* Auto irrigation dinonaktifkan ... *)
| SoilAlreadyWet (m : jsnum)        (* Penyiraman dilewati - tanah masih lembap *)
| IrrigationDone (volume : jsnum)   (* Penyiraman dilakukan: ..L digunakan *)
| InsufficientWater                 (* Air tidak cukup untuk penyiraman! *)
| ManualStarted (volume : jsnum)    (* Penyiraman manual dimulai *)
| DripStarted (target d : jsnum)    (* Drip irrigation dimulai - target .. *)
| DripFinished (m : jsnum)          (* Drip irrigation selesai *)
| WeatherChanged (w : string)       (* Cuaca diubah ke .. *)
| RainApplied                       (* Hujan meningkatkan kelembaban tanah! *)
| MoistureEmptied                   (* Kelembaban tanah dikosongkan (0%) *)
| ScheduledStarted (t : string)     (* Penyiraman terjadwal .. dimulai *)
| ScheduledSkipped (t : string) (m : jsnum)  (* .. dilewati - tanah masih lembap *)
| ScheduledFailedAuto (t : string)  (* .. gagal - auto irrigation dinonaktifkan *)
| ScheduledFailedWater (t : string) (* .. gagal - air tidak cukup *).

(** The method currently installed as [waterVolumeManager.performIrrigation]:
    the one of the class, or a wrapper that the soil manager put around the
    method it found ([setupIrrigationListener], [syncWithWaterManager]). *)
Inductive Impl : Type :=
| Original
| Listener (inner : Impl)
| Synced (inner : Impl).

(** [timeouts] holds the delays, in milliseconds, of the pending
    [setTimeout(() => this.stopIrrigation(), ...)] calls together with the
    time they were set at. [tankCountdown] tells whether the page has the
    [tank-countdown] element. *)
Record World : Type := {
  water : WaterSettings;
  soil : SoilSettings;
  waterManager : bool;      (* window.waterVolumeManager is set *)
  soilManager : bool;       (* window.soilMoistureManager is set *)
  performIrrigationImpl : Impl;
  storage : Storage;
  notices : list Notice;    (* most recent first *)
  timeouts : list (Z * jsnum);
  tankCountdown : bool
}.

Definition setSoil (s : SoilSettings) (w : World) : World :=
  {| water := water w; soil := s; waterManager := waterManager w;
     soilManager := soilManager w;
     performIrrigationImpl := performIrrigationImpl w;
     storage := storage w; notices := notices w; timeouts := timeouts w;
     tankCountdown := tankCountdown w |}.

Definition setWater (s : WaterSettings) (w : World) : World :=
  {| water := s; soil := soil w; waterManager := waterManager w;
     soilManager := soilManager w;
     performIrrigationImpl := performIrrigationImpl w;
     storage := storage w; notices := notices w; timeouts := timeouts w;
     tankCountdown := tankCountdown w |}.

Definition setStorage (st : Storage) (w : World) : World :=
  {| water := water w; soil := soil w; waterManager := waterManager w;
     soilManager := soilManager w;
     performIrrigationImpl := performIrrigationImpl w;
     storage := st; notices := notices w; timeouts := timeouts w;
     tankCountdown := tankCountdown w |}.

Definition setImpl (i : Impl) (w : World) : World :=
  {| water := water w; soil := soil w; waterManager := waterManager w;
     soilManager := soilManager w;
     performIrrigationImpl := i;
     storage := storage w; notices := notices w; timeouts := timeouts w;
     tankCountdown := tankCountdown w |}.

Definition setSoilManager (b : bool) (w : World) : World :=
  {| water := water w; soil := soil w; waterManager := waterManager w;
     soilManager := b;
     performIrrigationImpl := performIrrigationImpl w;
     storage := storage w; notices := notices w; timeouts := timeouts w;
     tankCountdown := tankCountdown w |}.

(** [showNotification(message, type)], of either manager. *)
Definition showNotification (n : Notice) (w : World) : World :=
  {| water := water w; soil := soil w; waterManager := waterManager w;
     soilManager := soilManager w;
     performIrrigationImpl := performIrrigationImpl w;
     storage := storage w; notices := n :: notices w; timeouts := timeouts w;
     tankCountdown := tankCountdown w |}.

(** [setTimeout(callback, delay)] for the stop of an irrigation. *)
Definition setTimeoutStop (now : Z) (delay : jsnum) (w : World) : World :=
  {| water := water w; soil := soil w; waterManager := waterManager w;
     soilManager := soilManager w;
     performIrrigationImpl := performIrrigationImpl w;
     storage := storage w; notices := notices w;
     timeouts := (now, delay) :: timeouts w;
     tankCountdown := tankCountdown w |}.

(** Updates of single soil settings. *)
Section SoilUpdates.
Variable s : SoilSettings.

Definition withCurrentMoisture (v : jsnum) : SoilSettings :=
    {| currentMoisture := v;
       irrigationDuration := irrigationDuration s; weather := weather s;
       isIrrigating := isIrrigating s;
       irrigationStartTime := irrigationStartTime s;
       irrigationTargetMoisture := irrigationTargetMoisture s;
       lastUpdate := lastUpdate s;
       scheduledIrrigations := scheduledIrrigations s;
       lastIrrigationCheck := lastIrrigationCheck s;
       lastMoistureDecrease := lastMoistureDecrease s;
       moistureDecreaseAccumulator := moistureDecreaseAccumulator s;
       moistureThresholds := moistureThresholds s;
       autoIrrigationFlag := autoIrrigationFlag s |}.

Definition withIrrigationDuration (v : jsnum) : SoilSettings :=
    {| currentMoisture := currentMoisture s;
       irrigationDuration := v; weather := weather s;
       isIrrigating := isIrrigating s;
       irrigationStartTime := irrigationStartTime s;
       irrigationTargetMoisture := irrigationTargetMoisture s;
       lastUpdate := lastUpdate s;
       scheduledIrrigations := scheduledIrrigations s;
       lastIrrigationCheck := lastIrrigationCheck s;
       lastMoistureDecrease := lastMoistureDecrease s;
       moistureDecreaseAccumulator := moistureDecreaseAccumulator s;
       moistureThresholds := moistureThresholds s;
       autoIrrigationFlag := autoIrrigationFlag s |}.

Definition withWeather (v : string) : SoilSettings :=
    {| currentMoisture := currentMoisture s;
       irrigationDuration := irrigationDuration s; weather := v;
       isIrrigating := isIrrigating s;
       irrigationStartTime := irrigationStartTime s;
       irrigationTargetMoisture := irrigationTargetMoisture s;
       lastUpdate := lastUpdate s;
       scheduledIrrigations := scheduledIrrigations s;
       lastIrrigationCheck := lastIrrigationCheck s;
       lastMoistureDecrease := lastMoistureDecrease s;
       moistureDecreaseAccumulator := moistureDecreaseAccumulator s;
       moistureThresholds := moistureThresholds s;
       autoIrrigationFlag := autoIrrigationFlag s |}.

  (** [isIrrigating], [irrigationStartTime] and [irrigationTargetMoisture]
      together, as [startIrrigation] and [stopIrrigation] set them. *)
Definition withIrrigation (b : bool) (start : option Z) (target : jsnum)
    : SoilSettings :=
    {| currentMoisture := currentMoisture s;
       irrigationDuration := irrigationDuration s; weather := weather s;
       isIrrigating := b;
       irrigationStartTime := start;
       irrigationTargetMoisture := target;
       lastUpdate := lastUpdate s;
       scheduledIrrigations := scheduledIrrigations s;
       lastIrrigationCheck := lastIrrigationCheck s;
       lastMoistureDecrease := lastMoistureDecrease s;
       moistureDecreaseAccumulator := moistureDecreaseAccumulator s;
       moistureThresholds := moistureThresholds s;
       autoIrrigationFlag := autoIrrigationFlag s |}.

Definition withLastUpdate (v : option Z) : SoilSettings :=
    {| currentMoisture := currentMoisture s;
       irrigationDuration := irrigationDuration s; weather := weather s;
       isIrrigating := isIrrigating s;
       irrigationStartTime := irrigationStartTime s;
       irrigationTargetMoisture := irrigationTargetMoisture s;
       lastUpdate := v;
       scheduledIrrigations := scheduledIrrigations s;
       lastIrrigationCheck := lastIrrigationCheck s;
       lastMoistureDecrease := lastMoistureDecrease s;
       moistureDecreaseAccumulator := moistureDecreaseAccumulator s;
       moistureThresholds := moistureThresholds s;
       autoIrrigationFlag := autoIrrigationFlag s |}.

Definition withScheduledIrrigations (v : list string) : SoilSettings :=
    {| currentMoisture := currentMoisture s;
       irrigationDuration := irrigationDuration s; weather := weather s;
       isIrrigating := isIrrigating s;
       irrigationStartTime := irrigationStartTime s;
       irrigationTargetMoisture := irrigationTargetMoisture s;
       lastUpdate := lastUpdate s;
       scheduledIrrigations := v;
       lastIrrigationCheck := lastIrrigationCheck s;
       lastMoistureDecrease := lastMoistureDecrease s;
       moistureDecreaseAccumulator := moistureDecreaseAccumulator s;
       moistureThresholds := moistureThresholds s;
       autoIrrigationFlag := autoIrrigationFlag s |}.

Definition withLastIrrigationCheck (v : Z) : SoilSettings :=
    {| currentMoisture := currentMoisture s;
       irrigationDuration := irrigationDuration s; weather := weather s;
       isIrrigating := isIrrigating s;
       irrigationStartTime := irrigationStartTime s;
       irrigationTargetMoisture := irrigationTargetMoisture s;
       lastUpdate := lastUpdate s;
       scheduledIrrigations := scheduledIrrigations s;
       lastIrrigationCheck := v;
       lastMoistureDecrease := lastMoistureDecrease s;
       moistureDecreaseAccumulator := moistureDecreaseAccumulator s;
       moistureThresholds := moistureThresholds s;
       autoIrrigationFlag := autoIrrigationFlag s |}.

Definition withLastMoistureDecrease (v : Z) : SoilSettings :=
    {| currentMoisture := currentMoisture s;
       irrigationDuration := irrigationDuration s; weather := weather s;
       isIrrigating := isIrrigating s;
       irrigationStartTime := irrigationStartTime s;
       irrigationTargetMoisture := irrigationTargetMoisture s;
       lastUpdate := lastUpdate s;
       scheduledIrrigations := scheduledIrrigations s;
       lastIrrigationCheck := lastIrrigationCheck s;
       lastMoistureDecrease := v;
       moistureDecreaseAccumulator := moistureDecreaseAccumulator s;
       moistureThresholds := moistureThresholds s;
       autoIrrigationFlag := autoIrrigationFlag s |}.

Definition withAccumulator (v : jsnum) : SoilSettings :=
    {| currentMoisture := currentMoisture s;
       irrigationDuration := irrigationDuration s; weather := weather s;
       isIrrigating := isIrrigating s;
       irrigationStartTime := irrigationStartTime s;
       irrigationTargetMoisture := irrigationTargetMoisture s;
       lastUpdate := lastUpdate s;
       scheduledIrrigations := scheduledIrrigations s;
       lastIrrigationCheck := lastIrrigationCheck s;
       lastMoistureDecrease := lastMoistureDecrease s;
       moistureDecreaseAccumulator := v;
       moistureThresholds := moistureThresholds s;
       autoIrrigationFlag := autoIrrigationFlag s |}.
End SoilUpdates.

Section WaterUpdates.
Variable s : WaterSettings.

Definition withCurrentLevel (v : jsnum) : WaterSettings :=
    {| tankCapacity := tankCapacity s; currentLevel := v;
       irrigationVolume := irrigationVolume s; schedules := schedules s;
       lowLevelThreshold := lowLevelThreshold s;
       emptyTankTime := emptyTankTime s; lastRefill := lastRefill s;
       autoIrrigation := autoIrrigation s |}.

Definition withEmptyTankTime (v : option (option Z)) : WaterSettings :=
    {| tankCapacity := tankCapacity s; currentLevel := currentLevel s;
       irrigationVolume := irrigationVolume s; schedules := schedules s;
       lowLevelThreshold := lowLevelThreshold s;
       emptyTankTime := v; lastRefill := lastRefill s;
       autoIrrigation := autoIrrigation s |}.

Definition withLastRefill (v : Z) : WaterSettings :=
    {| tankCapacity := tankCapacity s; currentLevel := currentLevel s;
       irrigationVolume := irrigationVolume s; schedules := schedules s;
       lowLevelThreshold := lowLevelThreshold s;
       emptyTankTime := emptyTankTime s; lastRefill := v;
       autoIrrigation := autoIrrigation s |}.
End WaterUpdates.

(* ================================================================== *)
(** ** Dates and times of day *)

Definition getHours (now : Z) : Z := ((now / 3600000) mod 24)%Z.
Definition getMinutes (now : Z) : Z := ((now / 60000) mod 60)%Z.
Definition getSeconds (now : Z) : Z := ((now / 1000) mod 60)%Z.

(** [(now - then) / 1000 / 60]: the minutes between two dates. *)
Definition minutesSince (now before : Z) : jsnum :=
  (num (now - before) / num 1000 / num 60)%js.

Definition digit (n : Z) : ascii := ascii_of_nat (48 + Z.to_nat n).

(** [n.toString().padStart(2, '0')] for [0 <= n < 100]. *)
Definition padStart2 (n : Z) : string :=
  String (digit (n / 10)) (String (digit (n mod 10)) EmptyString).

(** The [HH:MM] text of a date. *)
Definition timeOfDay (now : Z) : string :=
  (padStart2 (getHours now) ++ ":" ++ padStart2 (getMinutes now))%string.

(** [text.split(':')]. *)
Fixpoint splitColon (text : string) : list string :=
  match text with
  | EmptyString => [EmptyString]
  | String c rest =>
      if Ascii.eqb c ":"%char then EmptyString :: splitColon rest
      else match splitColon rest with
           | [] => [String c EmptyString]
           | part :: parts => String c part :: parts
           end
  end.

Definition digitValue (c : ascii) : option Z :=
  let n := Z.of_nat (nat_of_ascii c) in
  if ((48 <=? n) && (n <=? 57))%Z%bool then Some (n - 48)%Z else None.

Fixpoint digitsValue (acc : Z) (text : string) : option Z :=
  match text with
  | EmptyString => Some acc
  | String c rest =>
      match digitValue c with
      | Some d => digitsValue (10 * acc + d)%Z rest
      | None => None
      end
  end.

(** [Number(text)] for the texts a time of day is made of: a run of decimal
    digits is its value and the empty text is 0. Every other text is taken
    to NaN; signs, fractions, exponents and blanks are not modelled. *)
Definition Number (text : string) : jsnum :=
  match digitsValue 0 text with
  | Some n => num n
  | None => NaN
  end.

(** JavaScript's default [sort] on an array of texts, by insertion. *)
Fixpoint insertSorted (x : string) (l : list string) : list string :=
  match l with
  | [] => [x]
  | y :: rest => if String.leb x y then x :: l else y :: insertSorted x rest
  end.

Definition sort (l : list string) : list string :=
  fold_right insertSorted [] l.

Definition includes (l : list string) (x : string) : bool :=
  existsb (String.eqb x) l.

(** [JSON.stringify(a) !== JSON.stringify(b)] for two arrays of texts. *)
Definition differ (a b : list string) : bool :=
  if list_eq_dec string_dec a b then false else true.

(** The enabled slots of the water manager:
    [schedules.filter(s => s.enabled).map(s => s.time)]. *)
Definition activeSchedules (l : list Schedule) : list string :=
  map time (filter enabled l).

(* ================================================================== *)
(** ** The soil moisture manager *)

Module Soil.

(** The settings the constructor starts from. *)
Definition initialSettings (now : Z) : SoilSettings := {|
  currentMoisture := num 45;
  irrigationDuration := num 15;
  weather := "cerah";
  isIrrigating := false;
  irrigationStartTime := None;
  irrigationTargetMoisture := num 40;
  lastUpdate := Some now;
  scheduledIrrigations := ["07:00"; "16:00"]%string;
  lastIrrigationCheck := now;
  lastMoistureDecrease := now;
  moistureDecreaseAccumulator := num 0;
  moistureThresholds := None;
  autoIrrigationFlag := None
|}.

(** The copy that [saveSettings] builds and then does not use. *)
Definition settingsToSave (s : SoilSettings) : SoilSettings :=
  withIrrigationDuration
    (withCurrentMoisture s
       (if validNumber (currentMoisture s) then currentMoisture s else num 45))
    (if validNumber (irrigationDuration s) then irrigationDuration s
     else num 7).

(** [saveSettings()]: the item written is the document of [this.settings]. *)
Definition saveSettings (w : World) : World :=
  let _validated := settingsToSave (soil w) in
  setStorage
    (setSoilItem (Some (JsonObj (stringifySoil (soil w)))) (storage w)) w.

(** The three parts of [loadSettings()]. First, the properties copied from
    the saved document. *)
Definition applySaved (savedSettings : SoilDoc) (s : SoilSettings)
  : SoilSettings :=
  let s := match asNumber (d_currentMoisture savedSettings) with
           | Some q => withCurrentMoisture s (Fin q)
           | None => s
           end in
  let s := match asNumber (d_irrigationDuration savedSettings) with
           | Some q => withIrrigationDuration s (Fin q)
           | None => s
           end in
  let s := withWeather s
             match d_weather savedSettings with
             | Some v => if String.eqb v "" then weather s else v
             | None => weather s
             end in
  let s := withIrrigation s
             match d_isIrrigating savedSettings with
             | Some b => b
             | None => false
             end
             (irrigationStartTime s) (irrigationTargetMoisture s) in
  withScheduledIrrigations s
    match d_scheduledIrrigations savedSettings with
    | Some l => l
    | None => scheduledIrrigations s
    end.

(** Second, the synchronisation with the [irrigationSettings] document. The
    value that [parsed.irrigation.duration || 15] assigns to
    [irrigationDuration] can be of any type; it is carried beside the
    settings ([Some v]) until the last check. *)
Definition applyIrrigationSettings (parsed : GlobalDoc) (s : SoilSettings)
  : SoilSettings * option (option json) :=
  let '(s, assigned) :=
    match g_irrigation parsed with
    | Some irrigation =>
        if truthy (duration irrigation)
        then (s, Some (duration irrigation))
        else (withIrrigationDuration s (num 15), None)
    | None => (s, None)
    end in
  let s := match g_waterLevel parsed with
           | Some waterLevel =>
               withScheduledIrrigations s
                 [ if String.eqb (schedule1 waterLevel) ""
                   then "07:00"%string else schedule1 waterLevel ;
                   if String.eqb (schedule2 waterLevel) ""
                   then "16:00"%string else schedule2 waterLevel ]
           | None => s
           end in
  (s, assigned).

(** Third, the two checks at the end: a moisture that is not a number of
    [0..100] becomes 45, a duration that is not a number of at least 5
    becomes 15. *)
Definition ensureValid (s : SoilSettings) (assigned : option (option json))
  : SoilSettings :=
  let s :=
    if negb (validNumber (currentMoisture s))
       || (currentMoisture s <? num 0)%js
       || (currentMoisture s >? num 100)%js
    then withCurrentMoisture s (num 45) else s in
  match assigned with
  | Some (Some (JNum q)) =>
      if (Fin q <? num 5)%js then withIrrigationDuration s (num 15)
      else withIrrigationDuration s (Fin q)
  | Some _ => withIrrigationDuration s (num 15)
  | None =>
      if negb (validNumber (irrigationDuration s))
         || (irrigationDuration s <? num 5)%js
      then withIrrigationDuration s (num 15) else s
  end.

(** [loadSettings()], on the settings [s] of the constructor. *)
Definition loadSettings (st : Storage) (s : SoilSettings)
  : Result SoilSettings :=
  s <- match soilMoistureSettings st with
       | None => Ok s
       | Some saved =>
           savedSettings <- parse saved ;;
           Ok (applySaved savedSettings s)
       end ;;
  sd <- match irrigationSettings st with
        | None => Ok (s, None)
        | Some irrigationSettings =>
            parsed <- parse irrigationSettings ;;
            Ok (applyIrrigationSettings parsed s)
        end ;;
  Ok (ensureValid (fst sd) (snd sd)).

(** The state part of [updateDisplay()]: an invalid moisture is reset to 45
    and saved. *)
Definition updateDisplay (w : World) : World :=
  if negb (validNumber (currentMoisture (soil w)))
     || (currentMoisture (soil w) <? num 0)%js
     || (currentMoisture (soil w) >? num 100)%js
  then saveSettings (setSoil (withCurrentMoisture (soil w) (num 45)) w)
  else w.

(** [getCurrentMoistureStatus().moisture], with the repair the call makes. *)
Definition getCurrentMoistureStatus (w : World) : jsnum * World :=
  let w := if negb (validNumber (currentMoisture (soil w)))
           then saveSettings (setSoil (withCurrentMoisture (soil w) (num 45)) w)
           else w in
  (currentMoisture (soil w), w).

(** [shouldTriggerIrrigation()]. *)
Definition shouldTriggerIrrigation (s : SoilSettings) : bool :=
  let threshold := match moistureThresholds s with
                   | Some t => tmin t
                   | None => num 35
                   end in
  (currentMoisture s <? threshold)%js
  && negb (isIrrigating s)
  && match autoIrrigationFlag s with Some false => false | _ => true end.

(** [startIrrigation()]. The notification is always shown: the water
    manager's settings have no [isIrrigating] property. *)
Definition startIrrigation (now : Z) (w : World) : World :=
  if isIrrigating (soil w) then w
  else
    let s := soil w in
    let s := if negb (validNumber (currentMoisture s))
             then withCurrentMoisture s (num 45) else s in
    let currentMoisture := currentMoisture s in
    let targetMoisture :=
      JsNum.min (num 40) (JsNum.max (num 25) (currentMoisture + num 12)%js) in
    let s := withIrrigation s true (Some now) targetMoisture in
    let s := withAccumulator s (num 0) in
    let duration := if validNumber (irrigationDuration s)
                    then irrigationDuration s else num 15 in
    let w := saveSettings (setSoil s w) in
    let w := showNotification (DripStarted targetMoisture duration) w in
    setTimeoutStop now (duration * num 60 * num 1000)%js w.

(** [stopIrrigation()]. *)
Definition stopIrrigation (now : Z) (w : World) : World :=
  if negb (isIrrigating (soil w)) then w
  else
    let s := soil w in
    let s := withIrrigation s false None (irrigationTargetMoisture s) in
    let s := withAccumulator s (num 0) in
    let s := withLastMoistureDecrease s now in
    let w := saveSettings (setSoil s w) in
    showNotification (DripFinished (currentMoisture s)) w.

(** [applyRainEffect()]; [random] is the draw of [Math.random()]. *)
Definition applyRainEffect (random : Q) (w : World) : World :=
  let rainMoisture := (num 75 + Fin random * num 15)%js in
  let s := withCurrentMoisture (soil w)
             (JsNum.min (num 100) (JsNum.max (num 0) rainMoisture)) in
  let s := withAccumulator s (num 0) in
  let w := updateDisplay (setSoil s w) in
  let w := saveSettings w in
  showNotification RainApplied w.

(** [setWeather(weather)]. *)
Definition setWeather (newWeather : string) (random : Q) (w : World) : World :=
  let oldWeather := weather (soil w) in
  let w := saveSettings (setSoil (withWeather (soil w) newWeather) w) in
  let w := if String.eqb newWeather "hujan"
              && negb (String.eqb oldWeather "hujan")
           then applyRainEffect random w else w in
  showNotification (WeatherChanged newWeather) w.

(** [emptyMoisture()]. *)
Definition emptyMoisture (w : World) : World :=
  let s := withAccumulator (withCurrentMoisture (soil w) (num 0)) (num 0) in
  let w := updateDisplay (setSoil s w) in
  let w := saveSettings w in
  showNotification MoistureEmptied w.

Record EvaporationParameters : Type := {
  rate : jsnum;
  interval : jsnum
}.

(** [getEvaporationParameters()]. *)
Definition getEvaporationParameters (s : SoilSettings)
  : EvaporationParameters :=
  if String.eqb (weather s) "cerah" then {| rate := num 1; interval := num 15 |}
  else if String.eqb (weather s) "mendung"
       then {| rate := num 1; interval := num 30 |}
  else if String.eqb (weather s) "hujan"
       then {| rate := num 0; interval := PInf |}
  else {| rate := num 1; interval := num 20 |}.

(** The [while] loop of [processNaturalEvaporation], on the moisture, the
    accumulator and the [moistureChanged] flag. [None] is a loop that has
    not ended within [fuel] rounds. *)
Fixpoint evaporationLoop (fuel : nat) (p : EvaporationParameters)
  (moisture accumulator : jsnum) (changed : bool)
  : option (jsnum * jsnum * bool) :=
  if (accumulator >=? interval p)%js then
    match fuel with
    | O => None
    | S fuel =>
        evaporationLoop fuel p
          (JsNum.max (num 0) (moisture - rate p)%js)
          (accumulator - interval p)%js
          true
    end
  else Some (moisture, accumulator, changed).

(** The rounds the loop makes on a finite accumulator and a finite
    interval: the whole intervals that fit in the accumulator. *)
Definition rounds (accumulator interval : jsnum) : nat :=
  match accumulator, interval with
  | Fin a, Fin i => Z.to_nat (Qfloor (a / i))
  | _, _ => O
  end.

(** [processNaturalEvaporation(timeDiff)]; the result carries the returned
    [moistureChanged]. [None] when the loop does not end. *)
Definition processNaturalEvaporation (timeDiff : jsnum) (s : SoilSettings)
  : option (bool * SoilSettings) :=
  let evaporationParams := getEvaporationParameters s in
  if (rate evaporationParams >? num 0)%js then
    let accumulator := (moistureDecreaseAccumulator s + timeDiff)%js in
    match evaporationLoop (rounds accumulator (interval evaporationParams))
            evaporationParams (currentMoisture s) accumulator false with
    | Some (moisture, accumulator, changed) =>
        Some (changed, withAccumulator (withCurrentMoisture s moisture)
                         accumulator)
    | None => None
    end
  else Some (false, s).

(** [processIrrigationIncrease(timeDiff)]. *)
Definition processIrrigationIncrease (now : Z) (timeDiff : jsnum)
  (s : SoilSettings) : SoilSettings :=
  let irrigationStartTime := match irrigationStartTime s with
                             | Some t => t
                             | None => now
                             end in
  let irrigationTime := minutesSince now irrigationStartTime in
  if (irrigationTime <=? irrigationDuration s)%js then
    let targetMoisture :=
      JsNum.min (num 40)
        (JsNum.max (num 25) (currentMoisture s + num 15)%js) in
    let totalIncrease := (targetMoisture - currentMoisture s)%js in
    let increaseRate := (totalIncrease / irrigationDuration s)%js in
    let increaseAmount := (increaseRate * timeDiff)%js in
    let s := withCurrentMoisture s
               (JsNum.min targetMoisture
                  (currentMoisture s + increaseAmount)%js) in
    withCurrentMoisture s (JsNum.min (num 40) (currentMoisture s))
  else s.

(** [updateMoisture()]. *)
Definition updateMoisture (now : Z) (w : World) : option World :=
  let s := soil w in
  let lastUpdate := match lastUpdate s with
                    | Some t => t
                    | None => (now - 60000)%Z
                    end in
  let timeDiff := minutesSince now lastUpdate in
  let actualTimeDiff := JsNum.min timeDiff (num 60) in
  let s := if negb (validNumber (currentMoisture s))
           then withCurrentMoisture s (num 45) else s in
  match
    (if isIrrigating s
     then Some (true, processIrrigationIncrease now actualTimeDiff s)
     else if negb (String.eqb (weather s) "hujan")
          then processNaturalEvaporation actualTimeDiff s
          else Some (false, s))
  with
  | None => None
  | Some (moistureChanged, s) =>
      let '(moistureChanged, s) :=
        if negb (validNumber (currentMoisture s))
        then (true, withCurrentMoisture s (num 45))
        else (moistureChanged, s) in
      let oldMoisture := currentMoisture s in
      let s := withCurrentMoisture s
                 (JsNum.max (num 0) (JsNum.min (num 100) oldMoisture)) in
      let moistureChanged :=
        if negb (JsNum.seq oldMoisture (currentMoisture s)) then true
        else moistureChanged in
      let s := withLastUpdate s (Some now) in
      let w := saveSettings (setSoil s w) in
      Some (if moistureChanged then updateDisplay w else w)
  end.

(** [syncScheduledIrrigations()]. *)
Definition syncScheduledIrrigations (w : World) : World :=
  if waterManager w
  then saveSettings
         (setSoil (withScheduledIrrigations (soil w)
                     (activeSchedules (schedules (water w)))) w)
  else w.

(** One of the two comparisons of [forceSyncScheduledIrrigations]: both
    arrays are sorted in place, and the soil manager's one is replaced, and
    the settings saved, when the sorted arrays differ. *)
Definition syncWith (newSchedules : list string) (w : World) : World :=
  let current := sort (scheduledIrrigations (soil w)) in
  let newSchedules := sort newSchedules in
  let w := setSoil (withScheduledIrrigations (soil w) current) w in
  if differ current newSchedules
  then saveSettings
         (setSoil (withScheduledIrrigations (soil w) newSchedules) w)
  else w.

(** [forceSyncScheduledIrrigations()]; an exception of the second part is
    caught there. *)
Definition forceSyncScheduledIrrigations (w : World) : World :=
  let w := if waterManager w
           then syncWith (activeSchedules (schedules (water w))) w
           else w in
  match irrigationSettings (storage w) with
  | None => w
  | Some irrigationSettings =>
      match parse irrigationSettings with
      | Throw _ => w
      | Ok parsed =>
          match g_waterLevel parsed with
          | Some waterLevel =>
              let globalSchedules :=
                (if schedule1Enabled waterLevel
                 then [schedule1 waterLevel] else [])
                ++ (if schedule2Enabled waterLevel
                    then [schedule2 waterLevel] else []) in
              syncWith globalSchedules w
          | None => w
          end
      end
  end.

(** [checkScheduledIrrigation()]. The boolean tells whether the time of a
    slot was detected, which the code reports on the console. *)
Definition checkScheduledIrrigation (now : Z) (w : World) : bool * World :=
  let currentTime := timeOfDay now in
  let w := forceSyncScheduledIrrigations w in
  if includes (scheduledIrrigations (soil w)) currentTime then
    let lastCheck := lastIrrigationCheck (soil w) in
    let timeSinceLastCheck := minutesSince now lastCheck in
    if (timeSinceLastCheck >? num 2)%js
    then (true, saveSettings
                  (setSoil (withLastIrrigationCheck (soil w) now) w))
    else (false, w)
  else (false, w).

End Soil.

(* ================================================================== *)
(** ** The water volume manager *)

Module Water.

(** [saveSettings()]. *)
Definition saveSettings (w : World) : World :=
  setStorage
    (setWaterItem (Some (JsonObj (stringifyWater (water w)))) (storage w)) w.

Definition enabledCount (l : list Schedule) : Z :=
  Z.of_nat (List.length (filter enabled l)).

(** [calculateEmptyTime()]. *)
Definition calculateEmptyTime (now : Z) (w : World) : World :=
  let s := water w in
  if negb (autoIrrigation s)
  then setWater (withEmptyTankTime s None) w
  else
    let dailyConsumption :=
      (irrigationVolume s * num (enabledCount (schedules s)))%js in
    if JsNum.seq dailyConsumption (num 0)
    then setWater (withEmptyTankTime s None) w
    else
      let daysUntilEmpty := (currentLevel s / dailyConsumption)%js in
      let emptyDate :=
        timeClip (num now
                  + daysUntilEmpty * num 24 * num 60 * num 60 * num 1000)%js in
      saveSettings (setWater (withEmptyTankTime s (Some emptyDate)) w).

(** The state part of [updateDisplay()], which is in
    [updateCountdownDisplay()]: with the countdown element on the page, an
    invalid level is reset to 72 and saved. *)
Definition updateDisplay (w : World) : World :=
  if tankCountdown w then
    if negb (validNumber (currentLevel (water w)))
    then saveSettings (setWater (withCurrentLevel (water w) (num 72)) w)
    else w
  else w.

(** [performIrrigation()], the method of the class. *)
Definition performIrrigation (now : Z) (w : World) : option bool * World :=
  let currentLevel := if validNumber (currentLevel (water w))
                      then currentLevel (water w) else num 72 in
  let irrigationVolume := if validNumber (irrigationVolume (water w))
                          then irrigationVolume (water w) else num 7 in
  if negb (autoIrrigation (water w))
  then (Some false, showNotification AutoIrrigationDisabled w)
  else
    let '(skip, w) :=
      if soilManager w then
        let '(moisture, w) := Soil.getCurrentMoistureStatus w in
        if (moisture >=? num 35)%js
        then (true, showNotification (SoilAlreadyWet moisture) w)
        else (false, w)
      else (false, w) in
    if skip then (Some false, w)
    else if (currentLevel >=? irrigationVolume)%js then
      let w := setWater
                 (withCurrentLevel (water w)
                    (JsNum.max (num 0) (currentLevel - irrigationVolume)%js))
                 w in
      let w := calculateEmptyTime now w in
      let w := updateDisplay w in
      let w := saveSettings w in
      let w := if soilManager w then Soil.startIrrigation now w else w in
      (Some true, showNotification (IrrigationDone irrigationVolume) w)
    else (Some false, showNotification InsufficientWater w).

(** [emptyTank()]. *)
Definition emptyTank (now : Z) (w : World) : World :=
  let w := setWater (withCurrentLevel (water w) (num 0)) w in
  let w := calculateEmptyTime now w in
  let w := updateDisplay w in
  saveSettings w.

(** [refillTank()]. *)
Definition refillTank (now : Z) (w : World) : World :=
  let tankCapacity := if validNumber (tankCapacity (water w))
                      then tankCapacity (water w) else num 90 in
  let w := setWater
             (withLastRefill (withCurrentLevel (water w) tankCapacity) now)
             w in
  let w := calculateEmptyTime now w in
  let w := updateDisplay w in
  saveSettings w.

End Water.

(* ================================================================== *)
(** ** The installed [performIrrigation] and the two triggers *)

(** A call of [waterVolumeManager.performIrrigation()], through whatever
    the soil manager wrapped around the method of the class. [None] is the
    [undefined] that the wrapper of [syncWithWaterManager] returns. *)
Fixpoint callPerformIrrigation (impl : Impl) (now : Z) (w : World)
  : option bool * World :=
  match impl with
  | Original => Water.performIrrigation now w
  | Listener originalPerformIrrigation =>
      let '(result, w) :=
        callPerformIrrigation originalPerformIrrigation now w in
      let w :=
        if (currentLevel (water w) >=? irrigationVolume (water w))%js
        then Soil.startIrrigation now w else w in
      (result, w)
  | Synced originalPerformIrrigation =>
      if (currentLevel (water w) >=? irrigationVolume (water w))%js then
        let '(_, w) :=
          callPerformIrrigation originalPerformIrrigation now w in
        let w := Soil.startIrrigation now w in
        (None, showNotification (ManualStarted (irrigationVolume (water w))) w)
      else (None, showNotification InsufficientWater w)
  end.

(** [setupIrrigationListener()] and [syncWithWaterManager()] of the soil
    manager: each replaces the method by a wrapper of the one in place. *)
Definition setupIrrigationListener (w : World) : World :=
  setImpl (Listener (performIrrigationImpl w)) w.

Definition syncWithWaterManager (w : World) : World :=
  Soil.syncScheduledIrrigations (setImpl (Synced (performIrrigationImpl w)) w).

(** A manual trigger: the page calls the installed method. *)
Definition manualTrigger (now : Z) (w : World) : option bool * World :=
  callPerformIrrigation (performIrrigationImpl w) now w.

(** The timer that [scheduleIrrigation(timeString)] sets up: the text and
    the two numbers it was split into ([None] for a missing part). *)
Record Timer : Type := {
  timeString : string;
  hours : option jsnum;
  minutes : option jsnum
}.

Definition scheduleIrrigation (timeString : string) : Timer :=
  let parts := map Number (splitColon timeString) in
  {| timeString := timeString;
     hours := nth_error parts 0;
     minutes := nth_error parts 1 |}.

(** [scheduleIrrigations()]: one timer for each enabled slot. *)
Definition scheduleIrrigations (s : WaterSettings) : list Timer :=
  map scheduleIrrigation (activeSchedules (schedules s)).

Definition sameNumber (n : Z) (v : option jsnum) : bool :=
  match v with
  | Some a => JsNum.seq (num n) a
  | None => false
  end.

(** The callback of a timer, run every second: a scheduled trigger. The
    boolean tells whether [performIrrigation] was called. *)
Definition scheduleCheck (t : Timer) (now : Z) (w : World) : bool * World :=
  if sameNumber (getHours now) (hours t)
     && sameNumber (getMinutes now) (minutes t)
     && (getSeconds now =? 0)%Z
  then
    if autoIrrigation (water w)
       && (currentLevel (water w) >=? irrigationVolume (water w))%js
    then
      let shouldIrrigate :=
        if soilManager w then Soil.shouldTriggerIrrigation (soil w)
        else true in
      if shouldIrrigate then
        let w := showNotification (ScheduledStarted (timeString t)) w in
        (true, snd (callPerformIrrigation (performIrrigationImpl w) now w))
      else
        let '(currentMoisture, w) := Soil.getCurrentMoistureStatus w in
        (false,
         showNotification (ScheduledSkipped (timeString t) currentMoisture) w)
    else
      (false,
       showNotification
         (if negb (autoIrrigation (water w))
          then ScheduledFailedAuto (timeString t)
          else ScheduledFailedWater (timeString t)) w)
  else (false, w).

(* ================================================================== *)
(** ** Start of the page *)

(** The first lines of the [DOMContentLoaded] handler: a stored document
    that does not parse, or whose moisture is not a number, is removed. *)
Definition clearCorrupted (st : Storage) : Storage :=
  match soilMoistureSettings st with
  | None => st
  | Some saved =>
      match parse saved with
      | Ok parsed =>
          match asNumber (d_currentMoisture parsed) with
          | Some _ => st
          | None => setSoilItem None st
          end
      | Throw _ => setSoilItem None st
      end
  end.

(** [new SoilMoistureManager()]: the settings are loaded, the display is
    updated (twice) and the wrappers are installed when the water manager is
    there. The timers it starts are not part of the state. *)
Definition newSoilMoistureManager (now : Z) (w : World) : Result World :=
  settings <- Soil.loadSettings (storage w) (Soil.initialSettings now) ;;
  let w := setSoil settings w in
  let w := Soil.updateDisplay (Soil.updateDisplay w) in
  let w := if waterManager w then setupIrrigationListener w else w in
  let w := if waterManager w then syncWithWaterManager w else w in
  Ok w.

(** The [DOMContentLoaded] handler of the soil manager's script. *)
Definition onDOMContentLoaded (now : Z) (w : World) : Result World :=
  let w := setStorage (clearCorrupted (storage w)) w in
  w <- newSoilMoistureManager now w ;;
  Ok (setSoilManager true w).

(* ================================================================== *)
(** ** Runs and the notions the statements use *)

(** [n] runs of [updateMoisture], one minute apart, the first one a minute
    after [t]. *)
Fixpoint minuteTicks (n : nat) (t : Z) (w : World) : option World :=
  match n with
  | O => Some w
  | S n =>
      match Soil.updateMoisture (t + 60000) w with
      | Some w => minuteTicks n (t + 60000) w
      | None => None
      end
  end.

(** Runs of [checkScheduledIrrigation] at the given times; the result lists
    the times at which a slot was detected. *)
Fixpoint runChecks (times : list Z) (w : World) : list Z * World :=
  match times with
  | [] => ([], w)
  | now :: rest =>
      let '(hit, w) := Soil.checkScheduledIrrigation now w in
      let '(hits, w) := runChecks rest w in
      (if hit then now :: hits else hits, w)
  end.

(** Two dates more than two minutes apart, the first one the earlier. *)
Definition apart (a b : Z) : Prop := (120000 < b - a)%Z.

(** The soil manager under a clear sky and with no irrigation running, last
    updated at [t], with moisture [m] and accumulator [a]. *)
Definition Evaporating (w : World) (t : Z) (m a : Q) : Prop :=
  weather (soil w) = "cerah"%string
  /\ isIrrigating (soil w) = false
  /\ lastUpdate (soil w) = Some t
  /\ (exists m', currentMoisture (soil w) = Fin m' /\ m' == m)
  /\ (exists a', moistureDecreaseAccumulator (soil w) = Fin a' /\ a' == a).

(** The target that a tick of the ramp aims at, from the moisture [m]. *)
Definition rampTarget (m : Q) : Q := Qmin 40 (Qmax 25 (m + 15)).

(** The moisture after a tick of the ramp of [e] minutes, with the duration
    [d], as the code computes it. *)
Definition rampStep (m d e : Q) : Q :=
  Qmin (rampTarget m) (m + (rampTarget m - m) / d * e).

(** The moisture after a tick of the ramp in the words of the
    specification: the increase is added and the sum is capped at 40. *)
Definition claimedRamp (m d e : Q) : Q :=
  Qmin 40 (m + (rampTarget m - m) / d * e).

(** [irrigationTime <= this.settings.irrigationDuration] at [now]. *)
Definition withinDuration (now : Z) (s : SoilSettings) : bool :=
  (minutesSince now (match irrigationStartTime s with
                     | Some t => t
                     | None => now
                     end) <=? irrigationDuration s)%js.

(** The validity of a stored moisture: a number between 0 and 100. *)
Definition validMoisture (v : option json) : bool :=
  match v with
  | Some (JNum q) => Qle_bool 0 q && Qle_bool q 100
  | _ => false
  end.

(** A stored item of the soil manager that does not hold a valid moisture. *)
Definition corrupted (i : Item SoilDoc) : bool :=
  match i with
  | JsonObj d => negb (validMoisture (d_currentMoisture d))
  | _ => true
  end.

(** An item that is absent or parses to an object. *)
Definition readable {A : Type} (i : option (Item A)) : bool :=
  match i with
  | None | Some (JsonObj _) => true
  | _ => false
  end.

(* ================================================================== *)
(** ** Sample states *)

Definition sampleWater : WaterSettings := {|
  tankCapacity := num 90; currentLevel := num 72; irrigationVolume := num 7;
  schedules := [ {| time := "07:00"; enabled := true |};
                 {| time := "16:00"; enabled := true |} ]%string;
  lowLevelThreshold := num 20; emptyTankTime := None; lastRefill := 0%Z;
  autoIrrigation := true |}.

Definition emptyStorage : Storage :=
  {| soilMoistureSettings := None; waterVolumeSettings := None;
     irrigationSettings := None |}.

(** Both managers as their constructors leave them at time 0: moisture 45,
    72 l in the tank, the method of the class in place. *)
Definition sampleWorld : World := {|
  water := sampleWater; soil := Soil.initialSettings 0;
  waterManager := true; soilManager := true;
  performIrrigationImpl := Original; storage := emptyStorage;
  notices := []; timeouts := []; tankCountdown := true |}.

(** The same with the soil at 30 percent. *)
Definition dryWorld : World :=
  setSoil (withCurrentMoisture (soil sampleWorld) (num 30)) sampleWorld.

(** Dry soil with an irrigation running since time 0. *)
Definition irrigatingWorld : World :=
  setSoil (withIrrigation (soil dryWorld) true (Some 0%Z) (num 40)) dryWorld.

(** 5 l in the tank, 7 l per irrigation. *)
Definition lowTankWorld : World :=
  setWater (withCurrentLevel sampleWater (num 5)) sampleWorld.

(** Dry soil, a full enough tank, auto irrigation switched off. *)
Definition autoOffWorld : World :=
  setWater {| tankCapacity := num 90; currentLevel := num 72;
              irrigationVolume := num 7; schedules := schedules sampleWater;
              lowLevelThreshold := num 20; emptyTankTime := None;
              lastRefill := 0%Z; autoIrrigation := false |} dryWorld.

(** The moisture in memory is NaN. *)
Definition nanWorld : World :=
  setSoil (withCurrentMoisture (soil sampleWorld) NaN) sampleWorld.

(** Two enabled slots at 07:00, dry soil, last check at time 0. *)
Definition twinSlotWorld : World :=
  setSoil (withScheduledIrrigations (soil dryWorld) ["07:00"; "07:00"]%string)
    (setWater {| tankCapacity := num 90; currentLevel := num 72;
                 irrigationVolume := num 7;
                 schedules := [ {| time := "07:00"; enabled := true |};
                                {| time := "07:00"; enabled := true |} ]%string;
                 lowLevelThreshold := num 20; emptyTankTime := None;
                 lastRefill := 0%Z; autoIrrigation := true |} dryWorld).

(** An irrigation of 15 minutes started at minute 50 on soil at 10 percent,
    the last update at time 0. *)
Definition rampWorld : World :=
  setSoil (withIrrigation (withCurrentMoisture (soil sampleWorld) (num 10))
             true (Some 3000000%Z) (num 25)) sampleWorld.

(** A stored document whose moisture is the text "NaN". *)
Definition corruptedDoc : SoilDoc := {|
  d_currentMoisture := Some (JStr "NaN");
  d_irrigationDuration := Some (JNum 15);
  d_weather := Some "mendung"%string;
  d_isIrrigating := Some false;
  d_scheduledIrrigations := Some ["07:00"; "16:00"]%string;
  d_irrigationStartTime := None;
  d_irrigationTargetMoisture := Some (JNum 40);
  d_lastUpdate := Some 0%Z;
  d_lastIrrigationCheck := Some 0%Z;
  d_lastMoistureDecrease := Some 0%Z;
  d_moistureDecreaseAccumulator := Some (JNum 0);
  d_moistureThresholds := None;
  d_autoIrrigation := None
|}.

Definition corruptedWorld : World :=
  setStorage (setSoilItem (Some (JsonObj corruptedDoc)) emptyStorage)
    sampleWorld.

(* ================================================================== *)
(** ** Runs of events *)

(** The delay that [startIrrigation] passes to [setTimeout]. *)
Definition stopDelay (s : SoilSettings) : jsnum :=
  ((if validNumber (irrigationDuration s) then irrigationDuration s
    else num 15) * num 60 * num 1000)%js.

(** The earliest time at which a timer set at [setAt] with [delay] runs its
    callback: the delay later, and at once for a delay that is negative,
    not a finite number, or of [2^31] milliseconds or more (which the
    browser wraps around). *)
Definition dueTime (setAt : Z) (delay : jsnum) : Q :=
  match delay with
  | Fin q =>
      if Qle_bool 0 q && negb (Qle_bool 2147483648 q)
      then inject_Z setAt + q else inject_Z setAt
  | _ => inject_Z setAt
  end.

Fixpoint removeNth {A : Type} (k : nat) (l : list A) : list A :=
  match l, k with
  | [], _ => []
  | _ :: rest, O => rest
  | x :: rest, S k => x :: removeNth k rest
  end.

Definition setTimeouts (l : list (Z * jsnum)) (w : World) : World :=
  {| water := water w; soil := soil w; waterManager := waterManager w;
     soilManager := soilManager w;
     performIrrigationImpl := performIrrigationImpl w;
     storage := storage w; notices := notices w; timeouts := l;
     tankCountdown := tankCountdown w |}.

(** What can happen on the page, each at a time of the clock. *)
Inductive Event : Type :=
| SlotTimer (t : Timer)   (* the callback of the timer of a slot runs *)
| ManualClick             (* the page calls performIrrigation *)
| MoistureTick            (* updateMoisture runs *)
| ScheduleTick            (* checkScheduledIrrigation runs *)
| StopTimeout (k : nat).  (* the k-th pending stop timer runs its callback *)

(** One event at [now]. [None] when the event cannot happen: a stop timer
    that is not pending or not due, or a tick that does not end. *)
Definition step (now : Z) (e : Event) (w : World) : option World :=
  match e with
  | SlotTimer t => Some (snd (scheduleCheck t now w))
  | ManualClick => Some (snd (manualTrigger now w))
  | MoistureTick => Soil.updateMoisture now w
  | ScheduleTick => Some (snd (Soil.checkScheduledIrrigation now w))
  | StopTimeout k =>
      match nth_error (timeouts w) k with
      | Some (setAt, delay) =>
          if Qle_bool (dueTime setAt delay) (inject_Z now)
          then Some (Soil.stopIrrigation now
                       (setTimeouts (removeNth k (timeouts w)) w))
          else None
      | None => None
      end
  end.

Record Step : Type := {
  moment : Z;
  event : Event;
  before : World;
  after : World
}.

(** A run of events whose times do not go back behind [clock]. *)
Fixpoint run (clock : Z) (trace : list (Z * Event)) (w : World)
  : option (list Step) :=
  match trace with
  | [] => Some []
  | (now, e) :: rest =>
      if (clock <=? now)%Z then
        match step now e w with
        | Some w' =>
            match run now rest w' with
            | Some log =>
                Some ({| moment := now; event := e;
                         before := w; after := w' |} :: log)
            | None => None
            end
        | None => None
        end
      else None
  end.

(** A scheduled irrigation: the callback of a slot took water out of the
    tank. *)
Definition fired (s : Step) : Prop :=
  (exists t, event s = SlotTimer t) /\ water (after s) <> water (before s).

(** The irrigation state is untouched between [w] and [w']. *)
Definition SameIrrigation (w w' : World) : Prop :=
  soilManager w' = soilManager w
  /\ irrigationDuration (soil w') = irrigationDuration (soil w)
  /\ isIrrigating (soil w') = isIrrigating (soil w)
  /\ timeouts w' = timeouts w.

(** An irrigation was started at [now] between [w] and [w']. *)
Definition Started (now : Z) (w w' : World) : Prop :=
  soilManager w' = soilManager w
  /\ irrigationDuration (soil w') = irrigationDuration (soil w)
  /\ isIrrigating (soil w) = false
  /\ isIrrigating (soil w') = true
  /\ timeouts w' = (now, stopDelay (soil w)) :: timeouts w.

(** What a run keeps true, for a duration of [d] minutes: at most one stop
    timer is pending, and only while an irrigation runs; it was set no
    earlier than the last scheduled start [lastStart]; and since that start
    either the irrigation still runs or more than two minutes have gone. *)
Definition Steady (d : Q) (clock : Z) (lastStart : option Z) (w : World)
  : Prop :=
  soilManager w = true
  /\ irrigationDuration (soil w) = Fin d
  /\ (isIrrigating (soil w) = false -> timeouts w = [])
  /\ (List.length (timeouts w) <= 1)%nat
  /\ (forall s dl, In (s, dl) (timeouts w) ->
        dl = stopDelay (soil w)
        /\ (s <= clock)%Z
        /\ forall t1, lastStart = Some t1 -> (t1 <= s)%Z)
  /\ (forall t1, lastStart = Some t1 ->
        (t1 <= clock)%Z
        /\ (isIrrigating (soil w) = true \/ (t1 + 120000 < clock)%Z)).

(* ================================================================== *)
(** ** The rest of the soil moisture manager *)

(** A band of [this.moistureRanges]. *)
Record MoistureBand : Type := {
  bandMin : jsnum;
  bandMax : jsnum;
  color : string;
  status : string
}.

(** What [getMoistureRange] returns: a band, with its name when the band
    was found by the search and without when it is the fallback. *)
Record MoistureRange : Type := {
  band : MoistureBand;
  name : option string
}.

(** The update object of [SoilMoistureManager.updateSettings], with the
    properties its callers pass: the water manager ([scheduledIrrigations],
    [irrigationDuration]) and the settings form ([irrigationDuration],
    [scheduledIrrigations], [moistureThresholds], [autoIrrigation]); the
    durations they pass are numbers. [schedules] is the property the method
    itself also looks for. *)
Record SoilUpdate : Type := {
  u_irrigationDuration : option jsnum;
  u_scheduledIrrigations : option (list string);
  u_moistureThresholds : option Thresholds;
  u_autoIrrigation : option bool;
  u_schedules : option (list Schedule)
}.

(** An entry of the [soilMoistureLogs] array, as [JSON.stringify] writes
    it; the time stamp is the time value of its date. *)
Record MoistureLog : Type := {
  m_timestamp : Z;
  m_moisture : json;
  m_weather : string;
  m_isIrrigating : bool;
  m_eventType : string;
  m_evaporationAccumulator : json
}.

(** What [localStorage.getItem(key) || '[]'] holds for one of the two logs:
    absent ([None], read as the empty array), a text that does not parse, a
    text that parses to something that is no array, or an array. The
    elements of a stored array are carried over as they are. *)
Inductive LogItem (A : Type) : Type :=
| LogMalformed           (* JSON.parse throws a SyntaxError *)
| LogNotArray            (* logs.push throws a TypeError *)
| LogArray (logs : list A).
Arguments LogMalformed {A}.
Arguments LogNotArray {A}.

Definition parseLogs {A : Type} (i : option (LogItem A)) : Result (list A) :=
  match i with
  | None => Ok []
  | Some LogMalformed => Throw SyntaxError
  | Some LogNotArray => Throw TypeError
  | Some (LogArray logs) => Ok logs
  end.

(** [if (logs.length > n) logs.splice(0, logs.length - n)]. *)
Definition keepLast {A : Type} (n : nat) (logs : list A) : list A :=
  if (n <? List.length logs)%nat
  then skipn (List.length logs - n) logs
  else logs.

(** Truthiness of a number. *)
Definition truthyNumber (a : jsnum) : bool :=
  match a with
  | Fin q => negb (Qeq_bool q 0)
  | NaN => false
  | _ => true
  end.

Section MoreSoilUpdates.
Variable s : SoilSettings.

Definition withMoistureThresholds (v : option Thresholds) : SoilSettings :=
  {| currentMoisture := currentMoisture s;
     irrigationDuration := irrigationDuration s; weather := weather s;
     isIrrigating := isIrrigating s;
     irrigationStartTime := irrigationStartTime s;
     irrigationTargetMoisture := irrigationTargetMoisture s;
     lastUpdate := lastUpdate s;
     scheduledIrrigations := scheduledIrrigations s;
     lastIrrigationCheck := lastIrrigationCheck s;
     lastMoistureDecrease := lastMoistureDecrease s;
     moistureDecreaseAccumulator := moistureDecreaseAccumulator s;
     moistureThresholds := v;
     autoIrrigationFlag := autoIrrigationFlag s |}.

Definition withAutoIrrigationFlag (v : option bool) : SoilSettings :=
  {| currentMoisture := currentMoisture s;
     irrigationDuration := irrigationDuration s; weather := weather s;
     isIrrigating := isIrrigating s;
     irrigationStartTime := irrigationStartTime s;
     irrigationTargetMoisture := irrigationTargetMoisture s;
     lastUpdate := lastUpdate s;
     scheduledIrrigations := scheduledIrrigations s;
     lastIrrigationCheck := lastIrrigationCheck s;
     lastMoistureDecrease := lastMoistureDecrease s;
     moistureDecreaseAccumulator := moistureDecreaseAccumulator s;
     moistureThresholds := moistureThresholds s;
     autoIrrigationFlag := v |}.
End MoreSoilUpdates.

Module Math.

(** [Math.floor(a)]. *)
Definition floor (a : jsnum) : jsnum :=
  match a with
  | Fin q => num (Qfloor q)
  | _ => a
  end.

End Math.

(** [a % b]: the remainder has the sign of the dividend. *)
Definition remainder (a b : jsnum) : jsnum :=
  match a, b with
  | Fin x, Fin y =>
      if Qeq_bool y 0 then NaN
      else Fin (x - y * inject_Z (Qnum (x / y) ÷ Zpos (Qden (x / y))))
  | Fin x, (PInf | NInf) => Fin x
  | _, _ => NaN
  end.

Module SoilManager.

(** [this.moistureRanges], in the order of its keys. *)
Definition moistureRanges : list (string * MoistureBand) :=
  [ ("Sangat Kering"%string,
     {| bandMin := num 0; bandMax := num 15;
        color := "#ef4444"; status := "dry" |});
    ("Kering"%string,
     {| bandMin := num 16; bandMax := num 24;
        color := "#f59e0b"; status := "low" |});
    ("Optimal (Drip Irrigation)"%string,
     {| bandMin := num 25; bandMax := num 40;
        color := "#10b981"; status := "wet" |});
    ("Lembap"%string,
     {| bandMin := num 41; bandMax := num 69;
        color := "#3b82f6"; status := "very-wet" |});
    ("Sangat Basah (Hujan)"%string,
     {| bandMin := num 70; bandMax := num 100;
        color := "#8b5cf6"; status := "saturated" |}) ].

(** [getMoistureRange(moisture)]: the first band that holds the moisture,
    and the band [Sangat Kering] when none does. *)
Definition getMoistureRange (moisture : jsnum) : MoistureRange :=
  match
    find (fun entry =>
            (moisture >=? bandMin (snd entry))%js
            && (moisture <=? bandMax (snd entry))%js) moistureRanges
  with
  | Some (name, range) => {| band := range; name := Some name |}
  | None =>
      {| band := {| bandMin := num 0; bandMax := num 15;
                    color := "#ef4444"; status := "dry" |};
         name := None |}
  end.

(** The text that [updateDisplay()] writes on the status badge of the soil
    card: [statusText[range.status] || 'WET']. *)
Definition statusBadge (moisture : jsnum) : string :=
  let range := getMoistureRange moisture in
  if String.eqb (status (band range)) "dry" then "DRY"
  else if String.eqb (status (band range)) "low" then "LOW"
  else if String.eqb (status (band range)) "wet" then "WET"
  else if String.eqb (status (band range)) "very-wet" then "VERY WET"
  else if String.eqb (status (band range)) "saturated" then "SATURATED"
  else "WET".

Record IrrigationEffectiveness : Type := {
  e_currentMoisture : jsnum;
  targetMoisture : jsnum;
  increase : jsnum;
  e_duration : jsnum
}.

(** [getIrrigationEffectiveness()]. *)
Definition getIrrigationEffectiveness (s : SoilSettings)
  : IrrigationEffectiveness :=
  let currentMoisture := currentMoisture s in
  let targetMoisture :=
    JsNum.min (num 40) (JsNum.max (num 25) (currentMoisture + num 12)%js) in
  {| e_currentMoisture := currentMoisture;
     targetMoisture := targetMoisture;
     increase := (targetMoisture - currentMoisture)%js;
     e_duration := irrigationDuration s |}.

Record DetailedStatus : Type := {
  ds_currentMoisture : jsnum;
  ds_weather : string;
  ds_isIrrigating : bool;
  evaporationRate : jsnum;
  evaporationInterval : jsnum;
  evaporationAccumulator : jsnum;
  timeUntilNextDecrease : jsnum;
  moistureRange : MoistureRange;
  ds_lastUpdate : option Z
}.

(** [getDetailedStatus()]. *)
Definition getDetailedStatus (s : SoilSettings) : DetailedStatus :=
  let evaporationParams := Soil.getEvaporationParameters s in
  {| ds_currentMoisture := currentMoisture s;
     ds_weather := weather s;
     ds_isIrrigating := isIrrigating s;
     evaporationRate := Soil.rate evaporationParams;
     evaporationInterval := Soil.interval evaporationParams;
     evaporationAccumulator := moistureDecreaseAccumulator s;
     timeUntilNextDecrease :=
       JsNum.max (num 0)
         (Soil.interval evaporationParams - moistureDecreaseAccumulator s)%js;
     moistureRange := getMoistureRange (currentMoisture s);
     ds_lastUpdate := lastUpdate s |}.

(** The spread [{ ...this.settings, ...newSettings }] on the settings that
    the model holds. *)
Definition merge (newSettings : SoilUpdate) (s : SoilSettings) : SoilSettings :=
  let s := match u_irrigationDuration newSettings with
           | Some v => withIrrigationDuration s v
           | None => s
           end in
  let s := match u_scheduledIrrigations newSettings with
           | Some v => withScheduledIrrigations s v
           | None => s
           end in
  let s := match u_moistureThresholds newSettings with
           | Some v => withMoistureThresholds s (Some v)
           | None => s
           end in
  match u_autoIrrigation newSettings with
  | Some v => withAutoIrrigationFlag s (Some v)
  | None => s
  end.

(** Whether [forceSyncScheduledIrrigations()] sorts the array that the
    settings hold when it is called: each of its two parts does, the first
    with the water manager in place, the second with a stored
    [irrigationSettings] document that has a [waterLevel] part. *)
Definition sortsInPlace (w : World) : bool :=
  waterManager w
  || match irrigationSettings (storage w) with
     | Some irrigationSettings =>
         match parse irrigationSettings with
         | Ok parsed =>
             match g_waterLevel parsed with Some _ => true | None => false end
         | Throw _ => false
         end
     | None => false
     end.

(** [updateSettings(newSettings)]. After the spread the settings hold the
    very array [newSettings.scheduledIrrigations]; the synchronisation sorts
    that array in place before it may replace it, so the array assigned
    again near the end is the sorted one whenever a part of the
    synchronisation ran. The display of the next slot, which the method
    defers, is no part of the state. *)
Definition updateSettings (newSettings : SoilUpdate) (w : World) : World :=
  let sorted := sortsInPlace w in
  let w := Soil.forceSyncScheduledIrrigations
             (setSoil (merge newSettings (soil w)) w) in
  let s := soil w in
  let s := if negb (validNumber (currentMoisture s))
           then withCurrentMoisture s (num 45) else s in
  let s := match u_irrigationDuration newSettings with
           | Some v =>
               if truthyNumber v then
                 let duration := v in
                 if negb (isNaN duration) && (duration >=? num 5)%js
                 then withIrrigationDuration s duration else s
               else s
           | None => s
           end in
  let s := match u_moistureThresholds newSettings with
           | Some v => withMoistureThresholds s (Some v)
           | None => s
           end in
  let s := match u_autoIrrigation newSettings with
           | Some v => withAutoIrrigationFlag s (Some v)
           | None => s
           end in
  let s := match u_scheduledIrrigations newSettings with
           | Some v =>
               withScheduledIrrigations s (if sorted then sort v else v)
           | None =>
               match u_schedules newSettings with
               | Some v => withScheduledIrrigations s (activeSchedules v)
               | None => s
               end
           end in
  Soil.updateDisplay (Soil.saveSettings (setSoil s w)).

(** A slot of [updateNextScheduleDisplay()]: its text and its minute of
    the day, [hours * 60 + minutes] of the numbers the text splits into (NaN
    when the text has no second part). *)
Record Slot : Type := {
  slotTime : string;
  slotMinutes : jsnum
}.

Definition toSlot (timeString : string) : Slot :=
  let parts := map Number (splitColon timeString) in
  {| slotTime := timeString;
     slotMinutes :=
       match nth_error parts 0, nth_error parts 1 with
       | Some hours, Some minutes => (hours * num 60 + minutes)%js
       | _, _ => NaN
       end |}.

(** [sort((a, b) => a.minutes - b.minutes)]: a stable sort by the minute of
    the day, by insertion. For slots whose minute is NaN the order that
    JavaScript gives is not fixed; the model leaves them where the
    insertion puts them. *)
Fixpoint insertSlot (x : Slot) (l : list Slot) : list Slot :=
  match l with
  | [] => [x]
  | y :: rest =>
      if (slotMinutes x - slotMinutes y <=? num 0)%js then x :: l
      else y :: insertSlot x rest
  end.

Definition sortSlots (l : list Slot) : list Slot := fold_right insertSlot [] l.

(** What [updateNextScheduleDisplay()] writes: the text of the next slot
    and, beside it, when that is. *)
Inductive NextSchedule : Type :=
| NoSchedule                                  (* Tidak ada jadwal *)
| Tomorrow (time : string)                    (* .. , Besok pagi *)
| InHours (time : string) (hoursUntil minutesUntil : jsnum)
                                              (* .. , Dalam .. jam .. menit *)
| InMinutes (time : string) (minutesUntil : jsnum).  (* .. , Dalam .. menit *)

(** [updateNextScheduleDisplay()], on a page that has the elements it
    writes to. *)
Definition updateNextScheduleDisplay (now : Z) (s : SoilSettings)
  : NextSchedule :=
  let currentTime := (getHours now * 60 + getMinutes now)%Z in
  let enabledSchedules := sortSlots (map toSlot (scheduledIrrigations s)) in
  match enabledSchedules with
  | [] => NoSchedule
  | first :: _ =>
      match
        find (fun schedule => (slotMinutes schedule >? num currentTime)%js)
          enabledSchedules
      with
      | None => Tomorrow (slotTime first)
      | Some nextSchedule =>
          let hoursUntil :=
            Math.floor
              ((slotMinutes nextSchedule - num currentTime) / num 60)%js in
          let minutesUntil :=
            remainder (slotMinutes nextSchedule - num currentTime)%js
              (num 60) in
          if (hoursUntil >? num 0)%js
          then InHours (slotTime nextSchedule) hoursUntil minutesUntil
          else InMinutes (slotTime nextSchedule) minutesUntil
      end
  end.

(** The callback of [setupWeatherListener()], run every minute;
    [weatherAPI] is the condition that [window.weatherAPI] reports, if it
    is there. *)
Definition weatherListener (weatherAPI : option string) (w : World) : World :=
  match weatherAPI with
  | Some condition =>
      if negb (String.eqb condition (weather (soil w)))
      then Soil.saveSettings (setSoil (withWeather (soil w) condition) w)
      else w
  | None => w
  end.

(** [logMoisture(eventType)], from the stored log to the array it stores. *)
Definition logMoisture (now : Z) (eventType : string) (s : SoilSettings)
  (stored : option (LogItem MoistureLog)) : Result (list MoistureLog) :=
  logs <- parseLogs stored ;;
  Ok (keepLast 1000
        (logs ++ [ {| m_timestamp := now;
                      m_moisture := json_of_num (currentMoisture s);
                      m_weather := weather s;
                      m_isIrrigating := isIrrigating s;
                      m_eventType := eventType;
                      m_evaporationAccumulator :=
                        json_of_num (moistureDecreaseAccumulator s) |} ])).

End SoilManager.

(* ================================================================== *)
(** ** The rest of the water volume manager *)

(** The update object of [WaterVolumeManager.updateSettings], with the
    properties the settings form passes. *)
Record WaterUpdate : Type := {
  n_tankCapacity : option jsnum;
  n_irrigationVolume : option jsnum;
  n_lowLevelThreshold : option jsnum;
  n_schedules : option (list Schedule);
  n_autoIrrigation : option bool
}.

(** An entry of the [irrigationLogs] array, as [JSON.stringify] writes it. *)
Record IrrigationLog : Type := {
  i_timestamp : Z;
  i_volume : json;
  i_remainingLevel : json
}.

(** A notification that is shown outside the irrigation paths, whose
    messages the type [Notice] lists: its text and its type. *)
Record Toast : Type := {
  message : string;
  kind : string
}.

Module WaterManager.

(** [syncWithSoilManager()]. The water manager's settings have no
    [irrigationDuration] (the constructor sets none, no caller of
    [updateSettings] passes one and the stored document is the one
    [saveSettings] wrote), so [this.settings.irrigationDuration || 15] is
    15. *)
Definition syncWithSoilManager (w : World) : World :=
  if soilManager w then
    let activeSchedules := activeSchedules (schedules (water w)) in
    SoilManager.updateSettings
      {| u_irrigationDuration := Some (num 15);
         u_scheduledIrrigations := Some activeSchedules;
         u_moistureThresholds := None;
         u_autoIrrigation := None;
         u_schedules := None |} w
  else w.

(** The spread [{ ...this.settings, ...newSettings }]. *)
Definition merge (newSettings : WaterUpdate) (s : WaterSettings)
  : WaterSettings :=
  {| tankCapacity := match n_tankCapacity newSettings with
                     | Some v => v
                     | None => tankCapacity s
                     end;
     currentLevel := currentLevel s;
     irrigationVolume := match n_irrigationVolume newSettings with
                         | Some v => v
                         | None => irrigationVolume s
                         end;
     schedules := match n_schedules newSettings with
                  | Some v => v
                  | None => schedules s
                  end;
     lowLevelThreshold := match n_lowLevelThreshold newSettings with
                          | Some v => v
                          | None => lowLevelThreshold s
                          end;
     emptyTankTime := emptyTankTime s;
     lastRefill := lastRefill s;
     autoIrrigation := match n_autoIrrigation newSettings with
                       | Some v => v
                       | None => autoIrrigation s
                       end |}.

(** [updateSettings(newSettings)]. The timers it sets up anew are
    [scheduleIrrigations] of the settings it leaves; the call of
    [forceSyncScheduledIrrigations] that it defers by 100 ms runs after it
    has returned. *)
Definition updateSettings (now : Z) (newSettings : WaterUpdate) (w : World)
  : World :=
  let s := merge newSettings (water w) in
  let s := if (currentLevel s >? tankCapacity s)%js
           then withCurrentLevel s (tankCapacity s * Fin (8 # 10))%js
           else s in
  let w := setWater s w in
  let w := Water.calculateEmptyTime now w in
  let w := Water.updateDisplay w in
  let w := Water.saveSettings w in
  syncWithSoilManager w.

(** [logIrrigation()], from the stored log to the array it stores. *)
Definition logIrrigation (now : Z) (s : WaterSettings)
  (stored : option (LogItem IrrigationLog)) : Result (list IrrigationLog) :=
  logs <- parseLogs stored ;;
  let irrigationVolume := if validNumber (irrigationVolume s)
                          then irrigationVolume s else num 7 in
  let currentLevel := if validNumber (currentLevel s)
                      then currentLevel s else num 72 in
  Ok (keepLast 100
        (logs ++ [ {| i_timestamp := now;
                      i_volume := json_of_num irrigationVolume;
                      i_remainingLevel := json_of_num currentLevel |} ])).

(** [emptyTank()]: the state it leaves and the notification it shows. *)
Definition emptyTank (now : Z) (w : World) : World * Toast :=
  (Water.emptyTank now w,
   {| message := "Tandon dikosongkan"; kind := "success" |}).

(** [refillTank()]: the state it leaves and the notification it shows. *)
Definition refillTank (now : Z) (w : World) : World * Toast :=
  (Water.refillTank now w,
   {| message := "Tandon berhasil diisi ulang!"; kind := "success" |}).

(** What [updateCountdownDisplay()] writes into the countdown element. *)
Inductive CountdownText : Type :=
| NotScheduled                       (* Tidak terjadwal *)
| TankEmpty                          (* Tandon kosong! *)
| DaysHours (days hours : Z)         (* .. hari .. jam *)
| HoursMinutes (hours minutes : Z)   (* .. jam .. menit *)
| MinutesOnly (minutes : Z)          (* .. menit *)
| NaNMinutes.                        (* NaN menit *)

(** [currentLevel / tankCapacity * 100], on the numbers the display takes
    for them. *)
Definition percentage (s : WaterSettings) : jsnum :=
  let currentLevel := if validNumber (currentLevel s)
                      then currentLevel s else num 72 in
  let tankCapacity := if validNumber (tankCapacity s)
                      then tankCapacity s else num 90 in
  (currentLevel / tankCapacity * num 100)%js.

(** The text and the colour ([None]: left as it is) that
    [updateCountdownDisplay()] gives the countdown element, on the settings
    after its repair of the level. A date that is invalid is still an
    object, so the text is computed from a time left that is NaN. *)
Definition countdown (now : Z) (s : WaterSettings)
  : CountdownText * option string :=
  match emptyTankTime s with
  | None => (NotScheduled, None)
  | Some emptyTankTime =>
      let urgency :=
        if (percentage s <=? lowLevelThreshold s)%js then "#ef4444"%string
        else if (percentage s <=? num 50)%js then "#f59e0b"%string
        else "#10b981"%string in
      match emptyTankTime with
      | None => (NaNMinutes, Some urgency)
      | Some t =>
          let timeLeft := (t - now)%Z in
          if (timeLeft <=? 0)%Z then (TankEmpty, Some "#ef4444"%string)
          else
            let days := (timeLeft / (1000 * 60 * 60 * 24))%Z in
            let hours := (timeLeft mod (1000 * 60 * 60 * 24)
                          / (1000 * 60 * 60))%Z in
            let minutes := (timeLeft mod (1000 * 60 * 60) / (1000 * 60))%Z in
            (if (days >? 0)%Z then DaysHours days hours
             else if (hours >? 0)%Z then HoursMinutes hours minutes
             else MinutesOnly minutes,
             Some urgency)
      end
  end.

End WaterManager.
(* ================================================================== *)
(** ** The settings form *)

(** What [saveSettings()] of the settings script reads from the form: the
    numbers as [parseInt] gives them, the texts of the two slots and the
    check boxes. *)
Record SettingsForm : Type := {
  f_tankCapacity : jsnum;
  f_irrigationVolume : jsnum;
  f_lowLevelThreshold : jsnum;
  f_schedule1 : string;
  f_schedule2 : string;
  f_schedule1Enabled : bool;
  f_schedule2Enabled : bool;
  f_soilMin : jsnum;
  f_soilMax : jsnum;
  f_soilOptimal : jsnum;
  f_duration : jsnum;
  f_interval : jsnum;
  f_enableAlerts : bool;
  f_enableAutoIrrigation : bool
}.

Module Settings.

(** The checks at the head of [saveSettings()]: the message of the first
    one that fails. *)
Definition validate (f : SettingsForm) : option string :=
  if (f_tankCapacity f <=? num 0)%js
  then Some "Tank capacity must be greater than 0"%string
  else if (f_irrigationVolume f <=? num 0)%js
          || (f_irrigationVolume f >? f_tankCapacity f)%js
  then Some "Irrigation volume must be between 1 and tank capacity"%string
  else if (f_lowLevelThreshold f <=? num 0)%js
          || (f_lowLevelThreshold f >? num 100)%js
  then Some "Low level threshold must be between 1 and 100"%string
  else if (f_soilMin f >=? f_soilMax f)%js
  then Some "Soil moisture minimum must be less than maximum"%string
  else if (f_soilOptimal f <? f_soilMin f)%js
          || (f_soilOptimal f >? f_soilMax f)%js
  then Some "Optimal soil moisture must be between minimum and maximum"%string
  else None.

(** The document that [saveSettingsToStorage()] writes, in the parts the
    soil manager reads. *)
Definition stringifySettings (f : SettingsForm) : GlobalDoc :=
  {| g_irrigation := Some {| duration := Some (json_of_num (f_duration f)) |};
     g_waterLevel :=
       Some {| schedule1 := f_schedule1 f;
               schedule2 := f_schedule2 f;
               schedule1Enabled := f_schedule1Enabled f;
               schedule2Enabled := f_schedule2Enabled f |} |}.

Definition saveSettingsToStorage (f : SettingsForm) (w : World) : World :=
  setStorage
    {| soilMoistureSettings := soilMoistureSettings (storage w);
       waterVolumeSettings := waterVolumeSettings (storage w);
       irrigationSettings := Some (JsonObj (stringifySettings f)) |} w.

(** The schedules that the form hands to the water manager. *)
Definition formSchedules (f : SettingsForm) : list Schedule :=
  [ {| time := f_schedule1 f; enabled := f_schedule1Enabled f |};
    {| time := f_schedule2 f; enabled := f_schedule2Enabled f |} ].

(** [integrateAllSystems()], on the settings that the form has just set;
    [weatherAPI] is the condition that [window.weatherAPI] reports, if it
    is there, and [random] the draw of a rain effect. The calls that it
    defers by 300 ms run after it has returned. *)
Definition integrateAllSystems (now : Z) (weatherAPI : option string)
  (random : Q) (f : SettingsForm) (w : World) : World :=
  let activeSchedules :=
    (if f_schedule1Enabled f then [f_schedule1 f] else [])
    ++ (if f_schedule2Enabled f then [f_schedule2 f] else []) in
  let w :=
    if waterManager w then
      WaterManager.updateSettings now
        {| n_tankCapacity := Some (f_tankCapacity f);
           n_irrigationVolume := Some (f_irrigationVolume f);
           n_lowLevelThreshold := Some (f_lowLevelThreshold f);
           n_schedules := Some (formSchedules f);
           n_autoIrrigation := Some (f_enableAutoIrrigation f) |} w
    else w in
  let w :=
    if soilManager w then
      SoilManager.updateSettings
        {| u_irrigationDuration := Some (f_duration f);
           u_scheduledIrrigations := Some activeSchedules;
           u_moistureThresholds :=
             Some {| tmin := f_soilMin f; tmax := f_soilMax f;
                     toptimal := f_soilOptimal f |};
           u_autoIrrigation := Some (f_enableAutoIrrigation f);
           u_schedules := None |} w
    else w in
  match weatherAPI with
  | Some condition =>
      if soilManager w then Soil.setWeather condition random w else w
  | None => w
  end.

(** [saveSettings()] of the settings script: the notification it shows and
    the state it leaves. [controlPanel] tells whether the page has the
    element of the duration in the control panel, with which
    [updateControlPanelDisplay()] runs one more synchronisation. *)
Definition saveSettings (now : Z) (weatherAPI : option string) (random : Q)
  (controlPanel : bool) (f : SettingsForm) (w : World) : Toast * World :=
  match validate f with
  | Some error => ({| message := error; kind := "error" |}, w)
  | None =>
      let w := saveSettingsToStorage f w in
      let w := integrateAllSystems now weatherAPI random f w in
      let w :=
        if waterManager w then
          WaterManager.updateSettings now
            {| n_tankCapacity := Some (f_tankCapacity f);
               n_irrigationVolume := Some (f_irrigationVolume f);
               n_lowLevelThreshold := Some (f_lowLevelThreshold f);
               n_schedules := Some (formSchedules f);
               n_autoIrrigation := None |} w
        else w in
      let w :=
        if controlPanel && waterManager w && soilManager w
        then WaterManager.syncWithSoilManager w else w in
      ({| message := "Settings saved successfully!"; kind := "success" |}, w)
  end.

End Settings.

(** The minute of the day of a date. *)
Definition minuteOfDay (t : Z) : Z := (getHours t * 60 + getMinutes t)%Z.

(** [x] is the earliest of the dates [times] whose minute of the day is
    later than [current]. *)
Definition EarliestAfter (current : Z) (times : list Z) (x : Z) : Prop :=
  In x times /\ (current < minuteOfDay x)%Z
  /\ forall y, In y times -> (current < minuteOfDay y)%Z ->
       (minuteOfDay x <= minuteOfDay y)%Z.

(** The parts of the page that no update of a manager's settings touches:
    which managers are registered and the stored [irrigationSettings]. *)
Definition SamePage (w w' : World) : Prop :=
  soilManager w' = soilManager w
  /\ waterManager w' = waterManager w
  /\ irrigationSettings (storage w') = irrigationSettings (storage w).

(* ================================================================== *)
(** ** More sample states *)

(** The water manager with three slots, the second one disabled. *)
Definition threeSlotWorld : World :=
  setWater
    (WaterManager.merge
       {| n_tankCapacity := None; n_irrigationVolume := None;
          n_lowLevelThreshold := None;
          n_schedules :=
            Some [ {| time := "16:00"; enabled := true |};
                   {| time := "07:00"; enabled := false |};
                   {| time := "05:30"; enabled := true |} ]%string;
          n_autoIrrigation := None |} sampleWater)
    sampleWorld.

(** Clouds over the soil of [sampleWorld]. *)
Definition cloudyWorld : World :=
  setSoil (withWeather (soil sampleWorld) "mendung") sampleWorld.

(** The tank of [sampleWorld] runs empty after 90 minutes and a half. *)
Definition countdownWorld : World :=
  setWater (withEmptyTankTime sampleWater (Some (Some 5430000%Z))) sampleWorld.

(** The form with a duration of 30 minutes and the other fields as the
    settings script starts with. *)
Definition sampleForm : SettingsForm :=
  {| f_tankCapacity := num 90; f_irrigationVolume := num 7;
     f_lowLevelThreshold := num 20;
     f_schedule1 := "07:00"; f_schedule2 := "16:00";
     f_schedule1Enabled := true; f_schedule2Enabled := true;
     f_soilMin := num 40; f_soilMax := num 80; f_soilOptimal := num 65;
     f_duration := num 30; f_interval := num 30;
     f_enableAlerts := true; f_enableAutoIrrigation := true |}.

(** Rain over the soil of [sampleWorld]. *)
Definition rainyWorld : World :=
  setSoil (withWeather (soil sampleWorld) "hujan") sampleWorld.

(* ================================================================== *)
(** ** The page with its two logs *)

(** The two append-only logs of [localStorage]. *)
Record Logs : Type := {
  irrigationLogs : option (LogItem IrrigationLog);
  soilMoistureLogs : option (LogItem MoistureLog)
}.

(** The page together with its logs. The methods of [Module Water] and
    [Module Soil] are the methods on a page whose logs are absent or arrays,
    where the calls of [logIrrigation()] and [logMoisture()] return and
    change nothing that another method reads. The methods of
    [Module Logged] carry those calls, with the exception that they throw
    on a stored log that does not parse or is no array. *)
Record Page : Type := {
  world : World;
  logs : Logs
}.

Definition setWorld (w : World) (p : Page) : Page :=
  {| world := w; logs := logs p |}.

(** A stored log that [logIrrigation()] and [logMoisture()] can extend. *)
Definition readableLog {A : Type} (i : option (LogItem A)) : bool :=
  match i with
  | None | Some (LogArray _) => true
  | _ => false
  end.

(** The draws of [Math.random()] during one run of [updateMoisture()]:
    [evaporation k] in round [k] of the loop of
    [processNaturalEvaporation], [periodic] at the end of the method. *)
Record Draws : Type := {
  evaporation : nat -> Q;
  periodic : Q
}.

Module Logged.

(** [logIrrigation()]. *)
Definition logIrrigation (now : Z) (p : Page) : Result unit * Page :=
  match
    WaterManager.logIrrigation now (water (world p)) (irrigationLogs (logs p))
  with
  | Ok l =>
      (Ok tt,
       {| world := world p;
          logs := {| irrigationLogs := Some (LogArray l);
                     soilMoistureLogs := soilMoistureLogs (logs p) |} |})
  | Throw e => (Throw e, p)
  end.

(** [logMoisture(eventType)]. *)
Definition logMoisture (now : Z) (eventType : string) (p : Page)
  : Result unit * Page :=
  match
    SoilManager.logMoisture now eventType (soil (world p))
      (soilMoistureLogs (logs p))
  with
  | Ok l =>
      (Ok tt,
       {| world := world p;
          logs := {| irrigationLogs := irrigationLogs (logs p);
                     soilMoistureLogs := Some (LogArray l) |} |})
  | Throw e => (Throw e, p)
  end.

(** [performIrrigation()], the method of the class, with its log: an
    exception of [logIrrigation()] leaves the method after the water was
    taken and saved, before the soil manager is told and before the
    notification. [updateStatus()] only draws, on a page that holds the
    location card after which it inserts its warning; the elements of the
    page are not part of the state. *)
Definition performIrrigation (now : Z) (p : Page)
  : Result (option bool) * Page :=
  let w := world p in
  let currentLevel := if validNumber (currentLevel (water w))
                      then currentLevel (water w) else num 72 in
  let irrigationVolume := if validNumber (irrigationVolume (water w))
                          then irrigationVolume (water w) else num 7 in
  if negb (autoIrrigation (water w))
  then (Ok (Some false), setWorld (showNotification AutoIrrigationDisabled w) p)
  else
    let '(skip, w) :=
      if soilManager w then
        let '(moisture, w) := Soil.getCurrentMoistureStatus w in
        if (moisture >=? num 35)%js
        then (true, showNotification (SoilAlreadyWet moisture) w)
        else (false, w)
      else (false, w) in
    if skip then (Ok (Some false), setWorld w p)
    else if (currentLevel >=? irrigationVolume)%js then
      let w := setWater
                 (withCurrentLevel (water w)
                    (JsNum.max (num 0) (currentLevel - irrigationVolume)%js))
                 w in
      let w := Water.calculateEmptyTime now w in
      let w := Water.updateDisplay w in
      let w := Water.saveSettings w in
      match logIrrigation now (setWorld w p) with
      | (Throw e, p) => (Throw e, p)
      | (Ok _, p) =>
          let w := world p in
          let w := if soilManager w then Soil.startIrrigation now w else w in
          (Ok (Some true),
           setWorld (showNotification (IrrigationDone irrigationVolume) w) p)
      end
    else (Ok (Some false), setWorld (showNotification InsufficientWater w) p).

(** A call of the installed [performIrrigation]: an exception of the method
    that a wrapper calls leaves the wrapper too. *)
Fixpoint callPerformIrrigation (impl : Impl) (now : Z) (p : Page)
  : Result (option bool) * Page :=
  match impl with
  | Original => performIrrigation now p
  | Listener originalPerformIrrigation =>
      match callPerformIrrigation originalPerformIrrigation now p with
      | (Throw e, p) => (Throw e, p)
      | (Ok result, p) =>
          let w := world p in
          let w :=
            if (currentLevel (water w) >=? irrigationVolume (water w))%js
            then Soil.startIrrigation now w else w in
          (Ok result, setWorld w p)
      end
  | Synced originalPerformIrrigation =>
      let w := world p in
      if (currentLevel (water w) >=? irrigationVolume (water w))%js then
        match callPerformIrrigation originalPerformIrrigation now p with
        | (Throw e, p) => (Throw e, p)
        | (Ok _, p) =>
            let w := Soil.startIrrigation now (world p) in
            (Ok None,
             setWorld
               (showNotification (ManualStarted (irrigationVolume (water w)))
                  w) p)
        end
      else (Ok None, setWorld (showNotification InsufficientWater w) p)
  end.

(** A manual trigger. *)
Definition manualTrigger (now : Z) (p : Page) : Result (option bool) * Page :=
  callPerformIrrigation (performIrrigationImpl (world p)) now p.

(** The callback of the timer of a slot; the boolean tells whether
    [performIrrigation] was called and has returned. *)
Definition scheduleCheck (t : Timer) (now : Z) (p : Page)
  : Result bool * Page :=
  let w := world p in
  if sameNumber (getHours now) (hours t)
     && sameNumber (getMinutes now) (minutes t)
     && (getSeconds now =? 0)%Z
  then
    if autoIrrigation (water w)
       && (currentLevel (water w) >=? irrigationVolume (water w))%js
    then
      let shouldIrrigate :=
        if soilManager w then Soil.shouldTriggerIrrigation (soil w)
        else true in
      if shouldIrrigate then
        let w := showNotification (ScheduledStarted (timeString t)) w in
        match
          callPerformIrrigation (performIrrigationImpl w) now (setWorld w p)
        with
        | (Throw e, p) => (Throw e, p)
        | (Ok _, p) => (Ok true, p)
        end
      else
        let '(currentMoisture, w) := Soil.getCurrentMoistureStatus w in
        (Ok false,
         setWorld
           (showNotification (ScheduledSkipped (timeString t) currentMoisture)
              w) p)
    else
      (Ok false,
       setWorld
         (showNotification
            (if negb (autoIrrigation (water w))
             then ScheduledFailedAuto (timeString t)
             else ScheduledFailedWater (timeString t)) w) p)
  else (Ok false, p).

(** [stopIrrigation()]: the log is its last statement. *)
Definition stopIrrigation (now : Z) (p : Page) : Result unit * Page :=
  if negb (isIrrigating (soil (world p))) then (Ok tt, p)
  else
    logMoisture now "irrigation_complete"
      (setWorld (Soil.stopIrrigation now (world p)) p).

(** [Math.random() < x]. *)
Definition below (draw x : Q) : bool := negb (Qle_bool x draw).

(** The [while] loop of [processNaturalEvaporation], with the log that a
    round writes when its draw is below 0.3. The entry is taken from the
    settings [s] with the moisture and the accumulator of that round. The
    result carries the settings at the end of the loop, or at the exception
    that left it. *)
Fixpoint evaporationLoop (fuel : nat) (now : Z) (random : nat -> Q)
  (k : nat) (p : Soil.EvaporationParameters) (s : SoilSettings)
  (moisture accumulator : jsnum) (changed : bool)
  (stored : option (LogItem MoistureLog))
  : option (Result bool * SoilSettings * option (LogItem MoistureLog)) :=
  if (accumulator >=? Soil.interval p)%js then
    match fuel with
    | O => None
    | S fuel =>
        let moisture := JsNum.max (num 0) (moisture - Soil.rate p)%js in
        let accumulator := (accumulator - Soil.interval p)%js in
        let settings :=
          withAccumulator (withCurrentMoisture s moisture) accumulator in
        if below (random k) (3 # 10) then
          match
            SoilManager.logMoisture now ("evaporation_" ++ weather s)
              settings stored
          with
          | Ok l =>
              evaporationLoop fuel now random (S k) p s moisture accumulator
                true (Some (LogArray l))
          | Throw e => Some (Throw e, settings, stored)
          end
        else
          evaporationLoop fuel now random (S k) p s moisture accumulator
            true stored
    end
  else
    Some (Ok changed,
          withAccumulator (withCurrentMoisture s moisture) accumulator,
          stored).

(** [processNaturalEvaporation(timeDiff)]. *)
Definition processNaturalEvaporation (now : Z) (random : nat -> Q)
  (timeDiff : jsnum) (s : SoilSettings)
  (stored : option (LogItem MoistureLog))
  : option (Result bool * SoilSettings * option (LogItem MoistureLog)) :=
  let evaporationParams := Soil.getEvaporationParameters s in
  if (Soil.rate evaporationParams >? num 0)%js then
    let accumulator := (moistureDecreaseAccumulator s + timeDiff)%js in
    evaporationLoop
      (Soil.rounds accumulator (Soil.interval evaporationParams))
      now random 0 evaporationParams s (currentMoisture s) accumulator false
      stored
  else Some (Ok false, s, stored).

(** [updateMoisture()]: an exception of the loop leaves the method before
    the date of the last update is set and before the settings are saved;
    the periodic log is its last statement. [None] when the loop does not
    end. *)
Definition updateMoisture (now : Z) (draws : Draws) (p : Page)
  : option (Result unit * Page) :=
  let w := world p in
  let s := soil w in
  let lastUpdate := match lastUpdate s with
                    | Some t => t
                    | None => (now - 60000)%Z
                    end in
  let timeDiff := minutesSince now lastUpdate in
  let actualTimeDiff := JsNum.min timeDiff (num 60) in
  let s := if negb (validNumber (currentMoisture s))
           then withCurrentMoisture s (num 45) else s in
  match
    (if isIrrigating s
     then Some (Ok true, Soil.processIrrigationIncrease now actualTimeDiff s,
                soilMoistureLogs (logs p))
     else if negb (String.eqb (weather s) "hujan")
          then processNaturalEvaporation now (evaporation draws)
                 actualTimeDiff s (soilMoistureLogs (logs p))
          else Some (Ok false, s, soilMoistureLogs (logs p)))
  with
  | None => None
  | Some (Throw e, s, stored) =>
      Some (Throw e,
            {| world := setSoil s w;
               logs := {| irrigationLogs := irrigationLogs (logs p);
                          soilMoistureLogs := stored |} |})
  | Some (Ok moistureChanged, s, stored) =>
      let '(moistureChanged, s) :=
        if negb (validNumber (currentMoisture s))
        then (true, withCurrentMoisture s (num 45))
        else (moistureChanged, s) in
      let oldMoisture := currentMoisture s in
      let s := withCurrentMoisture s
                 (JsNum.max (num 0) (JsNum.min (num 100) oldMoisture)) in
      let moistureChanged :=
        if negb (JsNum.seq oldMoisture (currentMoisture s)) then true
        else moistureChanged in
      let s := withLastUpdate s (Some now) in
      let w := Soil.saveSettings (setSoil s w) in
      let w := if moistureChanged then Soil.updateDisplay w else w in
      let p := {| world := w;
                  logs := {| irrigationLogs := irrigationLogs (logs p);
                             soilMoistureLogs := stored |} |} in
      Some (if below (periodic draws) (1 # 10)
            then logMoisture now "periodic_update" p
            else (Ok tt, p))
  end.

(** One event on the page with its logs, with the draws a tick makes. An
    exception that leaves the callback of a timer or the handler of a click
    ends the event; the page stays as the exception left it. *)
Definition step (now : Z) (e : Event) (draws : Draws) (p : Page)
  : option Page :=
  match e with
  | SlotTimer t => Some (snd (scheduleCheck t now p))
  | ManualClick => Some (snd (manualTrigger now p))
  | MoistureTick =>
      match updateMoisture now draws p with
      | Some r => Some (snd r)
      | None => None
      end
  | ScheduleTick =>
      Some (setWorld (snd (Soil.checkScheduledIrrigation now (world p))) p)
  | StopTimeout k =>
      match nth_error (timeouts (world p)) k with
      | Some (setAt, delay) =>
          if Qle_bool (dueTime setAt delay) (inject_Z now)
          then Some (snd (stopIrrigation now
                            (setWorld
                               (setTimeouts
                                  (removeNth k (timeouts (world p)))
                                  (world p)) p)))
          else None
      | None => None
      end
  end.

(** A run of events whose times do not go back behind [clock]; the steps
    record the page without its logs. *)
Fixpoint run (clock : Z) (trace : list (Z * Event * Draws)) (p : Page)
  : option (list Step) :=
  match trace with
  | [] => Some []
  | (now, e, draws) :: rest =>
      if (clock <=? now)%Z then
        match step now e draws p with
        | Some p' =>
            match run now rest p' with
            | Some log =>
                Some ({| moment := now; event := e;
                         before := world p; after := world p' |} :: log)
            | None => None
            end
        | None => None
        end
      else None
  end.

End Logged.

(** No log was written yet. *)
Definition noLogs : Logs :=
  {| irrigationLogs := None; soilMoistureLogs := None |}.

(** Two enabled slots at 07:00 on a page without the soil manager. *)
Definition waterOnlyPage : Page :=
  {| world := setSoilManager false twinSlotWorld; logs := noLogs |}.

(** Draws that write no log. *)
Definition quietDraws : Draws :=
  {| evaporation := fun _ => 1; periodic := 1 |}.

(** Draws that write every log. *)
Definition loggingDraws : Draws :=
  {| evaporation := fun _ => 0; periodic := 0 |}.

(** A page without logs yet. *)
Definition freshPage (w : World) : Page := {| world := w; logs := noLogs |}.

(** A page whose log of the moisture does not parse. *)
Definition brokenMoistureLog (w : World) : Page :=
  {| world := w;
     logs := {| irrigationLogs := None;
                soilMoistureLogs := Some LogMalformed |} |}.

(** A page whose log of the irrigations is no array. *)
Definition brokenIrrigationLog (w : World) : Page :=
  {| world := w;
     logs := {| irrigationLogs := Some LogNotArray;
                soilMoistureLogs := None |} |}.

(** Dry soil and 5 l in the tank. *)
Definition dryLowTankWorld : World :=
  setWater (withCurrentLevel sampleWater (num 5)) dryWorld.

(** 70 l in the tank: five days of two irrigations of 7 l. *)
Definition fiveDaysWorld : World :=
  setWater (withCurrentLevel sampleWater (num 70)) sampleWorld.

(** What [parseInt] gives for the text of an input: a number, or NaN for a
    text that does not start with one, as for an input left empty. *)
Definition parsedInt (a : jsnum) : Prop := a = NaN \/ exists q, a = Fin q.

(** The form of [sampleForm] with the threshold left empty. *)
Definition formWithoutThreshold : SettingsForm :=
  {| f_tankCapacity := num 90; f_irrigationVolume := num 7;
     f_lowLevelThreshold := NaN;
     f_schedule1 := "07:00"; f_schedule2 := "16:00";
     f_schedule1Enabled := true; f_schedule2Enabled := true;
     f_soilMin := num 40; f_soilMax := num 80; f_soilOptimal := num 65;
     f_duration := num 30; f_interval := num 30;
     f_enableAlerts := true; f_enableAutoIrrigation := true |}.

(** A stored document with a moisture of 150 percent and a duration of 3
    minutes. *)
Definition outOfRangeDoc : SoilDoc := {|
  d_currentMoisture := Some (JNum 150);
  d_irrigationDuration := Some (JNum 3);
  d_weather := Some "mendung"%string;
  d_isIrrigating := Some false;
  d_scheduledIrrigations := Some ["07:00"; "16:00"]%string;
  d_irrigationStartTime := None;
  d_irrigationTargetMoisture := Some (JNum 40);
  d_lastUpdate := Some 0%Z;
  d_lastIrrigationCheck := Some 0%Z;
  d_lastMoistureDecrease := Some 0%Z;
  d_moistureDecreaseAccumulator := Some (JNum 0);
  d_moistureThresholds := None;
  d_autoIrrigation := None
|}.

(** A store that holds that document and nothing else. *)
Definition outOfRangeStorage : Storage :=
  {| soilMoistureSettings := Some (JsonObj outOfRangeDoc);
     waterVolumeSettings := None;
     irrigationSettings := None |}.

(** The page of [corruptedWorld] before its start, with an
    [irrigationSettings] item that does not parse. *)
Definition unreadableSettingsWorld : World :=
  setSoilManager false
    (setStorage
       {| soilMoistureSettings := Some (JsonObj corruptedDoc);
          waterVolumeSettings := None;
          irrigationSettings := Some Malformed |} sampleWorld).

(* ================================================================== *)
(** * Properties *)

Open Scope string_scope.

(** ** Facts on numbers *)

Lemma Qsign_pos (q : Q) : 0 < q -> Qsign q = Gt.
Proof. intro H. unfold Qsign. now apply Qgt_alt. Qed.

Lemma div_fin_pos (x y : Q) : 0 < y -> (Fin x / Fin y)%js = Fin (x / y).
Proof. intro H. unfold div. now rewrite (Qsign_pos H). Qed.

Lemma Qle_bool_false (x y : Q) : Qle_bool x y = false <-> y < x.
Proof.
  split; intro H.
  - apply Qnot_le_lt. intro L. apply Qle_bool_iff in L. congruence.
  - destruct (Qle_bool x y) eqn:E; [|reflexivity].
    apply Qle_bool_iff in E. exfalso. lra.
Qed.

Lemma Qfloor_unique (x : Q) (z : Z) :
  inject_Z z <= x -> x < inject_Z (z + 1) -> Qfloor x = z.
Proof.
  intros L U.
  pose proof (Qfloor_le x) as L'. pose proof (Qlt_floor x) as U'.
  assert (A : (z < Qfloor x + 1)%Z).
  { rewrite Zlt_Qlt. lra. }
  assert (B : (Qfloor x < z + 1)%Z).
  { rewrite Zlt_Qlt. lra. }
  lia.
Qed.

Lemma minutesSince_whole (t0 k : Z) :
  exists q, minutesSince (t0 + 60000 * k) t0 = Fin q /\ q == inject_Z k.
Proof.
  unfold minutesSince, num.
  rewrite !div_fin_pos by reflexivity.
  eexists; split; [reflexivity|].
  replace (t0 + 60000 * k - t0)%Z with (60000 * k)%Z by lia.
  rewrite inject_Z_mult. field.
Qed.

Lemma inject_Z_pred (z : Z) : inject_Z (z - 1) == inject_Z z - 1.
Proof. unfold Z.sub. rewrite inject_Z_plus. reflexivity. Qed.

Lemma inject_Z_succ (z : Z) : inject_Z (z + 1) == inject_Z z + 1.
Proof. rewrite inject_Z_plus. reflexivity. Qed.

Lemma Qfloor_shift (x i : Q) :
  0 < i -> Qfloor ((x - i) / i) = (Qfloor (x / i) - 1)%Z.
Proof.
  intro H.
  assert (E : (x - i) / i == x / i - 1) by (field; lra).
  apply Qfloor_unique.
  - pose proof (Qfloor_le (x / i)) as L.
    rewrite inject_Z_pred, E. lra.
  - pose proof (Qlt_floor (x / i)) as U.
    replace (Qfloor (x / i) - 1 + 1)%Z with (Qfloor (x / i)) by lia.
    rewrite inject_Z_succ in U. rewrite E. lra.
Qed.

Lemma Qfloor_nonneg (x : Q) : 0 <= x -> (0 <= Qfloor x)%Z.
Proof.
  intro H. replace 0%Z with (Qfloor 0) by reflexivity.
  now apply Qfloor_resp_le.
Qed.

Lemma Qdiv_pos_le (x i : Q) : 0 < i -> 0 <= x -> 0 <= x / i.
Proof.
  intros Hi Hx. apply Qle_shift_div_l; [assumption|]. lra.
Qed.

Lemma Qdiv_lt_1 (x i : Q) : 0 < i -> x / i < 1 -> x < i.
Proof.
  intros Hi H. apply Qmult_lt_r with (z := i) in H; [|assumption].
  setoid_replace (x / i * i) with x in H by (field; lra). lra.
Qed.

Lemma Qdiv_ge_1 (x i : Q) : 0 < i -> 1 <= x / i -> i <= x.
Proof.
  intros Hi H. apply Qmult_le_r with (z := i) in H; [|assumption].
  setoid_replace (x / i * i) with x in H by (field; lra). lra.
Qed.

Lemma sub_fin (x y : Q) : (Fin x - Fin y)%js = Fin (x - y).
Proof. reflexivity. Qed.

Lemma add_fin (x y : Q) : (Fin x + Fin y)%js = Fin (x + y).
Proof. reflexivity. Qed.

Lemma max_fin (x y : Q) :
  exists z, JsNum.max (Fin x) (Fin y) = Fin z /\ z == Qmax x y.
Proof.
  unfold max, le. destruct (Qle_bool x y) eqn:E.
  - exists y. split; [reflexivity|]. apply Qle_bool_iff in E.
    now rewrite Q.max_r.
  - exists x. split; [reflexivity|]. apply Qle_bool_false in E.
    rewrite Q.max_l; [reflexivity|lra].
Qed.

Lemma min_fin (x y : Q) :
  exists z, JsNum.min (Fin x) (Fin y) = Fin z /\ z == Qmin x y.
Proof.
  unfold min, le. destruct (Qle_bool x y) eqn:E.
  - exists x. split; [reflexivity|]. apply Qle_bool_iff in E.
    now rewrite Q.min_l.
  - exists y. split; [reflexivity|]. apply Qle_bool_false in E.
    rewrite Q.min_r; [reflexivity|lra].
Qed.

Lemma Qmax0_sub (m k : Q) :
  1 <= k -> Qmax 0 (Qmax 0 (m - 1) - (k - 1)) == Qmax 0 (m - k).
Proof.
  intro K.
  destruct (Q.max_spec 0 (m - 1)) as [[H1 H2]|[H1 H2]]; rewrite H2;
  destruct (Q.max_spec 0 (m - k)) as [[H3 H4]|[H3 H4]]; rewrite H4.
  - destruct (Q.max_spec 0 (m - 1 - (k - 1))) as [[H5 H6]|[H5 H6]];
      rewrite H6; lra.
  - destruct (Q.max_spec 0 (m - 1 - (k - 1))) as [[H5 H6]|[H5 H6]];
      rewrite H6; lra.
  - destruct (Q.max_spec 0 (0 - (k - 1))) as [[H5 H6]|[H5 H6]];
      rewrite H6; lra.
  - destruct (Q.max_spec 0 (0 - (k - 1))) as [[H5 H6]|[H5 H6]];
      rewrite H6; lra.
Qed.

Section Loop.
Variable i : Q.
Hypothesis i_pos : 0 < i.
Let p := {| Soil.rate := num 1; Soil.interval := Fin i |}.

Lemma evaporationLoop_fin (fuel : nat) :
    forall (m acc : Q) (ch : bool),
      0 <= m -> 0 <= acc -> Z.to_nat (Qfloor (acc / i)) = fuel ->
      exists m' acc' ch',
        Soil.evaporationLoop fuel p (Fin m) (Fin acc) ch
        = Some (Fin m', Fin acc', ch')
        /\ m' == Qmax 0 (m - inject_Z (Qfloor (acc / i)))
        /\ acc' == acc - i * inject_Z (Qfloor (acc / i))
        /\ 0 <= acc' /\ acc' < i.
  Proof.
    induction fuel as [|fuel IH]; intros m acc ch Hm Hacc Hf.
    - assert (F : Qfloor (acc / i) = 0%Z).
      { pose proof (Qfloor_nonneg (Qdiv_pos_le i_pos Hacc)). lia. }
      assert (L : acc < i).
      { pose proof (Qlt_floor (acc / i)) as U. rewrite F in U.
        apply Qdiv_lt_1; [assumption|]. exact U. }
      exists m, acc, ch. rewrite F. cbn.
      replace (Qle_bool i acc) with false
        by (symmetry; now apply Qle_bool_false).
      change (inject_Z 0) with 0.
      repeat split; try lra.
      rewrite Q.max_r; lra.
    - assert (F : (Qfloor (acc / i) = Z.of_nat (S fuel))%Z) by lia.
      assert (K : 1 <= inject_Z (Qfloor (acc / i))).
      { rewrite F. rewrite <- (Zle_Qle 1). lia. }
      assert (G : i <= acc).
      { pose proof (Qfloor_le (acc / i)) as L.
        apply Qdiv_ge_1; [assumption|]. lra. }
      cbn [Soil.evaporationLoop]. cbn [Soil.interval p ge le].
      replace (Qle_bool i acc) with true
        by (symmetry; now apply Qle_bool_iff).
      cbn [Soil.rate p]. unfold num. rewrite !sub_fin.
      destruct (max_fin (inject_Z 0) (m - inject_Z 1)) as (m1 & -> & Hm1).
      change (inject_Z 0) with 0 in Hm1. change (inject_Z 1) with 1 in Hm1.
      assert (Hm1' : 0 <= m1).
      { rewrite Hm1. apply Q.le_max_l. }
      assert (Hacc1 : 0 <= acc - i) by lra.
      assert (F1 : Qfloor ((acc - i) / i) = (Qfloor (acc / i) - 1)%Z).
      { apply (Qfloor_shift acc i_pos). }
      destruct (IH m1 (acc - i) true Hm1' Hacc1)
        as (m' & acc' & ch' & E & A & B & C & D).
      { rewrite F1. lia. }
      exists m', acc', ch'. split; [exact E|].
      rewrite F1 in A, B. rewrite inject_Z_pred in A, B.
      repeat split; try assumption.
      + rewrite A, Hm1. now apply Qmax0_sub.
      + rewrite B. ring.
  Qed.
End Loop.

Lemma processNaturalEvaporation_cerah (s : SoilSettings) (td m a : Q) :
  weather s = "cerah" ->
  currentMoisture s = Fin m -> moistureDecreaseAccumulator s = Fin a ->
  0 <= m -> 0 <= a -> 0 <= td ->
  exists m' a' ch,
    Soil.processNaturalEvaporation (Fin td) s
    = Some (ch, withAccumulator (withCurrentMoisture s (Fin m')) (Fin a'))
    /\ m' == Qmax 0 (m - inject_Z (Qfloor ((a + td) / 15)))
    /\ a' == a + td - 15 * inject_Z (Qfloor ((a + td) / 15))
    /\ 0 <= a' /\ a' < 15.
Proof.
  intros Hw Hm Ha Pm Pa Ptd.
  unfold Soil.processNaturalEvaporation, Soil.getEvaporationParameters.
  rewrite Hw, Hm, Ha. cbn [String.eqb Ascii.eqb Bool.eqb Soil.rate Soil.interval].
  change (num 1 >? num 0)%js with true. cbv iota.
  rewrite add_fin. unfold Soil.rounds, num.
  assert (P15 : 0 < inject_Z 15) by reflexivity.
  assert (Pacc : 0 <= a + td) by lra.
  destruct (evaporationLoop_fin P15 false Pm Pacc eq_refl)
    as (m' & a' & ch' & E & A & B & C & D).
  unfold num in E. rewrite E.
  exists m', a', ch'. repeat split; assumption.
Qed.

Lemma soil_saveSettings (w : World) : soil (Soil.saveSettings w) = soil w.
Proof. reflexivity. Qed.

Lemma updateDisplay_valid (w : World) (m : Q) :
  currentMoisture (soil w) = Fin m -> 0 <= m -> m <= 100 ->
  Soil.updateDisplay w = w.
Proof.
  intros E L U. unfold Soil.updateDisplay. rewrite E.
  unfold gt, lt, num, validNumber, isNaN.
  replace (Qle_bool (inject_Z 0) m) with true
    by (symmetry; now apply Qle_bool_iff).
  replace (Qle_bool m (inject_Z 100)) with true
    by (symmetry; now apply Qle_bool_iff).
  reflexivity.
Qed.

Lemma Qmin_whole_60 (k : Z) :
  (0 <= k)%Z -> Qmin (inject_Z k) (inject_Z 60) == inject_Z (Z.min k 60).
Proof.
  intro H. destruct (Z.min_spec k 60) as [[L ->]|[L ->]].
  - apply Q.min_l. rewrite <- (Zle_Qle k 60). lia.
  - apply Q.min_r. rewrite <- (Zle_Qle 60 k). lia.
Qed.

Lemma updateMoisture_evaporating (w : World) (t k : Z) (m a : Q) :
  Evaporating w t m a -> 0 <= m -> m <= 100 -> 0 <= a -> (0 <= k)%Z ->
  let e := inject_Z (Z.min k 60) in
  let f := inject_Z (Qfloor ((a + e) / 15)) in
  exists w',
    Soil.updateMoisture (t + 60000 * k) w = Some w'
    /\ Evaporating w' (t + 60000 * k) (Qmax 0 (m - f)) (a + e - 15 * f).
Proof.
  intros (Hw & Hi & Hl & (m0 & Hm & Em) & (a0 & Ha & Ea)) Pm Um Pa Pk e f.
  unfold Soil.updateMoisture. rewrite Hl, Hm.
  destruct (minutesSince_whole t k) as (q & -> & Eq).
  destruct (min_fin q (inject_Z 60)) as (td & Etd & Htd).
  fold (num 60) in Etd. rewrite Etd.
  cbn [validNumber isNaN negb].
  rewrite Hi, Hw.
  cbn [String.eqb Ascii.eqb Bool.eqb negb].
  assert (Etd' : td == e).
  { rewrite Htd, Eq. apply Qmin_whole_60. exact Pk. }
  assert (Ptd : 0 <= td).
  { rewrite Etd'. unfold e. rewrite <- (Zle_Qle 0). lia. }
  assert (Pm0 : 0 <= m0) by (rewrite Em; exact Pm).
  assert (Pa0 : 0 <= a0) by (rewrite Ea; exact Pa).
  destruct (@processNaturalEvaporation_cerah (soil w) td m0 a0 Hw Hm Ha
              Pm0 Pa0 Ptd) as (m' & a' & ch & E & A & B & C & D).
  rewrite E.
  assert (F : inject_Z (Qfloor ((a0 + td) / 15)) = f).
  { unfold f. f_equal. apply Qfloor_comp. now rewrite Ea, Etd'. }
  rewrite F in A, B.
  assert (A' : m' == Qmax 0 (m - f)) by (rewrite A, Em; reflexivity).
  assert (Pm' : 0 <= m').
  { rewrite A'. apply Q.le_max_l. }
  assert (Pf : 0 <= f).
  { unfold f. rewrite <- (Zle_Qle 0). apply Qfloor_nonneg.
    apply Qdiv_pos_le; [reflexivity|].
    unfold e. assert (0 <= inject_Z (Z.min k 60)).
    { rewrite <- (Zle_Qle 0). lia. } lra. }
  assert (Um' : m' <= 100).
  { rewrite A'. apply Q.max_lub; lra. }
  cbn [currentMoisture withAccumulator withCurrentMoisture validNumber isNaN
       negb].
  destruct (min_fin (inject_Z 100) m') as (x & Ex & Hx).
  fold (num 100) in Ex. rewrite Ex.
  destruct (max_fin (inject_Z 0) x) as (y & Ey & Hy).
  fold (num 0) in Ey. rewrite Ey.
  assert (Hy' : y == m').
  { rewrite Hy, Hx. change (inject_Z 0) with 0. change (inject_Z 100) with 100.
    rewrite Q.min_r by lra. rewrite Q.max_r by lra. reflexivity. }
  assert (V : forall u, currentMoisture (soil u) = Fin y ->
                        Soil.updateDisplay u = u).
  { intros u Hu. apply (updateDisplay_valid u Hu); rewrite Hy'; assumption. }
  rewrite V by reflexivity.
  match goal with
  | |- context [if ?c then ?x else ?x] =>
      replace (if c then x else x) with x by (destruct c; reflexivity)
  end.
  eexists. split; [reflexivity|].
  unfold Evaporating; cbn; repeat split; try assumption.
  - exists y; split; [reflexivity|]. rewrite Hy', A'. reflexivity.
  - exists a'; split; [reflexivity|]. rewrite B, Ea, Etd'. reflexivity.
Qed.

Lemma Evaporating_compat (w : World) (t : Z) (m m' a a' : Q) :
  m == m' -> a == a' -> Evaporating w t m a -> Evaporating w t m' a'.
Proof.
  intros Em Ea (Hw & Hi & Hl & (m0 & Hm & Em0) & (a0 & Ha & Ea0)).
  repeat split; try assumption.
  - exists m0. split; [assumption|]. now rewrite Em0.
  - exists a0. split; [assumption|]. now rewrite Ea0.
Qed.

Lemma Qfloor_sub_whole (x : Q) (z : Z) :
  Qfloor (x - inject_Z z) = (Qfloor x - z)%Z.
Proof.
  apply Qfloor_unique.
  - pose proof (Qfloor_le x). unfold Z.sub.
    rewrite inject_Z_plus, inject_Z_opp. lra.
  - pose proof (Qlt_floor x) as U. rewrite inject_Z_succ in U.
    rewrite inject_Z_succ. unfold Z.sub.
    rewrite inject_Z_plus, inject_Z_opp. lra.
Qed.

Lemma Qmax0_sub2 (m x y : Q) :
  0 <= x -> 0 <= y -> Qmax 0 (Qmax 0 (m - x) - y) == Qmax 0 (m - (x + y)).
Proof.
  intros Px Py.
  destruct (Q.max_spec 0 (m - x)) as [[H1 H2]|[H1 H2]]; rewrite H2;
  destruct (Q.max_spec 0 (m - (x + y))) as [[H3 H4]|[H3 H4]]; rewrite H4.
  - destruct (Q.max_spec 0 (m - x - y)) as [[H5 H6]|[H5 H6]]; rewrite H6; lra.
  - destruct (Q.max_spec 0 (m - x - y)) as [[H5 H6]|[H5 H6]]; rewrite H6; lra.
  - destruct (Q.max_spec 0 (0 - y)) as [[H5 H6]|[H5 H6]]; rewrite H6; lra.
  - destruct (Q.max_spec 0 (0 - y)) as [[H5 H6]|[H5 H6]]; rewrite H6; lra.
Qed.

Lemma Qmax0_bounds (m x : Q) :
  0 <= m -> m <= 100 -> 0 <= x -> 0 <= Qmax 0 (m - x) /\ Qmax 0 (m - x) <= 100.
Proof.
  intros. split; [apply Q.le_max_l|apply Q.max_lub; lra].
Qed.

Lemma floor_nonneg_div15 (x : Q) : 0 <= x -> 0 <= inject_Z (Qfloor (x / 15)).
Proof.
  intro H. rewrite <- (Zle_Qle 0). apply Qfloor_nonneg.
  apply Qdiv_pos_le; [reflexivity|assumption].
Qed.

Lemma rest15_bounds (x : Q) :
  0 <= x - 15 * inject_Z (Qfloor (x / 15))
  /\ x - 15 * inject_Z (Qfloor (x / 15)) < 15.
Proof.
  pose proof (Qfloor_le (x / 15)) as L.
  pose proof (Qlt_floor (x / 15)) as U. rewrite inject_Z_succ in U.
  assert (E : x == 15 * (x / 15)) by (field; discriminate).
  split; lra.
Qed.

Lemma Qfloor_small (a : Q) : 0 <= a -> a < 15 -> Qfloor (a / 15) = 0%Z.
Proof.
  intros L U. apply Qfloor_unique.
  - apply Qdiv_pos_le; [reflexivity|assumption].
  - apply Qlt_shift_div_r; [reflexivity|]. exact U.
Qed.

Lemma minuteTicks_evaporating (n : nat) :
  forall (w : World) (t : Z) (m a : Q),
    Evaporating w t m a -> 0 <= m -> m <= 100 -> 0 <= a -> a < 15 ->
    let f := inject_Z (Qfloor ((a + inject_Z (Z.of_nat n)) / 15)) in
    exists w',
      minuteTicks n t w = Some w'
      /\ Evaporating w' (t + 60000 * Z.of_nat n)
           (Qmax 0 (m - f)) (a + inject_Z (Z.of_nat n) - 15 * f).
Proof.
  induction n as [|n IH]; intros w t m a Hev Pm Um Pa Ua f.
  - exists w. split; [reflexivity|].
    replace (t + 60000 * Z.of_nat 0)%Z with t by lia.
    assert (F : f == 0).
    { unfold f. change (inject_Z (Z.of_nat 0)) with 0.
      assert (E0 : (a + 0) / 15 == a / 15) by (field; discriminate).
      rewrite (Qfloor_comp _ _ E0).
      now rewrite Qfloor_small. }
    apply (Evaporating_compat (m := m) (a := a)); [ | |assumption].
    + rewrite F. rewrite Q.max_r; lra.
    + rewrite F. change (inject_Z (Z.of_nat 0)) with 0. ring.
  - cbn [minuteTicks].
    destruct (@updateMoisture_evaporating w t 1 m a Hev Pm Um Pa)
      as (w1 & E1 & Hev1); [lia|].
    replace (t + 60000 * 1)%Z with (t + 60000)%Z in * by lia.
    rewrite E1.
    change (inject_Z (Z.min 1 60)) with 1 in Hev1.
    set (z1 := Qfloor ((a + 1) / 15)) in *.
    assert (P1 : 0 <= inject_Z z1).
    { apply floor_nonneg_div15. lra. }
    destruct (Qmax0_bounds (x := inject_Z z1) Pm Um P1) as (Pm1 & Um1).
    destruct (rest15_bounds (a + 1)) as (Pa1 & Ua1). fold z1 in Pa1, Ua1.
    destruct (IH w1 (t + 60000)%Z _ _ Hev1 Pm1 Um1 Pa1 Ua1) as (w' & E & Hev').
    exists w'. split; [exact E|].
    replace (t + 60000 * Z.of_nat (S n))%Z
      with (t + 60000 + 60000 * Z.of_nat n)%Z by lia.
    assert (N : inject_Z (Z.of_nat (S n)) == inject_Z (Z.of_nat n) + 1).
    { rewrite Nat2Z.inj_succ. unfold Z.succ. apply inject_Z_succ. }
    assert (F : Qfloor ((a + 1 - 15 * inject_Z z1 + inject_Z (Z.of_nat n)) / 15)
                = (Qfloor ((a + inject_Z (Z.of_nat (S n))) / 15) - z1)%Z).
    { rewrite <- Qfloor_sub_whole. apply Qfloor_comp.
      rewrite N. field. }
    rewrite F in Hev'.
    assert (P2 : (z1 <= Qfloor ((a + inject_Z (Z.of_nat (S n))) / 15))%Z).
    { apply Qfloor_resp_le. apply Qmult_le_compat_r; [|discriminate].
      rewrite N. assert (0 <= inject_Z (Z.of_nat n)).
      { rewrite <- (Zle_Qle 0). lia. } lra. }
    unfold f.
    set (zf := Qfloor ((a + inject_Z (Z.of_nat (S n))) / 15)) in *.
    assert (D : inject_Z (zf - z1) == inject_Z zf - inject_Z z1).
    { unfold Z.sub. rewrite inject_Z_plus, inject_Z_opp. reflexivity. }
    assert (P3 : 0 <= inject_Z zf - inject_Z z1).
    { rewrite <- D. rewrite <- (Zle_Qle 0). lia. }
    apply (Evaporating_compat (m := Qmax 0 (Qmax 0 (m - inject_Z z1)
                                           - inject_Z (zf - z1)))
             (a := a + 1 - 15 * inject_Z z1 + inject_Z (Z.of_nat n)
                   - 15 * inject_Z (zf - z1)));
      [ | |assumption].
    + rewrite D. rewrite Qmax0_sub2 by assumption.
      apply Q.max_compat; [reflexivity|]. ring.
    + rewrite D, N. ring.
Qed.

Lemma water_showNotification (n : Notice) (w : World) :
  water (showNotification n w) = water w.
Proof. reflexivity. Qed.

Lemma soil_showNotification (n : Notice) (w : World) :
  soil (showNotification n w) = soil w.
Proof. reflexivity. Qed.

Lemma water_startIrrigation (now : Z) (w : World) :
  water (Soil.startIrrigation now w) = water w.
Proof. unfold Soil.startIrrigation. destruct (isIrrigating (soil w)); reflexivity. Qed.

Lemma soilManager_startIrrigation (now : Z) (w : World) :
  soilManager (Soil.startIrrigation now w) = soilManager w.
Proof. unfold Soil.startIrrigation. destruct (isIrrigating (soil w)); reflexivity. Qed.

Lemma isIrrigating_startIrrigation (now : Z) (w : World) :
  isIrrigating (soil (Soil.startIrrigation now w)) = true.
Proof.
  unfold Soil.startIrrigation. destruct (isIrrigating (soil w)) eqn:E.
  - exact E.
  - reflexivity.
Qed.

Lemma startIrrigation_running (now : Z) (w : World) :
  isIrrigating (soil w) = true -> Soil.startIrrigation now w = w.
Proof. intro H. unfold Soil.startIrrigation. now rewrite H. Qed.

Lemma water_getCurrentMoistureStatus (w : World) :
  water (snd (Soil.getCurrentMoistureStatus w)) = water w.
Proof.
  unfold Soil.getCurrentMoistureStatus.
  destruct (negb (validNumber (currentMoisture (soil w)))); reflexivity.
Qed.

Lemma getCurrentMoistureStatus_valid (w : World) :
  validNumber (currentMoisture (soil w)) = true ->
  Soil.getCurrentMoistureStatus w = (currentMoisture (soil w), w).
Proof.
  intro H. unfold Soil.getCurrentMoistureStatus. now rewrite H.
Qed.

Lemma ge_valid (a b : jsnum) : (a >=? b)%js = true -> validNumber a = true.
Proof. destruct a, b; cbn; intro; (reflexivity || discriminate). Qed.

Lemma lt_valid (a b : jsnum) : (a <? b)%js = true -> validNumber a = true.
Proof. destruct a, b; cbn; intro; (reflexivity || discriminate). Qed.

Lemma lt_valid_r (a b : jsnum) : (a <? b)%js = true -> validNumber b = true.
Proof. destruct a, b; cbn; intro; (reflexivity || discriminate). Qed.

Lemma lt_not_ge (a b : jsnum) : (a <? b)%js = true -> (a >=? b)%js = false.
Proof.
  destruct a, b; simpl; try congruence.
  unfold ge, le. intro H. now apply negb_true_iff in H.
Qed.

Lemma ge_not_lt (a b : jsnum) : (a >=? b)%js = true -> (a <? b)%js = false.
Proof.
  destruct a, b; simpl; try congruence.
  unfold ge, le. intro H. now rewrite H.
Qed.

(** *** The wet-soil gate *)

Lemma performIrrigation_wet (now : Z) (w : World) :
  autoIrrigation (water w) = true -> soilManager w = true ->
  (currentMoisture (soil w) >=? num 35)%js = true ->
  Water.performIrrigation now w
  = (Some false, showNotification (SoilAlreadyWet (currentMoisture (soil w))) w).
Proof.
  intros Ha Hs Hm. unfold Water.performIrrigation.
  rewrite Ha, Hs. cbn [negb].
  rewrite (getCurrentMoistureStatus_valid w (ge_valid _ _ Hm)).
  now rewrite Hm.
Qed.

Lemma performIrrigation_auto_off (now : Z) (w : World) :
  autoIrrigation (water w) = false ->
  Water.performIrrigation now w
  = (Some false, showNotification AutoIrrigationDisabled w).
Proof. intro H. unfold Water.performIrrigation. now rewrite H. Qed.

Lemma callPerformIrrigation_wet (impl : Impl) :
  forall (now : Z) (w : World),
    soilManager w = true ->
    (currentMoisture (soil w) >=? num 35)%js = true ->
    water (snd (callPerformIrrigation impl now w)) = water w
    /\ fst (callPerformIrrigation impl now w) <> Some true.
Proof.
  induction impl as [|inner IH|inner IH]; intros now w Hs Hm.
  - cbn [callPerformIrrigation].
    destruct (autoIrrigation (water w)) eqn:Ha.
    + rewrite (performIrrigation_wet now w Ha Hs Hm). split; [reflexivity|discriminate].
    + rewrite (performIrrigation_auto_off now w Ha). split; [reflexivity|discriminate].
  - cbn [callPerformIrrigation].
    destruct (IH now w Hs Hm) as (Hw & Hr).
    destruct (callPerformIrrigation inner now w) as (r, w1). cbn [fst snd] in *.
    split; [|exact Hr].
    destruct (currentLevel (water w1) >=? irrigationVolume (water w1))%js;
      cbn [snd]; [rewrite water_startIrrigation|]; exact Hw.
  - cbn [callPerformIrrigation].
    destruct (currentLevel (water w) >=? irrigationVolume (water w))%js.
    + destruct (IH now w Hs Hm) as (Hw & Hr).
      destruct (callPerformIrrigation inner now w) as (r, w1). cbn [fst snd] in *.
      split; [|discriminate].
      rewrite water_showNotification, water_startIrrigation. exact Hw.
    + split; [reflexivity|discriminate].
Qed.

Lemma callPerformIrrigation_auto_off (impl : Impl) :
  forall (now : Z) (w : World),
    autoIrrigation (water w) = false ->
    water (snd (callPerformIrrigation impl now w)) = water w
    /\ fst (callPerformIrrigation impl now w) <> Some true.
Proof.
  induction impl as [|inner IH|inner IH]; intros now w Ha.
  - cbn [callPerformIrrigation].
    rewrite (performIrrigation_auto_off now w Ha). split; [reflexivity|discriminate].
  - cbn [callPerformIrrigation].
    destruct (IH now w Ha) as (Hw & Hr).
    destruct (callPerformIrrigation inner now w) as (r, w1). cbn [fst snd] in *.
    split; [|exact Hr].
    destruct (currentLevel (water w1) >=? irrigationVolume (water w1))%js;
      cbn [snd]; [rewrite water_startIrrigation|]; exact Hw.
  - cbn [callPerformIrrigation].
    destruct (currentLevel (water w) >=? irrigationVolume (water w))%js.
    + destruct (IH now w Ha) as (Hw & Hr).
      destruct (callPerformIrrigation inner now w) as (r, w1). cbn [fst snd] in *.
      split; [|discriminate].
      rewrite water_showNotification, water_startIrrigation. exact Hw.
    + split; [reflexivity|discriminate].
Qed.

Lemma scheduleCheck_wet (t : Timer) (now : Z) (w : World) :
  soilManager w = true ->
  (currentMoisture (soil w) >=? num 35)%js = true ->
  water (snd (scheduleCheck t now w)) = water w.
Proof.
  intros Hs Hm. unfold scheduleCheck.
  destruct (sameNumber (getHours now) (hours t)
            && sameNumber (getMinutes now) (minutes t)
            && (getSeconds now =? 0)%Z); [|reflexivity].
  destruct (autoIrrigation (water w)
            && (currentLevel (water w) >=? irrigationVolume (water w))%js);
    [|reflexivity].
  rewrite Hs.
  destruct (Soil.shouldTriggerIrrigation (soil w)).
  - cbn [snd].
    apply (callPerformIrrigation_wet (performIrrigationImpl w) now
             (showNotification (ScheduledStarted (timeString t)) w) Hs Hm).
  - pose proof (water_getCurrentMoistureStatus w) as H.
    destruct (Soil.getCurrentMoistureStatus w) as (m, w1). exact H.
Qed.

Lemma scheduleCheck_auto_off (t : Timer) (now : Z) (w : World) :
  autoIrrigation (water w) = false ->
  scheduleCheck t now w = (false, w)
  \/ scheduleCheck t now w
     = (false, showNotification (ScheduledFailedAuto (timeString t)) w).
Proof.
  intro Ha. unfold scheduleCheck. rewrite Ha. cbn [andb negb].
  destruct (sameNumber (getHours now) (hours t)
            && sameNumber (getMinutes now) (minutes t)
            && (getSeconds now =? 0)%Z); [right|left]; reflexivity.
Qed.

(** *** The water gate *)

Lemma performIrrigation_insufficient (now : Z) (w : World) :
  (currentLevel (water w) <? irrigationVolume (water w))%js = true ->
  let r := Water.performIrrigation now w in
  water (snd r) = water w
  /\ isIrrigating (soil (snd r)) = isIrrigating (soil w)
  /\ timeouts (snd r) = timeouts w
  /\ fst r = Some false
  /\ (validNumber (currentMoisture (soil w)) = true ->
      soil (snd r) = soil w /\ storage (snd r) = storage w).
Proof.
  intros Hlt r. subst r. unfold Water.performIrrigation.
  rewrite (lt_valid _ _ Hlt), (lt_valid_r _ _ Hlt), (lt_not_ge _ _ Hlt).
  destruct (autoIrrigation (water w)); cbn [negb].
  2: { cbn. repeat split; reflexivity. }
  destruct (soilManager w).
  2: { cbn. repeat split; reflexivity. }
  unfold Soil.getCurrentMoistureStatus.
  destruct (validNumber (currentMoisture (soil w))) eqn:V; cbn [negb].
  - destruct (currentMoisture (soil w) >=? num 35)%js; cbn;
      repeat split; reflexivity.
  - cbn. repeat split; try reflexivity; discriminate.
Qed.

Lemma callPerformIrrigation_insufficient (impl : Impl) :
  forall (now : Z) (w : World),
    (currentLevel (water w) <? irrigationVolume (water w))%js = true ->
    let r := callPerformIrrigation impl now w in
    water (snd r) = water w
    /\ isIrrigating (soil (snd r)) = isIrrigating (soil w)
    /\ timeouts (snd r) = timeouts w
    /\ fst r <> Some true
    /\ (validNumber (currentMoisture (soil w)) = true ->
        soil (snd r) = soil w /\ storage (snd r) = storage w).
Proof.
  induction impl as [|inner IH|inner IH]; intros now w Hlt r; subst r.
  - cbn [callPerformIrrigation].
    destruct (performIrrigation_insufficient now w Hlt) as (A & B & C & D & E).
    repeat split; try assumption; try (now apply E).
    rewrite D. discriminate.
  - cbn [callPerformIrrigation].
    destruct (IH now w Hlt) as (A & B & C & D & E).
    destruct (callPerformIrrigation inner now w) as (r, w1).
    cbn [fst snd] in *. rewrite A, (lt_not_ge _ _ Hlt). cbn [fst snd].
    repeat split; try assumption; now apply E.
  - cbn [callPerformIrrigation]. rewrite (lt_not_ge _ _ Hlt). cbn.
    repeat split; try reflexivity. discriminate.
Qed.

Lemma performIrrigation_insufficient_outcome (now : Z) (w : World) :
  (currentLevel (water w) <? irrigationVolume (water w))%js = true ->
  autoIrrigation (water w) = true ->
  soilManager w = false \/ (currentMoisture (soil w) <? num 35)%js = true ->
  Water.performIrrigation now w
  = (Some false, showNotification InsufficientWater w).
Proof.
  intros Hlt Ha Hs. unfold Water.performIrrigation.
  rewrite (lt_valid _ _ Hlt), (lt_valid_r _ _ Hlt), (lt_not_ge _ _ Hlt), Ha.
  cbn [negb].
  destruct Hs as [Hs|Hm].
  - now rewrite Hs.
  - destruct (soilManager w); [|reflexivity].
    rewrite (getCurrentMoistureStatus_valid w (lt_valid _ _ Hm)).
    assert (G : (currentMoisture (soil w) >=? num 35)%js = false).
    { now apply lt_not_ge. }
    now rewrite G.
Qed.

Lemma synced_insufficient (inner : Impl) (now : Z) (w : World) :
  (currentLevel (water w) <? irrigationVolume (water w))%js = true ->
  callPerformIrrigation (Synced inner) now w
  = (None, showNotification InsufficientWater w).
Proof.
  intro Hlt. cbn [callPerformIrrigation]. now rewrite (lt_not_ge _ _ Hlt).
Qed.

(** *** The debounce of the soil manager's check *)

Lemma lastIrrigationCheck_syncWith (l : list string) (w : World) :
  lastIrrigationCheck (soil (Soil.syncWith l w)) = lastIrrigationCheck (soil w).
Proof.
  unfold Soil.syncWith.
  destruct (differ (sort (scheduledIrrigations (soil w))) (sort l)); reflexivity.
Qed.

Lemma lastIrrigationCheck_forceSync (w : World) :
  lastIrrigationCheck (soil (Soil.forceSyncScheduledIrrigations w))
  = lastIrrigationCheck (soil w).
Proof.
  unfold Soil.forceSyncScheduledIrrigations.
  set (w1 := if waterManager w then _ else w).
  assert (H : lastIrrigationCheck (soil w1) = lastIrrigationCheck (soil w)).
  { unfold w1. destruct (waterManager w); [apply lastIrrigationCheck_syncWith|reflexivity]. }
  destruct (irrigationSettings (storage w1)) as [i|]; [|exact H].
  destruct (parse i) as [parsed|e]; [|exact H].
  destruct (g_waterLevel parsed); [|exact H].
  now rewrite lastIrrigationCheck_syncWith.
Qed.

Lemma minutesSince_gt_2 (now before : Z) :
  (minutesSince now before >? num 2)%js = true <-> (120000 < now - before)%Z.
Proof.
  unfold minutesSince, num. rewrite !div_fin_pos by reflexivity.
  unfold gt, lt. rewrite negb_true_iff, Qle_bool_false.
  set (d := (now - before)%Z).
  split; intro H.
  - assert (K : inject_Z 120000 < inject_Z d).
    { apply Qmult_lt_r with (z := / inject_Z 1000 * / inject_Z 60); [reflexivity|].
      setoid_replace (inject_Z 120000 * (/ inject_Z 1000 * / inject_Z 60))
        with (inject_Z 2) by reflexivity.
      setoid_replace (inject_Z d * (/ inject_Z 1000 * / inject_Z 60))
        with (inject_Z d / inject_Z 1000 / inject_Z 60)
        by (unfold Qdiv; ring).
      exact H. }
    now rewrite <- Zlt_Qlt in K.
  - rewrite Zlt_Qlt in H.
    apply Qmult_lt_r with (z := / inject_Z 1000 * / inject_Z 60) in H; [|reflexivity].
    setoid_replace (inject_Z 120000 * (/ inject_Z 1000 * / inject_Z 60))
      with (inject_Z 2) in H by reflexivity.
    setoid_replace (inject_Z d * (/ inject_Z 1000 * / inject_Z 60))
      with (inject_Z d / inject_Z 1000 / inject_Z 60) in H
      by (unfold Qdiv; ring).
    exact H.
Qed.

Lemma checkScheduledIrrigation_mark (now : Z) (w : World) :
  fst (Soil.checkScheduledIrrigation now w) = true ->
  lastIrrigationCheck (soil (snd (Soil.checkScheduledIrrigation now w))) = now
  /\ (120000 < now - lastIrrigationCheck (soil w))%Z.
Proof.
  unfold Soil.checkScheduledIrrigation.
  pose proof (lastIrrigationCheck_forceSync w) as L.
  destruct (includes _ _); [|discriminate].
  destruct (minutesSince now _ >? num 2)%js eqn:G; [|discriminate].
  intros _. split; [reflexivity|].
  rewrite <- L. now apply minutesSince_gt_2.
Qed.

Lemma checkScheduledIrrigation_quiet (now : Z) (w : World) :
  (now - lastIrrigationCheck (soil w) <= 120000)%Z ->
  fst (Soil.checkScheduledIrrigation now w) = false
  /\ lastIrrigationCheck (soil (snd (Soil.checkScheduledIrrigation now w)))
     = lastIrrigationCheck (soil w).
Proof.
  intro H. unfold Soil.checkScheduledIrrigation.
  pose proof (lastIrrigationCheck_forceSync w) as L.
  destruct (includes _ _); [|split; [reflexivity|exact L]].
  destruct (minutesSince now _ >? num 2)%js eqn:G.
  - apply minutesSince_gt_2 in G. rewrite L in G. lia.
  - split; [reflexivity|exact L].
Qed.

Lemma runChecks_after_mark (times : list Z) :
  forall w : World,
    Forall (apart (lastIrrigationCheck (soil w))) (fst (runChecks times w))
    /\ ForallOrdPairs apart (fst (runChecks times w)).
Proof.
  induction times as [|now rest IH]; intro w.
  - split; constructor.
  - cbn [runChecks].
    destruct (Soil.checkScheduledIrrigation now w) as (hit, w1) eqn:E.
    destruct (IH w1) as (A & B).
    destruct (runChecks rest w1) as (hits, w2). cbn [fst] in *.
    destruct hit.
    + destruct (@checkScheduledIrrigation_mark now w) as (M & G).
      { now rewrite E. }
      rewrite E in M. cbn [snd] in M. rewrite M in A.
      split.
      * constructor; [exact G|].
        eapply Forall_impl; [|exact A]. unfold apart. intros h Hh. lia.
      * constructor; assumption.
    + split; [|exact B].
      assert (L : lastIrrigationCheck (soil w1) = lastIrrigationCheck (soil w)).
      { destruct (Z_le_gt_dec (now - lastIrrigationCheck (soil w)) 120000) as [Q|Q].
        - destruct (checkScheduledIrrigation_quiet now w Q) as (_ & K).
          now rewrite E in K.
        - unfold Soil.checkScheduledIrrigation in E.
          pose proof (lastIrrigationCheck_forceSync w) as F.
          destruct (includes _ _).
          + destruct (minutesSince now _ >? num 2)%js; [discriminate|].
            injection E as <-. exact F.
          + injection E as <-. exact F. }
      now rewrite <- L.
Qed.

(** *** At most one consumption by two scheduled triggers *)

Lemma soilManager_calculateEmptyTime (now : Z) (w : World) :
  soilManager (Water.calculateEmptyTime now w) = soilManager w
  /\ soil (Water.calculateEmptyTime now w) = soil w.
Proof.
  unfold Water.calculateEmptyTime.
  destruct (negb (autoIrrigation (water w))); [split; reflexivity|].
  destruct (seq _ _); split; reflexivity.
Qed.

Lemma soilManager_updateDisplay (w : World) :
  soilManager (Water.updateDisplay w) = soilManager w.
Proof.
  unfold Water.updateDisplay.
  destruct (tankCountdown w); [|reflexivity].
  destruct (negb (validNumber (currentLevel (water w)))); reflexivity.
Qed.

Lemma soilManager_getCurrentMoistureStatus (w : World) :
  soilManager (snd (Soil.getCurrentMoistureStatus w)) = soilManager w.
Proof.
  unfold Soil.getCurrentMoistureStatus.
  destruct (negb (validNumber (currentMoisture (soil w)))); reflexivity.
Qed.

Lemma performIrrigation_consumes_starts (now : Z) (w : World) :
  soilManager w = true ->
  let r := Water.performIrrigation now w in
  soilManager (snd r) = true
  /\ (water (snd r) = water w \/ isIrrigating (soil (snd r)) = true).
Proof.
  intros Hs r. subst r. unfold Water.performIrrigation.
  destruct (negb (autoIrrigation (water w))).
  { split; [exact Hs|left; reflexivity]. }
  rewrite Hs.
  pose proof (soilManager_getCurrentMoistureStatus w) as S1.
  pose proof (water_getCurrentMoistureStatus w) as W1.
  destruct (Soil.getCurrentMoistureStatus w) as (m, w1). cbn [snd] in *.
  rewrite Hs in S1.
  destruct (m >=? num 35)%js.
  { split; [exact S1|left; exact W1]. }
  match goal with
  | |- context [if ?c then _ else _] => destruct c
  end.
  2: { split; [exact S1|left; exact W1]. }
  cbn [fst snd].
  match goal with
  | |- context [Water.saveSettings ?x] => set (w2 := x)
  end.
  assert (S2 : soilManager (Water.saveSettings w2) = true).
  { change (soilManager (Water.saveSettings w2)) with (soilManager w2).
    unfold w2. rewrite soilManager_updateDisplay.
    rewrite (proj1 (soilManager_calculateEmptyTime now _)). exact S1. }
  rewrite S2. split.
  - change (soilManager (Soil.startIrrigation now (Water.saveSettings w2)) = true).
    now rewrite soilManager_startIrrigation.
  - right. apply isIrrigating_startIrrigation.
Qed.

Lemma callPerformIrrigation_consumes_starts (impl : Impl) :
  forall (now : Z) (w : World),
    soilManager w = true ->
    let r := callPerformIrrigation impl now w in
    soilManager (snd r) = true
    /\ (water (snd r) = water w \/ isIrrigating (soil (snd r)) = true).
Proof.
  induction impl as [|inner IH|inner IH]; intros now w Hs r; subst r.
  - apply performIrrigation_consumes_starts. exact Hs.
  - cbn [callPerformIrrigation].
    destruct (IH now w Hs) as (A & B).
    destruct (callPerformIrrigation inner now w) as (r, w1). cbn [fst snd] in *.
    destruct (currentLevel (water w1) >=? irrigationVolume (water w1))%js;
      cbn [snd].
    + rewrite soilManager_startIrrigation. split; [exact A|].
      right. apply isIrrigating_startIrrigation.
    + split; assumption.
  - cbn [callPerformIrrigation].
    destruct (currentLevel (water w) >=? irrigationVolume (water w))%js.
    + destruct (IH now w Hs) as (A & B).
      destruct (callPerformIrrigation inner now w) as (r, w1). cbn [fst snd] in *.
      split.
      * change (soilManager (Soil.startIrrigation now w1) = true).
        now rewrite soilManager_startIrrigation.
      * right. change (isIrrigating (soil (Soil.startIrrigation now w1)) = true).
        apply isIrrigating_startIrrigation.
    + split; [exact Hs|left; reflexivity].
Qed.

Lemma scheduleCheck_consumes_starts (t : Timer) (now : Z) (w : World) :
  soilManager w = true ->
  let r := scheduleCheck t now w in
  soilManager (snd r) = true
  /\ (water (snd r) = water w \/ isIrrigating (soil (snd r)) = true).
Proof.
  intros Hs r. subst r. unfold scheduleCheck.
  destruct (sameNumber (getHours now) (hours t)
            && sameNumber (getMinutes now) (minutes t)
            && (getSeconds now =? 0)%Z); [|split; [exact Hs|left; reflexivity]].
  destruct (autoIrrigation (water w)
            && (currentLevel (water w) >=? irrigationVolume (water w))%js);
    [|split; [exact Hs|left; reflexivity]].
  rewrite Hs.
  destruct (Soil.shouldTriggerIrrigation (soil w)).
  - cbn [snd].
    apply (callPerformIrrigation_consumes_starts (performIrrigationImpl w) now
             (showNotification (ScheduledStarted (timeString t)) w) Hs).
  - pose proof (water_getCurrentMoistureStatus w) as H.
    pose proof (soilManager_getCurrentMoistureStatus w) as S.
    destruct (Soil.getCurrentMoistureStatus w) as (m, w1). cbn [snd] in *.
    split; [now rewrite <- Hs|left; exact H].
Qed.

Lemma scheduleCheck_running (t : Timer) (now : Z) (w : World) :
  soilManager w = true -> isIrrigating (soil w) = true ->
  fst (scheduleCheck t now w) = false
  /\ water (snd (scheduleCheck t now w)) = water w.
Proof.
  intros Hs Hi. unfold scheduleCheck.
  destruct (sameNumber (getHours now) (hours t)
            && sameNumber (getMinutes now) (minutes t)
            && (getSeconds now =? 0)%Z); [|split; reflexivity].
  destruct (autoIrrigation (water w)
            && (currentLevel (water w) >=? irrigationVolume (water w))%js);
    [|split; reflexivity].
  rewrite Hs. unfold Soil.shouldTriggerIrrigation. rewrite Hi.
  rewrite andb_false_r. cbn [andb negb].
  pose proof (water_getCurrentMoistureStatus w) as H.
  destruct (Soil.getCurrentMoistureStatus w) as (m, w1). split; [reflexivity|exact H].
Qed.

Lemma mul_fin (x y : Q) : (Fin x * Fin y)%js = Fin (x * y).
Proof. reflexivity. Qed.

Lemma rampTarget_le_40 (m : Q) : rampTarget m <= 40.
Proof. unfold rampTarget. apply Q.le_min_l. Qed.

Lemma rampStep_le_40 (m d e : Q) : rampStep m d e <= 40.
Proof.
  unfold rampStep. eapply Qle_trans; [apply Q.le_min_l|apply rampTarget_le_40].
Qed.

Lemma rampStep_claimed (m d e : Q) :
  0 < d -> 0 <= e -> e <= d -> rampStep m d e == claimedRamp m d e.
Proof.
  intros Pd Pe Ue. unfold rampStep, claimedRamp.
  pose proof (rampTarget_le_40 m) as T40.
  set (T := rampTarget m) in *.
  destruct (Qlt_le_dec T m) as [Lt|Ge].
  - (* the moisture is above the target, which is then 40 *)
    assert (E : T == 40).
    { unfold T, rampTarget.
      destruct (Q.min_spec 40 (Qmax 25 (m + 15))) as [[_ H]|[H1 H]]; [exact H|].
      exfalso. fold (rampTarget m) in H. fold T in H.
      pose proof (Q.le_max_r 25 (m + 15)). lra. }
    now rewrite E.
  - assert (K : (T - m) / d * e <= T - m).
    { assert (R : e / d <= 1).
      { apply Qle_shift_div_r; lra. }
      assert (P : 0 <= T - m) by lra.
      pose proof (Qmult_le_compat_r _ _ _ R P) as M.
      setoid_replace (e / d * (T - m)) with ((T - m) / d * e) in M
        by (field; lra).
      lra. }
    rewrite Q.min_r by lra. rewrite Q.min_r by lra. reflexivity.
Qed.

Lemma minutesSince_fin (now before : Z) :
  exists q, minutesSince now before = Fin q.
Proof.
  unfold minutesSince, num. rewrite !div_fin_pos by reflexivity.
  eexists; reflexivity.
Qed.

Lemma processIrrigationIncrease_fin (now : Z) (s : SoilSettings) (m d e : Q) :
  currentMoisture s = Fin m -> irrigationDuration s = Fin d -> 0 < d ->
  withinDuration now s = true ->
  exists m',
    currentMoisture (Soil.processIrrigationIncrease now (Fin e) s) = Fin m'
    /\ m' == rampStep m d e.
Proof.
  intros Hm Hd Pd Hin. unfold withinDuration in Hin.
  unfold Soil.processIrrigationIncrease. rewrite Hin, Hm, Hd.
  unfold num. rewrite add_fin.
  destruct (max_fin (inject_Z 25) (m + inject_Z 15)) as (x & -> & Hx).
  destruct (min_fin (inject_Z 40) x) as (T & -> & HT).
  rewrite sub_fin, (div_fin_pos _ Pd), mul_fin.
  cbn [currentMoisture withCurrentMoisture]. rewrite add_fin.
  destruct (min_fin T (m + (T - m) / d * e)) as (y & -> & Hy).
  destruct (min_fin (inject_Z 40) y) as (z & -> & Hz).
  exists z. split; [reflexivity|].
  assert (ET : T == rampTarget m).
  { unfold rampTarget. rewrite HT, Hx. reflexivity. }
  rewrite Hz, Hy. unfold rampStep. rewrite ET.
  apply Q.min_r.
  eapply Qle_trans; [apply Q.le_min_l|apply rampTarget_le_40].
Qed.

Lemma processIrrigationIncrease_target (now : Z) (timeDiff target : jsnum)
  (s : SoilSettings) :
  currentMoisture
    (Soil.processIrrigationIncrease now timeDiff
       (withIrrigation s (isIrrigating s) (irrigationStartTime s) target))
  = currentMoisture (Soil.processIrrigationIncrease now timeDiff s).
Proof.
  unfold Soil.processIrrigationIncrease. cbn.
  match goal with |- context [if ?c then _ else _] => destruct c end;
    reflexivity.
Qed.

Lemma updateMoisture_irrigating (now : Z) (w : World) (m d : Q) :
  isIrrigating (soil w) = true ->
  currentMoisture (soil w) = Fin m -> irrigationDuration (soil w) = Fin d ->
  0 < d -> withinDuration now (soil w) = true ->
  exists w' e m',
    Soil.updateMoisture now w = Some w'
    /\ currentMoisture (soil w') = Fin m'
    /\ m' == Qmax 0 (rampStep m d e) /\ 0 <= m' /\ m' <= 40.
Proof.
  intros Hi Hm Hd Pd Hin. unfold Soil.updateMoisture.
  destruct (minutesSince_fin now (match lastUpdate (soil w) with
                                  | Some t => t
                                  | None => (now - 60000)%Z
                                  end)) as (q & ->).
  destruct (min_fin q (inject_Z 60)) as (e & Ee & He).
  fold (num 60) in Ee. rewrite Ee, Hm. cbn [validNumber isNaN negb]. rewrite Hi.
  destruct (processIrrigationIncrease_fin now (soil w) e Hm Hd Pd Hin)
    as (m1 & E1 & H1).
  rewrite E1. cbn [validNumber isNaN negb]. rewrite ?E1.
  destruct (min_fin (inject_Z 100) m1) as (x & Ex & Hx).
  fold (num 100) in Ex. rewrite Ex.
  destruct (max_fin (inject_Z 0) x) as (y & Ey & Hy).
  fold (num 0) in Ey. rewrite Ey.
  pose proof (rampStep_le_40 m d e) as U.
  assert (Hy' : y == Qmax 0 (rampStep m d e)).
  { rewrite Hy, Hx, H1. change (inject_Z 0) with 0.
    change (inject_Z 100) with 100. rewrite Q.min_r by lra. reflexivity. }
  assert (Py : 0 <= y) by (rewrite Hy'; apply Q.le_max_l).
  assert (Uy : y <= 40) by (rewrite Hy'; apply Q.max_lub; lra).
  assert (V : forall u, currentMoisture (soil u) = Fin y ->
                        Soil.updateDisplay u = u).
  { intros u Hu. apply (updateDisplay_valid u Hu); lra. }
  cbn [currentMoisture withCurrentMoisture].
  rewrite V by reflexivity.
  match goal with
  | |- context [if ?c then ?x else ?x] =>
      replace (if c then x else x) with x by (destruct c; reflexivity)
  end.
  eexists. exists e, y. split; [reflexivity|].
  split; [reflexivity|]. repeat split; assumption.
Qed.

(** *** Rain *)

Lemma applyRainEffect_range (random : Q) (w : World) :
  0 <= random -> random < 1 ->
  exists m,
    currentMoisture (soil (Soil.applyRainEffect random w)) = Fin m
    /\ 75 <= m /\ m <= 90
    /\ moistureDecreaseAccumulator (soil (Soil.applyRainEffect random w))
       = num 0.
Proof.
  intros L U. unfold Soil.applyRainEffect, num.
  rewrite mul_fin, add_fin.
  destruct (max_fin (inject_Z 0) (inject_Z 75 + random * inject_Z 15))
    as (x & -> & Hx).
  destruct (min_fin (inject_Z 100) x) as (y & -> & Hy).
  assert (B : 75 <= y /\ y <= 90).
  { rewrite Hy, Hx. change (inject_Z 0) with 0. change (inject_Z 75) with 75.
    change (inject_Z 100) with 100. change (inject_Z 15) with 15.
    rewrite Q.max_r by lra. rewrite Q.min_r by lra. lra. }
  destruct B as (B1 & B2).
  rewrite (@updateDisplay_valid _ y) by (try reflexivity; lra).
  exists y. repeat split; assumption.
Qed.

Lemma currentMoisture_applyIrrigationSettings (g : GlobalDoc) (s : SoilSettings) :
  currentMoisture (fst (Soil.applyIrrigationSettings g s)) = currentMoisture s.
Proof.
  unfold Soil.applyIrrigationSettings.
  destruct (g_irrigation g) as [i|]; [destruct (truthy (duration i))|];
    destruct (g_waterLevel g); reflexivity.
Qed.

Lemma currentMoisture_ensureValid (s : SoilSettings) (a : option (option json)) :
  currentMoisture (Soil.ensureValid s a)
  = if negb (validNumber (currentMoisture s))
       || (currentMoisture s <? num 0)%js
       || (currentMoisture s >? num 100)%js
    then num 45 else currentMoisture s.
Proof.
  unfold Soil.ensureValid.
  destruct (negb (validNumber (currentMoisture s))
            || (currentMoisture s <? num 0)%js
            || (currentMoisture s >? num 100)%js)%bool;
    destruct a as [[[| |q| |]|]|]; try reflexivity.
  all: match goal with
       | |- context [if ?c then _ else _] => destruct c; reflexivity
       end.
Qed.

Lemma currentMoisture_applySaved (d : SoilDoc) (s : SoilSettings) :
  currentMoisture (Soil.applySaved d s)
  = match asNumber (d_currentMoisture d) with
    | Some q => Fin q
    | None => currentMoisture s
    end.
Proof.
  unfold Soil.applySaved.
  destruct (asNumber (d_currentMoisture d));
    destruct (asNumber (d_irrigationDuration d)); reflexivity.
Qed.

Lemma out_of_range (q : Q) :
  Qle_bool 0 q && Qle_bool q 100 = false ->
  (negb (validNumber (Fin q)) || (Fin q <? num 0)%js
   || (Fin q >? num 100)%js)%bool = true.
Proof.
  intro H. unfold gt, lt, num. cbn [validNumber isNaN negb orb].
  change (inject_Z 0) with 0. change (inject_Z 100) with 100.
  rewrite <- negb_andb. now rewrite H.
Qed.

Lemma loadSettings_corrupted (st : Storage) (s : SoilSettings) :
  currentMoisture s = num 45 ->
  readable (irrigationSettings st) = true ->
  match soilMoistureSettings st with
  | None => True
  | Some (JsonObj d) => validMoisture (d_currentMoisture d) = false
  | Some _ => False
  end ->
  exists s', Soil.loadSettings st s = Ok s' /\ currentMoisture s' = num 45.
Proof.
  intros H45 Hr Hs. unfold Soil.loadSettings.
  assert (S1 : exists s1,
             match soilMoistureSettings st with
             | None => Ok s
             | Some saved =>
                 savedSettings <- parse saved ;;
                 Ok (Soil.applySaved savedSettings s)
             end = Ok s1
             /\ currentMoisture
                  (Soil.ensureValid s1 None) = num 45).
  { destruct (soilMoistureSettings st) as [[| |d]|]; try contradiction.
    - eexists. split; [reflexivity|].
      rewrite currentMoisture_ensureValid, currentMoisture_applySaved.
      unfold validMoisture in Hs.
      destruct (d_currentMoisture d) as [[| |q| |]|]; cbn [asNumber];
        try (rewrite H45; reflexivity).
      now rewrite out_of_range.
    - eexists. split; [reflexivity|].
      rewrite currentMoisture_ensureValid, H45. reflexivity. }
  destruct S1 as (s1 & -> & E1). cbn [rbind].
  rewrite currentMoisture_ensureValid in E1.
  destruct (irrigationSettings st) as [[| |g]|]; try discriminate;
    cbn [parse rbind]; eexists; (split; [reflexivity|]);
    rewrite currentMoisture_ensureValid; cbn [fst];
    rewrite ?currentMoisture_applyIrrigationSettings; exact E1.
Qed.

Lemma clearCorrupted_spec (st : Storage) (i : Item SoilDoc) :
  soilMoistureSettings st = Some i -> corrupted i = true ->
  irrigationSettings (clearCorrupted st) = irrigationSettings st
  /\ match soilMoistureSettings (clearCorrupted st) with
     | None => True
     | Some (JsonObj d) => validMoisture (d_currentMoisture d) = false
     | Some _ => False
     end.
Proof.
  intros E C. unfold clearCorrupted. rewrite E.
  destruct i as [| |d]; cbn [parse]; try (split; [reflexivity|exact I]).
  destruct (asNumber (d_currentMoisture d)) eqn:A.
  - split; [reflexivity|]. rewrite E. cbn [corrupted] in C.
    now apply negb_true_iff in C.
  - split; [reflexivity|exact I].
Qed.

Lemma newSoilMoistureManager_moisture (now : Z) (w : World) (s : SoilSettings) :
  Soil.loadSettings (storage w) (Soil.initialSettings now) = Ok s ->
  currentMoisture s = num 45 ->
  exists w',
    newSoilMoistureManager now w = Ok w' /\ currentMoisture (soil w') = num 45.
Proof.
  intros E H. unfold newSoilMoistureManager. rewrite E. cbn [rbind].
  assert (V : forall u, currentMoisture (soil u) = num 45 ->
                        Soil.updateDisplay u = u).
  { intros u Hu. apply (@updateDisplay_valid u (inject_Z 45) Hu); discriminate. }
  rewrite (V (setSoil s w)) by exact H.
  rewrite (V (setSoil s w)) by exact H.
  eexists. split; [reflexivity|].
  unfold setupIrrigationListener, syncWithWaterManager,
    Soil.syncScheduledIrrigations.
  destruct (waterManager w) eqn:W; cbn; rewrite ?W; cbn; rewrite ?W; cbn;
    exact H.
Qed.

(** ** The irrigation state along a run of events *)

Lemma SameIrrigation_refl (w : World) : SameIrrigation w w.
Proof. repeat split. Qed.

Lemma SameIrrigation_trans (a b c : World) :
  SameIrrigation a b -> SameIrrigation b c -> SameIrrigation a c.
Proof.
  intros (A1 & A2 & A3 & A4) (B1 & B2 & B3 & B4).
  repeat split; congruence.
Qed.

Lemma Same_Started (now : Z) (a b c : World) :
  SameIrrigation a b -> Started now b c -> Started now a c.
Proof.
  intros (A1 & A2 & A3 & A4) (B1 & B2 & B3 & B4 & B5).
  repeat split; try congruence.
  rewrite B5, A4. unfold stopDelay. now rewrite A2.
Qed.

Lemma Started_Same (now : Z) (a b c : World) :
  Started now a b -> SameIrrigation b c -> Started now a c.
Proof.
  intros (A1 & A2 & A3 & A4 & A5) (B1 & B2 & B3 & B4).
  repeat split; congruence.
Qed.

Lemma startIrrigation_effect (now : Z) (w : World) :
  (isIrrigating (soil w) = true /\ Soil.startIrrigation now w = w)
  \/ Started now w (Soil.startIrrigation now w).
Proof.
  unfold Soil.startIrrigation.
  destruct (isIrrigating (soil w)) eqn:E; [left; split; reflexivity|].
  right. unfold Started, stopDelay.
  destruct (negb (validNumber (currentMoisture (soil w))));
    repeat split; assumption || reflexivity.
Qed.

Lemma startIrrigation_cases (now : Z) (w : World) :
  SameIrrigation w (Soil.startIrrigation now w)
  \/ Started now w (Soil.startIrrigation now w).
Proof.
  destruct (startIrrigation_effect now w) as [[_ E]|S]; [left|right; exact S].
  rewrite E. apply SameIrrigation_refl.
Qed.

Lemma getCurrentMoistureStatus_same (w : World) :
  SameIrrigation w (snd (Soil.getCurrentMoistureStatus w)).
Proof.
  unfold Soil.getCurrentMoistureStatus.
  destruct (negb (validNumber (currentMoisture (soil w)))); repeat split.
Qed.

Lemma showNotification_same (n : Notice) (w : World) :
  SameIrrigation w (showNotification n w).
Proof. repeat split. Qed.

Lemma calculateEmptyTime_same (now : Z) (w : World) :
  SameIrrigation w (Water.calculateEmptyTime now w).
Proof.
  unfold Water.calculateEmptyTime.
  destruct (negb (autoIrrigation (water w))); [repeat split|].
  destruct (JsNum.seq _ _); repeat split.
Qed.

Lemma water_updateDisplay_same (w : World) :
  SameIrrigation w (Water.updateDisplay w).
Proof.
  unfold Water.updateDisplay.
  destruct (tankCountdown w); [|repeat split].
  destruct (negb (validNumber (currentLevel (water w)))); repeat split.
Qed.

Lemma performIrrigation_cases (now : Z) (w : World) :
  SameIrrigation w (snd (Water.performIrrigation now w))
  \/ Started now w (snd (Water.performIrrigation now w)).
Proof.
  unfold Water.performIrrigation.
  destruct (negb (autoIrrigation (water w))).
  { left. apply showNotification_same. }
  assert (G : SameIrrigation w
                (snd (if soilManager w
                      then
                        let '(moisture, w0) := Soil.getCurrentMoistureStatus w in
                        if (moisture >=? num 35)%js
                        then (true, showNotification (SoilAlreadyWet moisture) w0)
                        else (false, w0)
                      else (false, w)))).
  { destruct (soilManager w); [|apply SameIrrigation_refl].
    pose proof (getCurrentMoistureStatus_same w) as H.
    destruct (Soil.getCurrentMoistureStatus w) as (m, w0). cbn [snd] in *.
    destruct (m >=? num 35)%js; cbn [snd]; [|exact H].
    eapply SameIrrigation_trans; [exact H|apply showNotification_same]. }
  destruct (if soilManager w then _ else _) as (skip, w1). cbn [snd] in G.
  destruct skip; [left; exact G|].
  match goal with
  | |- context [if ?c then _ else _] => destruct c
  end.
  2: { left. eapply SameIrrigation_trans; [exact G|apply showNotification_same]. }
  cbn [snd].
  match goal with
  | |- context [Water.saveSettings ?x] => set (w2 := x)
  end.
  assert (G2 : SameIrrigation w (Water.saveSettings w2)).
  { eapply SameIrrigation_trans; [exact G|].
    assert (H : SameIrrigation w1 w2).
    { unfold w2.
      eapply SameIrrigation_trans; [|apply water_updateDisplay_same].
      eapply SameIrrigation_trans; [|apply calculateEmptyTime_same].
      repeat split. }
    destruct H as (H1 & H2 & H3 & H4). repeat split; assumption. }
  set (w3 := Water.saveSettings w2) in *.
  destruct (soilManager w3).
  - destruct (startIrrigation_cases now w3) as [S|S].
    + left. eapply SameIrrigation_trans; [exact G2|].
      eapply SameIrrigation_trans; [exact S|apply showNotification_same].
    + right. eapply Same_Started; [exact G2|].
      eapply Started_Same; [exact S|apply showNotification_same].
  - left. eapply SameIrrigation_trans; [exact G2|apply showNotification_same].
Qed.

Lemma callPerformIrrigation_cases (impl : Impl) :
  forall (now : Z) (w : World),
    SameIrrigation w (snd (callPerformIrrigation impl now w))
    \/ Started now w (snd (callPerformIrrigation impl now w)).
Proof.
  assert (Then : forall now a b,
             SameIrrigation a b \/ Started now a b ->
             SameIrrigation a (Soil.startIrrigation now b)
             \/ Started now a (Soil.startIrrigation now b)).
  { intros now a b [S|S].
    - destruct (startIrrigation_cases now b) as [S'|S'].
      + left. eapply SameIrrigation_trans; eassumption.
      + right. eapply Same_Started; eassumption.
    - right. destruct (startIrrigation_effect now b) as [[_ E]|S'].
      + now rewrite E.
      + destruct S as (_ & _ & _ & S4 & _). destruct S' as (_ & _ & S3 & _).
        congruence. }
  induction impl as [|inner IH|inner IH]; intros now w.
  - apply performIrrigation_cases.
  - cbn [callPerformIrrigation].
    specialize (IH now w).
    destruct (callPerformIrrigation inner now w) as (r, w1). cbn [snd] in *.
    destruct (currentLevel (water w1) >=? irrigationVolume (water w1))%js;
      cbn [snd]; [now apply Then|exact IH].
  - cbn [callPerformIrrigation].
    destruct (currentLevel (water w) >=? irrigationVolume (water w))%js.
    + specialize (IH now w).
      destruct (callPerformIrrigation inner now w) as (r, w1). cbn [snd] in *.
      destruct (Then now w w1 IH) as [S|S].
      * left. eapply SameIrrigation_trans; [exact S|apply showNotification_same].
      * right. eapply Started_Same; [exact S|apply showNotification_same].
    + left. apply showNotification_same.
Qed.

Lemma scheduleCheck_cases (t : Timer) (now : Z) (w : World) :
  SameIrrigation w (snd (scheduleCheck t now w))
  \/ Started now w (snd (scheduleCheck t now w)).
Proof.
  unfold scheduleCheck.
  destruct (sameNumber (getHours now) (hours t)
            && sameNumber (getMinutes now) (minutes t)
            && (getSeconds now =? 0)%Z); [|left; apply SameIrrigation_refl].
  destruct (autoIrrigation (water w)
            && (currentLevel (water w) >=? irrigationVolume (water w))%js);
    [|left; apply showNotification_same].
  destruct (if soilManager w then Soil.shouldTriggerIrrigation (soil w)
            else true).
  - cbn [snd].
    set (w0 := showNotification (ScheduledStarted (timeString t)) w).
    destruct (callPerformIrrigation_cases (performIrrigationImpl w0) now w0)
      as [S|S].
    + left. eapply SameIrrigation_trans; [apply showNotification_same|exact S].
    + right. eapply Same_Started; [apply showNotification_same|exact S].
  - left. pose proof (getCurrentMoistureStatus_same w) as H.
    destruct (Soil.getCurrentMoistureStatus w) as (m, w1). cbn [snd] in *.
    eapply SameIrrigation_trans; [exact H|apply showNotification_same].
Qed.

(** A slot's callback that changes the tank found no irrigation running. *)
Lemma scheduleCheck_consumed_idle (t : Timer) (now : Z) (w : World) :
  soilManager w = true ->
  water (snd (scheduleCheck t now w)) <> water w ->
  isIrrigating (soil w) = false.
Proof.
  intros Hs Hw.
  destruct (isIrrigating (soil w)) eqn:E; [|reflexivity].
  exfalso. apply Hw. now apply scheduleCheck_running.
Qed.

Lemma updateMoisture_same (now : Z) (w w' : World) :
  Soil.updateMoisture now w = Some w' ->
  SameIrrigation w w' /\ water w' = water w.
Proof.
  unfold Soil.updateMoisture.
  set (s0 := if negb (validNumber (currentMoisture (soil w)))
             then withCurrentMoisture (soil w) (num 45) else soil w).
  assert (H0 : irrigationDuration s0 = irrigationDuration (soil w)
               /\ isIrrigating s0 = isIrrigating (soil w)).
  { unfold s0. destruct (negb (validNumber (currentMoisture (soil w))));
      split; reflexivity. }
  destruct H0 as (D0 & I0).
  set (td := JsNum.min _ (num 60)).
  set (r := if isIrrigating s0 then _ else _).
  assert (R : forall c s1, r = Some (c, s1) ->
                irrigationDuration s1 = irrigationDuration (soil w)
                /\ isIrrigating s1 = isIrrigating (soil w)).
  { intros c s1. unfold r.
    destruct (isIrrigating s0) eqn:EI.
    - intro H. injection H as _ <-. unfold Soil.processIrrigationIncrease.
      destruct (_ <=? _)%js;
        cbn [irrigationDuration isIrrigating withCurrentMoisture];
        split; congruence.
    - destruct (negb (weather s0 =? "hujan")%string).
      + unfold Soil.processNaturalEvaporation.
        destruct (_ >? _)%js.
        * destruct (Soil.evaporationLoop _ _ _ _ _) as [[[m a] ch]|];
            [|discriminate].
          intro H. injection H as _ <-.
          cbn [irrigationDuration isIrrigating withCurrentMoisture
               withAccumulator].
          split; congruence.
        * intro H. injection H as _ <-. split; congruence.
      + intro H. injection H as _ <-. split; congruence. }
  destruct r as [[c s1]|]; [|discriminate].
  destruct (R c s1 eq_refl) as (D1 & I1).
  assert (PX : forall s',
             irrigationDuration s' = irrigationDuration (soil w) ->
             isIrrigating s' = isIrrigating (soil w) ->
             forall b : bool,
               SameIrrigation w
                 (if b
                  then Soil.updateDisplay (Soil.saveSettings (setSoil s' w))
                  else Soil.saveSettings (setSoil s' w))
               /\ water
                    (if b
                     then Soil.updateDisplay (Soil.saveSettings (setSoil s' w))
                     else Soil.saveSettings (setSoil s' w))
                  = water w).
  { intros s' D' I' b. destruct b; unfold Soil.updateDisplay;
      try match goal with
          | |- context [if ?d then _ else _] => destruct d
          end; repeat split; assumption. }
  destruct (negb (validNumber (currentMoisture s1)));
    intro H; injection H as <-;
    first [ apply PX | apply (fun s' D I => PX s' D I true) ];
    cbn [irrigationDuration isIrrigating withCurrentMoisture withLastUpdate];
    assumption.
Qed.

Lemma syncWith_same (l : list string) (w : World) :
  SameIrrigation w (Soil.syncWith l w) /\ water (Soil.syncWith l w) = water w.
Proof.
  unfold Soil.syncWith.
  destruct (differ _ _); repeat split.
Qed.

Lemma forceSync_same (w : World) :
  SameIrrigation w (Soil.forceSyncScheduledIrrigations w)
  /\ water (Soil.forceSyncScheduledIrrigations w) = water w.
Proof.
  unfold Soil.forceSyncScheduledIrrigations.
  set (w1 := if waterManager w then _ else w).
  assert (H : SameIrrigation w w1 /\ water w1 = water w).
  { unfold w1. destruct (waterManager w); [apply syncWith_same|].
    split; [apply SameIrrigation_refl|reflexivity]. }
  destruct H as (H1 & H2).
  destruct (irrigationSettings (storage w1)) as [i|]; [|split; assumption].
  destruct (parse i) as [parsed|e]; [|split; assumption].
  destruct (g_waterLevel parsed) as [wl|]; [|split; assumption].
  destruct (syncWith_same
              ((if schedule1Enabled wl then [schedule1 wl] else [])
               ++ (if schedule2Enabled wl then [schedule2 wl] else [])) w1)
    as (K1 & K2).
  split; [eapply SameIrrigation_trans; eassumption|congruence].
Qed.

Lemma checkScheduledIrrigation_same (now : Z) (w : World) :
  SameIrrigation w (snd (Soil.checkScheduledIrrigation now w))
  /\ water (snd (Soil.checkScheduledIrrigation now w)) = water w.
Proof.
  unfold Soil.checkScheduledIrrigation.
  destruct (forceSync_same w) as (H1 & H2).
  destruct (includes _ _); [|split; assumption].
  destruct (_ >? _)%js; [|split; assumption].
  cbn [snd]. destruct H1 as (A & B & C & D). repeat split; assumption.
Qed.

Lemma stopIrrigation_effect (now : Z) (w : World) :
  soilManager (Soil.stopIrrigation now w) = soilManager w
  /\ irrigationDuration (soil (Soil.stopIrrigation now w))
     = irrigationDuration (soil w)
  /\ isIrrigating (soil (Soil.stopIrrigation now w)) = false
  /\ timeouts (Soil.stopIrrigation now w) = timeouts w
  /\ water (Soil.stopIrrigation now w) = water w.
Proof.
  unfold Soil.stopIrrigation.
  destruct (isIrrigating (soil w)) eqn:E; cbn [negb]; repeat split.
  exact E.
Qed.
Lemma stopDelay_fin (s : SoilSettings) (d : Q) :
  irrigationDuration s = Fin d -> stopDelay s = Fin (d * 60 * 1000).
Proof. intro H. unfold stopDelay. rewrite H. reflexivity. Qed.

Lemma dueTime_long (s : Z) (d : Q) :
  2 < d -> d <= 35791 ->
  inject_Z s + 120000 < dueTime s (Fin (d * 60 * 1000)).
Proof.
  intros L U. unfold dueTime.
  replace (Qle_bool 0 (d * 60 * 1000)) with true
    by (symmetry; apply Qle_bool_iff; lra).
  replace (Qle_bool 2147483648 (d * 60 * 1000)) with false
    by (symmetry; apply Qle_bool_false; lra).
  cbn [andb negb]. lra.
Qed.

Lemma Steady_same (d : Q) (clock now : Z) (ls : option Z) (w w' : World) :
  Steady d clock ls w -> (clock <= now)%Z -> SameIrrigation w w' ->
  Steady d now ls w'.
Proof.
  intros (A & B & C & D & E & F) Hc (S1 & S2 & S3 & S4).
  unfold Steady. rewrite S1, S2, S3, S4. unfold stopDelay in *.
  rewrite S2.
  repeat split; try assumption.
  - destruct (E s dl H) as (K & _). exact K.
  - destruct (E s dl H) as (_ & K & _). lia.
  - destruct (E s dl H) as (_ & _ & K). exact K.
  - destruct (F t1 H) as (K & _). lia.
  - destruct (F t1 H) as (_ & [K|K]); [left; exact K|right; lia].
Qed.

Lemma Steady_started (d : Q) (clock now : Z) (ls ls' : option Z)
  (w w' : World) :
  Steady d clock ls w -> (clock <= now)%Z -> Started now w w' ->
  ls' = ls \/ ls' = Some now ->
  Steady d now ls' w'.
Proof.
  intros (A & B & C & D & E & F) Hc (S1 & S2 & S3 & S4 & S5) Hls.
  assert (T : timeouts w = []) by (now apply C).
  unfold Steady. rewrite S1, S2, S4, S5, T.
  split; [assumption|]. split; [assumption|].
  split; [intro; discriminate|]. split; [cbn; lia|]. split.
  - intros s dl [H|[]]. injection H as <- <-.
    split; [unfold stopDelay; now rewrite S2|]. split; [lia|].
    intros t1 H1. destruct Hls as [->| ->].
    + destruct (F t1 H1) as (K & _). lia.
    + injection H1 as <-. lia.
  - intros t1 H1. split; [|left; reflexivity].
    destruct Hls as [->| ->].
    + destruct (F t1 H1) as (K & _). lia.
    + injection H1 as <-. lia.
Qed.

Lemma step_steady (d : Q) (clock now : Z) (ls : option Z) (e : Event)
  (w w' : World) :
  2 < d -> d <= 35791 ->
  Steady d clock ls w -> (clock <= now)%Z -> step now e w = Some w' ->
  exists ls',
    Steady d now ls' w'
    /\ (ls' = ls
        \/ (ls' = Some now /\ forall t1, ls = Some t1 -> apart t1 now))
    /\ ((exists t, e = SlotTimer t) -> water w' <> water w -> ls' = Some now).
Proof.
  intros Ld Ud St Hc Hstep.
  pose proof St as (A & B & C & D & E & F).
  destruct e as [t| | | |k]; cbn [step] in Hstep.
  - (* the callback of a slot *)
    injection Hstep as <-.
    destruct (scheduleCheck_cases t now w) as [S|S].
    + exists ls. split; [eapply Steady_same; eassumption|].
      split; [left; reflexivity|].
      intros _ Hw. exfalso.
      pose proof (scheduleCheck_consumed_idle t now w A Hw) as Idle.
      destruct (scheduleCheck_consumes_starts t now w A) as (_ & [K|K]).
      * now apply Hw.
      * destruct S as (_ & _ & S3 & _). congruence.
    + exists (Some now).
      split; [eapply Steady_started; try eassumption; right; reflexivity|].
      split; [|reflexivity].
      right. split; [reflexivity|].
      intros t1 H1. destruct (F t1 H1) as (_ & [K|K]).
      * destruct S as (_ & _ & S3 & _). congruence.
      * unfold apart. lia.
  - (* a manual trigger *)
    injection Hstep as <-. unfold manualTrigger.
    exists ls.
    split; [|split; [left; reflexivity|intros (t & Ht); discriminate]].
    destruct (callPerformIrrigation_cases (performIrrigationImpl w) now w)
      as [S|S].
    + eapply Steady_same; eassumption.
    + eapply Steady_started; try eassumption. left. reflexivity.
  - (* a tick of the moisture *)
    exists ls.
    split; [|split; [left; reflexivity|intros (t & Ht); discriminate]].
    destruct (updateMoisture_same now w Hstep) as (S & _).
    eapply Steady_same; eassumption.
  - (* a check of the schedule *)
    injection Hstep as <-. exists ls.
    split; [|split; [left; reflexivity|intros (t & Ht); discriminate]].
    eapply Steady_same; try eassumption.
    apply checkScheduledIrrigation_same.
  - (* a stop timer *)
    exists ls.
    split; [|split; [left; reflexivity|intros (t & Ht); discriminate]].
    destruct (timeouts w) as [|[s dl] rest] eqn:T; [destruct k; discriminate|].
    destruct rest as [|x rest]; [|cbn in D; lia].
    destruct k as [|k]; [|destruct k; discriminate].
    cbn [nth_error removeNth] in Hstep.
    destruct (Qle_bool (dueTime s dl) (inject_Z now)) eqn:Due; [|discriminate].
    injection Hstep as <-.
    destruct (E s dl (or_introl eq_refl)) as (E1 & E2 & E3).
    rewrite (stopDelay_fin _ B) in E1. subst dl.
    apply Qle_bool_iff in Due.
    pose proof (dueTime_long s Ld Ud) as Long.
    assert (K : (s + 120000 < now)%Z).
    { rewrite Zlt_Qlt, inject_Z_plus. change (inject_Z 120000) with 120000.
      lra. }
    set (w0 := setTimeouts [] w).
    destruct (stopIrrigation_effect now w0) as (P1 & P2 & P3 & P4 & P5).
    unfold Steady. rewrite P1, P2, P3, P4.
    split; [assumption|]. split; [assumption|].
    split; [reflexivity|]. split; [cbn; lia|]. split.
    + intros s' dl' [].
    + intros t1 H1. destruct (F t1 H1) as (G & _).
      split; [lia|]. right. specialize (E3 t1 H1). lia.
Qed.

Lemma run_fires_apart (d : Q) :
  2 < d -> d <= 35791 ->
  forall (trace : list (Z * Event)) (clock : Z) (ls : option Z) (w : World)
         (log : list Step),
    Steady d clock ls w -> run clock trace w = Some log ->
    Forall (fun s => fired s ->
                     forall t1, ls = Some t1 -> apart t1 (moment s)) log
    /\ ForallOrdPairs (fun a b => fired a -> fired b ->
                                  apart (moment a) (moment b)) log.
Proof.
  intros Ld Ud. induction trace as [|[now e] rest IH];
    intros clock ls w log St Hrun.
  - injection Hrun as <-. split; constructor.
  - cbn [run] in Hrun.
    destruct (clock <=? now)%Z eqn:Hc; [|discriminate].
    apply Z.leb_le in Hc.
    destruct (step now e w) as [w'|] eqn:Hs; [|discriminate].
    destruct (run now rest w') as [log'|] eqn:Hr; [|discriminate].
    injection Hrun as <-.
    destruct (step_steady e Ld Ud St Hc Hs) as (ls' & St' & Hls & Hf).
    destruct (IH now ls' w' log' St' Hr) as (A & B).
    pose proof St as (_ & _ & _ & _ & _ & F).
    split.
    + constructor.
      * cbn [moment]. intros (Ht & Hw) t1 H1. cbn [event before after] in *.
        specialize (Hf Ht Hw).
        destruct Hls as [H|(_ & H)].
        -- (* the last start was at this very time, by an earlier event *)
           exfalso. assert (Els : ls = Some now) by congruence.
           destruct Ht as (t & ->). cbn [step] in Hs. injection Hs as <-.
           pose proof St as (S1 & _).
           pose proof (scheduleCheck_consumed_idle t now w S1 Hw) as Idle.
           destruct (F now Els) as (G & [K|K]); [congruence|lia].
        -- now apply H.
      * eapply Forall_impl; [|exact A]. intros s Hs' Fs t1 H1.
        destruct Hls as [->|(-> & H)]; [now apply Hs'|].
        specialize (Hs' Fs now eq_refl). specialize (H t1 H1).
        unfold apart in *. lia.
    + constructor; [|exact B].
      eapply Forall_impl; [|exact A]. intros s Hs' Fh Fs.
      cbn [moment]. destruct Fh as (Ht & Hw). cbn [event before after] in *.
      specialize (Hf Ht Hw). subst ls'. now apply Hs'.
Qed.

Lemma Steady_initial (d : Q) (clock : Z) (w : World) :
  soilManager w = true -> irrigationDuration (soil w) = Fin d ->
  timeouts w = [] -> Steady d clock None w.
Proof.
  intros A B T. unfold Steady. rewrite T.
  split; [assumption|]. split; [assumption|].
  split; [reflexivity|]. split; [cbn; lia|]. split.
  - intros s dl [].
  - intros t1 H. discriminate.
Qed.

(* ================================================================== *)
(** ** The page with its logs *)

Lemma readableLog_parseLogs (A : Type) (i : option (LogItem A)) :
  readableLog i = true -> exists l, parseLogs i = Ok l.
Proof.
  destruct i as [[| |l]|]; try discriminate; intros _; eexists; reflexivity.
Qed.

Lemma unreadableLog_parseLogs (A : Type) (i : option (LogItem A)) :
  readableLog i = false -> exists e, parseLogs i = Throw e.
Proof.
  destruct i as [[| |l]|]; try discriminate; intros _; eexists; reflexivity.
Qed.

Lemma logIrrigation_readable (now : Z) (p : Page) :
  readableLog (irrigationLogs (logs p)) = true ->
  exists l,
    Logged.logIrrigation now p
    = (Ok tt,
       {| world := world p;
          logs := {| irrigationLogs := Some (LogArray l);
                     soilMoistureLogs := soilMoistureLogs (logs p) |} |}).
Proof.
  intros R. destruct (readableLog_parseLogs _ R) as (l & E).
  unfold Logged.logIrrigation, WaterManager.logIrrigation.
  rewrite E. cbn [rbind]. eexists. reflexivity.
Qed.

Lemma logIrrigation_unreadable (now : Z) (p : Page) :
  readableLog (irrigationLogs (logs p)) = false ->
  exists e, Logged.logIrrigation now p = (Throw e, p).
Proof.
  intros R. destruct (unreadableLog_parseLogs _ R) as (e & E).
  unfold Logged.logIrrigation, WaterManager.logIrrigation.
  rewrite E. cbn [rbind]. eexists. reflexivity.
Qed.

Lemma logMoisture_readable (now : Z) (eventType : string) (p : Page) :
  readableLog (soilMoistureLogs (logs p)) = true ->
  exists l,
    Logged.logMoisture now eventType p
    = (Ok tt,
       {| world := world p;
          logs := {| irrigationLogs := irrigationLogs (logs p);
                     soilMoistureLogs := Some (LogArray l) |} |}).
Proof.
  intros R. destruct (readableLog_parseLogs _ R) as (l & E).
  unfold Logged.logMoisture, SoilManager.logMoisture.
  rewrite E. cbn [rbind]. eexists. reflexivity.
Qed.

(** Whatever the log of the moisture holds, a call of [logMoisture] leaves
    the world and the log of the irrigations as they are. *)
Lemma logMoisture_frame (now : Z) (eventType : string) (p : Page) :
  world (snd (Logged.logMoisture now eventType p)) = world p
  /\ irrigationLogs (logs (snd (Logged.logMoisture now eventType p)))
     = irrigationLogs (logs p).
Proof.
  unfold Logged.logMoisture.
  destruct (SoilManager.logMoisture _ _ _ _); split; reflexivity.
Qed.

(** On a page whose log of the irrigations is readable, the method with its
    log does what the method without does, and leaves the log readable. *)
Lemma performIrrigation_readable (now : Z) (p : Page) :
  readableLog (irrigationLogs (logs p)) = true ->
  exists L,
    Logged.performIrrigation now p
    = (Ok (fst (Water.performIrrigation now (world p))),
       {| world := snd (Water.performIrrigation now (world p)); logs := L |})
    /\ readableLog (irrigationLogs L) = true
    /\ soilMoistureLogs L = soilMoistureLogs (logs p).
Proof.
  intros R. unfold Logged.performIrrigation, Water.performIrrigation.
  destruct (negb (autoIrrigation (water (world p)))).
  { exists (logs p). repeat split. exact R. }
  destruct (if soilManager (world p) then _ else _) as (skip, w1).
  destruct skip.
  { exists (logs p). repeat split. exact R. }
  match goal with
  | |- context [if ?c then _ else _] => destruct c
  end.
  2: { exists (logs p). repeat split. exact R. }
  match goal with
  | |- context [Water.saveSettings ?x] => set (w2 := Water.saveSettings x)
  end.
  destruct (@logIrrigation_readable now (setWorld w2 p) R) as (l & E).
  rewrite E. cbn [world logs setWorld fst snd].
  eexists. split; [reflexivity|]. split; reflexivity.
Qed.

Lemma callPerformIrrigation_readable (impl : Impl) :
  forall (now : Z) (p : Page),
    readableLog (irrigationLogs (logs p)) = true ->
    exists L,
      Logged.callPerformIrrigation impl now p
      = (Ok (fst (callPerformIrrigation impl now (world p))),
         {| world := snd (callPerformIrrigation impl now (world p));
            logs := L |})
      /\ readableLog (irrigationLogs L) = true
      /\ soilMoistureLogs L = soilMoistureLogs (logs p).
Proof.
  induction impl as [|inner IH|inner IH]; intros now p R.
  - now apply performIrrigation_readable.
  - cbn [Logged.callPerformIrrigation callPerformIrrigation].
    destruct (IH now p R) as (L & E & RL & SL). rewrite E.
    destruct (callPerformIrrigation inner now (world p)) as (r, w1).
    cbn [fst snd world setWorld logs].
    exists L. repeat split; assumption.
  - cbn [Logged.callPerformIrrigation callPerformIrrigation].
    destruct (currentLevel (water (world p))
              >=? irrigationVolume (water (world p)))%js.
    + destruct (IH now p R) as (L & E & RL & SL). rewrite E.
      destruct (callPerformIrrigation inner now (world p)) as (r, w1).
      cbn [fst snd world setWorld logs].
      exists L. repeat split; assumption.
    + exists (logs p). repeat split. exact R.
Qed.

Lemma scheduleCheck_readable (t : Timer) (now : Z) (p : Page) :
  readableLog (irrigationLogs (logs p)) = true ->
  exists L,
    Logged.scheduleCheck t now p
    = (Ok (fst (scheduleCheck t now (world p))),
       {| world := snd (scheduleCheck t now (world p)); logs := L |})
    /\ readableLog (irrigationLogs L) = true
    /\ soilMoistureLogs L = soilMoistureLogs (logs p).
Proof.
  intros R. unfold Logged.scheduleCheck, scheduleCheck.
  destruct (sameNumber (getHours now) (hours t)
            && sameNumber (getMinutes now) (minutes t)
            && (getSeconds now =? 0)%Z).
  2: { exists (logs p). destruct p. repeat split. exact R. }
  destruct (autoIrrigation (water (world p))
            && (currentLevel (water (world p))
                >=? irrigationVolume (water (world p)))%js).
  2: { exists (logs p). repeat split. exact R. }
  destruct (if soilManager (world p)
            then Soil.shouldTriggerIrrigation (soil (world p)) else true).
  - set (w0 := showNotification (ScheduledStarted (timeString t)) (world p)).
    destruct (@callPerformIrrigation_readable (performIrrigationImpl w0) now
                (setWorld w0 p) R) as (L & E & RL & SL).
    rewrite E. cbn [world setWorld fst snd].
    destruct (callPerformIrrigation (performIrrigationImpl w0) now w0)
      as (r, w1).
    exists L. repeat split; assumption.
  - destruct (Soil.getCurrentMoistureStatus (world p)) as (m, w1).
    exists (logs p). repeat split. exact R.
Qed.

(** Whatever the logs hold, [stopIrrigation()] leaves the world that the
    method without its log leaves. *)
Lemma stopIrrigation_world (now : Z) (p : Page) :
  world (snd (Logged.stopIrrigation now p))
  = Soil.stopIrrigation now (world p)
  /\ irrigationLogs (logs (snd (Logged.stopIrrigation now p)))
     = irrigationLogs (logs p).
Proof.
  unfold Logged.stopIrrigation, Soil.stopIrrigation.
  destruct (negb (isIrrigating (soil (world p)))); [split; reflexivity|].
  match goal with
  | |- context [Logged.logMoisture ?n ?e ?q] =>
      destruct (logMoisture_frame n e q) as (A & B)
  end.
  split; [exact A|exact B].
Qed.

Lemma evaporationLoop_readable (now : Z) (random : nat -> Q)
  (ep : Soil.EvaporationParameters) (s : SoilSettings) :
  forall (fuel k : nat) (m a : jsnum) (ch : bool)
         (stored : option (LogItem MoistureLog)),
    readableLog stored = true ->
    match Soil.evaporationLoop fuel ep m a ch with
    | Some (m', a', ch') =>
        exists stored',
          Logged.evaporationLoop fuel now random k ep s m a ch stored
          = Some (Ok ch', withAccumulator (withCurrentMoisture s m') a',
                  stored')
          /\ readableLog stored' = true
    | None =>
        Logged.evaporationLoop fuel now random k ep s m a ch stored = None
    end.
Proof.
  induction fuel as [|fuel IH]; intros k m a ch stored R.
  - cbn [Soil.evaporationLoop Logged.evaporationLoop].
    destruct (a >=? Soil.interval ep)%js; [reflexivity|].
    exists stored. split; [reflexivity|exact R].
  - cbn [Soil.evaporationLoop Logged.evaporationLoop].
    destruct (a >=? Soil.interval ep)%js.
    + destruct (Logged.below (random k) (3 # 10)).
      * destruct (readableLog_parseLogs _ R) as (l & E).
        unfold SoilManager.logMoisture. rewrite E. cbn [rbind].
        apply IH. reflexivity.
      * now apply IH.
    + exists stored. split; [reflexivity|exact R].
Qed.

Lemma evaporationLoop_shape (now : Z) (random : nat -> Q)
  (ep : Soil.EvaporationParameters) (s : SoilSettings) :
  forall (fuel k : nat) (m a : jsnum) (ch : bool)
         (stored : option (LogItem MoistureLog)) r s' stored',
    Logged.evaporationLoop fuel now random k ep s m a ch stored
    = Some (r, s', stored') ->
    exists m' a', s' = withAccumulator (withCurrentMoisture s m') a'.
Proof.
  induction fuel as [|fuel IH]; intros k m a ch stored r s' stored';
    cbn [Logged.evaporationLoop];
    destruct (a >=? Soil.interval ep)%js; try discriminate.
  - intro H. injection H as _ <- _. eexists _, _. reflexivity.
  - destruct (Logged.below (random k) (3 # 10)).
    + destruct (SoilManager.logMoisture _ _ _ _).
      * apply IH.
      * intro H. injection H as _ <- _. eexists _, _. reflexivity.
    + apply IH.
  - intro H. injection H as _ <- _. eexists _, _. reflexivity.
Qed.

(** On a page whose log of the moisture is readable, a tick with its logs
    does what the tick without does, whatever the draws are. *)
Lemma updateMoisture_readable (now : Z) (draws : Draws) (p : Page) :
  readableLog (soilMoistureLogs (logs p)) = true ->
  match Soil.updateMoisture now (world p) with
  | Some w' =>
      exists L,
        Logged.updateMoisture now draws p
        = Some (Ok tt, {| world := w'; logs := L |})
        /\ readableLog (soilMoistureLogs L) = true
        /\ irrigationLogs L = irrigationLogs (logs p)
  | None => Logged.updateMoisture now draws p = None
  end.
Proof.
  intros R. unfold Logged.updateMoisture, Soil.updateMoisture.
  set (s0 := if negb (validNumber (currentMoisture (soil (world p))))
             then withCurrentMoisture (soil (world p)) (num 45)
             else soil (world p)).
  set (td := JsNum.min _ (num 60)).
  assert (Fin_ : forall (c : bool) (s1 : SoilSettings)
                   (stored : option (LogItem MoistureLog)),
             readableLog stored = true ->
             exists L,
               (let '(moistureChanged, s) :=
                  if negb (validNumber (currentMoisture s1))
                  then (true, withCurrentMoisture s1 (num 45))
                  else (c, s1) in
                let oldMoisture := currentMoisture s in
                let s := withCurrentMoisture s
                           (JsNum.max (num 0)
                              (JsNum.min (num 100) oldMoisture)) in
                let moistureChanged :=
                  if negb (JsNum.seq oldMoisture (currentMoisture s))
                  then true else moistureChanged in
                let s := withLastUpdate s (Some now) in
                let w := Soil.saveSettings (setSoil s (world p)) in
                let w := if moistureChanged then Soil.updateDisplay w
                         else w in
                let p0 := {| world := w;
                             logs := {| irrigationLogs :=
                                          irrigationLogs (logs p);
                                        soilMoistureLogs := stored |} |} in
                Some (if Logged.below (periodic draws) (1 # 10)
                      then Logged.logMoisture now "periodic_update" p0
                      else (Ok tt, p0)))
               = Some (Ok tt,
                       {| world :=
                            (let '(moistureChanged, s) :=
                               if negb (validNumber (currentMoisture s1))
                               then (true, withCurrentMoisture s1 (num 45))
                               else (c, s1) in
                             let oldMoisture := currentMoisture s in
                             let s := withCurrentMoisture s
                                        (JsNum.max (num 0)
                                           (JsNum.min (num 100) oldMoisture)) in
                             let moistureChanged :=
                               if negb (JsNum.seq oldMoisture
                                          (currentMoisture s))
                               then true else moistureChanged in
                             let s := withLastUpdate s (Some now) in
                             let w := Soil.saveSettings
                                        (setSoil s (world p)) in
                             if moistureChanged then Soil.updateDisplay w
                             else w);
                          logs := L |})
               /\ readableLog (soilMoistureLogs L) = true
               /\ irrigationLogs L = irrigationLogs (logs p)).
  { intros c s1 stored RS.
    destruct (negb (validNumber (currentMoisture s1))); cbv zeta;
      destruct (Logged.below (periodic draws) (1 # 10)).
    all: try (eexists; split; [reflexivity|split; [exact RS|reflexivity]]).
    all: match goal with
         | |- context [Logged.logMoisture ?n ?e ?q] =>
             destruct (@logMoisture_readable n e q RS) as (l & E);
             rewrite E
         end;
         eexists; split; [reflexivity|split; reflexivity]. }
  destruct (isIrrigating s0).
  { destruct (Fin_ true (Soil.processIrrigationIncrease now td s0) _ R)
      as (L & E & RL & IL).
    destruct (negb (validNumber
                      (currentMoisture
                         (Soil.processIrrigationIncrease now td s0))));
      exists L; (split; [exact E|split; assumption]). }
  destruct (negb (weather s0 =? "hujan")).
  2: { destruct (Fin_ false s0 _ R) as (L & E & RL & IL).
       destruct (negb (validNumber (currentMoisture s0)));
         exists L; (split; [exact E|split; assumption]). }
  unfold Logged.processNaturalEvaporation, Soil.processNaturalEvaporation.
  destruct (Soil.rate (Soil.getEvaporationParameters s0) >? num 0)%js.
  2: { destruct (Fin_ false s0 _ R) as (L & E & RL & IL).
       destruct (negb (validNumber (currentMoisture s0)));
         exists L; (split; [exact E|split; assumption]). }
  match goal with
  | |- context [Soil.evaporationLoop ?f ?ep ?m ?a ?c] =>
      pose proof (@evaporationLoop_readable now (evaporation draws) ep s0 f
                    0%nat m a c _ R) as Loop;
      destruct (Soil.evaporationLoop f ep m a c) as [[[m' a'] ch']|]
  end.
  - destruct Loop as (stored' & EL & RS). rewrite EL.
    destruct (Fin_ ch' (withAccumulator (withCurrentMoisture s0 m') a')
                stored' RS) as (L & E & RL & IL).
    destruct (negb (validNumber
                      (currentMoisture
                         (withAccumulator (withCurrentMoisture s0 m') a'))));
      exists L; (split; [exact E|split; assumption]).
  - rewrite Loop. reflexivity.
Qed.

(** Whatever the logs hold and however a tick ends, it leaves the
    irrigation state, the tank and the log of the irrigations alone. *)
Lemma logged_updateMoisture_same (now : Z) (draws : Draws) (p p' : Page)
  (r : Result unit) :
  Logged.updateMoisture now draws p = Some (r, p') ->
  SameIrrigation (world p) (world p')
  /\ water (world p') = water (world p)
  /\ irrigationLogs (logs p') = irrigationLogs (logs p).
Proof.
  unfold Logged.updateMoisture.
  set (w := world p).
  set (s0 := if negb (validNumber (currentMoisture (soil w)))
             then withCurrentMoisture (soil w) (num 45) else soil w).
  assert (H0 : irrigationDuration s0 = irrigationDuration (soil w)
               /\ isIrrigating s0 = isIrrigating (soil w)).
  { unfold s0. destruct (negb (validNumber (currentMoisture (soil w))));
      split; reflexivity. }
  destruct H0 as (D0 & I0).
  set (td := JsNum.min _ (num 60)).
  set (x := if isIrrigating s0 then _ else _).
  assert (X : forall c s1 stored, x = Some (c, s1, stored) ->
                irrigationDuration s1 = irrigationDuration (soil w)
                /\ isIrrigating s1 = isIrrigating (soil w)).
  { intros c s1 stored. unfold x.
    destruct (isIrrigating s0) eqn:EI.
    - intro H. injection H as _ <- _. unfold Soil.processIrrigationIncrease.
      destruct (_ <=? _)%js;
        cbn [irrigationDuration isIrrigating withCurrentMoisture];
        split; congruence.
    - destruct (negb (weather s0 =? "hujan")%string).
      + unfold Logged.processNaturalEvaporation.
        destruct (_ >? _)%js.
        * intro H. apply evaporationLoop_shape in H.
          destruct H as (m' & a' & ->).
          cbn [irrigationDuration isIrrigating withCurrentMoisture
               withAccumulator].
          split; congruence.
        * intro H. injection H as _ <- _. split; congruence.
      + intro H. injection H as _ <- _. split; congruence. }
  destruct x as [[[[c|e] s1] stored]|]; [| |discriminate].
  2: { destruct (X _ _ _ eq_refl) as (D1 & I1).
       intro H. injection H as _ <-. cbn [world logs irrigationLogs].
       repeat split; assumption. }
  destruct (X _ _ _ eq_refl) as (D1 & I1).
  assert (PX : forall s' (b : bool) stored0,
             irrigationDuration s' = irrigationDuration (soil w) ->
             isIrrigating s' = isIrrigating (soil w) ->
             let q := {| world :=
                           (if b
                            then Soil.updateDisplay
                                   (Soil.saveSettings (setSoil s' w))
                            else Soil.saveSettings (setSoil s' w));
                         logs := {| irrigationLogs := irrigationLogs (logs p);
                                    soilMoistureLogs := stored0 |} |} in
             Some (if Logged.below (periodic draws) (1 # 10)
                   then Logged.logMoisture now "periodic_update" q
                   else (Ok tt, q)) = Some (r, p') ->
             SameIrrigation w (world p')
             /\ water (world p') = water w
             /\ irrigationLogs (logs p') = irrigationLogs (logs p)).
  { intros s' b stored0 D' I' q H.
    assert (W : world p' = world q
                /\ irrigationLogs (logs p') = irrigationLogs (logs q)).
    { destruct (Logged.below (periodic draws) (1 # 10)).
      - pose proof (logMoisture_frame now "periodic_update" q) as F.
        injection H as H1. rewrite H1 in F. exact F.
      - injection H as _ <-. split; reflexivity. }
    destruct W as (W1 & W2). rewrite W1, W2. unfold q.
    cbn [world logs irrigationLogs].
    destruct b; unfold Soil.updateDisplay;
      try match goal with
          | |- context [if ?d then _ else _] => destruct d
          end; repeat split; assumption. }
  destruct (negb (validNumber (currentMoisture s1))); cbv zeta;
    intro H;
    match type of H with
    | Some (if _ then _
            else (Ok tt,
                  {| world :=
                       if ?b then Soil.updateDisplay
                                    (Soil.saveSettings (setSoil ?s' _))
                       else _;
                     logs := {| irrigationLogs := _;
                                soilMoistureLogs := ?st |} |})) = _ =>
        apply (PX s' b st); [| |exact H]
    end;
    cbn [irrigationDuration isIrrigating withCurrentMoisture withLastUpdate];
    assumption.
Qed.

(** An event on a page whose log of the irrigations is readable keeps that
    log readable, and keeps what a run of events without logs keeps. *)
Lemma logged_step_steady (d : Q) (clock now : Z) (ls : option Z) (e : Event)
  (draws : Draws) (p p' : Page) :
  2 < d -> d <= 35791 ->
  readableLog (irrigationLogs (logs p)) = true ->
  Steady d clock ls (world p) -> (clock <= now)%Z ->
  Logged.step now e draws p = Some p' ->
  readableLog (irrigationLogs (logs p')) = true
  /\ (forall t, e = SlotTimer t ->
        world p' = snd (scheduleCheck t now (world p)))
  /\ exists ls',
       Steady d now ls' (world p')
       /\ (ls' = ls
           \/ (ls' = Some now /\ forall t1, ls = Some t1 -> apart t1 now))
       /\ ((exists t, e = SlotTimer t) ->
           water (world p') <> water (world p) -> ls' = Some now).
Proof.
  intros Ld Ud R St Hc Hstep.
  assert (Sim : forall w',
             step now e (world p) = Some w' -> world p' = w' ->
             exists ls',
               Steady d now ls' (world p')
               /\ (ls' = ls
                   \/ (ls' = Some now
                       /\ forall t1, ls = Some t1 -> apart t1 now))
               /\ ((exists t, e = SlotTimer t) ->
                   water (world p') <> water (world p) -> ls' = Some now)).
  { intros w' Hs ->. exact (step_steady e Ld Ud St Hc Hs). }
  destruct e as [t| | | |k]; cbn [Logged.step] in Hstep.
  - injection Hstep as <-.
    destruct (@scheduleCheck_readable t now p R) as (L & E & RL & _).
    rewrite E. cbn [snd world logs].
    split; [exact RL|]. split.
    + intros t' Ht. injection Ht as <-. reflexivity.
    + rewrite E in Sim. cbn [snd world] in Sim.
      eapply Sim; reflexivity.
  - injection Hstep as <-. unfold Logged.manualTrigger.
    destruct (@callPerformIrrigation_readable
                (performIrrigationImpl (world p)) now p R)
      as (L & E & RL & _).
    rewrite E. cbn [snd world logs].
    split; [exact RL|]. split; [intros t' Ht; discriminate|].
    unfold Logged.manualTrigger in Sim. rewrite E in Sim.
    cbn [snd world] in Sim. eapply Sim; reflexivity.
  - destruct (Logged.updateMoisture now draws p) as [[r q]|] eqn:U;
      [|discriminate].
    injection Hstep as <-. cbn [snd].
    destruct (logged_updateMoisture_same _ _ _ U) as (S & _ & IL).
    split; [now rewrite IL|]. split; [intros t' Ht; discriminate|].
    exists ls.
    split; [eapply Steady_same; eassumption|].
    split; [left; reflexivity|intros (t & Ht); discriminate].
  - injection Hstep as <-. cbn [world logs setWorld].
    split; [exact R|]. split; [intros t' Ht; discriminate|].
    cbn [world setWorld] in Sim. eapply Sim; reflexivity.
  - destruct (nth_error (timeouts (world p)) k) as [[setAt delay]|] eqn:N;
      [|discriminate].
    destruct (Qle_bool (dueTime setAt delay) (inject_Z now)) eqn:Due;
      [|discriminate].
    injection Hstep as <-.
    match goal with
    | |- context [Logged.stopIrrigation now ?q] =>
        destruct (stopIrrigation_world now q) as (W & IL)
    end.
    cbn [world logs setWorld] in W, IL.
    split; [now rewrite IL|]. split; [intros t' Ht; discriminate|].
    eapply Sim; [|exact W].
    cbn [step]. rewrite N, Due. reflexivity.
Qed.

Lemma logged_run_fires_apart (d : Q) :
  2 < d -> d <= 35791 ->
  forall (trace : list (Z * Event * Draws)) (clock : Z) (ls : option Z)
         (p : Page) (log : list Step),
    readableLog (irrigationLogs (logs p)) = true ->
    Steady d clock ls (world p) -> Logged.run clock trace p = Some log ->
    Forall (fun s => fired s ->
                     forall t1, ls = Some t1 -> apart t1 (moment s)) log
    /\ ForallOrdPairs (fun a b => fired a -> fired b ->
                                  apart (moment a) (moment b)) log.
Proof.
  intros Ld Ud. induction trace as [|[[now e] draws] rest IH];
    intros clock ls p log R St Hrun.
  - injection Hrun as <-. split; constructor.
  - cbn [Logged.run] in Hrun.
    destruct (clock <=? now)%Z eqn:Hc; [|discriminate].
    apply Z.leb_le in Hc.
    destruct (Logged.step now e draws p) as [p'|] eqn:Hs; [|discriminate].
    destruct (Logged.run now rest p') as [log'|] eqn:Hr; [|discriminate].
    injection Hrun as <-.
    destruct (logged_step_steady e draws p Ld Ud R St Hc Hs)
      as (R' & Hslot & ls' & St' & Hls & Hf).
    destruct (IH now ls' p' log' R' St' Hr) as (A & B).
    pose proof St as (_ & _ & _ & _ & _ & F).
    split.
    + constructor.
      * cbn [moment]. intros (Ht & Hw) t1 H1. cbn [event before after] in *.
        specialize (Hf Ht Hw).
        destruct Hls as [H|(_ & H)].
        -- exfalso. assert (Els : ls = Some now) by congruence.
           destruct Ht as (t & ->).
           rewrite (Hslot t eq_refl) in Hw.
           pose proof St as (S1 & _).
           pose proof (scheduleCheck_consumed_idle t now (world p) S1 Hw)
             as Idle.
           destruct (F now Els) as (G & [K|K]); [congruence|lia].
        -- now apply H.
      * eapply Forall_impl; [|exact A]. intros s Hs' Fs t1 H1.
        destruct Hls as [->|(-> & H)]; [now apply Hs'|].
        specialize (Hs' Fs now eq_refl). specialize (H t1 H1).
        unfold apart in *. lia.
    + constructor; [|exact B].
      eapply Forall_impl; [|exact A]. intros s Hs' Fh Fs.
      cbn [moment]. destruct Fh as (Ht & Hw). cbn [event before after] in *.
      specialize (Hf Ht Hw). subst ls'. now apply Hs'.
Qed.

(* ================================================================== *)
(** * The claims *)

(** ** C1: a call while irrigation is active *)

Lemma currentLevel_calculateEmptyTime (now : Z) (w : World) :
  currentLevel (water (Water.calculateEmptyTime now w))
  = currentLevel (water w)
  /\ tankCountdown (Water.calculateEmptyTime now w) = tankCountdown w.
Proof.
  unfold Water.calculateEmptyTime.
  destruct (negb (autoIrrigation (water w))); [split; reflexivity|].
  destruct (JsNum.seq _ _); split; reflexivity.
Qed.

(** Whatever [isIrrigating] is, a call of the method of the class that
    passes the three gates takes the irrigation volume out of the tank. *)
Lemma performIrrigation_consumes (now : Z) (w : World) (l v : Q) :
  autoIrrigation (water w) = true ->
  soilManager w = true ->
  (currentMoisture (soil w) <? num 35)%js = true ->
  currentLevel (water w) = Fin l -> irrigationVolume (water w) = Fin v ->
  v <= l ->
  fst (Water.performIrrigation now w) = Some true
  /\ currentLevel (water (snd (Water.performIrrigation now w)))
     =j= Fin (Qmax 0 (l - v)).
Proof.
  intros Ha Hs Hm Hl Hv Hle. unfold Water.performIrrigation.
  rewrite Ha, Hs, Hl, Hv. cbn [negb validNumber isNaN].
  rewrite (getCurrentMoistureStatus_valid w (lt_valid _ _ Hm)).
  rewrite (lt_not_ge _ _ Hm).
  unfold JsNum.ge, JsNum.le.
  replace (Qle_bool v l) with true by (symmetry; now apply Qle_bool_iff).
  split; [reflexivity|].
  cbn [snd]. rewrite water_showNotification.
  rewrite sub_fin.
  destruct (max_fin (inject_Z 0) (l - v)) as (x & Ex & Hx).
  fold (num 0) in Ex. rewrite Ex.
  match goal with
  | |- context [if ?c then Soil.startIrrigation now ?u else ?u] =>
      assert (K : currentLevel
                    (water (if c then Soil.startIrrigation now u else u))
                  = currentLevel (water u))
        by (destruct c; [rewrite water_startIrrigation|]; reflexivity);
      rewrite K; clear K
  end.
  change (currentLevel (water (Water.saveSettings ?u)))
    with (currentLevel (water u)).
  unfold Water.updateDisplay.
  rewrite (proj2 (currentLevel_calculateEmptyTime now _)).
  rewrite (proj1 (currentLevel_calculateEmptyTime now _)).
  cbn [tankCountdown setWater water currentLevel withCurrentLevel
       validNumber isNaN negb].
  destruct (tankCountdown w);
    rewrite (proj1 (currentLevel_calculateEmptyTime now _));
    cbn [water setWater currentLevel withCurrentLevel]; exact Hx.
Qed.

(** C1 (the code departs from the claim). With soil irrigation already
    active, a call of [performIrrigation] is claimed to leave the tank
    alone. The method never looks at [isIrrigating]: in [irrigatingWorld]
    (irrigation running, moisture 30, 72 l in the tank, 7 l per irrigation)
    it takes the 7 l out of the tank and answers [true], while the soil
    manager's [startIrrigation] returns at once and the soil settings stay
    as they were. The same happens through the wrapper that
    [syncWithWaterManager] installs. *)
Theorem C1_tank_consumed_while_irrigating :
  isIrrigating (soil irrigatingWorld) = true
  /\ fst (Water.performIrrigation 60000 irrigatingWorld) = Some true
  /\ currentLevel (water (snd (Water.performIrrigation 60000 irrigatingWorld)))
     =j= num 65
  /\ soil (snd (Water.performIrrigation 60000 irrigatingWorld))
     = soil irrigatingWorld
  /\ currentLevel
       (water (snd (manualTrigger 60000
                      (setImpl (Synced Original) irrigatingWorld))))
     =j= num 65.
Proof.
  repeat split; vm_compute; reflexivity.
Qed.

(** ** C2: the soil-wetness gate *)

(** C2 (amended). With the soil manager in place and the moisture at or
    above 35, no trigger takes water out of the tank: a call of
    [performIrrigation], through whatever wrapper is installed, leaves the
    water manager's settings as they are and does not answer [true], and so
    does the callback of a scheduled slot. With auto irrigation on, the
    method of the class changes nothing at all and reports the soil as
    already wet. The gate is inside [performIrrigation], so it holds for
    manual triggers as it does for scheduled ones. *)
Theorem C2_wet_soil_blocks_every_trigger
  (impl : Impl) (t : Timer) (now : Z) (w : World) :
  soilManager w = true ->
  (currentMoisture (soil w) >=? num 35)%js = true ->
  (water (snd (callPerformIrrigation impl now w)) = water w
   /\ fst (callPerformIrrigation impl now w) <> Some true)
  /\ water (snd (scheduleCheck t now w)) = water w
  /\ (autoIrrigation (water w) = true ->
      Water.performIrrigation now w
      = (Some false,
         showNotification (SoilAlreadyWet (currentMoisture (soil w))) w)).
Proof.
  intros Hs Hm. split; [|split].
  - now apply callPerformIrrigation_wet.
  - now apply scheduleCheck_wet.
  - intro Ha. now apply performIrrigation_wet.
Qed.

Lemma C2_wet_soil_blocks_every_trigger_witness :
  soilManager sampleWorld = true
  /\ (currentMoisture (soil sampleWorld) >=? num 35)%js = true
  /\ water (snd (callPerformIrrigation (Synced Original) 25200000 sampleWorld))
     = water sampleWorld.
Proof.
  refine (conj eq_refl (conj eq_refl _)).
  exact (proj1 (proj1 (C2_wet_soil_blocks_every_trigger
                         (Synced Original) (scheduleIrrigation "07:00")
                         25200000 sampleWorld eq_refl eq_refl))).
Defined.

(** C2, the claim as stated fails: in [sampleWorld] (moisture 45, 72 l in
    the tank, 7 l per irrigation, auto irrigation on) a manual trigger
    answers [false] with the soil reported as already wet; the tank keeps
    its 72 l and no irrigation is started. *)
Lemma C2_manual_trigger_skipped_counterexample :
  (currentMoisture (soil sampleWorld) >=? num 35)%js = true
  /\ (currentLevel (water sampleWorld)
      >=? irrigationVolume (water sampleWorld))%js = true
  /\ manualTrigger 0 sampleWorld
     = (Some false, showNotification (SoilAlreadyWet (num 45)) sampleWorld)
  /\ ~ (currentLevel (water (snd (manualTrigger 0 sampleWorld))) =j= num 65
        /\ isIrrigating (soil (snd (manualTrigger 0 sampleWorld))) = true).
Proof.
  repeat split; try reflexivity.
  intros (_ & H). vm_compute in H. discriminate.
Qed.

(** ** C3: evaporation under a clear sky *)

Lemma Qfloor_whole_div15 (k : Z) :
  Qfloor ((0 + inject_Z k) / 15) = (k / 15)%Z.
Proof.
  assert (E : (0 + inject_Z k) / 15 == k # 15).
  { unfold Qeq, Qdiv, Qmult, Qinv, Qplus, inject_Z. simpl. lia. }
  rewrite (Qfloor_comp _ _ E). reflexivity.
Qed.

(** C3 (amended). Under a clear sky, with no irrigation running, the
    accumulator at 0 and a moisture [m] of at most 100 that is at least
    [floor(n/15)]: [n] ticks of one minute lower the moisture by exactly
    [floor(n/15)], and one tick after [n] minutes lowers it by exactly
    [floor(min(n,60)/15)], a tick counting 60 minutes at most. So the two
    agree for every [n] up to 60 minutes. *)
Theorem C3_evaporation_by_whole_intervals
  (w : World) (t : Z) (m : Q) (n : nat) :
  weather (soil w) = "cerah" -> isIrrigating (soil w) = false ->
  lastUpdate (soil w) = Some t -> currentMoisture (soil w) = Fin m ->
  moistureDecreaseAccumulator (soil w) = num 0 ->
  inject_Z (Z.of_nat n / 15) <= m -> m <= 100 ->
  (exists w1,
      minuteTicks n t w = Some w1
      /\ currentMoisture (soil w1) =j= Fin (m - inject_Z (Z.of_nat n / 15)))
  /\ (exists w2,
         Soil.updateMoisture (t + 60000 * Z.of_nat n) w = Some w2
         /\ currentMoisture (soil w2)
            =j= Fin (m - inject_Z (Z.min (Z.of_nat n) 60 / 15))).
Proof.
  intros Hw Hi Hl Hm Ha Lm Um.
  assert (Ev : Evaporating w t m 0).
  { repeat split; try assumption.
    - exists m. split; [assumption|reflexivity].
    - exists (inject_Z 0). split; [assumption|reflexivity]. }
  assert (P0 : 0 <= inject_Z (Z.of_nat n / 15)).
  { rewrite <- (Zle_Qle 0). apply Z.div_pos; lia. }
  assert (Pm : 0 <= m) by lra.
  split.
  - destruct (@minuteTicks_evaporating n w t m 0 Ev Pm Um)
      as (w1 & E & _ & _ & _ & (m1 & Hm1 & Em1) & _); try lra.
    exists w1. split; [exact E|]. rewrite Hm1. unfold JsNum.eqv.
    rewrite Em1, Qfloor_whole_div15. apply Q.max_r. lra.
  - destruct (@updateMoisture_evaporating w t (Z.of_nat n) m 0 Ev Pm Um)
      as (w2 & E & _ & _ & _ & (m2 & Hm2 & Em2) & _); try lra; try lia.
    exists w2. split; [exact E|]. rewrite Hm2. unfold JsNum.eqv.
    rewrite Em2, Qfloor_whole_div15. apply Q.max_r.
    assert (K : inject_Z (Z.min (Z.of_nat n) 60 / 15)
                <= inject_Z (Z.of_nat n / 15)).
    { rewrite <- Zle_Qle. apply Z.div_le_mono; lia. }
    lra.
Qed.

Lemma C3_evaporation_by_whole_intervals_witness :
  inject_Z (Z.of_nat 45 / 15) <= 45 /\ 45 <= 100
  /\ (exists w1,
         minuteTicks 45 0 sampleWorld = Some w1
         /\ currentMoisture (soil w1) =j= Fin (45 - inject_Z (Z.of_nat 45 / 15)))
  /\ (exists w2,
         Soil.updateMoisture (0 + 60000 * Z.of_nat 45) sampleWorld = Some w2
         /\ currentMoisture (soil w2)
            =j= Fin (45 - inject_Z (Z.min (Z.of_nat 45) 60 / 15))).
Proof.
  assert (L : inject_Z (Z.of_nat 45 / 15) <= 45) by (vm_compute; discriminate).
  assert (U : 45 <= 100) by (vm_compute; discriminate).
  refine (conj L (conj U _)).
  exact (@C3_evaporation_by_whole_intervals sampleWorld 0 45 45
           eq_refl eq_refl eq_refl eq_refl eq_refl L U).
Defined.

(** C3, the claim as stated fails for a tick longer than an hour: from
    [sampleWorld] (moisture 45, clear sky) one tick after 120 minutes takes
    the moisture to 41, a decrease of 4 and not of [floor(120/15) = 8],
    while 120 ticks of one minute take it to 37. *)
Lemma C3_long_single_tick_counterexample :
  (exists w2,
      Soil.updateMoisture (60000 * 120) sampleWorld = Some w2
      /\ currentMoisture (soil w2) =j= num 41)
  /\ (exists w1,
         minuteTicks 120 0 sampleWorld = Some w1
         /\ currentMoisture (soil w1) =j= num 37)
  /\ ~ (num 41 =j= num (45 - 120 / 15)).
Proof.
  split; [|split].
  - eexists. split; [vm_compute; reflexivity|]. vm_compute. reflexivity.
  - assert (Ev : Evaporating sampleWorld 0 45 0).
    { repeat split.
      - exists (inject_Z 45). split; reflexivity.
      - exists (inject_Z 0). split; reflexivity. }
    destruct (@minuteTicks_evaporating 120 sampleWorld 0 45 0 Ev)
      as (w1 & E & _ & _ & _ & (m1 & Hm1 & Em1) & _).
    5: { exists w1. split; [exact E|]. rewrite Hm1. unfold JsNum.eqv, num.
         rewrite Em1, Qfloor_whole_div15. vm_compute. reflexivity. }
    all: vm_compute; discriminate || reflexivity.
  - vm_compute. discriminate.
Qed.

(** ** C4: not enough water *)

(** C4 (amended). When the tank holds less than the irrigation volume, a
    call of [performIrrigation], through whatever wrapper is installed,
    fails and mutates nothing: the water manager's settings, the
    [isIrrigating] flag and the pending timers are unchanged, and with a
    valid moisture the soil settings and the store are unchanged too. The
    outcome reported is the lack of water when the call goes through the
    wrapper of [syncWithWaterManager], which tests the water first, and, for
    the method of the class, when auto irrigation is on and the soil (if its
    manager is there) is below 35; otherwise the method of the class reports
    the gate that fails first. *)
Theorem C4_insufficient_water_changes_nothing
  (impl : Impl) (now : Z) (w : World) :
  (currentLevel (water w) <? irrigationVolume (water w))%js = true ->
  (water (snd (callPerformIrrigation impl now w)) = water w
   /\ isIrrigating (soil (snd (callPerformIrrigation impl now w)))
      = isIrrigating (soil w)
   /\ timeouts (snd (callPerformIrrigation impl now w)) = timeouts w
   /\ fst (callPerformIrrigation impl now w) <> Some true
   /\ (validNumber (currentMoisture (soil w)) = true ->
       soil (snd (callPerformIrrigation impl now w)) = soil w
       /\ storage (snd (callPerformIrrigation impl now w)) = storage w))
  /\ (forall inner,
         callPerformIrrigation (Synced inner) now w
         = (None, showNotification InsufficientWater w))
  /\ (autoIrrigation (water w) = true ->
      soilManager w = false \/ (currentMoisture (soil w) <? num 35)%js = true ->
      Water.performIrrigation now w
      = (Some false, showNotification InsufficientWater w)).
Proof.
  intro Hlt. split; [|split].
  - exact (callPerformIrrigation_insufficient impl now w Hlt).
  - intro inner. now apply synced_insufficient.
  - intros Ha Hs. now apply performIrrigation_insufficient_outcome.
Qed.

Lemma C4_insufficient_water_changes_nothing_witness :
  (currentLevel (water lowTankWorld)
   <? irrigationVolume (water lowTankWorld))%js = true
  /\ callPerformIrrigation (Synced Original) 0 lowTankWorld
     = (None, showNotification InsufficientWater lowTankWorld).
Proof.
  refine (conj eq_refl _).
  exact (proj1 (proj2 (C4_insufficient_water_changes_nothing
                         Original 0 lowTankWorld eq_refl)) Original).
Defined.

(** C4, the claim as stated fails on the outcome: in [lowTankWorld] (5 l in
    the tank, 7 l per irrigation, moisture 45, auto irrigation on) the
    method of the class reports the soil as already wet, and not the lack of
    water. *)
Lemma C4_wet_soil_reported_first_counterexample :
  (currentLevel (water lowTankWorld)
   <? irrigationVolume (water lowTankWorld))%js = true
  /\ Water.performIrrigation 0 lowTankWorld
     = (Some false, showNotification (SoilAlreadyWet (num 45)) lowTankWorld)
  /\ ~ In InsufficientWater
         (notices (snd (Water.performIrrigation 0 lowTankWorld))).
Proof.
  repeat split; try reflexivity.
  vm_compute. intros [H|[]]. discriminate.
Qed.

(** ** C5: scheduled slots *)

(** C5 (the claim as stated fails). On a page without the soil manager the
    callback of a slot asks nobody whether to irrigate: with two enabled
    slots at 07:00, both callbacks take water out of the tank at
    07:00:00. *)
Lemma C5_twin_slots_both_fire_counterexample :
  let t := scheduleIrrigation "07:00" in
  let p1 := snd (Logged.scheduleCheck t 25200000 waterOnlyPage) in
  let p2 := snd (Logged.scheduleCheck t 25200000 p1) in
  let a := {| moment := 25200000; event := SlotTimer t;
              before := world waterOnlyPage; after := world p1 |} in
  let b := {| moment := 25200000; event := SlotTimer t;
              before := world p1; after := world p2 |} in
  activeSchedules (schedules (water (world waterOnlyPage)))
  = ["07:00"; "07:00"]
  /\ Logged.run 0 [(25200000, SlotTimer t, quietDraws);
                   (25200000, SlotTimer t, quietDraws)]%Z waterOnlyPage
     = Some [a; b]
  /\ fired a /\ fired b /\ ~ apart (moment a) (moment b)
  /\ currentLevel (water (world p2)) = Fin (72 + - 7 + - 7).
Proof.
  cbv zeta. split; [reflexivity|]. split; [vm_compute; reflexivity|].
  split; [|split; [|split]].
  - split; [eexists; reflexivity|].
    cbn [before after]. intro H. apply (f_equal currentLevel) in H.
    vm_compute in H. discriminate.
  - split; [eexists; reflexivity|].
    cbn [before after]. intro H. apply (f_equal currentLevel) in H.
    vm_compute in H. discriminate.
  - unfold apart. cbn [moment]. lia.
  - vm_compute. reflexivity.
Qed.

(** C5 (amended). Whatever the slots are, two at the same minute included:
    with the soil manager in place, an irrigation duration [d] of more than
    2 minutes (and of at most 35791, the longest delay that the stop timer
    takes), no stop timer pending at the start and a stored log of the
    irrigations that is absent or an array, two scheduled irrigations
    (callbacks of slots that took water out of the tank) are more than two
    minutes apart in any run of slot callbacks, manual triggers, ticks,
    checks and stop timers, whatever the log of the moisture holds and
    whatever the draws of the ticks are. The soil manager's own check of
    the schedule detects the time of a slot at most once in two minutes:
    in any run of the check two detections are more than two minutes
    apart, and once a time was detected, no check made within two minutes
    of it detects one, in any state that carries that mark. *)
Theorem C5_scheduled_irrigations_apart
  (times : list Z) (trace : list (Z * Event * Draws)) (clock : Z) (d : Q)
  (p : Page) :
  soilManager (world p) = true ->
  irrigationDuration (soil (world p)) = Fin d -> 2 < d -> d <= 35791 ->
  timeouts (world p) = [] ->
  readableLog (irrigationLogs (logs p)) = true ->
  (forall log : list Step,
      Logged.run clock trace p = Some log ->
      ForallOrdPairs
        (fun a b => fired a -> fired b -> apart (moment a) (moment b))
        log)
  /\ ForallOrdPairs apart (fst (runChecks times (world p)))
  /\ (forall now : Z,
         fst (Soil.checkScheduledIrrigation now (world p)) = true ->
         lastIrrigationCheck
           (soil (snd (Soil.checkScheduledIrrigation now (world p)))) = now
         /\ forall (later : Z) (w' : World),
              lastIrrigationCheck (soil w') = now ->
              (later - now <= 120000)%Z ->
              fst (Soil.checkScheduledIrrigation later w') = false
              /\ lastIrrigationCheck
                   (soil (snd (Soil.checkScheduledIrrigation later w')))
                 = now).
Proof.
  intros Hs Hd Ld Ud Ht R. split; [|split].
  - intros log Hrun.
    exact (proj2 (@logged_run_fires_apart d Ld Ud trace clock None p log R
                    (Steady_initial clock (world p) Hs Hd Ht) Hrun)).
  - apply runChecks_after_mark.
  - intros now Hit.
    destruct (checkScheduledIrrigation_mark now (world p) Hit) as (M & _).
    split; [exact M|]. intros later w' Hw' Hl.
    rewrite <- Hw' in Hl.
    destruct (checkScheduledIrrigation_quiet later w' Hl) as (A & B).
    split; [exact A|]. now rewrite B.
Qed.

(** Two slots at 07:00 with the soil manager in place and a log of the
    moisture that does not parse: the first callback at 07:00:00 takes the
    7 l and the callback of the twin slot takes nothing; the tick a minute
    later ends in the exception of its periodic log; the callback of a slot
    at 07:02 takes nothing either, the irrigation of 15 minutes still
    running. *)
Lemma C5_scheduled_irrigations_apart_witness :
  let p := {| world := twinSlotWorld;
              logs := {| irrigationLogs := None;
                         soilMoistureLogs := Some LogMalformed |} |} in
  let t := scheduleIrrigation "07:00" in
  let trace := [(25200000, SlotTimer t, quietDraws);
                (25200000, SlotTimer t, quietDraws);
                (25260000, MoistureTick, loggingDraws);
                (25320000, SlotTimer (scheduleIrrigation "07:02"),
                 quietDraws)]%Z in
  exists log,
    Logged.run 0 trace p = Some log
    /\ map (fun s => currentLevel (water (after s))) log
       = [Fin (72 + - 7); Fin (72 + - 7); Fin (72 + - 7); Fin (72 + - 7)]
    /\ ForallOrdPairs
         (fun a b => fired a -> fired b -> apart (moment a) (moment b)) log.
Proof.
  intros p t trace.
  assert (E : exists log,
             Logged.run 0 trace p = Some log
             /\ map (fun s => currentLevel (water (after s))) log
                = [Fin (72 + - 7); Fin (72 + - 7); Fin (72 + - 7);
                   Fin (72 + - 7)]).
  { eexists. split; vm_compute; reflexivity. }
  destruct E as (log & E & M).
  assert (L : 2 < 15) by reflexivity.
  assert (U : 15 <= 35791) by (vm_compute; discriminate).
  exists log. split; [exact E|]. split; [exact M|].
  exact (proj1 (@C5_scheduled_irrigations_apart [] trace 0 15 p
                  eq_refl eq_refl L U eq_refl eq_refl) log E).
Defined.

(** The log of the irrigations must be one that can be extended: with the
    soil manager in place and a stored log that is no array, the first
    callback throws after it has taken the 7 l and before the soil manager
    is told, so that the callback of the twin slot takes 7 l more. *)
Example twin_slots_fire_twice_on_unreadable_log :
  let t := scheduleIrrigation "07:00" in
  match
    Logged.run 0 [(25200000, SlotTimer t, quietDraws);
                  (25200000, SlotTimer t, quietDraws)]%Z
      (brokenIrrigationLog twinSlotWorld)
  with
  | Some log =>
      map (fun s => (currentLevel (water (after s)),
                     isIrrigating (soil (after s)))) log
      = [(Fin (72 + - 7), false); (Fin (72 + - 7 + - 7), false)]
  | None => False
  end.
Proof. vm_compute. reflexivity. Qed.

(** On a page whose logs are readable: the first callback takes the 7 l
    and starts the irrigation; the callback of the twin slot and the
    repeated one change nothing; the stop timer is due at 07:15. *)
Example twin_slots_irrigate_once :
  match
    run 0 [(25200000, SlotTimer (scheduleIrrigation "07:00"));
           (25200000, SlotTimer (scheduleIrrigation "07:00"));
           (25200400, SlotTimer (scheduleIrrigation "07:00"));
           (25260000, MoistureTick);
           (26100000, StopTimeout 0)]%Z twinSlotWorld
  with
  | Some log =>
      map (fun s => (currentLevel (water (after s)),
                     isIrrigating (soil (after s)),
                     List.length (timeouts (after s)))) log
      = [(Fin (72 + - 7), true, 1%nat); (Fin (72 + - 7), true, 1%nat);
         (Fin (72 + - 7), true, 1%nat); (Fin (72 + - 7), true, 1%nat);
         (Fin (72 + - 7), false, 0%nat)]
  | None => False
  end
  /\ run 0 [(25200000, SlotTimer (scheduleIrrigation "07:00"));
            (26099999, StopTimeout 0)]%Z twinSlotWorld = None.
Proof. split; vm_compute; reflexivity. Qed.

(** ** C6: the ramp of a drip irrigation *)

(** C6 (amended). While an irrigation is active and within its duration
    [d > 0], a tick of [e] minutes recomputes the target from the current
    moisture [m] as [clamp(m + 15, 25, 40)], adds
    [(target - m) / d * e], caps the sum at that target and then at 40: the
    moisture after the tick is [rampStep m d e], at most 40. When the tick
    is no longer than the duration, this is the sum capped at 40 alone. The
    target stored when the irrigation started is not read: the tick is the
    same whatever [irrigationTargetMoisture] holds. A run of
    [updateMoisture] in such a state ends with a moisture between 0 and
    40. *)
Theorem C6_ramp_recomputed_capped_at_target_and_40
  (now : Z) (w : World) (m d : Q) :
  isIrrigating (soil w) = true ->
  currentMoisture (soil w) = Fin m -> irrigationDuration (soil w) = Fin d ->
  0 < d -> withinDuration now (soil w) = true ->
  (forall e : Q,
      exists m',
        currentMoisture (Soil.processIrrigationIncrease now (Fin e) (soil w))
        = Fin m'
        /\ m' == rampStep m d e /\ m' <= 40
        /\ (0 <= e -> e <= d -> m' == claimedRamp m d e))
  /\ (forall (timeDiff target : jsnum),
         currentMoisture
           (Soil.processIrrigationIncrease now timeDiff
              (withIrrigation (soil w) (isIrrigating (soil w))
                 (irrigationStartTime (soil w)) target))
         = currentMoisture
             (Soil.processIrrigationIncrease now timeDiff (soil w)))
  /\ (exists w' e m',
         Soil.updateMoisture now w = Some w'
         /\ currentMoisture (soil w') = Fin m'
         /\ m' == Qmax 0 (rampStep m d e) /\ 0 <= m' /\ m' <= 40).
Proof.
  intros Hi Hm Hd Pd Hin. split; [|split].
  - intro e.
    destruct (processIrrigationIncrease_fin now (soil w) e Hm Hd Pd Hin)
      as (m' & E & H).
    exists m'. split; [exact E|]. split; [exact H|]. split.
    + rewrite H. apply rampStep_le_40.
    + intros Pe Ue. rewrite H. now apply rampStep_claimed.
  - intros timeDiff target. apply processIrrigationIncrease_target.
  - now apply updateMoisture_irrigating.
Qed.

Lemma C6_ramp_recomputed_capped_at_target_and_40_witness :
  isIrrigating (soil rampWorld) = true
  /\ 0 < 15
  /\ withinDuration 3600000 (soil rampWorld) = true
  /\ (exists w' e m',
         Soil.updateMoisture 3600000 rampWorld = Some w'
         /\ currentMoisture (soil w') = Fin m'
         /\ m' == Qmax 0 (rampStep 10 15 e) /\ 0 <= m' /\ m' <= 40).
Proof.
  assert (P : 0 < 15) by reflexivity.
  refine (conj eq_refl (conj P (conj eq_refl _))).
  exact (proj2 (proj2 (@C6_ramp_recomputed_capped_at_target_and_40
                          3600000 rampWorld 10 15
                          eq_refl eq_refl eq_refl P eq_refl))).
Defined.

(** C6, the claim as stated fails on a tick longer than the duration: in
    [rampWorld] (moisture 10, an irrigation of 15 minutes started 10 minutes
    ago) a tick of 60 minutes ends at the target, 25, where the sum capped
    at 40 alone would be 40. *)
Lemma C6_sum_capped_at_target_counterexample :
  withinDuration 3600000 (soil rampWorld) = true
  /\ currentMoisture
       (Soil.processIrrigationIncrease 3600000 (num 60) (soil rampWorld))
     =j= num 25
  /\ match Soil.updateMoisture 3600000 rampWorld with
     | Some w' => currentMoisture (soil w') =j= num 25
     | None => False
     end
  /\ claimedRamp 10 15 60 == 40
  /\ ~ (currentMoisture
          (Soil.processIrrigationIncrease 3600000 (num 60) (soil rampWorld))
        =j= Fin (claimedRamp 10 15 60)).
Proof.
  repeat split; try (vm_compute; reflexivity).
  vm_compute. discriminate.
Qed.

(** The example of the specification: from 20 percent with a duration of 15
    minutes, fifteen ticks of one minute end near 32.48, below the 35 that a
    straight ramp to the first target [20 + 15] would reach, the target
    moving up with the moisture until it is 40 and the steps shrinking from
    then on. *)
Example ramp_from_20 :
  let step m := Qred (rampStep m 15 1) in
  let final := Nat.iter 15 step 20 in
  final == 1248479720024 # 38443359375 /\ 32 < final /\ final < 33.
Proof. vm_compute. repeat split; reflexivity. Qed.

(** ** C7: the auto-irrigation gate *)

(** C7 (amended). With auto irrigation switched off, every trigger fails
    before any water is taken: the method of the class answers [false] with
    the notice that auto irrigation is disabled and changes nothing else, a
    call through whatever wrapper is installed leaves the water manager's
    settings as they are and does not answer [true], and the callback of a
    scheduled slot does not call [performIrrigation] and changes nothing
    but the notices. The gate makes no exception for a manual trigger. *)
Theorem C7_auto_irrigation_gate_on_every_trigger
  (impl : Impl) (t : Timer) (now : Z) (w : World) :
  autoIrrigation (water w) = false ->
  Water.performIrrigation now w
  = (Some false, showNotification AutoIrrigationDisabled w)
  /\ (water (snd (callPerformIrrigation impl now w)) = water w
      /\ fst (callPerformIrrigation impl now w) <> Some true)
  /\ (scheduleCheck t now w = (false, w)
      \/ scheduleCheck t now w
         = (false, showNotification (ScheduledFailedAuto (timeString t)) w)).
Proof.
  intro Ha. split; [|split].
  - now apply performIrrigation_auto_off.
  - now apply callPerformIrrigation_auto_off.
  - now apply scheduleCheck_auto_off.
Qed.

Lemma C7_auto_irrigation_gate_on_every_trigger_witness :
  autoIrrigation (water autoOffWorld) = false
  /\ Water.performIrrigation 0 autoOffWorld
     = (Some false, showNotification AutoIrrigationDisabled autoOffWorld).
Proof.
  refine (conj eq_refl _).
  exact (proj1 (@C7_auto_irrigation_gate_on_every_trigger
                  Original (scheduleIrrigation "07:00") 0 autoOffWorld
                  eq_refl)).
Defined.

(** C7, the claim as stated fails: in [autoOffWorld] (dry soil, 72 l in the
    tank, auto irrigation off) a manual trigger answers [false] with the
    notice that auto irrigation is disabled and the tank keeps its 72 l,
    also through the wrapper of [syncWithWaterManager]; with auto
    irrigation on, in [dryWorld], the same trigger irrigates. *)
Lemma C7_manual_trigger_gated_counterexample :
  manualTrigger 0 autoOffWorld
  = (Some false, showNotification AutoIrrigationDisabled autoOffWorld)
  /\ currentLevel
       (water (snd (manualTrigger 0 (setImpl (Synced Original) autoOffWorld))))
     = num 72
  /\ In AutoIrrigationDisabled
       (notices (snd (manualTrigger 0
                        (setImpl (Synced Original) autoOffWorld))))
  /\ fst (manualTrigger 0 dryWorld) = Some true.
Proof.
  repeat split; try reflexivity.
  vm_compute. right. right. left. reflexivity.
Qed.

(** ** C8: rain *)

Lemma weather_applyRainEffect (random : Q) (w : World) :
  weather (soil (Soil.applyRainEffect random w)) = weather (soil w).
Proof.
  unfold Soil.applyRainEffect, Soil.updateDisplay.
  match goal with
  | |- context [if ?c then _ else _] => destruct c; reflexivity
  end.
Qed.

(** C8. For every draw of [Math.random], [applyRainEffect] leaves a moisture
    between 75 and 90 and the accumulator at 0. [setWeather] applies it when
    the weather changes to rain from something else, and only then: any
    other call leaves the moisture and the accumulator as they are. *)
Theorem C8_rain_sets_moisture_and_resets_accumulator
  (random : Q) (w : World) :
  0 <= random -> random < 1 ->
  (exists m,
      currentMoisture (soil (Soil.applyRainEffect random w)) = Fin m
      /\ 75 <= m /\ m <= 90
      /\ moistureDecreaseAccumulator (soil (Soil.applyRainEffect random w))
         = num 0)
  /\ (weather (soil w) <> "hujan" ->
      exists m,
        currentMoisture (soil (Soil.setWeather "hujan" random w)) = Fin m
        /\ 75 <= m /\ m <= 90
        /\ moistureDecreaseAccumulator
             (soil (Soil.setWeather "hujan" random w)) = num 0
        /\ weather (soil (Soil.setWeather "hujan" random w)) = "hujan")
  /\ (forall newWeather : string,
         newWeather <> "hujan" \/ weather (soil w) = "hujan" ->
         currentMoisture (soil (Soil.setWeather newWeather random w))
         = currentMoisture (soil w)
         /\ moistureDecreaseAccumulator
              (soil (Soil.setWeather newWeather random w))
            = moistureDecreaseAccumulator (soil w)).
Proof.
  intros L U. split; [|split].
  - now apply applyRainEffect_range.
  - intro Hw. unfold Soil.setWeather.
    apply String.eqb_neq in Hw. rewrite Hw. cbn [String.eqb Ascii.eqb Bool.eqb andb negb].
    rewrite soil_showNotification.
    set (w1 := Soil.saveSettings _).
    destruct (applyRainEffect_range w1 L U) as (m & E & A & B & C).
    exists m. repeat split; try assumption.
    rewrite weather_applyRainEffect. reflexivity.
  - intros newWeather H. unfold Soil.setWeather.
    assert (K : (newWeather =? "hujan")%string
                && negb (weather (soil w) =? "hujan")%string = false).
    { destruct H as [H|H].
      - apply String.eqb_neq in H. now rewrite H.
      - rewrite H. cbn. apply andb_false_r. }
    rewrite K. split; reflexivity.
Qed.

Lemma C8_rain_sets_moisture_and_resets_accumulator_witness :
  0 <= 1 # 2 /\ 1 # 2 < 1
  /\ (exists m,
         currentMoisture (soil (Soil.applyRainEffect (1 # 2) sampleWorld))
         = Fin m
         /\ 75 <= m /\ m <= 90
         /\ moistureDecreaseAccumulator
              (soil (Soil.applyRainEffect (1 # 2) sampleWorld)) = num 0).
Proof.
  assert (L : 0 <= 1 # 2) by (vm_compute; discriminate).
  assert (U : 1 # 2 < 1) by reflexivity.
  refine (conj L (conj U _)).
  exact (proj1 (@C8_rain_sets_moisture_and_resets_accumulator
                  (1 # 2) sampleWorld L U)).
Defined.

(** ** C9: a corrupted moisture in the store *)

(** With the [irrigationSettings] item absent or a document: when the
    stored item of the soil manager does not parse, or its
    [currentMoisture] is not a number between 0 and 100, the start of the
    page ends without an exception and with the moisture at the default
    45; for a document that parses, [loadSettings] alone does. *)
Lemma corrupted_moisture_loads_as_default
  (now : Z) (w : World) (item : Item SoilDoc) :
  soilMoistureSettings (storage w) = Some item ->
  corrupted item = true ->
  readable (irrigationSettings (storage w)) = true ->
  (exists w',
      onDOMContentLoaded now w = Ok w'
      /\ currentMoisture (soil w') = num 45)
  /\ (forall d,
         item = JsonObj d ->
         exists s,
           Soil.loadSettings (storage w) (Soil.initialSettings now) = Ok s
           /\ currentMoisture s = num 45).
Proof.
  intros Hs Hc Hr. split.
  - unfold onDOMContentLoaded.
    destruct (clearCorrupted_spec (storage w) Hs Hc) as (A & B).
    set (w0 := setStorage (clearCorrupted (storage w)) w).
    destruct (@loadSettings_corrupted (storage w0) (Soil.initialSettings now))
      as (s & E & H45); [reflexivity| |exact B|].
    { unfold w0. cbn [storage setStorage]. now rewrite A. }
    destruct (newSoilMoistureManager_moisture now w0 E H45) as (w' & E' & H').
    rewrite E'. cbn [rbind]. eexists. split; [reflexivity|]. exact H'.
  - intros d ->. apply loadSettings_corrupted; [reflexivity|exact Hr|].
    rewrite Hs. cbn [corrupted] in Hc. now apply negb_true_iff in Hc.
Qed.

(** C9 (the code breaks the claim). The store holds a record of the soil
    manager whose moisture is the text "NaN" and an [irrigationSettings]
    item that does not parse. The handler of the page removes the record,
    as its comment announces, and then the constructor leaves
    [loadSettings()] with the SyntaxError of the second [JSON.parse], which
    has no guard: the start of the page ends with that exception and no
    soil manager is registered. With the same record and without that
    item, the start ends with the moisture at 45 and the manager
    registered. *)
Theorem C9_start_throws_on_unreadable_irrigationSettings :
  let st := storage unreadableSettingsWorld in
  soilMoistureSettings st = Some (JsonObj corruptedDoc)
  /\ corrupted (JsonObj corruptedDoc) = true
  /\ irrigationSettings st = Some Malformed
  /\ soilMoistureSettings (clearCorrupted st) = None
  /\ Soil.loadSettings (clearCorrupted st) (Soil.initialSettings 1000)
     = Throw SyntaxError
  /\ onDOMContentLoaded 1000 unreadableSettingsWorld = Throw SyntaxError
  /\ soilManager unreadableSettingsWorld = false
  /\ (exists w',
         onDOMContentLoaded 1000 corruptedWorld = Ok w'
         /\ currentMoisture (soil w') = num 45
         /\ soilManager w' = true).
Proof.
  cbv zeta. repeat (split; [vm_compute; reflexivity|]).
  eexists. split; [vm_compute; reflexivity|]. split; reflexivity.
Qed.

(** ** C10: what the soil manager saves *)


(** In [nanWorld] the stored moisture is [null]; the validated copy would
    have stored 45. *)
Example saveSettings_nan :
  option_map
    (fun i => match i with
              | JsonObj d => d_currentMoisture d
              | _ => None
              end)
    (soilMoistureSettings (storage (Soil.saveSettings nanWorld)))
  = Some (Some JNull)
  /\ d_currentMoisture (stringifySoil (Soil.settingsToSave (soil nanWorld)))
     = Some (JNum 45).
Proof. split; reflexivity. Qed.

(* ================================================================== *)
(** * Further properties of the two managers *)

(* ================================================================== *)
(** ** The text of a slot *)

Lemma digit_not_colon (d : Z) :
  (0 <= d <= 9)%Z -> Ascii.eqb (digit d) ":"%char = false.
Proof.
  intros [L U].
  assert (C : (d = 0 \/ d = 1 \/ d = 2 \/ d = 3 \/ d = 4 \/ d = 5 \/ d = 6
               \/ d = 7 \/ d = 8 \/ d = 9)%Z) by lia.
  repeat (destruct C as [-> | C]; [reflexivity|]). now subst d.
Qed.

Lemma splitColon_padStart2 (h m : Z) :
  (0 <= h < 100)%Z -> (0 <= m < 100)%Z ->
  splitColon (padStart2 h ++ ":" ++ padStart2 m) = [padStart2 h; padStart2 m].
Proof.
  intros Hh Hm. unfold padStart2. cbn [append splitColon].
  rewrite !digit_not_colon.
  - reflexivity.
  - pose proof (Z.mod_pos_bound m 10). lia.
  - pose proof (Z.div_pos m 10). pose proof (Z.div_lt_upper_bound m 10 10). lia.
  - pose proof (Z.mod_pos_bound h 10). lia.
  - pose proof (Z.div_pos h 10). pose proof (Z.div_lt_upper_bound h 10 10). lia.
Qed.

Lemma digitValue_digit (d : Z) :
  (0 <= d <= 9)%Z -> digitValue (digit d) = Some d.
Proof.
  intros [L U].
  assert (C : (d = 0 \/ d = 1 \/ d = 2 \/ d = 3 \/ d = 4 \/ d = 5 \/ d = 6
               \/ d = 7 \/ d = 8 \/ d = 9)%Z) by lia.
  repeat (destruct C as [-> | C]; [reflexivity|]). now subst d.
Qed.

Lemma Number_padStart2 (n : Z) :
  (0 <= n < 100)%Z -> Number (padStart2 n) = num n.
Proof.
  intros Hn. unfold Number, padStart2. cbn [digitsValue].
  rewrite !digitValue_digit.
  - f_equal. pose proof (Z.div_mod n 10). lia.
  - pose proof (Z.mod_pos_bound n 10). lia.
  - pose proof (Z.div_pos n 10). pose proof (Z.div_lt_upper_bound n 10 10). lia.
Qed.

Lemma getHours_range (now : Z) : (0 <= getHours now < 24)%Z.
Proof. unfold getHours. apply Z.mod_pos_bound. lia. Qed.

Lemma getMinutes_range (now : Z) : (0 <= getMinutes now < 60)%Z.
Proof. unfold getMinutes. apply Z.mod_pos_bound. lia. Qed.

Lemma scheduleIrrigation_timeOfDay (now : Z) :
  scheduleIrrigation (timeOfDay now)
  = {| timeString := timeOfDay now;
       hours := Some (num (getHours now));
       minutes := Some (num (getMinutes now)) |}.
Proof.
  pose proof (getHours_range now). pose proof (getMinutes_range now).
  unfold scheduleIrrigation, timeOfDay.
  rewrite splitColon_padStart2 by lia.
  cbn [map nth_error]. rewrite !Number_padStart2 by lia. reflexivity.
Qed.

Lemma sameNumber_num (a b : Z) :
  sameNumber a (Some (num b)) = true <-> a = b.
Proof.
  unfold sameNumber, num, JsNum.seq. rewrite Qeq_bool_iff.
  unfold Qeq, inject_Z. cbn. lia.
Qed.

Lemma timeOfDay_inj (a b : Z) :
  timeOfDay a = timeOfDay b
  <-> getHours a = getHours b /\ getMinutes a = getMinutes b.
Proof.
  split.
  - intro E.
    pose proof (scheduleIrrigation_timeOfDay a) as A.
    pose proof (scheduleIrrigation_timeOfDay b) as B.
    rewrite E, B in A. injection A as Hh Hm. now split.
  - intros [Hh Hm]. unfold timeOfDay. now rewrite Hh, Hm.
Qed.

(** X1. The text [HH:MM] that the soil manager writes for a time of day is
    read back by the water manager's [scheduleIrrigation] as the hour and
    the minute it was written from; two times of day have the same text
    exactly when they agree on hour and minute; and the timer of that slot
    does nothing at any time that is not second 0 of that minute. *)
Theorem slot_text_round_trip (now later : Z) (w : World) :
  let t := scheduleIrrigation (timeOfDay now) in
  hours t = Some (num (getHours now))
  /\ minutes t = Some (num (getMinutes now))
  /\ (timeOfDay later = timeOfDay now
      <-> getHours later = getHours now /\ getMinutes later = getMinutes now)
  /\ (timeOfDay later <> timeOfDay now \/ getSeconds later <> 0%Z ->
      scheduleCheck t later w = (false, w)).
Proof.
  cbv zeta. rewrite scheduleIrrigation_timeOfDay. cbn [hours minutes].
  split; [reflexivity|]. split; [reflexivity|].
  split; [apply timeOfDay_inj|].
  intros D. unfold scheduleCheck. cbn [hours minutes].
  destruct (sameNumber (getHours later) (Some (num (getHours now)))) eqn:Eh;
    [|reflexivity].
  destruct (sameNumber (getMinutes later) (Some (num (getMinutes now))))
    eqn:Em; [|reflexivity].
  destruct (getSeconds later =? 0)%Z eqn:Es; [|reflexivity].
  exfalso. apply sameNumber_num in Eh, Em. apply Z.eqb_eq in Es.
  destruct D as [D | D]; [|contradiction].
  apply D. apply timeOfDay_inj. now split.
Qed.

Lemma slot_text_round_trip_witness :
  let t := scheduleIrrigation (timeOfDay 25200000) in
  hours t = Some (num 7)
  /\ minutes t = Some (num 0)
  /\ scheduleCheck t 25201000 sampleWorld = (false, sampleWorld).
Proof.
  pose proof (slot_text_round_trip 25200000 25201000 sampleWorld) as H.
  cbv zeta in H. destruct H as (Hh & Hm & _ & Hc).
  split; [exact Hh|]. split; [exact Hm|].
  apply Hc. right. vm_compute. discriminate.
Defined.

(* ================================================================== *)
(** ** Loading and the start of the page *)

Lemma clearCorrupted_cases (st : Storage) :
  irrigationSettings (clearCorrupted st) = irrigationSettings st
  /\ (soilMoistureSettings (clearCorrupted st) = None
      \/ exists d q,
           soilMoistureSettings (clearCorrupted st) = Some (JsonObj d)
           /\ d_currentMoisture d = Some (JNum q)).
Proof.
  unfold clearCorrupted.
  destruct (soilMoistureSettings st) as [[| |d]|] eqn:E; cbn;
    try (split; [reflexivity|now left]).
  destruct (d_currentMoisture d) as [[| | q | |]|] eqn:M; cbn;
      try (split; [reflexivity|now left]).
    split; [reflexivity|]. right. exists d, q. now rewrite E.
Qed.

(** X2. The start of the soil manager's page throws whenever the stored
    [irrigationSettings] item does not parse (a SyntaxError) or parses to
    [null] (a TypeError), whatever the [soilMoistureSettings] item holds:
    the handler removes a record that does not parse, [loadSettings] only
    copies properties of one that does, and then it parses the
    [irrigationSettings] item without a guard, which the repair at the
    head of the handler does not reach. *)
Theorem page_start_fails_on_irrigationSettings (now : Z) (w : World) :
  (irrigationSettings (storage w) = Some Malformed ->
   onDOMContentLoaded now w = Throw SyntaxError)
  /\ (irrigationSettings (storage w) = Some JsonNull ->
      onDOMContentLoaded now w = Throw TypeError).
Proof.
  destruct (clearCorrupted_cases (storage w)) as [I S].
  unfold onDOMContentLoaded, newSoilMoistureManager, Soil.loadSettings.
  cbn [storage setStorage].
  rewrite I.
  assert (P : exists s1,
             match soilMoistureSettings (clearCorrupted (storage w)) with
             | Some saved =>
                 savedSettings <- parse saved ;;
                 Ok (Soil.applySaved savedSettings (Soil.initialSettings now))
             | None => Ok (Soil.initialSettings now)
             end = Ok s1).
  { destruct S as [-> | (d & q & -> & _)]; eexists; reflexivity. }
  destruct P as [s1 ->]. cbn [rbind].
  split; intros ->; reflexivity.
Qed.

Lemma page_start_fails_on_irrigationSettings_witness :
  irrigationSettings (storage unreadableSettingsWorld) = Some Malformed
  /\ onDOMContentLoaded 1000 unreadableSettingsWorld = Throw SyntaxError.
Proof.
  split; [reflexivity|].
  exact (proj1 (page_start_fails_on_irrigationSettings 1000
                  unreadableSettingsWorld) eq_refl).
Defined.

Lemma irrigationDuration_applySaved (d : SoilDoc) (s : SoilSettings) :
  irrigationDuration (Soil.applySaved d s)
  = match asNumber (d_irrigationDuration d) with
    | Some q => Fin q
    | None => irrigationDuration s
    end.
Proof.
  unfold Soil.applySaved.
  destruct (asNumber (d_currentMoisture d)),
    (asNumber (d_irrigationDuration d)); reflexivity.
Qed.

Lemma ensureValid_moisture (s : SoilSettings) (a : option (option json)) :
  exists m,
    currentMoisture (Soil.ensureValid s a) = Fin m /\ 0 <= m /\ m <= 100.
Proof.
  rewrite currentMoisture_ensureValid.
  destruct (currentMoisture s) as [q| | |]; cbn;
    try (exists (inject_Z 45); split; [reflexivity|split; discriminate]).
  destruct (Qle_bool (inject_Z 0) q) eqn:L; cbn;
    [|exists (inject_Z 45); split; [reflexivity|split; discriminate]].
  destruct (Qle_bool q (inject_Z 100)) eqn:U; cbn;
    [|exists (inject_Z 45); split; [reflexivity|split; discriminate]].
  exists q. apply Qle_bool_iff in L, U.
  change (inject_Z 0) with 0 in L. change (inject_Z 100) with 100 in U.
  now repeat split.
Qed.

Lemma ensureValid_duration (s : SoilSettings) (a : option (option json))
  (d : Q) :
  irrigationDuration s = Fin d ->
  exists d',
    irrigationDuration (Soil.ensureValid s a) = Fin d' /\ 5 <= d'.
Proof.
  intro D. unfold Soil.ensureValid.
  match goal with
  | |- context [if ?c then withCurrentMoisture s (num 45) else s] =>
      set (s1 := if c then withCurrentMoisture s (num 45) else s)
  end.
  assert (D1 : irrigationDuration s1 = Fin d).
  { unfold s1.
    destruct (negb (validNumber (currentMoisture s))
              || (currentMoisture s <? num 0)%js
              || (currentMoisture s >? num 100)%js); exact D. }
  clearbody s1.
  assert (K : forall q : Q, (Fin q <? num 5)%js = false -> 5 <= q).
  { intros q E. cbn in E. apply negb_false_iff, Qle_bool_iff in E.
    exact E. }
  destruct a as [[[| b | q | t |]|]|]; cbn [irrigationDuration withIrrigationDuration];
    try (exists (inject_Z 15); split; [reflexivity|discriminate]).
  - destruct (Fin q <? num 5)%js eqn:E.
    + exists (inject_Z 15). split; [reflexivity|discriminate].
    + exists q. split; [reflexivity|now apply K].
  - rewrite D1. cbn [validNumber isNaN negb orb].
    destruct (Fin d <? num 5)%js eqn:E.
    + exists (inject_Z 15). split; [reflexivity|discriminate].
    + exists d. split; [exact D1|now apply K].
Qed.

Lemma applyIrrigationSettings_duration (g : GlobalDoc) (s : SoilSettings)
  (d : Q) :
  irrigationDuration s = Fin d ->
  exists d', irrigationDuration (fst (Soil.applyIrrigationSettings g s)) = Fin d'.
Proof.
  intro D. unfold Soil.applyIrrigationSettings.
  destruct (g_irrigation g) as [i|]; [destruct (truthy (duration i))|];
    destruct (g_waterLevel g); cbn; rewrite ?D; eexists; reflexivity.
Qed.

(** On stored numbers that are finite, a [loadSettings()] that does not
    throw leaves a finite moisture of [0..100] and a finite duration of at
    least 5 minutes. *)
Lemma loadSettings_finite_ranges (now : Z) (st : Storage) (s' : SoilSettings) :
  Soil.loadSettings st (Soil.initialSettings now) = Ok s' ->
  exists m d,
    currentMoisture s' = Fin m /\ 0 <= m /\ m <= 100
    /\ irrigationDuration s' = Fin d /\ 5 <= d.
Proof.
  unfold Soil.loadSettings. intro L.
  assert (P : exists s1 d1,
             match soilMoistureSettings st with
             | Some saved =>
                 savedSettings <- parse saved ;;
                 Ok (Soil.applySaved savedSettings (Soil.initialSettings now))
             | None => Ok (Soil.initialSettings now)
             end = Ok s1 /\ irrigationDuration s1 = Fin d1).
  { destruct (soilMoistureSettings st) as [[| |d]|]; cbn in L |- *;
      try discriminate.
    - assert (D : exists d1,
                 irrigationDuration
                   (Soil.applySaved d (Soil.initialSettings now)) = Fin d1).
      { rewrite irrigationDuration_applySaved.
        destruct (asNumber (d_irrigationDuration d)); eexists; reflexivity. }
      destruct D as [d1 D]. eexists _, d1. split; [reflexivity|exact D].
    - eexists _, _. split; reflexivity. }
  destruct P as (s1 & d1 & E1 & D1). rewrite E1 in L. cbn [rbind] in L.
  assert (Q2 : exists sd d2,
             match irrigationSettings st with
             | Some irrigationSettings =>
                 parsed <- parse irrigationSettings ;;
                 Ok (Soil.applyIrrigationSettings parsed s1)
             | None => Ok (s1, None)
             end = Ok sd /\ irrigationDuration (fst sd) = Fin d2).
  { destruct (irrigationSettings st) as [[| |g]|]; cbn in L |- *;
      try discriminate.
    - destruct (@applyIrrigationSettings_duration g s1 d1 D1) as [d2 D2].
      eexists _, _. split; [reflexivity|exact D2].
    - eexists _, _. split; [reflexivity|exact D1]. }
  destruct Q2 as (sd & d2 & E2 & D2). rewrite E2 in L. cbn [rbind] in L.
  injection L as <-.
  destruct (ensureValid_moisture (fst sd) (snd sd)) as (m & M & M0 & M1).
  destruct (@ensureValid_duration (fst sd) (snd sd) d2 D2) as (d & D & D5).
  exists m, d. now repeat split.
Qed.

Lemma loadSettings_moisture (st : Storage) (s s' : SoilSettings)
  (d : SoilDoc) (q : Q) :
  Soil.loadSettings st s = Ok s' ->
  soilMoistureSettings st = Some (JsonObj d) ->
  d_currentMoisture d = Some (JNum q) ->
  currentMoisture s'
  = if negb (validNumber (Fin q)) || (Fin q <? num 0)%js
       || (Fin q >? num 100)%js
    then num 45 else Fin q.
Proof.
  intros L S M. unfold Soil.loadSettings in L. rewrite S in L.
  cbn [parse rbind] in L.
  assert (C : currentMoisture (Soil.applySaved d s) = Fin q).
  { rewrite currentMoisture_applySaved, M. reflexivity. }
  destruct (irrigationSettings st) as [[| |g]|]; cbn [parse rbind] in L;
    try discriminate;
    match type of L with
    | Ok ?x = _ => assert (E : x = s') by congruence; clear L; subst s'
    end;
    rewrite currentMoisture_ensureValid; cbn [fst snd];
    rewrite ?currentMoisture_applyIrrigationSettings, C; reflexivity.
Qed.

(** X3. Whatever the store holds, a [loadSettings()] of the soil manager
    that does not throw leaves a moisture that compares as a number of
    [0..100] and an irrigation duration that compares as a number of at
    least 5 minutes. A stored moisture outside [0..100] comes back as 45,
    one inside is kept as it is. *)
Theorem loadSettings_keeps_ranges (now : Z) (st : Storage) (s' : SoilSettings) :
  Soil.loadSettings st (Soil.initialSettings now) = Ok s' ->
  (num 0 <=? currentMoisture s')%js = true
  /\ (currentMoisture s' <=? num 100)%js = true
  /\ (irrigationDuration s' >=? num 5)%js = true
  /\ (forall d q,
        soilMoistureSettings st = Some (JsonObj d) ->
        d_currentMoisture d = Some (JNum q) ->
        (q < 0 \/ 100 < q -> currentMoisture s' = num 45)
        /\ (0 <= q <= 100 -> currentMoisture s' = Fin q)).
Proof.
  intro L.
  split; [|split; [|split]].
  4: { intros doc q S M.
       rewrite (@loadSettings_moisture st _ s' doc q L S M).
       unfold gt, lt, num. cbn [validNumber isNaN negb orb].
       change (inject_Z 0) with 0. change (inject_Z 100) with 100.
       split.
       - intros [H | H].
         + destruct (Qle_bool 0 q) eqn:E; [|reflexivity].
           apply Qle_bool_iff in E. lra.
         + destruct (Qle_bool 0 q); [|reflexivity]. cbn.
           destruct (Qle_bool q 100) eqn:E; [|reflexivity].
           apply Qle_bool_iff in E. lra.
       - intros [H0 H1].
         apply Qle_bool_iff in H0, H1. rewrite H0, H1. reflexivity. }
  all: destruct (loadSettings_finite_ranges now st L)
         as (m & d & M & M0 & M1 & D & D5);
       rewrite ?M, ?D; unfold num, ge, le; apply Qle_bool_iff; assumption.
Qed.

Lemma loadSettings_keeps_ranges_witness :
  exists s',
    Soil.loadSettings outOfRangeStorage (Soil.initialSettings 1000) = Ok s'
    /\ currentMoisture s' = num 45
    /\ (irrigationDuration s' >=? num 5)%js = true.
Proof.
  eexists. split; [vm_compute; reflexivity|].
  match goal with
  | |- currentMoisture ?s = _ /\ _ =>
      destruct (@loadSettings_keeps_ranges 1000 outOfRangeStorage s eq_refl)
        as (_ & _ & D & K)
  end.
  split; [|exact D].
  apply (K outOfRangeDoc 150); [reflexivity|reflexivity|].
  right. reflexivity.
Defined.

(** X4. Saving the soil settings and loading them into a new manager
    restores the moisture (a number of [0..100]), the irrigation duration
    (at least 5), the weather, the slots and [isIrrigating], and nothing
    else: the start time of a running irrigation, the accumulator and the
    dates of the last update and check are the ones of a new manager. *)
Theorem soil_settings_round_trip (now : Z) (w : World) (m d : Q) :
  currentMoisture (soil w) = Fin m -> 0 <= m -> m <= 100 ->
  irrigationDuration (soil w) = Fin d -> 5 <= d ->
  weather (soil w) <> "" ->
  irrigationSettings (storage w) = None ->
  exists s',
    Soil.loadSettings (storage (Soil.saveSettings w)) (Soil.initialSettings now)
    = Ok s'
    /\ currentMoisture s' = currentMoisture (soil w)
    /\ irrigationDuration s' = irrigationDuration (soil w)
    /\ weather s' = weather (soil w)
    /\ scheduledIrrigations s' = scheduledIrrigations (soil w)
    /\ isIrrigating s' = isIrrigating (soil w)
    /\ irrigationStartTime s' = None
    /\ irrigationTargetMoisture s' = num 40
    /\ moistureDecreaseAccumulator s' = num 0
    /\ lastUpdate s' = Some now
    /\ lastIrrigationCheck s' = now
    /\ lastMoistureDecrease s' = now
    /\ moistureThresholds s' = None
    /\ autoIrrigationFlag s' = None.
Proof.
  intros M M0 M1 D D5 W I.
  unfold Soil.loadSettings, Soil.saveSettings.
  cbn [storage setStorage soilMoistureSettings irrigationSettings setSoilItem
       parse rbind].
  rewrite I. cbn [rbind fst snd].
  eexists. split; [reflexivity|].
  unfold Soil.ensureValid, Soil.applySaved, stringifySoil.
  cbn [d_currentMoisture d_irrigationDuration d_weather d_isIrrigating
       d_scheduledIrrigations].
  rewrite M, D. cbn [json_of_num asNumber].
  assert (W' : String.eqb (weather (soil w)) "" = false).
  { now apply String.eqb_neq. }
  rewrite W'.
  assert (A : (Fin m <? num 0)%js = false).
  { cbn. apply negb_false_iff, Qle_bool_iff. exact M0. }
  assert (B : (Fin m >? num 100)%js = false).
  { cbn. apply negb_false_iff, Qle_bool_iff. exact M1. }
  assert (C : (Fin d <? num 5)%js = false).
  { cbn. apply negb_false_iff, Qle_bool_iff. exact D5. }
  cbv beta iota delta
    [currentMoisture irrigationDuration weather isIrrigating
     irrigationStartTime irrigationTargetMoisture lastUpdate
     scheduledIrrigations lastIrrigationCheck lastMoistureDecrease
     moistureDecreaseAccumulator moistureThresholds autoIrrigationFlag
     withCurrentMoisture withIrrigationDuration withWeather withIrrigation
     withScheduledIrrigations Soil.initialSettings validNumber isNaN negb orb].
  rewrite A, B, C.
  cbv beta iota.
  repeat split; reflexivity.
Qed.

Lemma soil_settings_round_trip_witness :
  exists s',
    Soil.loadSettings (storage (Soil.saveSettings irrigatingWorld))
      (Soil.initialSettings 600000) = Ok s'
    /\ currentMoisture s' = num 30
    /\ isIrrigating s' = true
    /\ irrigationStartTime s' = None.
Proof.
  destruct (@soil_settings_round_trip 600000 irrigatingWorld 30 15)
    as (s' & L & M & _ & _ & _ & R & S & _);
    try reflexivity; try discriminate.
  exists s'. repeat split; assumption.
Defined.

(* ================================================================== *)
(** ** An irrigation whose stop timer is gone *)

Lemma running_same (w w' : World) :
  isIrrigating (soil w) = true -> timeouts w = [] -> soilManager w = true ->
  SameIrrigation w w' ->
  isIrrigating (soil w') = true /\ timeouts w' = [] /\ soilManager w' = true.
Proof.
  intros R T S (S' & _ & R' & T'). rewrite S', R', T'. now repeat split.
Qed.

Lemma running_step (now : Z) (e : Event) (w w' : World) :
  isIrrigating (soil w) = true -> timeouts w = [] -> soilManager w = true ->
  step now e w = Some w' ->
  (isIrrigating (soil w') = true /\ timeouts w' = [] /\ soilManager w' = true)
  /\ ((exists t, e = SlotTimer t) -> water w' = water w).
Proof.
  intros R T S E.
  assert (N : forall x, Started now w x -> False).
  { intros x (_ & _ & F & _). congruence. }
  destruct e as [t| | | |k]; cbn [step] in E.
  - injection E as <-. split.
    + destruct (scheduleCheck_cases t now w) as [C|C];
        [now apply running_same with (w := w)|destruct (N _ C)].
    + intros _. now apply scheduleCheck_running.
  - injection E as <-. unfold manualTrigger. split.
    + destruct (callPerformIrrigation_cases (performIrrigationImpl w) now w)
        as [C|C]; [now apply running_same with (w := w)|destruct (N _ C)].
    + intros [t F]. discriminate.
  - split.
    + apply running_same with (w := w); try assumption.
      now apply (updateMoisture_same now w).
    + intros [t F]. discriminate.
  - injection E as <-. split.
    + apply running_same with (w := w); try assumption.
      apply checkScheduledIrrigation_same.
    + intros [t F]. discriminate.
  - rewrite T in E. destruct k; discriminate.
Qed.

(** X5. An irrigation that runs without a pending stop timer, which is the
    state a reload of the page during an irrigation leaves, never ends: in
    every run of slot timers, manual triggers, moisture ticks and schedule
    checks [isIrrigating] stays set, no stop timer appears, and no slot
    timer takes water from the tank. *)
Theorem irrigation_without_stop_timer_never_ends (trace : list (Z * Event)) :
  forall (clock : Z) (w : World) (log : list Step),
    soilManager w = true -> isIrrigating (soil w) = true ->
    timeouts w = [] ->
    run clock trace w = Some log ->
    Forall (fun s => isIrrigating (soil (after s)) = true
                     /\ timeouts (after s) = []
                     /\ ~ fired s) log.
Proof.
  induction trace as [|[now e] rest IH]; intros clock w log S R T E.
  - injection E as <-. constructor.
  - cbn [run] in E. destruct (clock <=? now)%Z; [|discriminate].
    destruct (step now e w) as [w'|] eqn:Es; [|discriminate].
    destruct (run now rest w') as [log'|] eqn:Er; [|discriminate].
    injection E as <-.
    destruct (@running_step now e w w' R T S Es) as [(R' & T' & S') K].
    constructor.
    + cbn [after before event]. split; [exact R'|]. split; [exact T'|].
      intros [F G]. cbn [after before event] in F, G. apply G. now apply K.
    + now apply (IH now w').
Qed.

Lemma irrigation_without_stop_timer_never_ends_witness :
  Forall (fun s => isIrrigating (soil (after s)) = true
                   /\ timeouts (after s) = []
                   /\ ~ fired s)
    [ {| moment := 25200000;
         event := SlotTimer (scheduleIrrigation "07:00");
         before := irrigatingWorld;
         after := snd (scheduleCheck (scheduleIrrigation "07:00") 25200000
                         irrigatingWorld) |} ].
Proof.
  apply (@irrigation_without_stop_timer_never_ends
           [(25200000%Z, SlotTimer (scheduleIrrigation "07:00"))]
           0 irrigatingWorld); reflexivity.
Defined.

(* ================================================================== *)
(** ** A tick of the moisture simulation, in general *)

Lemma minutesSince_value (now before : Z) :
  exists q,
    minutesSince now before = Fin q /\ q == inject_Z (now - before) / 60000.
Proof.
  unfold minutesSince, num. rewrite !div_fin_pos by reflexivity.
  eexists; split; [reflexivity|].
  change (inject_Z 1000) with 1000. change (inject_Z 60) with 60. field.
Qed.

Lemma clamp_range (mo : jsnum) :
  isNaN mo = false ->
  exists y,
    JsNum.max (num 0) (JsNum.min (num 100) mo) = Fin y
    /\ 0 <= y /\ y <= 100
    /\ (forall m, mo = Fin m -> y == Qmax 0 (Qmin 100 m)).
Proof.
  intro V. destruct mo as [q| | |]; try discriminate.
  - destruct (min_fin (inject_Z 100) q) as (x & Ex & Hx).
    fold (num 100) in Ex. rewrite Ex.
    destruct (max_fin (inject_Z 0) x) as (y & Ey & Hy).
    fold (num 0) in Ey. rewrite Ey.
    change (inject_Z 0) with 0 in Hy. change (inject_Z 100) with 100 in Hx.
    exists y. split; [reflexivity|].
    assert (E : y == Qmax 0 (Qmin 100 q)) by (now rewrite Hy, Hx).
    split; [rewrite E; apply Q.le_max_l|].
    split.
    + rewrite E. apply Q.max_lub; [discriminate|apply Q.le_min_l].
    + intros m M. injection M as <-. exact E.
  - exists (inject_Z 100). split; [reflexivity|].
    split; [discriminate|]. split; [discriminate|]. intros m M. discriminate.
  - exists (inject_Z 0). split; [reflexivity|].
    split; [discriminate|]. split; [discriminate|]. intros m M. discriminate.
Qed.

Lemma evaporationLoop_total (i : Q) (r : jsnum) :
  0 < i ->
  forall (fuel : nat) (mo : jsnum) (acc : Q) (ch : bool),
    Z.to_nat (Qfloor (acc / i)) = fuel ->
    exists mo' acc' ch',
      Soil.evaporationLoop fuel {| Soil.rate := r; Soil.interval := Fin i |}
        mo (Fin acc) ch = Some (mo', acc', ch').
Proof.
  intros Pi fuel. induction fuel as [|fuel IH]; intros mo acc ch F.
  - assert (L : acc < i).
    { pose proof (Qlt_floor (acc / i)) as U.
      assert (Z : (Qfloor (acc / i) + 1 <= 1)%Z) by lia.
      rewrite Zle_Qle in Z. apply Qdiv_lt_1; [assumption|].
      change (inject_Z 1) with 1 in Z. lra. }
    cbn. replace (Qle_bool i acc) with false
      by (symmetry; now apply Qle_bool_false).
    eexists _, _, _. reflexivity.
  - cbn [Soil.evaporationLoop Soil.interval Soil.rate].
    destruct (Fin acc >=? Fin i)%js; [|eexists _, _, _; reflexivity].
    rewrite sub_fin. apply IH.
    rewrite (Qfloor_shift acc Pi). lia.
Qed.

Lemma rate_interval (s : SoilSettings) :
  Soil.getEvaporationParameters s
  = {| Soil.rate := num 0; Soil.interval := PInf |}
  \/ exists i,
       0 < i
       /\ Soil.getEvaporationParameters s
          = {| Soil.rate := num 1; Soil.interval := Fin i |}
       /\ i = (if weather s =? "cerah" then 15
               else if weather s =? "mendung" then 30 else 20).
Proof.
  unfold Soil.getEvaporationParameters.
  destruct (weather s =? "cerah");
    [right; exists 15; repeat split; reflexivity|].
  destruct (weather s =? "mendung");
    [right; exists 30; repeat split; reflexivity|].
  destruct (weather s =? "hujan"); [now left|].
  right; exists 20; repeat split; reflexivity.
Qed.

Lemma processNaturalEvaporation_total (e : Q) (s : SoilSettings) :
  moistureDecreaseAccumulator s <> PInf ->
  exists c s1,
    Soil.processNaturalEvaporation (Fin e) s = Some (c, s1)
    /\ irrigationStartTime s1 = irrigationStartTime s.
Proof.
  intro A. unfold Soil.processNaturalEvaporation.
  destruct (rate_interval s) as [-> | (i & Pi & -> & _)];
    cbn [Soil.rate Soil.interval].
  - change (num 0 >? num 0)%js with false. eexists _, _. split; reflexivity.
  - change (num 1 >? num 0)%js with true. cbv iota.
    destruct (moistureDecreaseAccumulator s) as [a| | |];
      try (cbn; eexists _, _; split; reflexivity).
    + rewrite add_fin. unfold Soil.rounds.
      destruct (@evaporationLoop_total i (num 1) Pi _ (currentMoisture s)
                  (a + e) false eq_refl) as (mo' & acc' & ch' & ->).
      eexists _, _. split; reflexivity.
    + now destruct A.
Qed.

Lemma updateMoisture_finish (now : Z) (w : World) (c : bool)
  (s1 : SoilSettings) :
  let '(c2, s2) :=
    if negb (validNumber (currentMoisture s1))
    then (true, withCurrentMoisture s1 (num 45)) else (c, s1) in
  exists y,
    JsNum.max (num 0) (JsNum.min (num 100) (currentMoisture s2)) = Fin y
    /\ 0 <= y /\ y <= 100
    /\ (forall m, currentMoisture s1 = Fin m -> y == Qmax 0 (Qmin 100 m))
    /\ (let s3 := withLastUpdate (withCurrentMoisture s2 (Fin y)) (Some now) in
        Soil.updateDisplay (Soil.saveSettings (setSoil s3 w))
        = Soil.saveSettings (setSoil s3 w)).
Proof.
  destruct (negb (validNumber (currentMoisture s1))) eqn:V.
  - exists (inject_Z 45). split; [reflexivity|].
    split; [discriminate|]. split; [discriminate|]. split.
    + intros m M. rewrite M in V. discriminate.
    + cbv zeta. now apply updateDisplay_valid with (m := inject_Z 45).
  - apply negb_false_iff in V. unfold validNumber in V.
    apply negb_true_iff in V.
    destruct (clamp_range _ V) as (y & E & L & U & K).
    exists y. repeat split; try assumption.
    cbv zeta. now apply updateDisplay_valid with (m := y).
Qed.

(** In exact arithmetic and on a page whose log is readable, a tick ends
    whenever the accumulator is not [Infinity], and leaves a moisture that
    is a number of [0..100], the date of the tick as the last update, and a
    stored document that is the one of the settings in memory. *)
Lemma updateMoisture_ends (now : Z) (w : World) :
  moistureDecreaseAccumulator (soil w) <> PInf ->
  exists w' m',
    Soil.updateMoisture now w = Some w'
    /\ currentMoisture (soil w') = Fin m' /\ 0 <= m' /\ m' <= 100
    /\ lastUpdate (soil w') = Some now
    /\ soilMoistureSettings (storage w')
       = Some (JsonObj (stringifySoil (soil w'))).
Proof.
  intro A. unfold Soil.updateMoisture.
  set (s0 := if negb (validNumber (currentMoisture (soil w)))
             then withCurrentMoisture (soil w) (num 45) else soil w).
  assert (A0 : moistureDecreaseAccumulator s0 <> PInf).
  { unfold s0. destruct (negb (validNumber (currentMoisture (soil w))));
      exact A. }
  destruct (minutesSince_fin now
              (match lastUpdate (soil w) with
               | Some t => t
               | None => (now - 60000)%Z
               end)) as (q & ->).
  destruct (min_fin q (inject_Z 60)) as (e & Ee & _).
  fold (num 60) in Ee. rewrite Ee.
  match goal with
  | |- context [match ?r with Some _ => _ | None => None end] =>
      assert (R : exists c s1, r = Some (c, s1))
  end.
  { destruct (isIrrigating s0); [eexists _, _; reflexivity|].
    destruct (negb (weather s0 =? "hujan")); [|eexists _, _; reflexivity].
    destruct (@processNaturalEvaporation_total e s0 A0) as (c & s1 & E & _).
    now exists c, s1. }
  destruct R as (c & s1 & ->).
  pose proof (updateMoisture_finish now w c s1) as F.
  destruct (negb (validNumber (currentMoisture s1)));
    destruct F as (y & E & L & U & _ & D);
    rewrite E; cbv zeta in D |- *;
    eexists _, y;
    (split; [reflexivity|]);
    match goal with
    | |- context [if ?b' then Soil.updateDisplay ?x else ?x] =>
        assert (D' : (if b' then Soil.updateDisplay x else x) = x)
          by (destruct b'; [exact D | reflexivity])
    end; rewrite D'; cbn; repeat split; assumption.
Qed.

Lemma processNaturalEvaporation_interval (s : SoilSettings) (i td m a : Q) :
  0 < i ->
  Soil.getEvaporationParameters s
  = {| Soil.rate := num 1; Soil.interval := Fin i |} ->
  currentMoisture s = Fin m -> moistureDecreaseAccumulator s = Fin a ->
  0 <= m -> 0 <= a + td ->
  exists m' a' ch,
    Soil.processNaturalEvaporation (Fin td) s
    = Some (ch, withAccumulator (withCurrentMoisture s (Fin m')) (Fin a'))
    /\ m' == Qmax 0 (m - inject_Z (Qfloor ((a + td) / i)))
    /\ a' == a + td - i * inject_Z (Qfloor ((a + td) / i))
    /\ 0 <= a' /\ a' < i.
Proof.
  intros Pi Hp Hm Ha Pm Pacc.
  unfold Soil.processNaturalEvaporation.
  rewrite Hp, Hm, Ha. cbn [Soil.rate Soil.interval].
  change (num 1 >? num 0)%js with true. cbv iota.
  rewrite add_fin. unfold Soil.rounds.
  destruct (@evaporationLoop_fin i Pi _ m (a + td) false Pm Pacc eq_refl)
    as (m' & a' & ch' & E & A & B & C & D).
  rewrite E.
  exists m', a', ch'. repeat split; assumption.
Qed.

Lemma updateMoisture_by_weather (now t : Z) (w : World) (m a : Q) :
  isIrrigating (soil w) = false ->
  weather (soil w) <> "hujan" ->
  lastUpdate (soil w) = Some t ->
  currentMoisture (soil w) = Fin m -> 0 <= m -> m <= 100 ->
  moistureDecreaseAccumulator (soil w) = Fin a ->
  let i := if weather (soil w) =? "cerah" then 15
           else if weather (soil w) =? "mendung" then 30 else 20 in
  let e := Qmin (inject_Z (now - t) / 60000) 60 in
  0 <= a + e ->
  exists w' m' a',
    Soil.updateMoisture now w = Some w'
    /\ currentMoisture (soil w') = Fin m'
    /\ moistureDecreaseAccumulator (soil w') = Fin a'
    /\ m' == Qmax 0 (m - inject_Z (Qfloor ((a + e) / i)))
    /\ a' == a + e - i * inject_Z (Qfloor ((a + e) / i))
    /\ 0 <= a' /\ a' < i
    /\ 0 <= m' /\ m' <= m
    /\ weather (soil w') = weather (soil w).
Proof.
  intros Hi Hw Hl Hm Pm Um Ha i e Pacc.
  unfold Soil.updateMoisture. rewrite Hl, Hm.
  destruct (minutesSince_value now t) as (q & -> & Eq).
  destruct (min_fin q (inject_Z 60)) as (td & Etd & Htd).
  fold (num 60) in Etd. rewrite Etd.
  cbn [validNumber isNaN negb]. rewrite Hi.
  assert (W : (weather (soil w) =? "hujan") = false)
    by (now apply String.eqb_neq).
  rewrite W. cbn [negb].
  assert (Etd' : td == e).
  { rewrite Htd, Eq. reflexivity. }
  destruct (rate_interval (soil w)) as [P | (i' & Pi & P & Ei)].
  { exfalso. unfold Soil.getEvaporationParameters in P. rewrite W in P.
    destruct (weather (soil w) =? "cerah"); [discriminate|].
    destruct (weather (soil w) =? "mendung"); discriminate. }
  fold i in Ei. subst i'.
  assert (Pacc' : 0 <= a + td) by (rewrite Etd'; exact Pacc).
  destruct (@processNaturalEvaporation_interval (soil w) i td m a Pi P Hm Ha
              Pm Pacc') as (m' & a' & ch & E & A & B & C & D).
  rewrite E.
  assert (F : inject_Z (Qfloor ((a + td) / i))
              = inject_Z (Qfloor ((a + e) / i))).
  { f_equal. apply Qfloor_comp. now rewrite Etd'. }
  rewrite F in A, B.
  set (f := inject_Z (Qfloor ((a + e) / i))) in *.
  assert (Pf : 0 <= f).
  { unfold f. rewrite <- (Zle_Qle 0). apply Qfloor_nonneg.
    now apply Qdiv_pos_le. }
  assert (Pm' : 0 <= m') by (rewrite A; apply Q.le_max_l).
  assert (Um' : m' <= m) by (rewrite A; apply Q.max_lub; lra).
  pose proof (updateMoisture_finish now w ch
                (withAccumulator (withCurrentMoisture (soil w) (Fin m'))
                   (Fin a'))) as G.
  cbn [currentMoisture withAccumulator withCurrentMoisture validNumber isNaN
       negb] in G |- *.
  destruct G as (y & Ey & Ly & Uy & Ky & Dy).
  rewrite Ey.
  assert (Hy : y == m').
  { rewrite (Ky m' eq_refl). rewrite Q.min_r by lra. rewrite Q.max_r by lra.
    reflexivity. }
  cbv zeta in Dy.
  match goal with
  | |- context [if ?b' then Soil.updateDisplay ?x else ?x] =>
      assert (D' : (if b' then Soil.updateDisplay x else x) = x)
        by (destruct b'; [exact Dy | reflexivity])
  end.
  rewrite D'.
  eexists _, y, a'. split; [reflexivity|]. cbn.
  split; [reflexivity|]. split; [reflexivity|].
  split; [now rewrite Hy|]. split; [rewrite B, Etd'; reflexivity|].
  split; [exact C|]. split; [exact D|].
  split; [exact Ly|]. split; [now rewrite Hy|reflexivity].
Qed.

(* ================================================================== *)
(** ** A tick of the moisture, with its log *)

Lemma Qfloor_div_whole (x y : Z) :
  (0 < y)%Z -> Qfloor (inject_Z x / inject_Z y) = (x / y)%Z.
Proof. intros _. symmetry. apply Zdiv_Qdiv. Qed.

Lemma Qmin_whole (x y : Z) :
  Qmin (inject_Z x) (inject_Z y) == inject_Z (Z.min x y).
Proof.
  destruct (Z.le_ge_cases x y) as [H|H].
  - rewrite Z.min_l by exact H. apply Q.min_l. now rewrite <- Zle_Qle.
  - rewrite Z.min_r by exact H. apply Q.min_r. now rewrite <- Zle_Qle.
Qed.

(** The interval of a weather, in whole minutes. *)
Lemma interval_whole (s : SoilSettings) :
  (if weather s =? "cerah" then 15
   else if weather s =? "mendung" then 30 else 20)
  = inject_Z (if weather s =? "cerah" then 15%Z
              else if weather s =? "mendung" then 30%Z else 20%Z).
Proof.
  destruct (weather s =? "cerah"); [reflexivity|].
  destruct (weather s =? "mendung"); reflexivity.
Qed.

(** A tick on whole numbers: the accumulator holds [ka] whole minutes and
    the last update was [ke] whole minutes ago. *)
Lemma updateMoisture_whole_minutes (now t : Z) (w : World) (m : Q)
  (ka ke : Z) :
  isIrrigating (soil w) = false ->
  weather (soil w) <> "hujan" ->
  lastUpdate (soil w) = Some t ->
  currentMoisture (soil w) = Fin m -> 0 <= m -> m <= 100 ->
  moistureDecreaseAccumulator (soil w) = num ka ->
  (0 <= ka)%Z -> (now - t = 60000 * ke)%Z -> (0 <= ke)%Z ->
  let i := if weather (soil w) =? "cerah" then 15%Z
           else if weather (soil w) =? "mendung" then 30%Z else 20%Z in
  let total := (ka + Z.min ke 60)%Z in
  exists w' m' a',
    Soil.updateMoisture now w = Some w'
    /\ currentMoisture (soil w') = Fin m'
    /\ m' == Qmax 0 (m - inject_Z (total / i))
    /\ 0 <= m' /\ m' <= m
    /\ moistureDecreaseAccumulator (soil w') = Fin a'
    /\ a' == inject_Z (total mod i)
    /\ weather (soil w') = weather (soil w).
Proof.
  intros Hi Hw Hl Hm Pm Um Ha Pa Hd Pe i total.
  assert (Pi : (0 < i)%Z).
  { unfold i. destruct (weather (soil w) =? "cerah"); [lia|].
    destruct (weather (soil w) =? "mendung"); lia. }
  assert (E : Qmin (inject_Z (now - t) / 60000) 60
              == inject_Z (Z.min ke 60)).
  { rewrite Hd, inject_Z_mult. rewrite <- Qmin_whole.
    change (inject_Z 60000) with 60000. change (inject_Z 60) with 60.
    apply Q.min_compat; [field|reflexivity]. }
  assert (S : inject_Z ka + Qmin (inject_Z (now - t) / 60000) 60
              == inject_Z total).
  { unfold total. rewrite inject_Z_plus, E. reflexivity. }
  assert (Pt : (0 <= total)%Z) by (unfold total; lia).
  destruct (@updateMoisture_by_weather now t w m (inject_Z ka)
              Hi Hw Hl Hm Pm Um Ha)
    as (w' & m' & a' & U & M & A & Em & Ea & _ & _ & Lm & Hm' & W).
  { rewrite S. now rewrite <- (Zle_Qle 0). }
  rewrite interval_whole in Em, Ea. fold i in Em, Ea.
  assert (F : Qfloor ((inject_Z ka + Qmin (inject_Z (now - t) / 60000) 60)
                      / inject_Z i) = (total / i)%Z).
  { rewrite <- (Qfloor_div_whole total Pi). apply Qfloor_comp.
    now rewrite S. }
  rewrite F in Em, Ea.
  exists w', m', a'. split; [exact U|]. split; [exact M|].
  split; [exact Em|]. split; [exact Lm|]. split; [exact Hm'|].
  split; [exact A|]. split; [|exact W].
  rewrite Ea, S.
  assert (K : (total = i * (total / i) + total mod i)%Z)
    by (apply Z.div_mod; lia).
  rewrite K at 1. rewrite inject_Z_plus, inject_Z_mult. ring.
Qed.

(** X7. Without irrigation and in a weather other than rain, on a page
    whose log of the moisture is readable, a tick takes one percent of
    moisture for each whole interval that the accumulator holds after the
    elapsed minutes (60 at most) are added, and leaves the rest in the
    accumulator: an interval of 15 minutes under a clear sky, of 30 under
    clouds and of 20 under any other weather. The moisture does not go
    below 0 and never rises. The accumulator and the elapsed time are whole
    numbers of minutes, below [2^53], which the numbers of the code hold
    exactly. *)
Theorem evaporation_tick_by_weather (now t : Z) (draws : Draws) (p : Page)
  (m : Q) (ka ke : Z) :
  readableLog (soilMoistureLogs (logs p)) = true ->
  isIrrigating (soil (world p)) = false ->
  weather (soil (world p)) <> "hujan" ->
  lastUpdate (soil (world p)) = Some t ->
  currentMoisture (soil (world p)) = Fin m -> 0 <= m -> m <= 100 ->
  moistureDecreaseAccumulator (soil (world p)) = num ka ->
  (0 <= ka)%Z -> (ka + 60 < 2 ^ 53)%Z ->
  (now - t = 60000 * ke)%Z -> (0 <= ke)%Z ->
  let i := if weather (soil (world p)) =? "cerah" then 15%Z
           else if weather (soil (world p)) =? "mendung" then 30%Z
                else 20%Z in
  let total := (ka + Z.min ke 60)%Z in
  exists p' m' a',
    Logged.updateMoisture now draws p = Some (Ok tt, p')
    /\ currentMoisture (soil (world p')) = Fin m'
    /\ m' == Qmax 0 (m - inject_Z (total / i))
    /\ 0 <= m' /\ m' <= m
    /\ moistureDecreaseAccumulator (soil (world p')) = Fin a'
    /\ a' == inject_Z (total mod i)
    /\ weather (soil (world p')) = weather (soil (world p)).
Proof.
  intros R Hi Hw Hl Hm Pm Um Ha Pa _ Hd Pe i total.
  destruct (@updateMoisture_whole_minutes now t (world p) m ka ke
              Hi Hw Hl Hm Pm Um Ha Pa Hd Pe)
    as (w' & m' & a' & U & M & Em & Lm & Hm' & A & Ea & W).
  pose proof (@updateMoisture_readable now draws p R) as Sim.
  rewrite U in Sim. destruct Sim as (L & E & _).
  exists {| world := w'; logs := L |}, m', a'.
  cbn [world]. repeat split; assumption.
Qed.

(** Clouds, 45 percent, the last update 50 minutes ago, every draw writing
    a log: one percent is taken and 20 minutes stay in the accumulator. *)
Lemma evaporation_tick_by_weather_witness :
  exists p' m' a',
    Logged.updateMoisture 3000000 loggingDraws (freshPage cloudyWorld)
    = Some (Ok tt, p')
    /\ currentMoisture (soil (world p')) = Fin m' /\ m' == 44
    /\ moistureDecreaseAccumulator (soil (world p')) = Fin a' /\ a' == 20.
Proof.
  destruct (@evaporation_tick_by_weather 3000000 0 loggingDraws
              (freshPage cloudyWorld) 45 0 50)
    as (p' & m' & a' & U & M & Em & _ & _ & A & Ea & _);
    try reflexivity; try discriminate.
  exists p', m', a'. split; [exact U|]. split; [exact M|].
  split; [rewrite Em; reflexivity|]. split; [exact A|].
  rewrite Ea. reflexivity.
Defined.

(** The first round of the loop on a log that cannot be extended, with a
    draw that asks for an entry. *)
Lemma evaporationLoop_throws (fuel : nat) (now : Z) (random : nat -> Q)
  (ep : Soil.EvaporationParameters) (s : SoilSettings) (mo acc : jsnum)
  (ch : bool) (stored : option (LogItem MoistureLog)) :
  (acc >=? Soil.interval ep)%js = true ->
  Logged.below (random 0%nat) (3 # 10) = true ->
  readableLog stored = false ->
  exists e,
    Logged.evaporationLoop (S fuel) now random 0 ep s mo acc ch stored
    = Some (Throw e,
            withAccumulator
              (withCurrentMoisture s
                 (JsNum.max (num 0) (mo - Soil.rate ep)%js))
              (acc - Soil.interval ep)%js,
            stored).
Proof.
  intros G B R. cbn [Logged.evaporationLoop]. rewrite G, B.
  destruct (unreadableLog_parseLogs _ R) as (e & E).
  unfold SoilManager.logMoisture. rewrite E. cbn [rbind].
  exists e. reflexivity.
Qed.

(** X6. On a page whose log of the moisture is readable, a tick of the
    simulation ends whenever the accumulator is a number of at most [2^53],
    whatever else the settings hold and whatever the draws are, and leaves
    a moisture that is a number of [0..100], the date of the tick as the
    last update, and a stored document that is the one of the settings in
    memory. On a page whose log of the moisture does not parse or is no
    array, a tick that takes moisture, with a first draw below 0.3, throws
    in the first round of its loop: one percent is gone and one interval
    is taken off the accumulator, while the date of the last update is not
    set and nothing is saved. *)
Theorem tick_ends_or_throws (now : Z) (draws : Draws) (p : Page) :
  (readableLog (soilMoistureLogs (logs p)) = true ->
   moistureDecreaseAccumulator (soil (world p)) <> PInf ->
   (forall a, moistureDecreaseAccumulator (soil (world p)) = Fin a ->
              a <= 9007199254740992) ->
   exists p' m',
     Logged.updateMoisture now draws p = Some (Ok tt, p')
     /\ currentMoisture (soil (world p')) = Fin m' /\ 0 <= m' /\ m' <= 100
     /\ lastUpdate (soil (world p')) = Some now
     /\ soilMoistureSettings (storage (world p'))
        = Some (JsonObj (stringifySoil (soil (world p')))))
  /\ (forall (t : Z) (m : Q) (ka ke : Z),
        readableLog (soilMoistureLogs (logs p)) = false ->
        Logged.below (evaporation draws 0%nat) (3 # 10) = true ->
        isIrrigating (soil (world p)) = false ->
        weather (soil (world p)) <> "hujan" ->
        lastUpdate (soil (world p)) = Some t ->
        currentMoisture (soil (world p)) = Fin m ->
        moistureDecreaseAccumulator (soil (world p)) = num ka ->
        (0 <= ka)%Z -> (ka + 60 < 2 ^ 53)%Z ->
        (now - t = 60000 * ke)%Z -> (0 <= ke)%Z ->
        let i := if weather (soil (world p)) =? "cerah" then 15%Z
                 else if weather (soil (world p)) =? "mendung" then 30%Z
                      else 20%Z in
        let total := (ka + Z.min ke 60)%Z in
        (i <= total)%Z ->
        exists e p' m' a',
          Logged.updateMoisture now draws p = Some (Throw e, p')
          /\ currentMoisture (soil (world p')) = Fin m'
          /\ m' == Qmax 0 (m - 1)
          /\ moistureDecreaseAccumulator (soil (world p')) = Fin a'
          /\ a' == inject_Z (total - i)
          /\ lastUpdate (soil (world p')) = Some t
          /\ storage (world p') = storage (world p)
          /\ logs p' = logs p).
Proof.
  split.
  - intros R A _.
    destruct (@updateMoisture_ends now (world p) A)
      as (w' & m' & U & M & L & H & D & S).
    pose proof (@updateMoisture_readable now draws p R) as Sim.
    rewrite U in Sim. destruct Sim as (Lg & E & _).
    exists {| world := w'; logs := Lg |}, m'. cbn [world].
    repeat split; assumption.
  - intros t m ka ke R B Hi Hw Hl Hm Ha Pa _ Hd Pe i total Hr.
    unfold Logged.updateMoisture. rewrite Hl, Hm.
    destruct (minutesSince_value now t) as (q & -> & Eq).
    destruct (min_fin q (inject_Z 60)) as (td & Etd & Htd).
    fold (num 60) in Etd. rewrite Etd.
    cbn [validNumber isNaN negb]. rewrite Hi.
    assert (W : (weather (soil (world p)) =? "hujan") = false)
      by (now apply String.eqb_neq).
    rewrite W. cbn [negb].
    assert (Etd' : td == inject_Z (Z.min ke 60)).
    { rewrite Htd, Eq, Hd, inject_Z_mult, <- Qmin_whole.
      change (inject_Z 60000) with 60000. change (inject_Z 60) with 60.
      apply Q.min_compat; [field|reflexivity]. }
    assert (P : Soil.getEvaporationParameters (soil (world p))
                = {| Soil.rate := num 1; Soil.interval := num i |}).
    { unfold Soil.getEvaporationParameters. rewrite W. unfold i.
      destruct (weather (soil (world p)) =? "cerah"); [reflexivity|].
      destruct (weather (soil (world p)) =? "mendung"); reflexivity. }
    assert (Pi : (0 < i)%Z).
    { unfold i. destruct (weather (soil (world p)) =? "cerah"); [lia|].
      destruct (weather (soil (world p)) =? "mendung"); lia. }
    unfold Logged.processNaturalEvaporation.
    rewrite P, Ha, Hm. cbn [Soil.rate Soil.interval].
    change (num 1 >? num 0)%js with true. cbv iota.
    assert (Sm : inject_Z ka + td == inject_Z total).
    { unfold total. rewrite inject_Z_plus, Etd'. reflexivity. }
    assert (F : Qfloor ((inject_Z ka + td) / inject_Z i)
                = (total / i)%Z).
    { rewrite <- (Qfloor_div_whole total Pi). apply Qfloor_comp.
      now rewrite Sm. }
    unfold Soil.rounds.
    change (num ka + Fin td)%js with (Fin (inject_Z ka + td)).
    change (num i) with (Fin (inject_Z i)). cbv beta iota. rewrite F.
    assert (N : exists n, Z.to_nat (total / i) = S n).
    { assert (1 <= total / i)%Z
        by (apply Z.div_le_lower_bound; lia).
      exists (Z.to_nat (total / i) - 1)%nat. lia. }
    destruct N as (n & ->).
    destruct (@evaporationLoop_throws n now (evaporation draws)
                {| Soil.rate := num 1;
                   Soil.interval := Fin (inject_Z i) |}
                (soil (world p)) (Fin m) (Fin (inject_Z ka + td)) false
                (soilMoistureLogs (logs p)))
      as (e & E); [|exact B|exact R|].
    { cbn [Soil.interval]. unfold ge, le. apply Qle_bool_iff.
      rewrite Sm, <- Zle_Qle. exact Hr. }
    rewrite E. cbn [Soil.rate Soil.interval]. unfold num.
    rewrite !sub_fin.
    destruct (max_fin (inject_Z 0) (m - inject_Z 1)) as (m' & Em & Hm').
    rewrite Em.
    exists e. eexists. exists m', (inject_Z ka + td - inject_Z i).
    split; [reflexivity|]. cbn [world soil setSoil currentMoisture
      withAccumulator withCurrentMoisture moistureDecreaseAccumulator
      lastUpdate storage logs].
    split; [reflexivity|]. split; [exact Hm'|]. split; [reflexivity|].
    split.
    { rewrite Sm. unfold Z.sub. rewrite inject_Z_plus, inject_Z_opp.
      reflexivity. }
    split; [exact Hl|]. split; [reflexivity|].
    destruct (logs p); reflexivity.
Qed.

(** Clouds, 45 percent, the last update 50 minutes ago, every draw asking
    for a log: with a log that can be extended the tick ends at 44
    percent; with one that does not parse the tick throws at 44 percent
    with the date of the last update still at 0. *)
Lemma tick_ends_or_throws_witness :
  (exists p' m',
      Logged.updateMoisture 3000000 loggingDraws (freshPage cloudyWorld)
      = Some (Ok tt, p')
      /\ currentMoisture (soil (world p')) = Fin m' /\ 0 <= m' /\ m' <= 100
      /\ lastUpdate (soil (world p')) = Some 3000000%Z)
  /\ (exists e p' m',
         Logged.updateMoisture 3000000 loggingDraws
           (brokenMoistureLog cloudyWorld) = Some (Throw e, p')
         /\ currentMoisture (soil (world p')) = Fin m' /\ m' == 44
         /\ lastUpdate (soil (world p')) = Some 0%Z).
Proof.
  split.
  - destruct (proj1 (@tick_ends_or_throws 3000000 loggingDraws
                       (freshPage cloudyWorld)))
      as (p' & m' & U & M & L & H & D & _);
      [reflexivity|discriminate
      |intros a E; injection E as <-; vm_compute; discriminate|].
    exists p', m'. repeat split; assumption.
  - destruct (proj2 (@tick_ends_or_throws 3000000 loggingDraws
                       (brokenMoistureLog cloudyWorld)) 0%Z 45 0%Z 50%Z)
      as (e & p' & m' & a' & U & M & Em & _ & _ & D & _);
      try reflexivity; try discriminate; try lia.
    exists e, p', m'. split; [exact U|]. split; [exact M|].
    split; [rewrite Em; reflexivity|exact D].
Defined.

(** X8. In rain and without irrigation a tick leaves the moisture and the
    accumulator as they are and still moves the date of the last update:
    the minutes of rain are never counted as drying time, also not after
    the weather has cleared. *)
Theorem rain_tick_keeps_moisture (now : Z) (w : World) (m : Q) :
  isIrrigating (soil w) = false ->
  weather (soil w) = "hujan" ->
  currentMoisture (soil w) = Fin m -> 0 <= m -> m <= 100 ->
  exists w' m',
    Soil.updateMoisture now w = Some w'
    /\ currentMoisture (soil w') = Fin m' /\ m' == m
    /\ moistureDecreaseAccumulator (soil w')
       = moistureDecreaseAccumulator (soil w)
    /\ lastUpdate (soil w') = Some now.
Proof.
  intros Hi Hw Hm Pm Um.
  unfold Soil.updateMoisture. rewrite Hm.
  cbn [validNumber isNaN negb]. rewrite Hi, Hw.
  cbn [String.eqb Ascii.eqb Bool.eqb negb].
  pose proof (updateMoisture_finish now w false (soil w)) as G.
  rewrite Hm in G. cbn [validNumber isNaN negb] in G. rewrite Hm in G.
  rewrite Hm. cbn [validNumber isNaN negb]. rewrite Hm.
  destruct G as (y & Ey & Ly & Uy & Ky & Dy).
  rewrite Ey. cbv zeta in Dy.
  match goal with
  | |- context [if ?b' then Soil.updateDisplay ?x else ?x] =>
      assert (D' : (if b' then Soil.updateDisplay x else x) = x)
        by (destruct b'; [exact Dy | reflexivity])
  end.
  rewrite D'. eexists _, y. split; [reflexivity|]. cbn.
  split; [reflexivity|]. split; [|split; reflexivity].
  rewrite (Ky m eq_refl). rewrite Q.min_r by lra. rewrite Q.max_r by lra.
  reflexivity.
Qed.

Lemma rain_tick_keeps_moisture_witness :
  exists w' m',
    Soil.updateMoisture 3600000 rainyWorld = Some w'
    /\ currentMoisture (soil w') = Fin m' /\ m' == 45
    /\ moistureDecreaseAccumulator (soil w') = num 0
    /\ lastUpdate (soil w') = Some 3600000%Z.
Proof.
  apply (@rain_tick_keeps_moisture 3600000 rainyWorld 45);
    try reflexivity; discriminate.
Defined.

(* ================================================================== *)
(** ** Triggers through the wrappers *)

Lemma started_by_wrapper (now : Z) (w w1 : World) :
  isIrrigating (soil w) = false ->
  SameIrrigation w w1 \/ Started now w w1 ->
  Started now w (Soil.startIrrigation now w1).
Proof.
  intros I [S|S].
  - destruct (startIrrigation_effect now w1) as [[R _]|S'].
    + destruct S as (_ & _ & S3 & _). congruence.
    + eapply Same_Started; eassumption.
  - destruct (startIrrigation_effect now w1) as [[_ E]|S'].
    + now rewrite E.
    + destruct S as (_ & _ & _ & S4 & _). destruct S' as (_ & _ & S3 & _).
      congruence.
Qed.

(** X9. With a wrapper of the soil manager around [performIrrigation], a
    trigger that the water manager skips (auto irrigation off, or soil at
    35 percent or more) still starts the soil manager's irrigation when the
    tank holds an irrigation volume: the tank is left as it is and nothing
    answers [true], yet [isIrrigating] is set and the stop timer runs; the
    wrapper of [syncWithWaterManager] also announces a manual irrigation
    with the volume as used. *)
Theorem skipped_trigger_still_starts_irrigation (inner : Impl) (now : Z)
  (w : World) :
  (currentLevel (water w) >=? irrigationVolume (water w))%js = true ->
  isIrrigating (soil w) = false ->
  autoIrrigation (water w) = false
  \/ (soilManager w = true
      /\ (currentMoisture (soil w) >=? num 35)%js = true) ->
  let l := callPerformIrrigation (Listener inner) now w in
  let s := callPerformIrrigation (Synced inner) now w in
  (water (snd l) = water w /\ fst l <> Some true /\ Started now w (snd l))
  /\ (water (snd s) = water w /\ fst s = None /\ Started now w (snd s)
      /\ exists rest,
           notices (snd s)
           = ManualStarted (irrigationVolume (water w)) :: rest).
Proof.
  intros L I G.
  assert (K : water (snd (callPerformIrrigation inner now w)) = water w
              /\ fst (callPerformIrrigation inner now w) <> Some true).
  { destruct G as [A | [S M]].
    - now apply callPerformIrrigation_auto_off.
    - now apply callPerformIrrigation_wet. }
  pose proof (callPerformIrrigation_cases inner now w) as C.
  cbv zeta. cbn [callPerformIrrigation]. rewrite L.
  destruct (callPerformIrrigation inner now w) as (r, w1).
  cbn [fst snd] in *. destruct K as (Kw & Kr). rewrite Kw, L. cbn [fst snd].
  split.
  - split; [rewrite water_startIrrigation; exact Kw|].
    split; [exact Kr|]. now apply started_by_wrapper.
  - split; [rewrite water_showNotification, water_startIrrigation; exact Kw|].
    split; [reflexivity|].
    split.
    + eapply Started_Same; [|apply showNotification_same].
      now apply started_by_wrapper.
    + rewrite water_startIrrigation, Kw. eexists. reflexivity.
Qed.

Lemma skipped_trigger_still_starts_irrigation_witness :
  let s := callPerformIrrigation (Synced Original) 60000 sampleWorld in
  water (snd s) = water sampleWorld
  /\ isIrrigating (soil (snd s)) = true
  /\ exists rest, notices (snd s) = ManualStarted (num 7) :: rest.
Proof.
  destruct (@skipped_trigger_still_starts_irrigation Original 60000
              sampleWorld eq_refl eq_refl (or_intror (conj eq_refl eq_refl)))
    as (_ & W & _ & (_ & _ & _ & R & _) & N).
  cbv zeta. split; [exact W|]. split; [exact R|exact N].
Defined.

Lemma calculateEmptyTime_frame (now : Z) (w : World) :
  let s := water w in
  let s' := water (Water.calculateEmptyTime now w) in
  tankCapacity s' = tankCapacity s
  /\ currentLevel s' = currentLevel s
  /\ irrigationVolume s' = irrigationVolume s
  /\ schedules s' = schedules s
  /\ lowLevelThreshold s' = lowLevelThreshold s
  /\ lastRefill s' = lastRefill s
  /\ autoIrrigation s' = autoIrrigation s.
Proof.
  cbv zeta. unfold Water.calculateEmptyTime.
  destruct (negb (autoIrrigation (water w))); [now repeat split|].
  destruct (JsNum.seq _ _); now repeat split.
Qed.

Lemma performIrrigation_level (now : Z) (w : World) (l v : Q) :
  currentLevel (water w) = Fin l -> irrigationVolume (water w) = Fin v ->
  let s := water w in
  let s' := water (snd (Water.performIrrigation now w)) in
  (tankCapacity s' = tankCapacity s
   /\ irrigationVolume s' = irrigationVolume s
   /\ schedules s' = schedules s
   /\ lowLevelThreshold s' = lowLevelThreshold s
   /\ lastRefill s' = lastRefill s
   /\ autoIrrigation s' = autoIrrigation s)
  /\ (s' = s
      \/ (v <= l
          /\ exists l', currentLevel s' = Fin l' /\ l' == Qmax 0 (l - v))).
Proof.
  intros Hl Hv. cbv zeta. unfold Water.performIrrigation.
  rewrite Hl, Hv. cbn [validNumber isNaN negb].
  destruct (negb (autoIrrigation (water w))).
  { cbn [snd]. rewrite water_showNotification. split; [now repeat split|now left]. }
  assert (G : water
                (snd (if soilManager w
                      then
                        let '(moisture, w0) := Soil.getCurrentMoistureStatus w in
                        if (moisture >=? num 35)%js
                        then (true, showNotification (SoilAlreadyWet moisture) w0)
                        else (false, w0)
                      else (false, w))) = water w).
  { destruct (soilManager w); [|reflexivity].
    pose proof (water_getCurrentMoistureStatus w) as H.
    destruct (Soil.getCurrentMoistureStatus w) as (m, w0). cbn [snd] in *.
    destruct (m >=? num 35)%js; cbn [snd]; [|exact H].
    now rewrite water_showNotification. }
  destruct (if soilManager w then _ else _) as (skip, w1). cbn [snd] in G.
  destruct skip; [cbn [snd]; rewrite G; split; [now repeat split|now left]|].
  destruct (Fin l >=? Fin v)%js eqn:C.
  2: { cbn [snd]. rewrite water_showNotification, G.
       split; [now repeat split|now left]. }
  cbn [snd]. rewrite water_showNotification.
  match goal with
  | |- context [if ?c then Soil.startIrrigation now ?u else ?u] =>
      assert (K : water (if c then Soil.startIrrigation now u else u)
                  = water u)
        by (destruct c; [rewrite water_startIrrigation|]; reflexivity);
      rewrite K; clear K
  end.
  change (water (Water.saveSettings ?u)) with (water u).
  rewrite sub_fin.
  destruct (max_fin (inject_Z 0) (l - v)) as (x & Ex & Hx).
  fold (num 0) in Ex. rewrite Ex.
  set (w2 := setWater (withCurrentLevel (water w1) (Fin x)) w1).
  pose proof (calculateEmptyTime_frame now w2) as F. cbv zeta in F.
  destruct F as (F1 & F2 & F3 & F4 & F5 & F6 & F7).
  assert (D : water (Water.updateDisplay (Water.calculateEmptyTime now w2))
              = water (Water.calculateEmptyTime now w2)).
  { unfold Water.updateDisplay. rewrite F2.
    destruct (tankCountdown (Water.calculateEmptyTime now w2)); reflexivity. }
  rewrite D, F1, F3, F4, F5, F6, F7, F2.
  unfold w2. cbn [water setWater withCurrentLevel tankCapacity currentLevel
                  irrigationVolume schedules lowLevelThreshold lastRefill
                  autoIrrigation].
  rewrite G. split; [now repeat split|].
  right. split.
  - cbn in C. now apply Qle_bool_iff in C.
  - exists x. split; [reflexivity|exact Hx].
Qed.

Lemma callPerformIrrigation_level (impl : Impl) :
  forall (now : Z) (w : World) (l v : Q),
    currentLevel (water w) = Fin l -> irrigationVolume (water w) = Fin v ->
    let s := water w in
    let s' := water (snd (callPerformIrrigation impl now w)) in
    (tankCapacity s' = tankCapacity s
     /\ irrigationVolume s' = irrigationVolume s
     /\ schedules s' = schedules s
     /\ lowLevelThreshold s' = lowLevelThreshold s
     /\ lastRefill s' = lastRefill s
     /\ autoIrrigation s' = autoIrrigation s)
    /\ (s' = s
        \/ (v <= l
            /\ exists l', currentLevel s' = Fin l' /\ l' == Qmax 0 (l - v))).
Proof.
  induction impl as [|inner IH|inner IH]; intros now w l v Hl Hv.
  - now apply performIrrigation_level.
  - cbv zeta. cbn [callPerformIrrigation].
    specialize (IH now w l v Hl Hv). cbv zeta in IH.
    destruct (callPerformIrrigation inner now w) as (r, w1). cbn [snd] in *.
    destruct (currentLevel (water w1) >=? irrigationVolume (water w1))%js;
      cbn [snd]; [rewrite water_startIrrigation|]; exact IH.
  - cbv zeta. cbn [callPerformIrrigation].
    destruct (currentLevel (water w) >=? irrigationVolume (water w))%js.
    + specialize (IH now w l v Hl Hv). cbv zeta in IH.
      destruct (callPerformIrrigation inner now w) as (r, w1). cbn [snd] in *.
      rewrite water_showNotification, water_startIrrigation. exact IH.
    + cbn [snd]. rewrite water_showNotification.
      split; [now repeat split|now left].
Qed.

(** X10. A trigger, through whatever stack of wrappers is installed, takes
    at most one irrigation volume out of the tank and changes nothing else
    of the water manager's settings but the empty date: either the settings
    stay as they are, or the tank held at least the volume and the level
    goes down by it. With a volume that is not negative the level never
    rises and a level that is not negative stays so. *)
Theorem trigger_takes_at_most_one_volume (impl : Impl) (now : Z) (w : World)
  (l v : Q) :
  currentLevel (water w) = Fin l -> irrigationVolume (water w) = Fin v ->
  0 <= l -> 0 <= v ->
  let s := water w in
  let s' := water (snd (callPerformIrrigation impl now w)) in
  tankCapacity s' = tankCapacity s
  /\ irrigationVolume s' = irrigationVolume s
  /\ schedules s' = schedules s
  /\ lowLevelThreshold s' = lowLevelThreshold s
  /\ lastRefill s' = lastRefill s
  /\ autoIrrigation s' = autoIrrigation s
  /\ exists l',
       currentLevel s' = Fin l' /\ 0 <= l' /\ l' <= l
       /\ (s' = s \/ (v <= l /\ l' == l - v)).
Proof.
  intros Hl Hv Pl Pv. cbv zeta.
  destruct (@callPerformIrrigation_level impl now w l v Hl Hv)
    as ((F1 & F2 & F3 & F4 & F5 & F6) & C).
  repeat (split; [assumption|]).
  destruct C as [E | (Le & l' & El & Hl')].
  - exists l. rewrite E. split; [exact Hl|]. split; [exact Pl|].
    split; [lra|now left].
  - exists l'. split; [exact El|].
    assert (X : l' == l - v) by (rewrite Hl'; apply Q.max_r; lra).
    split; [lra|]. split; [lra|]. right. now split.
Qed.

Lemma trigger_takes_at_most_one_volume_witness :
  exists l',
    currentLevel
      (water (snd (callPerformIrrigation (Synced (Listener Original)) 60000
                     dryWorld))) = Fin l'
    /\ 0 <= l' /\ l' <= 72.
Proof.
  destruct (@trigger_takes_at_most_one_volume (Synced (Listener Original))
              60000 dryWorld 72 7 eq_refl eq_refl)
    as (_ & _ & _ & _ & _ & _ & l' & E & L & U & _);
    try discriminate.
  exists l'. split; [exact E|]. split; [exact L|exact U].
Defined.

(* ================================================================== *)
(** ** The synchronisation of the slots *)

Lemma differ_false (a b : list string) : differ a b = false -> a = b.
Proof.
  unfold differ. destruct (list_eq_dec string_dec a b); [trivial|discriminate].
Qed.

Lemma syncWith_slots (l : list string) (w : World) :
  scheduledIrrigations (soil (Soil.syncWith l w)) = sort l.
Proof.
  unfold Soil.syncWith.
  destruct (differ (sort (scheduledIrrigations (soil w))) (sort l)) eqn:D.
  - reflexivity.
  - apply differ_false in D. exact D.
Qed.

Lemma syncWith_frame (l : list string) (w : World) :
  let w' := Soil.syncWith l w in
  water w' = water w
  /\ waterManager w' = waterManager w
  /\ irrigationSettings (storage w') = irrigationSettings (storage w)
  /\ currentMoisture (soil w') = currentMoisture (soil w)
  /\ isIrrigating (soil w') = isIrrigating (soil w)
  /\ irrigationStartTime (soil w') = irrigationStartTime (soil w)
  /\ moistureDecreaseAccumulator (soil w')
     = moistureDecreaseAccumulator (soil w)
  /\ notices w' = notices w
  /\ timeouts w' = timeouts w
  /\ performIrrigationImpl w' = performIrrigationImpl w.
Proof.
  cbv zeta. unfold Soil.syncWith.
  destruct (differ _ _); now repeat split.
Qed.

Lemma forceSync_frame (w : World) :
  let w' := Soil.forceSyncScheduledIrrigations w in
  water w' = water w
  /\ waterManager w' = waterManager w
  /\ irrigationSettings (storage w') = irrigationSettings (storage w)
  /\ currentMoisture (soil w') = currentMoisture (soil w)
  /\ isIrrigating (soil w') = isIrrigating (soil w)
  /\ irrigationStartTime (soil w') = irrigationStartTime (soil w)
  /\ moistureDecreaseAccumulator (soil w')
     = moistureDecreaseAccumulator (soil w)
  /\ notices w' = notices w
  /\ timeouts w' = timeouts w
  /\ performIrrigationImpl w' = performIrrigationImpl w.
Proof.
  cbv zeta. unfold Soil.forceSyncScheduledIrrigations.
  set (w1 := if waterManager w then _ else w).
  assert (F1 : water w1 = water w
               /\ waterManager w1 = waterManager w
               /\ irrigationSettings (storage w1) = irrigationSettings (storage w)
               /\ currentMoisture (soil w1) = currentMoisture (soil w)
               /\ isIrrigating (soil w1) = isIrrigating (soil w)
               /\ irrigationStartTime (soil w1) = irrigationStartTime (soil w)
               /\ moistureDecreaseAccumulator (soil w1)
                  = moistureDecreaseAccumulator (soil w)
               /\ notices w1 = notices w
               /\ timeouts w1 = timeouts w
               /\ performIrrigationImpl w1 = performIrrigationImpl w).
  { unfold w1. destruct (waterManager w) eqn:M; [|now repeat split].
    pose proof (syncWith_frame (activeSchedules (schedules (water w))) w)
      as F.
    cbv zeta in F. rewrite M in F. exact F. }
  clearbody w1.
  destruct F1 as (A1 & A2 & A3 & A4 & A5 & A6 & A7 & A8 & A9 & A10).
  destruct (irrigationSettings (storage w1)) as [i|] eqn:Ei;
    [|rewrite Ei; now repeat split].
  destruct (parse i) as [g|e]; [|rewrite Ei; now repeat split].
  destruct (g_waterLevel g) as [wl|]; [|rewrite Ei; now repeat split].
  match goal with
  | |- context [Soil.syncWith ?l w1] =>
      pose proof (syncWith_frame l w1) as F2
  end.
  cbv zeta in F2.
  destruct F2 as (B1 & B2 & B3 & B4 & B5 & B6 & B7 & B8 & B9 & B10).
  repeat split; congruence.
Qed.

(** X11. After [forceSyncScheduledIrrigations()] the soil manager's slots
    are the enabled slots in sorted order: those of the stored
    [irrigationSettings] document when it has a [waterLevel] part, and
    otherwise those of the water manager when it is in place. *)
Theorem forceSync_takes_enabled_slots (w : World) :
  let result :=
    scheduledIrrigations (soil (Soil.forceSyncScheduledIrrigations w)) in
  (forall g wl,
     irrigationSettings (storage w) = Some (JsonObj g) ->
     g_waterLevel g = Some wl ->
     result = sort ((if schedule1Enabled wl then [schedule1 wl] else [])
                    ++ (if schedule2Enabled wl then [schedule2 wl] else [])))
  /\ (waterManager w = true ->
      match irrigationSettings (storage w) with
      | Some (JsonObj g) => g_waterLevel g = None
      | _ => True
      end ->
      result = sort (activeSchedules (schedules (water w)))).
Proof.
  cbv zeta. unfold Soil.forceSyncScheduledIrrigations.
  set (w1 := if waterManager w then _ else w).
  assert (I : irrigationSettings (storage w1) = irrigationSettings (storage w)).
  { unfold w1. destruct (waterManager w); [|reflexivity].
    apply (syncWith_frame _ w). }
  split.
  - intros g wl G WL. rewrite I, G. cbn [parse]. rewrite WL.
    apply syncWith_slots.
  - intros M G. rewrite I.
    assert (E : scheduledIrrigations (soil w1)
                = sort (activeSchedules (schedules (water w)))).
    { unfold w1. rewrite M. apply syncWith_slots. }
    destruct (irrigationSettings (storage w)) as [[| |g]|]; cbn [parse];
      try exact E.
    rewrite G. exact E.
Qed.

Lemma forceSync_takes_enabled_slots_witness :
  scheduledIrrigations
    (soil (Soil.forceSyncScheduledIrrigations threeSlotWorld))
  = ["05:30"; "16:00"].
Proof.
  exact (proj2 (forceSync_takes_enabled_slots threeSlotWorld) eq_refl I).
Defined.

(** X12. The soil manager's own check of the schedule never irrigates: it
    leaves the tank, the moisture, the irrigation state, the pending stop
    timers, the installed [performIrrigation] and the notifications as they
    are. *)
Theorem schedule_check_never_irrigates (now : Z) (w : World) :
  let w' := snd (Soil.checkScheduledIrrigation now w) in
  water w' = water w
  /\ currentMoisture (soil w') = currentMoisture (soil w)
  /\ isIrrigating (soil w') = isIrrigating (soil w)
  /\ irrigationStartTime (soil w') = irrigationStartTime (soil w)
  /\ moistureDecreaseAccumulator (soil w')
     = moistureDecreaseAccumulator (soil w)
  /\ timeouts w' = timeouts w
  /\ notices w' = notices w
  /\ performIrrigationImpl w' = performIrrigationImpl w.
Proof.
  cbv zeta. unfold Soil.checkScheduledIrrigation.
  pose proof (forceSync_frame w) as F. cbv zeta in F.
  destruct F as (A1 & A2 & A3 & A4 & A5 & A6 & A7 & A8 & A9 & A10).
  destruct (includes _ _); [|cbn [snd]; now repeat split].
  destruct (_ >? _)%js; cbn [snd]; now repeat split.
Qed.

(* ================================================================== *)
(** ** The date at which the tank runs empty *)

Lemma timeClip_whole (q : Q) (t : Z) :
  q == inject_Z t -> timeClip (Fin q) = Some t.
Proof.
  intro E. destruct q as [n d]. cbn [timeClip Qnum Qden].
  unfold Qeq in E. cbn in E. f_equal.
  assert (N : n = (t * Z.pos d)%Z) by lia.
  rewrite N. apply Z.quot_mul. lia.
Qed.

(** X13. [calculateEmptyTime()] sets no date, and writes nothing, when
    auto irrigation is off, no slot is enabled or the irrigation volume is
    zero, so that it never divides by a zero consumption. With auto
    irrigation on, [n >= 1] enabled slots, a volume of [v] whole litres and
    a tank that holds the water of [k] whole days, [k * v * n] litres, the
    date is [k] days after the present, to the millisecond, and the
    settings are saved with it. The numbers are below [2^53] and the date
    is one that a [Date] holds, so that the numbers of the code hold every
    product and quotient exactly. *)
Theorem calculateEmptyTime_date (now : Z) (w : World) (v : Z) :
  irrigationVolume (water w) = num v ->
  let n := Water.enabledCount (schedules (water w)) in
  let w' := Water.calculateEmptyTime now w in
  (autoIrrigation (water w) = false \/ n = 0%Z \/ v = 0%Z ->
   emptyTankTime (water w') = None /\ storage w' = storage w)
  /\ (forall k : Z,
        autoIrrigation (water w) = true -> (0 < n)%Z -> (0 < v)%Z ->
        (0 <= k)%Z ->
        currentLevel (water w) = num (k * (v * n)) ->
        (k * (v * n) < 2 ^ 53)%Z ->
        (0 <= now)%Z -> (now + k * 86400000 <= 8640000000000000)%Z ->
        emptyTankTime (water w') = Some (Some (now + k * 86400000)%Z)
        /\ waterVolumeSettings (storage w')
           = Some (JsonObj (stringifyWater (water w')))).
Proof.
  intros Hv n w'. unfold w', Water.calculateEmptyTime. fold n.
  rewrite Hv. unfold num. rewrite mul_fin. cbn [JsNum.seq].
  split.
  - intros [A | [N | V]].
    + rewrite A. cbn. now split.
    + destruct (negb (autoIrrigation (water w))); [cbn; now split|].
      rewrite N.
      replace (Qeq_bool (inject_Z v * inject_Z 0) (inject_Z 0)) with true
        by (symmetry; apply Qeq_bool_iff; change (inject_Z 0) with 0; ring).
      cbn. now split.
    + destruct (negb (autoIrrigation (water w))); [cbn; now split|].
      rewrite V.
      replace (Qeq_bool (inject_Z 0 * inject_Z n) (inject_Z 0)) with true
        by (symmetry; apply Qeq_bool_iff; change (inject_Z 0) with 0; ring).
      cbn. now split.
  - intros k A N V K Hl _ _ _. rewrite A, Hl. cbn [negb].
    assert (Pn : 0 < inject_Z n) by (rewrite <- (Zlt_Qlt 0); exact N).
    assert (Pv : 0 < inject_Z v) by (rewrite <- (Zlt_Qlt 0); exact V).
    assert (Pc : 0 < inject_Z v * inject_Z n) by nra.
    replace (Qeq_bool (inject_Z v * inject_Z n) (inject_Z 0)) with false.
    2: { symmetry. apply not_true_iff_false. intro E.
         apply Qeq_bool_iff in E. change (inject_Z 0) with 0 in E. lra. }
    rewrite (div_fin_pos _ Pc). rewrite !mul_fin, add_fin.
    rewrite (@timeClip_whole _ (now + k * 86400000)%Z).
    + cbn. split; reflexivity.
    + rewrite !inject_Z_plus, !inject_Z_mult.
      change (inject_Z 24) with 24. change (inject_Z 60) with 60.
      change (inject_Z 1000) with 1000.
      change (inject_Z 86400000) with 86400000.
      field. lra.
Qed.

(** 70 l, two slots a day and 7 l for each: empty after five days. *)
Lemma calculateEmptyTime_date_witness :
  emptyTankTime (water (Water.calculateEmptyTime 0 fiveDaysWorld))
  = Some (Some 432000000%Z).
Proof.
  exact (proj1 (proj2 (@calculateEmptyTime_date 0 fiveDaysWorld 7 eq_refl)
                  5%Z eq_refl eq_refl eq_refl ltac:(lia) eq_refl eq_refl
                  ltac:(lia) ltac:(lia))).
Defined.

(* ================================================================== *)
(** ** The bands of the moisture *)

Ltac band_cases :=
  unfold SoilManager.statusBadge, SoilManager.getMoistureRange,
    SoilManager.moistureRanges;
  cbn [find snd bandMin bandMax JsNum.ge JsNum.le num];
  repeat match goal with
         | |- context [Qle_bool ?a ?b] =>
             let E := fresh "E" in
             destruct (Qle_bool a b) eqn:E;
             [apply Qle_bool_iff in E | apply Qle_bool_false in E];
             unfold inject_Z in E; cbn [andb]
         end;
  try (exfalso; lra); try (repeat split; reflexivity).

(** X14. [getMoistureRange] sorts a moisture into the five bands by their
    whole-number bounds: 0 to 15 is [Sangat Kering], 16 to 24 [Kering], 25
    to 40 [Optimal], 41 to 69 [Lembap], 70 to 100 [Sangat Basah]. A
    moisture that falls between two bands, such as 40.5, or outside 0 to
    100, is in none of them and gets the fallback: the band [Sangat
    Kering] without a name, which the badge shows as DRY. *)
Theorem getMoistureRange_bands_and_gaps (m : Q) :
  let r := SoilManager.getMoistureRange (Fin m) in
  (0 <= m <= 15 ->
   name r = Some "Sangat Kering" /\ status (band r) = "dry")
  /\ (16 <= m <= 24 -> name r = Some "Kering" /\ status (band r) = "low")
  /\ (25 <= m <= 40 ->
      name r = Some "Optimal (Drip Irrigation)" /\ status (band r) = "wet")
  /\ (41 <= m <= 69 ->
      name r = Some "Lembap" /\ status (band r) = "very-wet")
  /\ (70 <= m <= 100 ->
      name r = Some "Sangat Basah (Hujan)" /\ status (band r) = "saturated")
  /\ (m < 0 \/ 15 < m < 16 \/ 24 < m < 25 \/ 40 < m < 41 \/ 69 < m < 70
      \/ 100 < m ->
      name r = None /\ status (band r) = "dry"
      /\ SoilManager.statusBadge (Fin m) = "DRY").
Proof.
  cbv zeta.
  repeat match goal with |- _ /\ _ => split end; intros H; band_cases.
Qed.

Lemma getMoistureRange_bands_and_gaps_witness :
  name (SoilManager.getMoistureRange (Fin (81 # 2))) = None
  /\ status (band (SoilManager.getMoistureRange (Fin (81 # 2)))) = "dry"
  /\ SoilManager.statusBadge (Fin (81 # 2)) = "DRY".
Proof.
  apply (getMoistureRange_bands_and_gaps (81 # 2)).
  right. right. right. left. split; reflexivity.
Defined.

(* ================================================================== *)
(** ** Updates of the soil manager's settings *)

Lemma insertSorted_perm (x : string) (l : list string) :
  Permutation (insertSorted x l) (x :: l).
Proof.
  induction l as [|y l IH]; cbn [insertSorted]; [reflexivity|].
  destruct (String.leb x y); [reflexivity|].
  rewrite IH. apply perm_swap.
Qed.

Lemma sort_perm (l : list string) : Permutation (sort l) l.
Proof.
  unfold sort. induction l as [|x l IH]; cbn [fold_right]; [reflexivity|].
  rewrite insertSorted_perm. now constructor.
Qed.

Lemma withCurrentMoisture_same (s : SoilSettings) :
  withCurrentMoisture s (currentMoisture s) = s.
Proof. now destruct s. Qed.

Ltac reset_to_45 :=
  split; [eexists; reflexivity|];
  split; [reflexivity|]; split; [reflexivity|]; split; [reflexivity|];
  split; [intros _; reflexivity|];
  exists (inject_Z 45); split; [reflexivity|split; discriminate].

Lemma soil_updateDisplay (w : World) :
  let w' := Soil.updateDisplay w in
  (exists s, soil w' = withCurrentMoisture (soil w) s)
  /\ water w' = water w /\ notices w' = notices w /\ timeouts w' = timeouts w
  /\ (soilMoistureSettings (storage w) = Some (JsonObj (stringifySoil (soil w)))
      -> soilMoistureSettings (storage w')
         = Some (JsonObj (stringifySoil (soil w'))))
  /\ exists m, currentMoisture (soil w') = Fin m /\ 0 <= m /\ m <= 100.
Proof.
  cbv zeta. unfold Soil.updateDisplay.
  destruct (currentMoisture (soil w)) as [q| | |] eqn:M;
    cbn [validNumber isNaN negb orb];
    try reset_to_45.
  destruct (Fin q <? num 0)%js eqn:L; cbn [orb];
    try reset_to_45.
  destruct (Fin q >? num 100)%js eqn:U;
    try reset_to_45.
  split.
  { exists (Fin q). rewrite <- M. symmetry. apply withCurrentMoisture_same. }
  split; [reflexivity|]. split; [reflexivity|]. split; [reflexivity|].
  split; [trivial|].
  exists q. split; [exact M|].
  cbn in L, U. apply negb_false_iff, Qle_bool_iff in L, U.
  change (inject_Z 0) with 0 in L. change (inject_Z 100) with 100 in U.
  now split.
Qed.

(** The settings before the last two steps of [updateSettings]. *)
Lemma updateSettings_shape (u : SoilUpdate) (w : World) :
  exists s,
    SoilManager.updateSettings u w
    = Soil.updateDisplay
        (Soil.saveSettings
           (setSoil s
              (Soil.forceSyncScheduledIrrigations
                 (setSoil (SoilManager.merge u (soil w)) w))))
    /\ irrigationDuration s
       = match u_irrigationDuration u with
         | Some d => d
         | None => irrigationDuration (soil w)
         end
    /\ isIrrigating s = isIrrigating (soil w)
    /\ autoIrrigationFlag s
       = match u_autoIrrigation u with
         | Some b => Some b
         | None => autoIrrigationFlag (soil w)
         end
    /\ (forall l, u_scheduledIrrigations u = Some l ->
          scheduledIrrigations s
          = if SoilManager.sortsInPlace w then sort l else l)
    /\ (forall l, u_scheduledIrrigations u = None -> u_schedules u = Some l ->
          scheduledIrrigations s = activeSchedules l).
Proof.
  unfold SoilManager.updateSettings.
  set (w0 := setSoil (SoilManager.merge u (soil w)) w).
  pose proof (forceSync_same w0) as ((_ & D & I & _) & _).
  assert (A : autoIrrigationFlag (soil (Soil.forceSyncScheduledIrrigations w0))
              = autoIrrigationFlag (soil w0)).
  { unfold Soil.forceSyncScheduledIrrigations.
    assert (K : forall l x, autoIrrigationFlag (soil (Soil.syncWith l x))
                            = autoIrrigationFlag (soil x)).
    { intros l x. unfold Soil.syncWith. now destruct (differ _ _). }
    set (w1 := if waterManager w0 then _ else w0).
    assert (A1 : autoIrrigationFlag (soil w1) = autoIrrigationFlag (soil w0)).
    { unfold w1. destruct (waterManager w0); [apply K|reflexivity]. }
    destruct (irrigationSettings (storage w1)) as [i|]; [|exact A1].
    destruct (parse i) as [g|e]; [|exact A1].
    destruct (g_waterLevel g); [|exact A1]. now rewrite K. }
  set (w1 := Soil.forceSyncScheduledIrrigations w0) in *.
  assert (D0 : irrigationDuration (soil w0)
               = match u_irrigationDuration u with
                 | Some d => d
                 | None => irrigationDuration (soil w)
                 end).
  { unfold w0, SoilManager.merge. cbn [soil setSoil].
    destruct (u_irrigationDuration u), (u_scheduledIrrigations u),
      (u_moistureThresholds u), (u_autoIrrigation u); reflexivity. }
  assert (I0 : isIrrigating (soil w0) = isIrrigating (soil w)).
  { unfold w0, SoilManager.merge. cbn [soil setSoil].
    destruct (u_irrigationDuration u), (u_scheduledIrrigations u),
      (u_moistureThresholds u), (u_autoIrrigation u); reflexivity. }
  assert (A0 : autoIrrigationFlag (soil w0)
               = match u_autoIrrigation u with
                 | Some b => Some b
                 | None => autoIrrigationFlag (soil w)
                 end).
  { unfold w0, SoilManager.merge. cbn [soil setSoil].
    destruct (u_irrigationDuration u), (u_scheduledIrrigations u),
      (u_moistureThresholds u), (u_autoIrrigation u); reflexivity. }
  eexists. split; [reflexivity|].
  rewrite <- D0, <- I0, <- A0, <- D, <- I, <- A.
  destruct (negb (validNumber (currentMoisture (soil w1))));
    destruct (u_irrigationDuration u) as [d|] eqn:Ud;
    try (destruct (truthyNumber d);
         [destruct (negb (isNaN d) && (d >=? num 5)%js)|]);
    destruct (u_moistureThresholds u), (u_autoIrrigation u) as [b|] eqn:Ua,
      (u_scheduledIrrigations u) as [l|], (u_schedules u) as [l'|];
    cbn [irrigationDuration isIrrigating autoIrrigationFlag
         scheduledIrrigations withCurrentMoisture withIrrigationDuration
         withMoistureThresholds withAutoIrrigationFlag
         withScheduledIrrigations];
    rewrite ?D, ?D0, ?A, ?A0, ?Ua;
    repeat split; try reflexivity;
    try (intros x X; injection X as <-; reflexivity);
    try (intros x X; discriminate X);
    try (intros x _ X; injection X as <-; reflexivity);
    try (intros x _ X; discriminate X);
    try (intros x X Y; discriminate X).
Qed.

Lemma forceSync_waterItem (w : World) :
  waterVolumeSettings (storage (Soil.forceSyncScheduledIrrigations w))
  = waterVolumeSettings (storage w).
Proof.
  unfold Soil.forceSyncScheduledIrrigations.
  assert (Y : forall ls z, waterVolumeSettings (storage (Soil.syncWith ls z))
                           = waterVolumeSettings (storage z)).
  { intros ls z. unfold Soil.syncWith. now destruct (differ _ _). }
  set (w1 := if waterManager w then _ else w).
  assert (Y1 : waterVolumeSettings (storage w1)
               = waterVolumeSettings (storage w)).
  { unfold w1. destruct (waterManager w); [apply Y|reflexivity]. }
  destruct (irrigationSettings (storage w1)) as [i|]; [|exact Y1].
  destruct (parse i) as [g|e]; [|exact Y1].
  destruct (g_waterLevel g); [|exact Y1]. now rewrite Y.
Qed.

Lemma updateSettings_waterItem (u : SoilUpdate) (w : World) :
  waterVolumeSettings (storage (SoilManager.updateSettings u w))
  = waterVolumeSettings (storage w).
Proof.
  destruct (updateSettings_shape u w) as (s & -> & _).
  unfold Soil.updateDisplay.
  match goal with
  | |- context [if ?b then _ else _] => destruct b
  end; cbn [storage Soil.saveSettings setStorage setSoil waterVolumeSettings
            setSoilItem]; now rewrite forceSync_waterItem.
Qed.

Lemma updateSettings_water (u : SoilUpdate) (w : World) :
  water (SoilManager.updateSettings u w) = water w.
Proof.
  destruct (updateSettings_shape u w) as (s & -> & _).
  match goal with
  | |- context [Soil.updateDisplay ?x] =>
      pose proof (soil_updateDisplay x) as (_ & -> & _)
  end.
  apply (forceSync_frame (setSoil (SoilManager.merge u (soil w)) w)).
Qed.

Lemma updateSettings_given (u : SoilUpdate) (w : World) :
  (forall d, u_irrigationDuration u = Some d ->
     irrigationDuration (soil (SoilManager.updateSettings u w)) = d)
  /\ (forall l, u_scheduledIrrigations u = Some l ->
        scheduledIrrigations (soil (SoilManager.updateSettings u w))
        = if SoilManager.sortsInPlace w then sort l else l).
Proof.
  destruct (updateSettings_shape u w) as (s & -> & D & _ & _ & L & _).
  match goal with
  | |- context [Soil.updateDisplay ?x] =>
      pose proof (soil_updateDisplay x) as ((m & ->) & _)
  end.
  split.
  - intros d U. rewrite U in D. exact D.
  - intros l U. exact (L l U).
Qed.

(** X15. [updateSettings] of the soil manager keeps whatever number it is
    given as the irrigation duration, a number below 5 or NaN included:
    the spread has stored it before the check for a duration of at least 5
    is made, and a duration that fails the check is not taken back. *)
Theorem updateSettings_keeps_any_duration (u : SoilUpdate) (w : World)
  (d : jsnum) :
  u_irrigationDuration u = Some d ->
  irrigationDuration (soil (SoilManager.updateSettings u w)) = d.
Proof.
  intro U.
  destruct (updateSettings_shape u w) as (s & -> & D & _).
  rewrite U in D.
  match goal with
  | |- context [Soil.updateDisplay ?x] =>
      pose proof (soil_updateDisplay x) as ((m & ->) & _)
  end.
  exact D.
Qed.

Lemma updateSettings_keeps_any_duration_witness :
  irrigationDuration
    (soil (SoilManager.updateSettings
             {| u_irrigationDuration := Some (num 3);
                u_scheduledIrrigations := None;
                u_moistureThresholds := None;
                u_autoIrrigation := None;
                u_schedules := None |} sampleWorld))
  = num 3.
Proof.
  now apply updateSettings_keeps_any_duration.
Defined.

(** X16. After [updateSettings] of the soil manager the slots are the ones
    that were given, in sorted order when a synchronisation ran and as
    given otherwise, whatever the water manager or the stored settings
    hold; the moisture is a number of [0..100]; a given [autoIrrigation] of
    [false] makes [shouldTriggerIrrigation] answer no; and the tank, the
    irrigation state, the notifications and the stop timers are left as
    they are, with the stored document the one of the settings in
    memory. *)
Theorem updateSettings_slots_and_frame (u : SoilUpdate) (w : World) :
  let w' := SoilManager.updateSettings u w in
  (forall l, u_scheduledIrrigations u = Some l ->
     scheduledIrrigations (soil w')
     = (if SoilManager.sortsInPlace w then sort l else l)
     /\ Permutation (scheduledIrrigations (soil w')) l)
  /\ (forall l, u_scheduledIrrigations u = None -> u_schedules u = Some l ->
        scheduledIrrigations (soil w') = activeSchedules l)
  /\ (exists m, currentMoisture (soil w') = Fin m /\ 0 <= m /\ m <= 100)
  /\ (u_autoIrrigation u = Some false ->
      Soil.shouldTriggerIrrigation (soil w') = false)
  /\ water w' = water w
  /\ isIrrigating (soil w') = isIrrigating (soil w)
  /\ notices w' = notices w
  /\ timeouts w' = timeouts w
  /\ soilMoistureSettings (storage w')
     = Some (JsonObj (stringifySoil (soil w'))).
Proof.
  cbv zeta.
  destruct (updateSettings_shape u w) as (s & -> & D & I & A & L1 & L2).
  match goal with
  | |- context [Soil.updateDisplay ?x] =>
      pose proof (soil_updateDisplay x) as ((m & E) & W & N & T & S & M)
  end.
  rewrite E, W, N, T.
  pose proof (forceSync_frame (setSoil (SoilManager.merge u (soil w)) w))
    as (F1 & _ & _ & _ & _ & _ & _ & F8 & F9 & _).
  cbn [soil water notices timeouts setSoil Soil.saveSettings setStorage
       scheduledIrrigations isIrrigating withCurrentMoisture] in *.
  split.
  { intros l U. rewrite (L1 l U). split; [reflexivity|].
    destruct (SoilManager.sortsInPlace w); [apply sort_perm|reflexivity]. }
  split; [exact L2|].
  split.
  { destruct M as (q & Q1 & Q2). exists q. rewrite E in Q1.
    cbn [currentMoisture withCurrentMoisture] in Q1. now split. }
  split.
  { intro U. rewrite U in A. unfold Soil.shouldTriggerIrrigation.
    cbn [autoIrrigationFlag withCurrentMoisture]. rewrite A.
    apply andb_false_r. }
  split; [exact F1|]. split; [exact I|]. split; [exact F8|].
  split; [exact F9|].
  rewrite <- E. now apply S.
Qed.

Lemma updateSettings_slots_and_frame_witness :
  scheduledIrrigations
    (soil (SoilManager.updateSettings
             {| u_irrigationDuration := None;
                u_scheduledIrrigations := Some ["18:00"; "06:00"];
                u_moistureThresholds := None;
                u_autoIrrigation := None;
                u_schedules := None |} sampleWorld))
  = ["06:00"; "18:00"].
Proof.
  exact (proj1 (proj1 (updateSettings_slots_and_frame
                         {| u_irrigationDuration := None;
                            u_scheduledIrrigations := Some ["18:00"; "06:00"];
                            u_moistureThresholds := None;
                            u_autoIrrigation := None;
                            u_schedules := None |} sampleWorld)
                  ["18:00"; "06:00"] eq_refl)).
Defined.

(** X17. [syncWithSoilManager] of the water manager hands its enabled
    slots to the soil manager and, having no irrigation duration of its
    own, sets the soil manager's irrigation duration to 15 minutes,
    whatever it was before; the tank is left as it is. *)
Theorem syncWithSoilManager_resets_duration (w : World) :
  soilManager w = true ->
  let w' := WaterManager.syncWithSoilManager w in
  irrigationDuration (soil w') = num 15
  /\ Permutation (scheduledIrrigations (soil w'))
       (activeSchedules (schedules (water w)))
  /\ (waterManager w = true ->
      scheduledIrrigations (soil w')
      = sort (activeSchedules (schedules (water w))))
  /\ water w' = water w.
Proof.
  intro S. cbv zeta. unfold WaterManager.syncWithSoilManager. rewrite S.
  set (u := {| u_irrigationDuration := Some (num 15);
               u_scheduledIrrigations :=
                 Some (activeSchedules (schedules (water w)));
               u_moistureThresholds := None;
               u_autoIrrigation := None;
               u_schedules := None |}).
  pose proof (updateSettings_given u w) as (D & L).
  split; [now apply D|].
  pose proof (L _ eq_refl) as E.
  split.
  { rewrite E. destruct (SoilManager.sortsInPlace w);
      [apply sort_perm|reflexivity]. }
  split; [|apply updateSettings_water].
  intro M. rewrite E. unfold SoilManager.sortsInPlace. now rewrite M.
Qed.

Lemma syncWithSoilManager_resets_duration_witness :
  let w := setSoil (withIrrigationDuration (soil sampleWorld) (num 30))
             sampleWorld in
  irrigationDuration (soil w) = num 30
  /\ irrigationDuration (soil (WaterManager.syncWithSoilManager w)) = num 15.
Proof.
  cbv zeta. split; [reflexivity|].
  now apply syncWithSoilManager_resets_duration.
Defined.

(* ================================================================== *)
(** ** Updates of the water manager's settings *)

Lemma water_updateDisplay_level (w : World) (l : Q) :
  currentLevel (water w) = Fin l ->
  Water.updateDisplay w = w.
Proof.
  intro L. unfold Water.updateDisplay. rewrite L.
  now destruct (tankCountdown w).
Qed.

(** X18. [updateSettings] of the water manager never leaves more water in
    the tank than the (new) capacity holds: a level above the capacity
    becomes 80 percent of the capacity, any other level stays. The
    settings are saved, and with the soil manager in place its irrigation
    duration is 15 minutes afterwards. *)
Theorem water_updateSettings_keeps_level_in_tank (now : Z) (u : WaterUpdate)
  (w : World) (c l : Q) :
  match n_tankCapacity u with
  | Some v => v
  | None => tankCapacity (water w)
  end = Fin c ->
  currentLevel (water w) = Fin l -> 0 <= c ->
  let w' := WaterManager.updateSettings now u w in
  tankCapacity (water w') = Fin c
  /\ (exists l',
        currentLevel (water w') = Fin l' /\ l' <= c
        /\ (l <= c -> l' == l) /\ (c < l -> l' == c * (8 # 10)))
  /\ waterVolumeSettings (storage w')
     = Some (JsonObj (stringifyWater (water w')))
  /\ (soilManager w = true -> irrigationDuration (soil w') = num 15).
Proof.
  intros C L P. cbv zeta. unfold WaterManager.updateSettings.
  set (s0 := WaterManager.merge u (water w)).
  assert (C0 : tankCapacity s0 = Fin c) by exact C.
  assert (L0 : currentLevel s0 = Fin l) by exact L.
  set (s1 := if (currentLevel s0 >? tankCapacity s0)%js
             then withCurrentLevel s0 (tankCapacity s0 * Fin (8 # 10))%js
             else s0).
  assert (C1 : tankCapacity s1 = Fin c).
  { unfold s1. destruct (_ >? _)%js; exact C0. }
  assert (L1 : exists l', currentLevel s1 = Fin l' /\ l' <= c
                          /\ (l <= c -> l' == l)
                          /\ (c < l -> l' == c * (8 # 10))).
  { unfold s1. rewrite L0, C0. cbn [JsNum.gt JsNum.lt].
    destruct (Qle_bool l c) eqn:E; cbn [negb].
    - apply Qle_bool_iff in E. exists l. split; [exact L0|].
      split; [exact E|]. split; [reflexivity|]. intro. lra.
    - apply Qle_bool_false in E.
      exists (c * (8 # 10)).
      split; [reflexivity|]. split; [lra|]. split; [intro; lra|reflexivity]. }
  clearbody s1. clear s0 C0 L0.
  destruct L1 as (l' & E' & A & B & D).
  set (w1 := setWater s1 w).
  pose proof (calculateEmptyTime_frame now w1) as (F1 & F2 & _).
  set (w2 := Water.calculateEmptyTime now w1) in *.
  assert (L2 : currentLevel (water w2) = Fin l') by (rewrite F2; exact E').
  rewrite (water_updateDisplay_level w2 L2).
  set (w3 := Water.saveSettings w2).
  assert (W3 : water w3 = water w2) by reflexivity.
  assert (S3 : waterVolumeSettings (storage w3)
               = Some (JsonObj (stringifyWater (water w3)))) by reflexivity.
  assert (M3 : soilManager w3 = soilManager w).
  { unfold w3, w2. cbn [soilManager Water.saveSettings setStorage].
    now rewrite (proj1 (soilManager_calculateEmptyTime now w1)). }
  clearbody w3.
  unfold WaterManager.syncWithSoilManager. rewrite M3.
  destruct (soilManager w) eqn:M.
  - match goal with
    | |- context [SoilManager.updateSettings ?x w3] =>
        pose proof (updateSettings_water x w3) as W;
        pose proof (proj1 (updateSettings_given x w3) (num 15) eq_refl) as U;
        set (w4 := SoilManager.updateSettings x w3) in *
    end.
    assert (S4 : waterVolumeSettings (storage w4)
                 = waterVolumeSettings (storage w3))
      by apply updateSettings_waterItem.
    rewrite W, W3, S4, S3, W3, F1, L2.
    split; [exact C1|]. split; [exists l'; now repeat split|].
    split; [reflexivity|]. intros _. exact U.
  - rewrite W3, S3, W3, F1, L2.
    split; [exact C1|]. split; [exists l'; now repeat split|].
    split; [reflexivity|]. intro. discriminate.
Qed.

Lemma water_updateSettings_keeps_level_in_tank_witness :
  exists l',
    currentLevel
      (water (WaterManager.updateSettings 0
                {| n_tankCapacity := Some (num 50);
                   n_irrigationVolume := None;
                   n_lowLevelThreshold := None;
                   n_schedules := None;
                   n_autoIrrigation := None |} sampleWorld)) = Fin l'
    /\ l' == 40.
Proof.
  destruct (@water_updateSettings_keeps_level_in_tank 0
              {| n_tankCapacity := Some (num 50);
                 n_irrigationVolume := None;
                 n_lowLevelThreshold := None;
                 n_schedules := None;
                 n_autoIrrigation := None |} sampleWorld 50 72
              eq_refl eq_refl)
    as (_ & (l' & E & _ & _ & H) & _); [discriminate|].
  exists l'. split; [exact E|]. rewrite H; reflexivity.
Defined.

(* ================================================================== *)
(** ** The two logs *)

Lemma keepLast_app (A : Type) (n : nat) (old : list A) (x : A) :
  (0 < n)%nat ->
  keepLast n (old ++ [x])%list
  = (skipn (S (List.length old) - n) old ++ [x])%list
  /\ (List.length (keepLast n (old ++ [x])%list) <= n)%nat.
Proof.
  intro P. unfold keepLast. rewrite length_app. cbn [List.length].
  replace (List.length old + 1)%nat with (S (List.length old)) by lia.
  destruct (n <? S (List.length old))%nat eqn:E.
  - apply Nat.ltb_lt in E. rewrite skipn_app.
    replace (S (List.length old) - n - List.length old)%nat with 0%nat by lia.
    cbn [skipn]. split; [reflexivity|].
    rewrite length_app, length_skipn. cbn [List.length]. lia.
  - apply Nat.ltb_ge in E.
    replace (S (List.length old) - n)%nat with 0%nat by lia.
    cbn [skipn]. split; [reflexivity|].
    rewrite length_app. cbn [List.length]. lia.
Qed.

(** X19. [logIrrigation()] throws on a stored log that does not parse (a
    SyntaxError) or that is no array (a TypeError). Otherwise it stores the
    old entries followed by the new one, without the oldest entries beyond
    a hundred: the stored log never has more than 100 entries and always
    ends with the entry of this irrigation, which carries the date, the
    volume and the level as the display takes them. *)
Theorem logIrrigation_keeps_last_100 (now : Z) (s : WaterSettings)
  (stored : option (LogItem IrrigationLog)) :
  match stored with
  | Some LogMalformed =>
      WaterManager.logIrrigation now s stored = Throw SyntaxError
  | Some LogNotArray =>
      WaterManager.logIrrigation now s stored = Throw TypeError
  | _ =>
      let old := match stored with Some (LogArray l) => l | _ => [] end in
      let entry :=
        {| i_timestamp := now;
           i_volume := json_of_num (if validNumber (irrigationVolume s)
                                    then irrigationVolume s else num 7);
           i_remainingLevel := json_of_num (if validNumber (currentLevel s)
                                            then currentLevel s
                                            else num 72) |} in
      exists logs,
        WaterManager.logIrrigation now s stored = Ok logs
        /\ logs = (skipn (S (List.length old) - 100) old ++ [entry])%list
        /\ (List.length logs <= 100)%nat
  end.
Proof.
  destruct stored as [[| |old]|]; try reflexivity; cbv zeta;
    unfold WaterManager.logIrrigation; cbn [parseLogs rbind];
    eexists; (split; [reflexivity|]); apply keepLast_app; lia.
Qed.

(** X20. [logMoisture(eventType)] throws on a stored log that does not
    parse or that is no array. Otherwise it stores the old entries followed
    by the new one, without the oldest entries beyond a thousand: the
    stored log never has more than 1000 entries and always ends with the
    entry of this event. *)
Theorem logMoisture_keeps_last_1000 (now : Z) (eventType : string)
  (s : SoilSettings) (stored : option (LogItem MoistureLog)) :
  match stored with
  | Some LogMalformed =>
      SoilManager.logMoisture now eventType s stored = Throw SyntaxError
  | Some LogNotArray =>
      SoilManager.logMoisture now eventType s stored = Throw TypeError
  | _ =>
      let old := match stored with Some (LogArray l) => l | _ => [] end in
      let entry :=
        {| m_timestamp := now;
           m_moisture := json_of_num (currentMoisture s);
           m_weather := weather s;
           m_isIrrigating := isIrrigating s;
           m_eventType := eventType;
           m_evaporationAccumulator :=
             json_of_num (moistureDecreaseAccumulator s) |} in
      exists logs,
        SoilManager.logMoisture now eventType s stored = Ok logs
        /\ logs = (skipn (S (List.length old) - 1000) old ++ [entry])%list
        /\ (List.length logs <= 1000)%nat
  end.
Proof.
  destruct stored as [[| |old]|]; try reflexivity; cbv zeta;
    unfold SoilManager.logMoisture; cbn [parseLogs rbind];
    eexists; (split; [reflexivity|]); apply keepLast_app; lia.
Qed.

(** With the three gates passed, the method with its log takes the water
    and saves the settings before it logs. *)
Lemma performIrrigation_until_log (now : Z) (p : Page) (l v : Q) :
  autoIrrigation (water (world p)) = true ->
  soilManager (world p) = true ->
  (currentMoisture (soil (world p)) <? num 35)%js = true ->
  currentLevel (water (world p)) = Fin l ->
  irrigationVolume (water (world p)) = Fin v ->
  v <= l ->
  exists w2 x,
    Logged.performIrrigation now p
    = match Logged.logIrrigation now (setWorld w2 p) with
      | (Throw e, p) => (Throw e, p)
      | (Ok _, p) =>
          (Ok (Some true),
           setWorld
             (showNotification (IrrigationDone (Fin v))
                (Soil.startIrrigation now (world p))) p)
      end
    /\ currentLevel (water w2) = Fin x /\ x == Qmax 0 (l - v)
    /\ waterVolumeSettings (storage w2)
       = Some (JsonObj (stringifyWater (water w2)))
    /\ soil w2 = soil (world p)
    /\ soilManager w2 = true
    /\ timeouts w2 = timeouts (world p)
    /\ notices w2 = notices (world p).
Proof.
  intros Ha Hs Hm Hl Hv Hle. unfold Logged.performIrrigation.
  rewrite Ha, Hs, Hl, Hv. cbn [negb validNumber isNaN].
  rewrite (getCurrentMoistureStatus_valid (world p) (lt_valid _ _ Hm)).
  rewrite (lt_not_ge _ _ Hm).
  unfold JsNum.ge, JsNum.le.
  replace (Qle_bool v l) with true by (symmetry; now apply Qle_bool_iff).
  rewrite sub_fin.
  destruct (max_fin (inject_Z 0) (l - v)) as (x & Ex & Hx).
  fold (num 0) in Ex. rewrite Ex.
  set (w0 := setWater (withCurrentLevel (water (world p)) (Fin x)) (world p)).
  pose proof (currentLevel_calculateEmptyTime now w0) as (L1 & _).
  pose proof (soilManager_calculateEmptyTime now w0) as (M1 & S1).
  assert (D : Water.updateDisplay (Water.calculateEmptyTime now w0)
              = Water.calculateEmptyTime now w0).
  { unfold Water.updateDisplay. rewrite L1.
    cbn [w0 water setWater currentLevel withCurrentLevel validNumber isNaN
         negb].
    now destruct (tankCountdown (Water.calculateEmptyTime now w0)). }
  rewrite D.
  set (w2 := Water.saveSettings (Water.calculateEmptyTime now w0)).
  assert (T : timeouts (Water.calculateEmptyTime now w0) = timeouts w0
              /\ notices (Water.calculateEmptyTime now w0) = notices w0).
  { unfold Water.calculateEmptyTime.
    destruct (negb (autoIrrigation (water w0))); [split; reflexivity|].
    destruct (JsNum.seq _ _); split; reflexivity. }
  destruct T as (T1 & T2).
  assert (M2 : soilManager w2 = true).
  { unfold w2. cbn [soilManager Water.saveSettings setStorage].
    rewrite M1. exact Hs. }
  exists w2, x. split.
  - destruct (Logged.logIrrigation now (setWorld w2 p)) as ([u|e], q) eqn:E.
    + assert (W : world q = w2).
      { unfold Logged.logIrrigation in E.
        destruct (WaterManager.logIrrigation _ _ _);
          injection E as _ <-; reflexivity. }
      rewrite W, M2. reflexivity.
    + reflexivity.
  - split; [exact L1|]. split; [exact Hx|]. split; [reflexivity|].
    split; [exact S1|]. split; [exact M2|]. split; [exact T1|exact T2].
Qed.

(** X30. With a stored log of the irrigations that does not parse or is no
    array, a [performIrrigation()] that passes its three gates takes the
    water out of the tank, saves the water manager's settings and then
    throws: the soil manager is not told, so that no irrigation starts and
    no stop timer is set, and no notification is shown. A second call
    takes water again. The level and the volume are whole litres below
    [2^53], so that the difference is exact. *)
Theorem unreadable_log_stops_performIrrigation (now : Z) (p : Page)
  (l v : Z) :
  autoIrrigation (water (world p)) = true ->
  soilManager (world p) = true ->
  (currentMoisture (soil (world p)) <? num 35)%js = true ->
  currentLevel (water (world p)) = num l ->
  irrigationVolume (water (world p)) = num v ->
  (0 <= v <= l)%Z -> (l < 2 ^ 53)%Z ->
  readableLog (irrigationLogs (logs p)) = false ->
  exists e p' x,
    Logged.performIrrigation now p = (Throw e, p')
    /\ currentLevel (water (world p')) = Fin x /\ x == inject_Z (l - v)
    /\ waterVolumeSettings (storage (world p'))
       = Some (JsonObj (stringifyWater (water (world p'))))
    /\ soil (world p') = soil (world p)
    /\ timeouts (world p') = timeouts (world p)
    /\ notices (world p') = notices (world p)
    /\ logs p' = logs p.
Proof.
  intros Ha Hs Hm Hl Hv [Pv Hle] _ R.
  assert (Le : inject_Z v <= inject_Z l) by (rewrite <- Zle_Qle; exact Hle).
  destruct (@performIrrigation_until_log now p (inject_Z l) (inject_Z v)
              Ha Hs Hm Hl Hv Le)
    as (w2 & x & E & Lx & Hx & St & So & _ & T & N).
  destruct (@logIrrigation_unreadable now (setWorld w2 p) R) as (e & El).
  rewrite El in E.
  exists e, (setWorld w2 p), x. cbn [world logs setWorld].
  split; [exact E|]. split; [exact Lx|].
  split; [|repeat split; assumption].
  rewrite Hx. unfold Z.sub. rewrite inject_Z_plus, inject_Z_opp.
  apply Q.max_r. unfold Qminus. lra.
Qed.

(** Dry soil, 72 l in the tank and a log that is no array: the call throws
    with 65 l left and no irrigation running, and so does the next one,
    with 58 l left. *)
Lemma unreadable_log_stops_performIrrigation_witness :
  exists e p1 p2 x1 x2,
    Logged.performIrrigation 0 (brokenIrrigationLog dryWorld) = (Throw e, p1)
    /\ currentLevel (water (world p1)) = Fin x1 /\ x1 == 65
    /\ isIrrigating (soil (world p1)) = false
    /\ Logged.performIrrigation 1000 p1 = (Throw e, p2)
    /\ currentLevel (water (world p2)) = Fin x2 /\ x2 == 58.
Proof.
  destruct (@unreadable_log_stops_performIrrigation 0
              (brokenIrrigationLog dryWorld) 72 7)
    as (e & p1 & x1 & E1 & L1 & H1 & _ & S1 & _ & _ & G1);
    try reflexivity; try lia.
  assert (E2 : exists p2 x2,
             Logged.performIrrigation 1000 p1 = (Throw e, p2)
             /\ currentLevel (water (world p2)) = Fin x2 /\ x2 == 58).
  { vm_compute in E1. injection E1 as <- <-.
    eexists _, _. split; [vm_compute; reflexivity|].
    split; vm_compute; reflexivity. }
  destruct E2 as (p2 & x2 & E2 & L2 & H2).
  exists e, p1, p2, x1, x2. split; [exact E1|]. split; [exact L1|].
  split; [rewrite H1; reflexivity|]. split; [now rewrite S1|].
  split; [exact E2|]. split; [exact L2|exact H2].
Defined.

(* ================================================================== *)
(** ** The forecast of an irrigation *)

(** X21. [getIrrigationEffectiveness()] forecasts the target that
    [startIrrigation()] then stores: the moisture plus 12, kept within 25
    and 40; the forecast increase is the difference to the moisture, which
    is negative for a soil above 40 percent. *)
Theorem effectiveness_forecasts_stored_target (now : Z) (w : World) (m : Q) :
  isIrrigating (soil w) = false ->
  currentMoisture (soil w) = Fin m ->
  let e := SoilManager.getIrrigationEffectiveness (soil w) in
  irrigationTargetMoisture (soil (Soil.startIrrigation now w))
  = SoilManager.targetMoisture e
  /\ exists t,
       SoilManager.targetMoisture e = Fin t
       /\ t == Qmin 40 (Qmax 25 (m + 12))
       /\ 25 <= t /\ t <= 40
       /\ SoilManager.increase e = Fin (t - m)
       /\ (40 < m -> t - m < 0).
Proof.
  intros I M. cbv zeta.
  unfold Soil.startIrrigation, SoilManager.getIrrigationEffectiveness.
  rewrite I, M. cbn [validNumber isNaN negb].
  cbn [irrigationTargetMoisture soil setTimeoutStop showNotification
       Soil.saveSettings setStorage setSoil withAccumulator withIrrigation
       currentMoisture SoilManager.targetMoisture SoilManager.increase].
  rewrite ?M. unfold num. rewrite !add_fin.
  destruct (max_fin (inject_Z 25) (m + inject_Z 12)) as (x & Ex & Hx).
  rewrite Ex.
  destruct (min_fin (inject_Z 40) x) as (t & Et & Ht).
  rewrite Et.
  split; [reflexivity|].
  exists t. split; [reflexivity|].
  change (inject_Z 25) with 25 in Hx. change (inject_Z 12) with 12 in Hx.
  change (inject_Z 40) with 40 in Ht.
  assert (E : t == Qmin 40 (Qmax 25 (m + 12))) by (now rewrite Ht, Hx).
  split; [exact E|].
  assert (L : 25 <= t).
  { rewrite E. apply Q.min_glb; [discriminate|apply Q.le_max_l]. }
  assert (U : t <= 40) by (rewrite E; apply Q.le_min_l).
  split; [exact L|]. split; [exact U|]. split; [apply sub_fin|]. intro. lra.
Qed.

Lemma effectiveness_forecasts_stored_target_witness :
  irrigationTargetMoisture (soil (Soil.startIrrigation 0 dryWorld))
  = SoilManager.targetMoisture
      (SoilManager.getIrrigationEffectiveness (soil dryWorld)).
Proof.
  exact (proj1 (@effectiveness_forecasts_stored_target 0 dryWorld 30
                  eq_refl eq_refl)).
Defined.

(* ================================================================== *)
(** ** The buttons of the tank *)

Lemma emptyTank_level (now : Z) (w : World) :
  let w1 := Water.emptyTank now w in
  currentLevel (water w1) = num 0
  /\ irrigationVolume (water w1) = irrigationVolume (water w)
  /\ soil w1 = soil w
  /\ waterVolumeSettings (storage w1)
     = Some (JsonObj (stringifyWater (water w1))).
Proof.
  cbv zeta. unfold Water.emptyTank.
  set (w0 := setWater (withCurrentLevel (water w) (num 0)) w).
  pose proof (calculateEmptyTime_frame now w0) as (_ & F2 & F3 & _).
  pose proof (soilManager_calculateEmptyTime now w0) as (_ & S).
  assert (L : currentLevel (water (Water.calculateEmptyTime now w0))
              = Fin (inject_Z 0)) by (rewrite F2; reflexivity).
  rewrite (water_updateDisplay_level _ L).
  cbn [water storage Water.saveSettings setStorage setWaterItem
       waterVolumeSettings soil].
  rewrite F2, F3, S. now repeat split.
Qed.

(** X22. [emptyTank()] leaves 0 litres in the tank, saves the settings and
    says so; as long as the irrigation volume is positive, no trigger takes
    water or starts an irrigation afterwards, through whatever wrapper is
    installed. *)
Theorem emptied_tank_blocks_every_trigger (impl : Impl) (now later : Z)
  (w : World) (v : Q) :
  irrigationVolume (water w) = Fin v -> 0 < v ->
  let w1 := fst (WaterManager.emptyTank now w) in
  let r := callPerformIrrigation impl later w1 in
  currentLevel (water w1) = num 0
  /\ message (snd (WaterManager.emptyTank now w)) = "Tandon dikosongkan"
  /\ waterVolumeSettings (storage w1)
     = Some (JsonObj (stringifyWater (water w1)))
  /\ water (snd r) = water w1
  /\ fst r <> Some true
  /\ isIrrigating (soil (snd r)) = isIrrigating (soil w).
Proof.
  intros V P. cbv zeta. cbn [fst snd WaterManager.emptyTank message].
  pose proof (emptyTank_level now w) as (L & V1 & S & St).
  split; [exact L|]. split; [reflexivity|]. split; [exact St|].
  assert (C : (currentLevel (water (Water.emptyTank now w))
               <? irrigationVolume (water (Water.emptyTank now w)))%js = true).
  { rewrite L, V1, V. cbn. apply negb_true_iff, Qle_bool_false. exact P. }
  pose proof (@callPerformIrrigation_insufficient impl later _ C)
    as (A1 & A2 & _ & A4 & _).
  split; [exact A1|]. split; [exact A4|]. rewrite A2. now rewrite S.
Qed.

Lemma emptied_tank_blocks_every_trigger_witness :
  let w1 := fst (WaterManager.emptyTank 0 dryWorld) in
  currentLevel (water w1) = num 0
  /\ water (snd (callPerformIrrigation (Synced Original) 60000 w1)) = water w1.
Proof.
  destruct (@emptied_tank_blocks_every_trigger (Synced Original) 0 60000
              dryWorld 7 eq_refl eq_refl) as (L & _ & _ & W & _).
  cbv zeta. split; [exact L|exact W].
Defined.

Lemma refillTank_level (now : Z) (w : World) :
  let w1 := Water.refillTank now w in
  currentLevel (water w1)
  = (if validNumber (tankCapacity (water w))
     then tankCapacity (water w) else num 90)
  /\ lastRefill (water w1) = now
  /\ tankCapacity (water w1) = tankCapacity (water w)
  /\ irrigationVolume (water w1) = irrigationVolume (water w)
  /\ autoIrrigation (water w1) = autoIrrigation (water w)
  /\ soil w1 = soil w
  /\ soilManager w1 = soilManager w
  /\ waterVolumeSettings (storage w1)
     = Some (JsonObj (stringifyWater (water w1))).
Proof.
  cbv zeta. unfold Water.refillTank.
  set (c := if validNumber (tankCapacity (water w))
            then tankCapacity (water w) else num 90).
  assert (V : validNumber c = true).
  { unfold c. destruct (validNumber (tankCapacity (water w))) eqn:E;
      [exact E|reflexivity]. }
  set (w0 := setWater (withLastRefill (withCurrentLevel (water w) c) now) w).
  pose proof (calculateEmptyTime_frame now w0)
    as (F1 & F2 & F3 & _ & _ & F6 & F7).
  pose proof (soilManager_calculateEmptyTime now w0) as (M & S).
  assert (D : Water.updateDisplay (Water.calculateEmptyTime now w0)
              = Water.calculateEmptyTime now w0).
  { unfold Water.updateDisplay. rewrite F2.
    cbn [w0 water setWater currentLevel withLastRefill withCurrentLevel].
    rewrite V. cbn [negb].
    now destruct (tankCountdown (Water.calculateEmptyTime now w0)). }
  rewrite D.
  cbn [water storage Water.saveSettings setStorage setWaterItem
       waterVolumeSettings soil soilManager].
  rewrite F1, F2, F3, F6, F7, M, S. now repeat split.
Qed.

(** X23. [refillTank()] fills the tank to its capacity, notes the date of
    the refill, saves the settings and says so. On dry soil, with auto
    irrigation on, a volume of whole litres within a capacity of whole
    litres (below [2^53], so that the difference is exact) and a log of the
    irrigations that is absent or an array, the next [performIrrigation()]
    then returns [true], leaves the capacity less the volume in the tank
    and has the soil manager irrigating. *)
Theorem refill_fills_to_capacity (now later : Z) (p : Page) (c : Q) :
  tankCapacity (water (world p)) = Fin c ->
  let w1 := fst (WaterManager.refillTank now (world p)) in
  currentLevel (water w1) = Fin c
  /\ lastRefill (water w1) = now
  /\ message (snd (WaterManager.refillTank now (world p)))
     = "Tandon berhasil diisi ulang!"
  /\ waterVolumeSettings (storage w1)
     = Some (JsonObj (stringifyWater (water w1)))
  /\ (forall cz vz : Z,
        autoIrrigation (water (world p)) = true ->
        soilManager (world p) = true ->
        (currentMoisture (soil (world p)) <? num 35)%js = true ->
        c = inject_Z cz ->
        irrigationVolume (water (world p)) = num vz ->
        (0 <= vz <= cz)%Z -> (cz < 2 ^ 53)%Z ->
        readableLog (irrigationLogs (logs p)) = true ->
        exists p' x,
          Logged.performIrrigation later (setWorld w1 p)
          = (Ok (Some true), p')
          /\ currentLevel (water (world p')) = Fin x
          /\ x == inject_Z (cz - vz)
          /\ isIrrigating (soil (world p')) = true).
Proof.
  intros C. cbv zeta. cbn [fst snd WaterManager.refillTank message].
  pose proof (refillTank_level now (world p))
    as (L & R & _ & V1 & A1 & S & M & St).
  rewrite C in L. cbn [validNumber isNaN negb] in L.
  split; [exact L|]. split; [exact R|]. split; [reflexivity|].
  split; [exact St|].
  intros cz vz A Ms D Ec V [Pv Le] _ Rd.
  unfold num in V.
  assert (Le' : inject_Z vz <= c) by (rewrite Ec, <- Zle_Qle; exact Le).
  set (w1 := Water.refillTank now (world p)) in *.
  destruct (@performIrrigation_until_log later (setWorld w1 p) c
              (inject_Z vz))
    as (w2 & x & E & Lx & Hx & _ & _ & _ & _ & _);
    cbn [world setWorld]; try assumption; try congruence.
  destruct (@logIrrigation_readable later (setWorld w2 (setWorld w1 p)) Rd)
    as (lg & El).
  rewrite El in E. rewrite E. cbn [world setWorld].
  eexists _, x. split; [reflexivity|]. cbn [world setWorld].
  rewrite water_showNotification, water_startIrrigation.
  rewrite soil_showNotification.
  split; [exact Lx|]. split; [|apply isIrrigating_startIrrigation].
  rewrite Hx, Ec. unfold Z.sub. rewrite inject_Z_plus, inject_Z_opp.
  apply Q.max_r.
  assert (K : inject_Z vz <= inject_Z cz) by (rewrite <- Zle_Qle; exact Le).
  unfold Qminus. lra.
Qed.

(** Dry soil and 5 l in a tank of 90: after the refill an irrigation of 7 l
    succeeds and leaves 83. *)
Lemma refill_fills_to_capacity_witness :
  let w1 := fst (WaterManager.refillTank 0 dryLowTankWorld) in
  currentLevel (water dryLowTankWorld) = num 5
  /\ currentLevel (water w1) = num 90
  /\ exists p' x,
       Logged.performIrrigation 60000 (freshPage w1) = (Ok (Some true), p')
       /\ currentLevel (water (world p')) = Fin x /\ x == 83
       /\ isIrrigating (soil (world p')) = true.
Proof.
  intros w1. split; [reflexivity|].
  destruct (@refill_fills_to_capacity 0 60000 (freshPage dryLowTankWorld)
              90 eq_refl) as (L & _ & _ & _ & K).
  split; [exact L|].
  destruct (K 90%Z 7%Z) as (p' & x & E & Lx & Hx & I);
    try reflexivity; try lia.
  exists p', x. split; [exact E|]. split; [exact Lx|].
  split; [rewrite Hx; reflexivity|exact I].
Defined.

(* ================================================================== *)
(** ** The countdown of the tank *)

(** X24. The countdown reads [Tandon kosong!] exactly from the empty date
    on. Before it, the text splits the time left into whole days, hours of
    the day and minutes of the hour, and shows the two largest parts: days
    and hours when a day or more is left, hours and minutes when an hour or
    more is left, and minutes alone otherwise, down to [0 menit] within the
    last minute. *)
Theorem countdown_splits_time_left (now t : Z) (s : WaterSettings) :
  emptyTankTime s = Some (Some t) ->
  let text := fst (WaterManager.countdown now s) in
  let left := (t - now)%Z in
  ((t <= now)%Z -> text = WaterManager.TankEmpty)
  /\ ((now < t)%Z ->
      match text with
      | WaterManager.DaysHours d h =>
          (0 < d /\ 0 <= h < 24
           /\ d * 86400000 + h * 3600000 <= left
              < d * 86400000 + (h + 1) * 3600000)%Z
      | WaterManager.HoursMinutes h m =>
          (0 < h < 24 /\ 0 <= m < 60
           /\ h * 3600000 + m * 60000 <= left
              < h * 3600000 + (m + 1) * 60000)%Z
      | WaterManager.MinutesOnly m =>
          (0 <= m < 60 /\ m * 60000 <= left < (m + 1) * 60000)%Z
      | _ => False
      end).
Proof.
  intros E. cbv zeta. unfold WaterManager.countdown. rewrite E.
  change (1000 * 60 * 60 * 24)%Z with 86400000%Z.
  change (1000 * 60 * 60)%Z with 3600000%Z.
  change (1000 * 60)%Z with 60000%Z.
  split.
  - intro L. cbn [fst].
    replace (t - now <=? 0)%Z with true by (symmetry; apply Z.leb_le; lia).
    reflexivity.
  - intro L.
    replace (t - now <=? 0)%Z with false by (symmetry; apply Z.leb_gt; lia).
    cbn [fst].
    set (x := (t - now)%Z) in *.
    assert (Px : (0 < x)%Z) by (unfold x; lia).
    destruct (x / 86400000 >? 0)%Z eqn:D.
    + apply Z.gtb_lt in D. Z.div_mod_to_equations. lia.
    + assert (D' : (x / 86400000 <= 0)%Z).
      { destruct (Z.gtb_spec (x / 86400000) 0); [discriminate|lia]. }
      destruct (x mod 86400000 / 3600000 >? 0)%Z eqn:H.
      * apply Z.gtb_lt in H. Z.div_mod_to_equations. lia.
      * assert (H' : (x mod 86400000 / 3600000 <= 0)%Z).
        { destruct (Z.gtb_spec (x mod 86400000 / 3600000) 0);
            [discriminate|lia]. }
        Z.div_mod_to_equations. lia.
Qed.

Lemma countdown_splits_time_left_witness :
  (0 < 1 < 24 /\ 0 <= 30 < 60
   /\ 1 * 3600000 + 30 * 60000 <= 5430000 - 0
      < 1 * 3600000 + (30 + 1) * 60000)%Z.
Proof.
  exact (proj2 (@countdown_splits_time_left 0 5430000 (water countdownWorld)
                  eq_refl) eq_refl).
Defined.

(* ================================================================== *)
(** ** The weather listener and the monitor *)

(** X25. The weather listener takes a rain that the weather service
    reports without the rain effect: the weather becomes [hujan] and is
    saved, the moisture and the accumulator stay as they are. A later
    [setWeather('hujan')] finds the weather unchanged and applies no rain
    effect either, so this rain never wets the soil. *)
Theorem listener_rain_never_wets_the_soil (random : Q) (w : World) :
  weather (soil w) <> "hujan" ->
  let w1 := SoilManager.weatherListener (Some "hujan") w in
  let w2 := Soil.setWeather "hujan" random w1 in
  weather (soil w1) = "hujan"
  /\ currentMoisture (soil w1) = currentMoisture (soil w)
  /\ moistureDecreaseAccumulator (soil w1)
     = moistureDecreaseAccumulator (soil w)
  /\ soilMoistureSettings (storage w1)
     = Some (JsonObj (stringifySoil (soil w1)))
  /\ currentMoisture (soil w2) = currentMoisture (soil w)
  /\ moistureDecreaseAccumulator (soil w2)
     = moistureDecreaseAccumulator (soil w)
  /\ notices w2 = WeatherChanged "hujan" :: notices w.
Proof.
  intro H. cbv zeta. unfold SoilManager.weatherListener.
  assert (E : ("hujan" =? weather (soil w)) = false).
  { apply String.eqb_neq. congruence. }
  rewrite E. cbn [negb]. unfold Soil.setWeather.
  cbn [soil setSoil Soil.saveSettings setStorage weather withWeather
       String.eqb Ascii.eqb Bool.eqb negb andb].
  now repeat split.
Qed.

Lemma listener_rain_never_wets_the_soil_witness :
  currentMoisture
    (soil (Soil.setWeather "hujan" (1 # 2)
             (SoilManager.weatherListener (Some "hujan") sampleWorld)))
  = num 45.
Proof.
  refine (proj1 (proj2 (proj2 (proj2 (proj2
            (@listener_rain_never_wets_the_soil (1 # 2) sampleWorld _)))))).
  discriminate.
Defined.

(** X26. After a tick without irrigation and in a weather other than rain,
    on a page whose log of the moisture is readable and on whole numbers of
    minutes, [getDetailedStatus()] reports the interval of the weather, a
    rate of one percent, and a time until the next decrease that is the
    interval less the accumulator: more than nothing and at most one
    interval. *)
Theorem detailed_status_after_tick (now t : Z) (draws : Draws) (p : Page)
  (m : Q) (ka ke : Z) :
  readableLog (soilMoistureLogs (logs p)) = true ->
  isIrrigating (soil (world p)) = false ->
  weather (soil (world p)) <> "hujan" ->
  lastUpdate (soil (world p)) = Some t ->
  currentMoisture (soil (world p)) = Fin m -> 0 <= m -> m <= 100 ->
  moistureDecreaseAccumulator (soil (world p)) = num ka ->
  (0 <= ka)%Z -> (ka + 60 < 2 ^ 53)%Z ->
  (now - t = 60000 * ke)%Z -> (0 <= ke)%Z ->
  let i := if weather (soil (world p)) =? "cerah" then 15%Z
           else if weather (soil (world p)) =? "mendung" then 30%Z
                else 20%Z in
  let total := (ka + Z.min ke 60)%Z in
  exists p' u,
    Logged.updateMoisture now draws p = Some (Ok tt, p')
    /\ SoilManager.evaporationRate
         (SoilManager.getDetailedStatus (soil (world p'))) = num 1
    /\ SoilManager.evaporationInterval
         (SoilManager.getDetailedStatus (soil (world p'))) = num i
    /\ SoilManager.timeUntilNextDecrease
         (SoilManager.getDetailedStatus (soil (world p'))) = Fin u
    /\ u == inject_Z (i - total mod i)
    /\ (0 < i - total mod i <= i)%Z.
Proof.
  intros R Hi Hw Hl Hm Pm Um Ha Pa _ Hd Pe i total.
  destruct (@updateMoisture_whole_minutes now t (world p) m ka ke
              Hi Hw Hl Hm Pm Um Ha Pa Hd Pe)
    as (w' & m' & a' & U & M & Em & Lm & Hm' & A & Ea & W).
  fold i total in Em, Ea.
  pose proof (@updateMoisture_readable now draws p R) as Sim.
  rewrite U in Sim. destruct Sim as (L & E & _).
  assert (Pi : (0 < i)%Z).
  { unfold i. destruct (weather (soil (world p)) =? "cerah"); [lia|].
    destruct (weather (soil (world p)) =? "mendung"); lia. }
  pose proof (Z.mod_pos_bound total i Pi) as B.
  exists {| world := w'; logs := L |}. cbn [world].
  unfold SoilManager.getDetailedStatus.
  cbn [SoilManager.evaporationRate SoilManager.evaporationInterval
       SoilManager.timeUntilNextDecrease].
  assert (P : Soil.getEvaporationParameters (soil w')
              = {| Soil.rate := num 1; Soil.interval := num i |}).
  { unfold Soil.getEvaporationParameters. rewrite W. unfold i.
    destruct (weather (soil (world p)) =? "cerah"); [reflexivity|].
    destruct (weather (soil (world p)) =? "mendung"); [reflexivity|].
    assert (X : (weather (soil (world p)) =? "hujan") = false)
      by (now apply String.eqb_neq).
    now rewrite X. }
  rewrite P, A. cbn [Soil.rate Soil.interval]. unfold num.
  rewrite sub_fin.
  destruct (max_fin (inject_Z 0) (inject_Z i - a')) as (u & Eu & Hu).
  rewrite Eu. change (inject_Z 0) with 0 in Hu.
  exists u. split; [exact E|]. split; [reflexivity|].
  split; [reflexivity|]. split; [reflexivity|]. split; [|lia].
  rewrite Hu, Ea. unfold Z.sub. rewrite inject_Z_plus, inject_Z_opp.
  apply Q.max_r.
  assert (K : inject_Z (total mod i) <= inject_Z i)
    by (rewrite <- Zle_Qle; lia).
  unfold Qminus. lra.
Qed.

Lemma detailed_status_after_tick_witness :
  exists p' u,
    Logged.updateMoisture 3000000 loggingDraws (freshPage cloudyWorld)
    = Some (Ok tt, p')
    /\ SoilManager.timeUntilNextDecrease
         (SoilManager.getDetailedStatus (soil (world p'))) = Fin u
    /\ u == 10.
Proof.
  destruct (@detailed_status_after_tick 3000000 0 loggingDraws
              (freshPage cloudyWorld) 45 0 50)
    as (p' & u & U & _ & _ & T & Eu & _);
    try reflexivity; try discriminate.
  exists p', u. split; [exact U|]. split; [exact T|].
  rewrite Eu. reflexivity.
Defined.

(* ================================================================== *)
(** ** The settings form *)

Lemma SamePage_refl (w : World) : SamePage w w.
Proof. now repeat split. Qed.

Lemma SamePage_trans (a b c : World) :
  SamePage a b -> SamePage b c -> SamePage a c.
Proof.
  intros (A1 & A2 & A3) (B1 & B2 & B3). repeat split; congruence.
Qed.

Lemma soil_saveSettings_page (w : World) : SamePage w (Soil.saveSettings w).
Proof. now repeat split. Qed.

Lemma soil_updateDisplay_page (w : World) : SamePage w (Soil.updateDisplay w).
Proof.
  unfold Soil.updateDisplay.
  match goal with
  | |- context [if ?b then _ else _] => destruct b
  end; now repeat split.
Qed.

Lemma forceSync_page (w : World) :
  SamePage w (Soil.forceSyncScheduledIrrigations w).
Proof.
  pose proof (forceSync_same w) as ((S & _) & _).
  pose proof (forceSync_frame w) as (_ & M & I & _).
  now repeat split.
Qed.

Lemma soil_updateSettings_page (u : SoilUpdate) (w : World) :
  SamePage w (SoilManager.updateSettings u w).
Proof.
  destruct (updateSettings_shape u w) as (s & -> & _).
  eapply SamePage_trans; [|apply soil_updateDisplay_page].
  eapply SamePage_trans; [|apply soil_saveSettings_page].
  pose proof (forceSync_page (setSoil (SoilManager.merge u (soil w)) w))
    as (A & B & C).
  now repeat split.
Qed.

Lemma syncWithSoilManager_page (w : World) :
  SamePage w (WaterManager.syncWithSoilManager w).
Proof.
  unfold WaterManager.syncWithSoilManager.
  destruct (soilManager w); [apply soil_updateSettings_page|].
  apply SamePage_refl.
Qed.

Lemma water_updateSettings_page (now : Z) (u : WaterUpdate) (w : World) :
  SamePage w (WaterManager.updateSettings now u w).
Proof.
  unfold WaterManager.updateSettings.
  eapply SamePage_trans; [|apply syncWithSoilManager_page].
  match goal with
  | |- context [Water.calculateEmptyTime now ?x] => set (w1 := x)
  end.
  assert (A : SamePage w w1) by now repeat split.
  assert (B : SamePage w1 (Water.calculateEmptyTime now w1)).
  { unfold Water.calculateEmptyTime.
    destruct (negb (autoIrrigation (water w1))); [now repeat split|].
    destruct (JsNum.seq _ _); now repeat split. }
  assert (C : forall x, SamePage x (Water.updateDisplay x)).
  { intro x. unfold Water.updateDisplay. destruct (tankCountdown x);
      [|now repeat split].
    destruct (negb (validNumber (currentLevel (water x))));
      now repeat split. }
  eapply SamePage_trans; [exact A|].
  eapply SamePage_trans; [exact B|].
  eapply SamePage_trans; [apply C|]. now repeat split.
Qed.

Lemma applyRainEffect_page (random : Q) (w : World) :
  SamePage w (Soil.applyRainEffect random w).
Proof.
  unfold Soil.applyRainEffect.
  match goal with
  | |- context [Soil.updateDisplay ?x] =>
      assert (A : SamePage w x) by (now repeat split);
      pose proof (soil_updateDisplay_page x) as B;
      set (y := Soil.updateDisplay x) in *
  end.
  eapply SamePage_trans; [exact A|].
  eapply SamePage_trans; [exact B|]. now repeat split.
Qed.

Lemma setWeather_page (c : string) (random : Q) (w : World) :
  SamePage w (Soil.setWeather c random w).
Proof.
  unfold Soil.setWeather.
  match goal with
  | |- context [if ?b then Soil.applyRainEffect random ?x else ?x] =>
      assert (R : SamePage w (if b then Soil.applyRainEffect random x else x))
  end.
  { match goal with
    | |- context [if ?b then _ else _] => destruct b
    end; [|now repeat split].
    eapply SamePage_trans; [|apply applyRainEffect_page]. now repeat split. }
  destruct R as (A & B & C). now repeat split.
Qed.

Lemma syncWithSoilManager_duration (w : World) :
  soilManager w = true ->
  irrigationDuration (soil (WaterManager.syncWithSoilManager w)) = num 15.
Proof.
  intro S. unfold WaterManager.syncWithSoilManager. rewrite S.
  now apply updateSettings_given.
Qed.

Lemma water_updateSettings_duration (now : Z) (u : WaterUpdate) (w : World) :
  soilManager w = true ->
  irrigationDuration (soil (WaterManager.updateSettings now u w)) = num 15.
Proof.
  intro S. unfold WaterManager.updateSettings.
  apply syncWithSoilManager_duration.
  match goal with
  | |- context [Water.calculateEmptyTime now ?x] => set (w1 := x)
  end.
  cbn [soilManager Water.saveSettings setStorage].
  rewrite soilManager_updateDisplay.
  rewrite (proj1 (soilManager_calculateEmptyTime now w1)). exact S.
Qed.

Lemma le_false_iff (x y : jsnum) :
  parsedInt x -> parsedInt y ->
  ((x <=? y)%js = false <-> forall a b, x = Fin a -> y = Fin b -> b < a).
Proof.
  intros [->|(a & ->)] [->|(b & ->)]; cbn [JsNum.le]; split;
    try (intros _ a' b' H1 H2; discriminate);
    try (intros _; reflexivity).
  - intros H a' b' E1 E2. injection E1 as <-. injection E2 as <-.
    now apply Qle_bool_false.
  - intros H. apply not_true_iff_false. intro E. apply Qle_bool_iff in E.
    specialize (H a b eq_refl eq_refl). lra.
Qed.

Lemma lt_false_iff (x y : jsnum) :
  parsedInt x -> parsedInt y ->
  ((x <? y)%js = false <-> forall a b, x = Fin a -> y = Fin b -> b <= a).
Proof.
  intros [->|(a & ->)] [->|(b & ->)]; cbn [JsNum.lt]; split;
    try (intros _ a' b' H1 H2; discriminate);
    try (intros _; reflexivity).
  - intros H a' b' E1 E2. injection E1 as <-. injection E2 as <-.
    apply negb_false_iff in H. now apply Qle_bool_iff.
  - intros H. apply negb_false_iff. apply Qle_bool_iff.
    exact (H a b eq_refl eq_refl).
Qed.

Lemma parsedInt_num (z : Z) : parsedInt (num z).
Proof. right. eexists. reflexivity. Qed.

(** X27. The checks of the settings form. With the fields as [parseInt]
    gives them, a form is accepted exactly when each check holds of the
    fields that are numbers: a capacity above 0, a volume above 0 and within
    the capacity, a threshold above 0 and at most 100, a minimum below the
    maximum and an optimum between the two. A field that is NaN, as for an
    input left empty, fails no check and switches off the checks that
    compare another field with it. A rejected form changes nothing and
    shows the error. *)
Theorem accepted_form_is_within_bounds (now : Z) (weatherAPI : option string)
  (random : Q) (controlPanel : bool) (f : SettingsForm) (w : World) :
  parsedInt (f_tankCapacity f) -> parsedInt (f_irrigationVolume f) ->
  parsedInt (f_lowLevelThreshold f) -> parsedInt (f_soilMin f) ->
  parsedInt (f_soilMax f) -> parsedInt (f_soilOptimal f) ->
  (Settings.validate f = None
   <-> (forall c, f_tankCapacity f = Fin c -> 0 < c)
       /\ (forall v, f_irrigationVolume f = Fin v -> 0 < v)
       /\ (forall v c, f_irrigationVolume f = Fin v ->
                       f_tankCapacity f = Fin c -> v <= c)
       /\ (forall t, f_lowLevelThreshold f = Fin t -> 0 < t /\ t <= 100)
       /\ (forall mn mx, f_soilMin f = Fin mn -> f_soilMax f = Fin mx ->
                         mn < mx)
       /\ (forall op mn, f_soilOptimal f = Fin op -> f_soilMin f = Fin mn ->
                         mn <= op)
       /\ (forall op mx, f_soilOptimal f = Fin op -> f_soilMax f = Fin mx ->
                         op <= mx))
  /\ (forall error,
        Settings.validate f = Some error ->
        Settings.saveSettings now weatherAPI random controlPanel f w
        = ({| message := error; kind := "error" |}, w)).
Proof.
  intros Pc Pv Pt Pmn Pmx Pop.
  split; [|intros error V; unfold Settings.saveSettings; now rewrite V].
  assert (V : Settings.validate f = None
              <-> (f_tankCapacity f <=? num 0)%js = false
                  /\ (f_irrigationVolume f <=? num 0)%js = false
                  /\ (f_tankCapacity f <? f_irrigationVolume f)%js = false
                  /\ (f_lowLevelThreshold f <=? num 0)%js = false
                  /\ (num 100 <? f_lowLevelThreshold f)%js = false
                  /\ (f_soilMax f <=? f_soilMin f)%js = false
                  /\ (f_soilOptimal f <? f_soilMin f)%js = false
                  /\ (f_soilMax f <? f_soilOptimal f)%js = false).
  { unfold Settings.validate, JsNum.gt, JsNum.ge.
    destruct (f_tankCapacity f <=? num 0)%js;
      [split; [discriminate|intros (H & _); discriminate]|].
    destruct (f_irrigationVolume f <=? num 0)%js;
      [split; [discriminate|intros (_ & H & _); discriminate]|].
    destruct (f_tankCapacity f <? f_irrigationVolume f)%js;
      [split; [discriminate|intros (_ & _ & H & _); discriminate]|].
    destruct (f_lowLevelThreshold f <=? num 0)%js;
      [split; [discriminate|intros (_ & _ & _ & H & _); discriminate]|].
    destruct (num 100 <? f_lowLevelThreshold f)%js;
      [split; [discriminate|intros (_ & _ & _ & _ & H & _); discriminate]|].
    destruct (f_soilMax f <=? f_soilMin f)%js;
      [split; [discriminate
              |intros (_ & _ & _ & _ & _ & H & _); discriminate]|].
    destruct (f_soilOptimal f <? f_soilMin f)%js;
      [split; [discriminate
              |intros (_ & _ & _ & _ & _ & _ & H & _); discriminate]|].
    destruct (f_soilMax f <? f_soilOptimal f)%js;
      [split; [discriminate
              |intros (_ & _ & _ & _ & _ & _ & _ & H); discriminate]|].
    cbn [orb]. split; [intros _; repeat split|reflexivity]. }
  rewrite V.
  rewrite (le_false_iff Pc (parsedInt_num 0)).
  rewrite (le_false_iff Pv (parsedInt_num 0)).
  rewrite (lt_false_iff Pc Pv).
  rewrite (le_false_iff Pt (parsedInt_num 0)).
  rewrite (lt_false_iff (parsedInt_num 100) Pt).
  rewrite (le_false_iff Pmx Pmn).
  rewrite (lt_false_iff Pop Pmn).
  rewrite (lt_false_iff Pmx Pop).
  unfold num. change (inject_Z 0) with 0. change (inject_Z 100) with 100.
  split.
  - intros (A & B & C & D & E & F & G & H).
    split; [intros c Hc; exact (A c 0 Hc eq_refl)|].
    split; [intros v Hv; exact (B v 0 Hv eq_refl)|].
    split; [intros v c Hv Hc; exact (C c v Hc Hv)|].
    split; [intros t Ht; split;
            [exact (D t 0 Ht eq_refl)|exact (E 100 t eq_refl Ht)]|].
    split; [intros mn mx Hmn Hmx; exact (F mx mn Hmx Hmn)|].
    split; [intros op mn Ho Hmn; exact (G op mn Ho Hmn)|].
    intros op mx Ho Hmx. exact (H mx op Hmx Ho).
  - intros (A & B & C & D & F & G & H).
    split; [intros a b Ha Hb; injection Hb as <-; exact (A a Ha)|].
    split; [intros a b Ha Hb; injection Hb as <-; exact (B a Ha)|].
    split; [intros a b Ha Hb; exact (C b a Hb Ha)|].
    split; [intros a b Ha Hb; injection Hb as <-; exact (proj1 (D a Ha))|].
    split; [intros a b Ha Hb; injection Ha as <-; exact (proj2 (D b Hb))|].
    split; [intros a b Ha Hb; exact (F b a Hb Ha)|].
    split; [intros a b Ha Hb; exact (G a b Ha Hb)|].
    intros a b Ha Hb. exact (H b a Hb Ha).
Qed.

(** The form whose threshold was left empty is accepted: its other fields
    pass their checks, and no check holds of the threshold. *)
Lemma accepted_form_is_within_bounds_witness :
  f_lowLevelThreshold formWithoutThreshold = NaN
  /\ Settings.validate formWithoutThreshold = None.
Proof.
  assert (P : forall z, parsedInt (num z)) by apply parsedInt_num.
  assert (N : parsedInt NaN) by (left; reflexivity).
  split; [reflexivity|].
  apply (proj1 (@accepted_form_is_within_bounds 0 None 0 true
                  formWithoutThreshold sampleWorld
                  (P _) (P _) N (P _) (P _) (P _))).
  repeat split; intros;
    repeat match goal with
           | H : _ = Fin _ |- _ => (discriminate H || injection H as <-)
           end;
    vm_compute; (reflexivity || discriminate).
Defined.

(** X28. A save of the settings form writes the duration that was entered
    into the stored [irrigationSettings], and with both managers in place
    it leaves the soil manager with an irrigation duration of 15 minutes
    all the same: the water manager is updated once more after the soil
    manager, and its synchronisation hands the soil manager a duration of
    15. *)
Theorem saved_duration_reaches_store_not_soil_manager (now : Z)
  (weatherAPI : option string) (random : Q) (controlPanel : bool)
  (f : SettingsForm) (w : World) :
  Settings.validate f = None ->
  waterManager w = true -> soilManager w = true ->
  let r := Settings.saveSettings now weatherAPI random controlPanel f w in
  message (fst r) = "Settings saved successfully!"
  /\ (exists g,
        irrigationSettings (storage (snd r)) = Some (JsonObj g)
        /\ g_irrigation g
           = Some {| duration := Some (json_of_num (f_duration f)) |})
  /\ irrigationDuration (soil (snd r)) = num 15.
Proof.
  intros V Wm Sm. cbv zeta. unfold Settings.saveSettings. rewrite V.
  cbn [fst snd message].
  split; [reflexivity|].
  set (w0 := Settings.saveSettingsToStorage f w).
  assert (P0 : soilManager w0 = soilManager w
               /\ waterManager w0 = waterManager w) by (split; reflexivity).
  assert (I0 : irrigationSettings (storage w0)
               = Some (JsonObj (Settings.stringifySettings f)))
    by reflexivity.
  assert (P1 : SamePage w0
                 (Settings.integrateAllSystems now weatherAPI random f w0)).
  { unfold Settings.integrateAllSystems.
    match goal with
    | |- context [if waterManager w0 then ?a else w0] =>
        assert (A : SamePage w0 (if waterManager w0 then a else w0))
          by (destruct (waterManager w0);
              [apply water_updateSettings_page|apply SamePage_refl]);
        set (w1 := if waterManager w0 then a else w0) in *
    end.
    match goal with
    | |- context [if soilManager w1 then ?a else w1] =>
        assert (B : SamePage w1 (if soilManager w1 then a else w1))
          by (destruct (soilManager w1);
              [apply soil_updateSettings_page|apply SamePage_refl]);
        set (w2 := if soilManager w1 then a else w1) in *
    end.
    eapply SamePage_trans; [exact A|].
    eapply SamePage_trans; [exact B|].
    destruct weatherAPI as [c|]; [|apply SamePage_refl].
    destruct (soilManager w2); [apply setWeather_page|apply SamePage_refl]. }
  set (w3 := Settings.integrateAllSystems now weatherAPI random f w0) in *.
  destruct P0 as (S0 & M0). destruct P1 as (S3 & M3 & I3).
  rewrite M3, M0, Wm.
  match goal with
  | |- context [WaterManager.updateSettings now ?u w3] =>
      pose proof (water_updateSettings_page now u w3) as (S4 & M4 & I4);
      pose proof (@water_updateSettings_duration now u w3) as D4;
      set (w4 := WaterManager.updateSettings now u w3) in *
  end.
  rewrite M4, M3, M0, Wm, S4, S3, S0, Sm.
  assert (I : irrigationSettings (storage w4)
              = Some (JsonObj (Settings.stringifySettings f))).
  { rewrite I4, I3. exact I0. }
  split.
  - exists (Settings.stringifySettings f). split; [|reflexivity].
    destruct controlPanel; cbn [andb]; [|exact I].
    rewrite (proj2 (proj2 (syncWithSoilManager_page w4))). exact I.
  - destruct controlPanel; cbn [andb].
    + apply syncWithSoilManager_duration. congruence.
    + apply D4. congruence.
Qed.

Lemma saved_duration_reaches_store_not_soil_manager_witness :
  f_duration sampleForm = num 30
  /\ irrigationDuration
       (soil (snd (Settings.saveSettings 0 None 0 true sampleForm
                     sampleWorld))) = num 15.
Proof.
  split; [reflexivity|].
  exact (proj2 (proj2
           (@saved_duration_reaches_store_not_soil_manager 0 None 0 true
              sampleForm sampleWorld eq_refl eq_refl eq_refl))).
Defined.

(* ================================================================== *)
(** ** The next slot shown on the page *)

Lemma toSlot_timeOfDay (x : Z) :
  SoilManager.toSlot (timeOfDay x)
  = {| SoilManager.slotTime := timeOfDay x;
       SoilManager.slotMinutes := num (minuteOfDay x) |}.
Proof.
  pose proof (getHours_range x). pose proof (getMinutes_range x).
  unfold SoilManager.toSlot, timeOfDay.
  rewrite splitColon_padStart2 by lia.
  cbn [map nth_error]. rewrite !Number_padStart2 by lia.
  f_equal. unfold minuteOfDay, num, mul, add, inject_Z, Qmult, Qplus.
  cbn [Qnum Qden]. f_equal. f_equal. lia.
Qed.

Lemma slot_before (a b : Z) :
  (num a - num b <=? num 0)%js = (a <=? b)%Z.
Proof.
  unfold num, sub, neg, add, le.
  destruct (Z.leb_spec a b) as [L | L].
  - apply Qle_bool_iff. unfold Qle, Qplus, Qopp, inject_Z. cbn. lia.
  - apply Qle_bool_false. unfold Qlt, Qplus, Qopp, inject_Z. cbn. lia.
Qed.

Lemma slot_later (a c : Z) :
  (num a >? num c)%js = (c <? a)%Z.
Proof.
  unfold num, gt, lt.
  destruct (Z.ltb_spec c a) as [L | L].
  - apply negb_true_iff, Qle_bool_false. unfold Qlt, inject_Z. cbn. lia.
  - apply negb_false_iff, Qle_bool_iff. unfold Qle, inject_Z. cbn. lia.
Qed.

Section NextSlot.

Let slotOf (x : Z) : SoilManager.Slot :=
  {| SoilManager.slotTime := timeOfDay x;
     SoilManager.slotMinutes := num (minuteOfDay x) |}.

Let before (a b : Z) : Prop := (minuteOfDay a <= minuteOfDay b)%Z.

Lemma insertSlot_sorted (x : Z) (l : list Z) :
  ForallOrdPairs before l ->
  exists l', SoilManager.insertSlot (slotOf x) (map slotOf l) = map slotOf l'
    /\ Permutation (x :: l) l' /\ ForallOrdPairs before l'.
Proof.
  induction l as [|a l IH]; intros S.
  - exists [x]. repeat split; [apply Permutation_refl|].
    constructor; constructor.
  - cbn [map SoilManager.insertSlot]. unfold slotOf at 1 2.
    cbn [SoilManager.slotMinutes]. rewrite slot_before.
    inversion S as [|? ? Ha Sl]; subst.
    destruct (Z.leb_spec (minuteOfDay x) (minuteOfDay a)) as [L | L].
    + exists (x :: a :: l). repeat split; [apply Permutation_refl|].
      constructor; [|exact S].
      constructor; [exact L|].
      rewrite Forall_forall in Ha |- *. intros y Hy.
      specialize (Ha y Hy). unfold before in *. lia.
    + destruct (IH Sl) as (l' & E & P & S').
      exists (a :: l'). fold slotOf. rewrite E. repeat split.
      * eapply Permutation_trans; [apply perm_swap|].
        now apply perm_skip.
      * constructor; [|exact S'].
        rewrite Forall_forall in Ha |- *. intros y Hy.
        apply Permutation_sym in P.
        apply (Permutation_in _ P) in Hy. destruct Hy as [<- | Hy].
        -- unfold before. lia.
        -- now apply Ha.
Qed.

Lemma sortSlots_sorted (l : list Z) :
  exists l', SoilManager.sortSlots (map slotOf l) = map slotOf l'
    /\ Permutation l l' /\ ForallOrdPairs before l'.
Proof.
  induction l as [|x l (l0 & E & P & S)].
  - exists []. repeat split; [apply Permutation_refl | constructor].
  - unfold SoilManager.sortSlots in *. cbn [map fold_right]. rewrite E.
    destruct (insertSlot_sorted x S) as (l' & E' & P' & S').
    exists l'. repeat split; [exact E' | | exact S'].
    eapply Permutation_trans; [|exact P']. now apply perm_skip.
Qed.

Lemma find_later (c : Z) (l : list Z) :
  ForallOrdPairs before l ->
  match
    find (fun schedule => (SoilManager.slotMinutes schedule >? num c)%js)
      (map slotOf l)
  with
  | None => forall y, In y l -> (minuteOfDay y <= c)%Z
  | Some s => exists x, s = slotOf x /\ EarliestAfter c l x
  end.
Proof.
  induction l as [|a l IH]; intros S.
  - cbn. intros y [].
  - inversion S as [|? ? Ha Sl]; subst. rewrite Forall_forall in Ha.
    cbn [map find]. unfold slotOf at 1. cbn [SoilManager.slotMinutes].
    rewrite slot_later.
    destruct (Z.ltb_spec c (minuteOfDay a)) as [L | L].
    + exists a. split; [reflexivity|]. split; [now left|]. split; [exact L|].
      intros y [<- | Hy] _; [lia | now apply Ha].
    + specialize (IH Sl).
      destruct (find _ (map slotOf l)) as [s|].
      * destruct IH as (x & E & I & G & M).
        exists x. split; [exact E|]. split; [now right|]. split; [exact G|].
        intros y [<- | Hy] Gy; [lia | now apply M].
      * intros y [<- | Hy]; [exact L | now apply IH].
Qed.

End NextSlot.

Lemma EarliestAfter_perm (c : Z) (l l' : list Z) (x : Z) :
  Permutation l l' -> EarliestAfter c l' x -> EarliestAfter c l x.
Proof.
  intros P (I & G & M). split; [|split; [exact G|]].
  - exact (Permutation_in _ (Permutation_sym P) I).
  - intros y Hy. apply M. exact (Permutation_in _ P Hy).
Qed.

Lemma hoursUntil_value (k c : Z) :
  Math.floor ((num k - num c) / num 60)%js = num ((k - c) / 60).
Proof.
  unfold Math.floor, num, sub, neg, add, div. cbn [Qsign].
  change (inject_Z 60 ?= 0)%Q with Gt. cbv beta iota. unfold num.
  unfold Qfloor, Qdiv, Qmult, Qinv, Qplus, Qopp, inject_Z. cbn.
  replace ((k * 1 + - c * 1) * 1)%Z with (k - c)%Z by lia. reflexivity.
Qed.

Lemma minutesUntil_value (k c : Z) :
  (c < k)%Z ->
  remainder (num k - num c)%js (num 60) =j= num ((k - c) mod 60).
Proof.
  intros L. unfold remainder, num, sub, neg, add.
  change (Qeq_bool (inject_Z 60) 0) with false. cbv beta iota.
  unfold eqv, Qdiv, Qmult, Qinv, Qplus, Qopp, Qminus, Qeq, inject_Z.
  cbn [Qnum Qden Pos.mul Z.opp].
  replace ((k * 1 + - c * 1) * 1)%Z with (k - c)%Z by lia.
  rewrite Z.quot_div_nonneg by lia.
  unfold Qplus, Qopp. cbn [Qnum Qden Pos.mul].
  pose proof (Z.div_mod (k - c) 60). lia.
Qed.

(** X29. [updateNextScheduleDisplay()] of the soil manager, when every slot
    is the text of a time of day: it shows no schedule only when there is no
    slot; otherwise it shows the earliest slot that is later than the current
    minute, with the hours and minutes until then (the hours only when at
    least one is left), and, when no slot is later than the current minute,
    the earliest slot of all for tomorrow. A slot at the current minute
    counts as passed. *)
Theorem next_schedule_is_earliest_later_slot
  (now : Z) (s : SoilSettings) (times : list Z) :
  scheduledIrrigations s = map timeOfDay times ->
  match SoilManager.updateNextScheduleDisplay now s with
  | SoilManager.NoSchedule => times = []
  | SoilManager.Tomorrow t =>
      exists x, In x times /\ t = timeOfDay x
        /\ forall y, In y times ->
             (minuteOfDay x <= minuteOfDay y <= minuteOfDay now)%Z
  | SoilManager.InHours t h m =>
      exists x, EarliestAfter (minuteOfDay now) times x /\ t = timeOfDay x
        /\ (60 <= minuteOfDay x - minuteOfDay now)%Z
        /\ h = num ((minuteOfDay x - minuteOfDay now) / 60)
        /\ m =j= num ((minuteOfDay x - minuteOfDay now) mod 60)
  | SoilManager.InMinutes t m =>
      exists x, EarliestAfter (minuteOfDay now) times x /\ t = timeOfDay x
        /\ (minuteOfDay x - minuteOfDay now < 60)%Z
        /\ m =j= num (minuteOfDay x - minuteOfDay now)
  end.
Proof.
  intros E. unfold SoilManager.updateNextScheduleDisplay.
  rewrite E, map_map, (map_ext _ _ toSlot_timeOfDay).
  fold (minuteOfDay now).
  destruct (sortSlots_sorted times) as (l & Es & P & S).
  cbv beta zeta in Es, S. rewrite Es.
  destruct l as [|first rest].
  - apply Permutation_sym, Permutation_nil in P. exact P.
  - pose proof (find_later (minuteOfDay now) S) as F. cbv beta zeta in F.
    cbn [map] in F |- *.
    match type of F with
    | match ?f with _ => _ end => destruct f as [schedule|]
    end.
    + destruct F as (x & -> & EA).
      apply (EarliestAfter_perm P) in EA.
      cbn [SoilManager.slotMinutes SoilManager.slotTime].
      rewrite hoursUntil_value, slot_later.
      pose proof EA as (_ & G & _).
      pose proof (@minutesUntil_value (minuteOfDay x) (minuteOfDay now) G)
        as M.
      destruct (Z.ltb_spec 0 ((minuteOfDay x - minuteOfDay now) / 60))
        as [H | H].
      * exists x. split; [exact EA|]. split; [reflexivity|].
        split; [|split; [reflexivity | exact M]].
        revert H. Z.div_mod_to_equations. lia.
      * assert (B : (minuteOfDay x - minuteOfDay now < 60)%Z)
          by (revert H; Z.div_mod_to_equations; lia).
        rewrite Z.mod_small in M by lia.
        exists x. split; [exact EA|]. split; [reflexivity|].
        split; [exact B | exact M].
    + cbn [SoilManager.slotTime].
      exists first. split; [|split; [reflexivity|]].
      * apply (Permutation_in _ (Permutation_sym P)). now left.
      * intros y Hy. apply (Permutation_in _ P) in Hy.
        split; [|now apply F].
        inversion S as [|? ? Ha _]; subst. rewrite Forall_forall in Ha.
        destruct Hy as [<- | Hy]; [lia | now apply Ha].
Qed.

Lemma next_schedule_is_earliest_later_slot_witness :
  let times := [25200000; 57600000]%Z in
  let s := Soil.initialSettings 0 in
  let now := 55800000%Z in
  scheduledIrrigations s = map timeOfDay times
  /\ match SoilManager.updateNextScheduleDisplay now s with
     | SoilManager.NoSchedule => times = []
     | SoilManager.Tomorrow t =>
         exists x, In x times /\ t = timeOfDay x
           /\ forall y, In y times ->
                (minuteOfDay x <= minuteOfDay y <= minuteOfDay now)%Z
     | SoilManager.InHours t h m =>
         exists x, EarliestAfter (minuteOfDay now) times x /\ t = timeOfDay x
           /\ (60 <= minuteOfDay x - minuteOfDay now)%Z
           /\ h = num ((minuteOfDay x - minuteOfDay now) / 60)
           /\ m =j= num ((minuteOfDay x - minuteOfDay now) mod 60)
     | SoilManager.InMinutes t m =>
         exists x, EarliestAfter (minuteOfDay now) times x /\ t = timeOfDay x
           /\ (minuteOfDay x - minuteOfDay now < 60)%Z
           /\ m =j= num (minuteOfDay x - minuteOfDay now)
     end.
Proof.
  cbv zeta. split; [reflexivity|].
  exact (@next_schedule_is_earliest_later_slot 55800000 (Soil.initialSettings 0)
           [25200000; 57600000]%Z eq_refl).
Defined.
